(** * Viwoods notes importer: the import reconciliation engine

    A shallow embedding of the manifest/diff/import core of the Obsidian
    plugin (class [ViwoodsImporterPlugin]): [hashImageData],
    [analyzeChanges], [addHistoryEntry], [saveManifest], [ensureFolder],
    [createBookIndex], [importSelectedPagesWithProgress] and
    [processWithGemini]; and of what surrounds it: [loadManifest],
    [createManifestBackup], [recoverManifestFromExistingFiles], the command
    "Reset book hashes", the decoder [convertNoteToBook] and the entry
    point [processNoteFile].

    Conventions of the embedding.
    - JavaScript strings are [string], the UTF-8 bytes of the text (for
      the ASCII text the plugin pads, cuts and measures, a byte is a
      character); binary buffers are [list byte].
    - Page numbers, sizes and counts are [N].
    - A JS object used as a dictionary keyed by page number is a [gmap N _].
    - The Obsidian vault is a finite map from paths to nodes; every vault
      call is recorded, newest first, in a call log together with its
      outcome, and an oracle indexed by the number of calls made so far
      decides which calls reject.
    - [async] code that may reject is written in a state-and-exception
      monad [IO]; [try]/[catch] is [try_catch].
    - The tasks of one batch are run one after the other, in the order of
      the batch.  In the plugin each task classifies its page and pushes
      onto the summary before its first [await], so in the order of the
      batch, and the tasks then interleave at their [await]s; each task
      reads and writes the manifest at its own page number only, which is
      why statements about whole runs take a selection without repeated
      page numbers.
    - User-interface calls ([Notice], the progress modal, [console.log])
      have no effect on what is modelled and are left out; the answer of
      the import dialog is a function of what the dialog is shown.
    - [folder.children] is read off the paths of the vault; the [stat] of
      a file, [Date] and [JSON.parse] are taken from the host.
    - Strings are compared and sorted by their bytes (UTF-8), which is the
      order of JavaScript for text inside the Basic Multilingual Plane.
    - Where the setting [processWithGemini] and the method of the same name
      would clash, the method is [processWithGeminiPages]; the setting
      [backgroundColor] is [set_backgroundColor], the field of a manifest
      entry keeps the name. *)

From Stdlib Require Import NArith String Ascii List Lia.
From Stdlib Require Import Init.Byte.
From stdpp Require Import gmap strings list fin_maps pretty sorting.

Open Scope N_scope.

(** ** JavaScript string primitives *)

Module JS.

(** [c.repeat(n)] for a one-character string. *)
Fixpoint repeat_char (c : ascii) (n : nat) : string :=
  match n with
  | O => EmptyString
  | S k => String c (repeat_char c k)
  end.

(** [s.padStart(n, c)] with a one-character filler. *)
Definition padStart (n : nat) (c : ascii) (s : string) : string :=
  repeat_char c (n - String.length s) +:+ s.

(** [s.padEnd(n, c)] with a one-character filler. *)
Definition padEnd (n : nat) (c : ascii) (s : string) : string :=
  s +:+ repeat_char c (n - String.length s).

(** [s.substring(0, n)]. *)
Definition substring0 (n : nat) (s : string) : string :=
  String.substring 0 n s.

(** [s.startsWith(p)]. *)
Fixpoint startsWith (p s : string) : bool :=
  match p with
  | EmptyString => true
  | String a p' =>
      match s with
      | EmptyString => false
      | String b s' => Ascii.eqb a b && startsWith p' s'
      end
  end.

(** [String(n)] for a non-negative integer that a number holds exactly
    and prints in full: below 2^53 every integer is such a number.  (From
    10^21 on JavaScript prints an exponent; no size, count or page number
    of the plugin comes near.) *)
Definition String_ (n : N) : string := pretty n.

(** The largest integer up to which every integer is a number. *)
Definition MAX_SAFE_INTEGER : N := 2 ^ 53 - 1.

(** Truthiness of a string: the empty string is falsy. *)
Definition truthy (s : string) : bool :=
  match s with EmptyString => false | _ => true end.

(** [a || b] where [a] may be [undefined] (None). *)
Definition or_else (a : option string) (b : string) : string :=
  match a with
  | Some s => if truthy s then s else b
  | None => b
  end.

(** [!!x] for an optional boolean field. *)
Definition bangbang (b : option bool) : bool :=
  match b with Some true => true | _ => false end.

(** [a !== b] when [a] may be [undefined] and [b] is a string. *)
Definition strict_ne (a : option string) (b : string) : bool :=
  match a with
  | Some s => negb (String.eqb s b)
  | None => true
  end.

(** Lower-case hexadecimal digits, [0-9a-f]. *)
Definition is_hex (c : ascii) : bool :=
  let n := N_of_ascii c in
  ((48 <=? n) && (n <=? 57)) || ((97 <=? n) && (n <=? 102)).

(** The regular-expression class [\s]: the white space and the line
    terminators of ECMAScript.  A string holds the UTF-8 bytes of its text,
    so a character of the class is one, two or three bytes long.
    One byte: the space and U+0009 to U+000D. *)
Definition is_ws (c : ascii) : bool :=
  let n := N_of_ascii c in
  (n =? 32) || ((9 <=? n) && (n <=? 13)).

(** Two bytes: U+00A0 (C2 A0). *)
Definition is_ws2 (a b : ascii) : bool :=
  (N_of_ascii a =? 194) && (N_of_ascii b =? 160).

(** Three bytes: U+1680 (E1 9A 80), U+2000 to U+200A (E2 80 80 to 8A),
    U+2028, U+2029 and U+202F (E2 80 A8, A9 and AF), U+205F (E2 81 9F),
    U+3000 (E3 80 80) and U+FEFF (EF BB BF). *)
Definition is_ws3 (a b c : ascii) : bool :=
  let x := N_of_ascii a in
  let y := N_of_ascii b in
  let z := N_of_ascii c in
  ((x =? 225) && ((y =? 154) && (z =? 128)))
  || ((x =? 226) && ((y =? 128)
        && (((128 <=? z) && (z <=? 138)) || (z =? 168) || (z =? 169)
            || (z =? 175))))
  || ((x =? 226) && ((y =? 129) && (z =? 159)))
  || ((x =? 227) && ((y =? 128) && (z =? 128)))
  || ((x =? 239) && ((y =? 187) && (z =? 191))).

Definition hex_digit (n : N) : ascii :=
  ascii_of_N (if n <? 10 then 48 + n else 87 + n).

(** [b.toString(16)] for a byte. *)
Definition toString16 (b : byte) : string :=
  let n := Byte.to_N b in
  if n <? 16 then String (hex_digit n) EmptyString
  else String (hex_digit (n / 16)) (String (hex_digit (n mod 16)) EmptyString).

Fixpoint join_empty (l : list string) : string :=
  match l with
  | nil => EmptyString
  | s :: r => s +:+ join_empty r
  end.

End JS.

(** ** Outcomes of code that may throw *)

Inductive Outcome (A : Type) : Type :=
| Returned (a : A)
| Threw (msg : string).
Arguments Returned {A} a.
Arguments Threw {A} msg.

(** ** Data model (the interfaces of the plugin) *)

Record Blob := mkBlob {
  blob_size : N;
  (** [blob.arrayBuffer()], which may reject. *)
  blob_arrayBuffer : Outcome (list byte)
}.

Record PageInfo := mkPageInfo {
  fileName : string;
  importDate : string;
  imageHash : string;
  displayImageHash : option string;
  geminiProcessed : bool;
  hasAudio : option bool;
  lastModified : option string;
  size : option N;
  backgroundColor : option string
}.

Inductive HistoryAction := ActImport | ActUpdate | ActDelete.

Record ImportHistory := mkImportHistory {
  h_date : string;
  h_action : HistoryAction;
  h_pages : list N;
  h_summary : string
}.

Record ImportManifest := mkImportManifest {
  bookName : string;
  totalPages : N;
  importedPages : gmap N PageInfo;
  lastImport : string;
  sourceFile : string;
  version : string;
  history : option (list ImportHistory)
}.

Record ImageData := mkImageData {
  img_blob : Blob;
  img_hash : string
}.

Record AudioData := mkAudioData {
  audio_blob : Blob;
  audio_originalName : string;
  audio_name : string
}.

Record PageData := mkPageData {
  pageNum : N;
  image : ImageData;
  stroke : option (list (list N));
  audio : option AudioData
}.

Record Metadata := mkMetadata {
  createTime : option N;
  creationTime : option N;
  upTime : option N;
  lastModifiedTime : option N
}.

Record BookResult := mkBookResult {
  book_name : string;
  book_metadata : Metadata;
  book_pages : list PageData;
  book_thumbnail : option Blob
}.

Inductive ChangeType := TNew | TModified | TUnchanged | TDeleted.

Record PageChange := mkPageChange {
  c_pageNum : N;
  c_type : ChangeType;
  c_oldHash : option string;
  c_newHash : option string;
  c_hasAudioChange : option bool
}.

Record ImportSummary := mkImportSummary {
  s_totalPages : N;
  newPages : list N;
  modifiedPages : list N;
  unchangedPages : list N;
  deletedPages : list N;
  errors : list (N * string)
}.

Inductive OutputFormat := FmtPng | FmtSvg | FmtBoth.

Record ViwoodsSettings := mkSettings {
  notesFolder : string;
  imagesFolder : string;
  audioFolder : string;
  outputFormat : OutputFormat;
  set_backgroundColor : string;
  includeMetadata : bool;
  includeTimestamps : bool;
  createIndex : bool;
  processWithGemini : bool;
  createBackups : bool;
  batchSize : N;
  enableProgressBar : bool;
  autoDetectChanges : bool;
  keepHistory : bool;
  maxHistoryEntries : N
}.

#[global] Instance ChangeType_eq_dec : EqDecision ChangeType.
Proof. solve_decision. Defined.

(** ** The vault (Obsidian's [app.vault]) and the platform *)

Inductive FileData :=
| Text (s : string)
| Binary (b : list byte).

Inductive VNode :=
| TFile (d : FileData)
| TFolder.

Inductive VaultCall :=
| CallRead (path : string)
| CallReadBinary (path : string)
| CallCreateFolder (path : string)
| CallCreate (path : string) (content : string)
| CallCreateBinary (path : string) (data : list byte)
| CallModify (path : string) (content : string)
| CallDelete (path : string)
| CallAdapterWrite (path : string) (content : string)
| CallProcessFrontMatter (path : string).

(** What the run did, newest first: the vault calls with the message of
    the rejection if they rejected, and the entries into [saveManifest]
    (where the plugin prints "Saving manifest to: <path>"). *)
Inductive Event :=
| EvCall (c : VaultCall) (rejected : option string)
| EvSaveManifest (path : string).

Record World := mkWorld {
  vault : gmap string VNode;
  calls : list Event
}.

(** The Gemini Note Processor plugin, a collaborator reached through
    [app.plugins]. *)
Record GeminiPlugin := mkGeminiPlugin {
  callGeminiAPI : list byte -> Outcome (option string);
  enableTriggerWords : bool;
  processTriggersInText : string -> Outcome string
}.

(** Everything the plugin takes from its host. *)
Record Platform := mkPlatform {
  (** [crypto.subtle.digest('SHA-256', buffer)] *)
  subtle_digest : list byte -> Outcome (list byte);
  (** Obsidian's [normalizePath] *)
  normalizePath : string -> string;
  (** the oracle: does the call made after [n] earlier events reject, and
      with which message?  It stands for every reason a call can have to
      reject (a path that is taken, a missing parent folder, a disk error). *)
  rejects : nat -> VaultCall -> option string;
  (** [new Date().toISOString()] *)
  now : string;
  (** [JSON.stringify(manifest, null, 2)] *)
  JSON_stringify : ImportManifest -> string;
  (** [formatDate], which goes through [Date]: [toISOString] throws a
      [RangeError] when the time value is no valid date *)
  formatDate : N -> Outcome string;
  (** the chain of four [replace] calls that turns a book name into a tag *)
  bookTagOf : string -> string;
  (** the canvas compositing of [processImageWithBackground] *)
  composite : string -> Blob -> Outcome (list byte);
  (** [strokesToSVG], a rendering of the stroke points *)
  strokesToSVG : list (list N) -> string;
  (** [app.plugins.enabledPlugins.has('gemini-note-processor')] *)
  geminiEnabled : bool;
  (** [app.plugins.plugins['gemini-note-processor']] *)
  geminiPlugin : option GeminiPlugin;
  (** what [processFrontMatter] makes of a page document *)
  frontMatterUpdate : ImportManifest -> N -> string -> string
}.

(** ** The state-and-exception monad of asynchronous code *)

Definition IO (A : Type) : Type := World -> Outcome A * World.

Definition ret {A} (a : A) : IO A := fun w => (Returned a, w).

Definition throw {A} (msg : string) : IO A := fun w => (Threw msg, w).

Definition bind {A B} (m : IO A) (k : A -> IO B) : IO B :=
  fun w =>
    match m w with
    | (Returned a, w') => k a w'
    | (Threw msg, w') => (Threw msg, w')
    end.

Definition try_catch {A} (m : IO A) (handler : string -> IO A) : IO A :=
  fun w =>
    match m w with
    | (Returned a, w') => (Returned a, w')
    | (Threw msg, w') => handler msg w'
    end.

Definition lift {A} (o : Outcome A) : IO A := fun w => (o, w).

Declare Scope io_scope.
Delimit Scope io_scope with io.
Notation "x <- m ;; k" := (bind m (fun x => k))
  (at level 100, m at next level, right associativity) : io_scope.
Notation "m ;;; k" := (bind m (fun _ => k))
  (at level 100, right associativity) : io_scope.
Open Scope io_scope.

(** [app.vault.getAbstractFileByPath(path)] *)
Definition getAbstractFileByPath (w : World) (path : string) : option VNode :=
  vault w !! path.

Definition isTFile (n : option VNode) : bool :=
  match n with Some (TFile _) => true | _ => false end.

(** A vault call: the oracle decides whether it rejects; when it does not,
    [effect] is applied to the vault.  Either way the call is recorded. *)
Definition vault_call (pf : Platform) (c : VaultCall)
    (effect : gmap string VNode -> gmap string VNode) : IO unit :=
  fun w =>
    match rejects pf (length (calls w)) c with
    | Some msg =>
        (Threw msg, mkWorld (vault w) (EvCall c (Some msg) :: calls w))
    | None =>
        (Returned tt, mkWorld (effect (vault w)) (EvCall c None :: calls w))
    end.

Definition textOf (d : FileData) : string :=
  match d with
  | Text s => s
  | Binary b => string_of_list_byte b
  end.

Definition bytesOf (d : FileData) : list byte :=
  match d with
  | Text s => list_byte_of_string s
  | Binary b => b
  end.

(** [app.vault.read(file)] *)
Definition vault_read (pf : Platform) (path : string) : IO string :=
  fun w =>
    match vault_call pf (CallRead path) id w with
    | (Returned _, w') =>
        match vault w !! path with
        | Some (TFile d) => (Returned (textOf d), w')
        | _ => (Threw "File not found", w')
        end
    | (Threw msg, w') => (Threw msg, w')
    end.

(** [app.vault.readBinary(file)] *)
Definition vault_readBinary (pf : Platform) (path : string) : IO (list byte) :=
  fun w =>
    match vault_call pf (CallReadBinary path) id w with
    | (Returned _, w') =>
        match vault w !! path with
        | Some (TFile d) => (Returned (bytesOf d), w')
        | _ => (Threw "File not found", w')
        end
    | (Threw msg, w') => (Threw msg, w')
    end.

(** [app.vault.create(path, content)] *)
Definition vault_create (pf : Platform) (path content : string) : IO unit :=
  vault_call pf (CallCreate path content) (<[path := TFile (Text content)]>).

(** [app.vault.createBinary(path, data)] *)
Definition vault_createBinary (pf : Platform) (path : string) (data : list byte)
    : IO unit :=
  vault_call pf (CallCreateBinary path data) (<[path := TFile (Binary data)]>).

(** [app.vault.modify(file, content)] *)
Definition vault_modify (pf : Platform) (path content : string) : IO unit :=
  vault_call pf (CallModify path content) (<[path := TFile (Text content)]>).

(** [app.vault.delete(file)] *)
Definition vault_delete (pf : Platform) (path : string) : IO unit :=
  vault_call pf (CallDelete path) (delete path).

(** [app.vault.createFolder(path)] *)
Definition vault_createFolder (pf : Platform) (path : string) : IO unit :=
  vault_call pf (CallCreateFolder path) (<[path := TFolder]>).

(** [app.vault.adapter.write(path, content)] *)
Definition adapter_write (pf : Platform) (path content : string) : IO unit :=
  vault_call pf (CallAdapterWrite path content) (<[path := TFile (Text content)]>).

(** [blob.arrayBuffer()] *)
Definition arrayBuffer (b : Blob) : IO (list byte) := lift (blob_arrayBuffer b).

(** ** Content Fingerprinter: [hashImageData] *)

Definition hashHex (hashArray : list byte) : string :=
  JS.join_empty (map (fun b => JS.padStart 2 "0" (JS.toString16 b)) hashArray).

(** [`fallback-${blob.size}`.padEnd(32, '0').substring(0, 32)] *)
Definition fallbackHash (sz : N) : string :=
  JS.substring0 32 (JS.padEnd 32 "0" ("fallback-" +:+ JS.String_ sz)).

Definition hashImageData (pf : Platform) (blob : Blob) : string :=
  match blob_arrayBuffer blob with
  | Returned buffer =>
      match subtle_digest pf buffer with
      | Returned hashBuffer => JS.substring0 32 (hashHex hashBuffer)
      | Threw _ => fallbackHash (blob_size blob)
      end
  | Threw _ => fallbackHash (blob_size blob)
  end.

(** The [try] block of [hashImageData] throws for this blob. *)
Definition digestFails (pf : Platform) (blob : Blob) : Prop :=
  match blob_arrayBuffer blob with
  | Returned buffer =>
      match subtle_digest pf buffer with
      | Returned _ => False
      | Threw _ => True
      end
  | Threw _ => True
  end.

(** A real digest: the first 32 characters of the hexadecimal rendering of
    some digest buffer. *)
Definition realDigest (s : string) : Prop :=
  exists hashBuffer : list byte, s = JS.substring0 32 (hashHex hashBuffer).

(** ** Paths *)

Definition nl : string := String (ascii_of_N 10) EmptyString.

Definition pad3 (n : N) : string := JS.padStart 3 "0" (JS.String_ n).

(** [`${this.settings.notesFolder}/${bookName}`] *)
Definition bookFolderOf (st : ViwoodsSettings) (name : string) : string :=
  notesFolder st +:+ "/" +:+ name.

(** [`Page ${String(pageNum).padStart(3, '0')}.md`] *)
Definition pageFileNameOf (n : N) : string := "Page " +:+ pad3 n +:+ ".md".

Definition pagePathOf (bookFolder : string) (n : N) : string :=
  bookFolder +:+ "/" +:+ pageFileNameOf n.

Definition manifestPathOf (bookFolder : string) : string :=
  bookFolder +:+ "/.import-manifest.json".

(** ** Reading the fingerprint embedded in a page document *)

Fixpoint strip_prefix (p s : string) : option string :=
  match p with
  | EmptyString => Some s
  | String a p' =>
      match s with
      | EmptyString => None
      | String b s' => if Ascii.eqb a b then strip_prefix p' s' else None
      end
  end.

(** The text before the first occurrence of [pat] in [s]. *)
Fixpoint before_first (pat s : string) : option string :=
  match strip_prefix pat s with
  | Some _ => Some EmptyString
  | None =>
      match s with
      | EmptyString => None
      | String c r => String c <$> before_first pat r
      end
  end.

(** [content.match(/^---\n([\s\S]*?)\n---/)], the captured group. *)
Definition matchFrontmatter (content : string) : option string :=
  match strip_prefix ("---" +:+ nl) content with
  | Some rest => before_first (nl +:+ "---") rest
  | None => None
  end.

(** What is left of [s] after the longest run of [\s] characters at its
    start. *)
Fixpoint drop_ws (s : string) : string :=
  match s with
  | String a r =>
      if JS.is_ws a then drop_ws r
      else
        match r with
        | String b r2 =>
            if JS.is_ws2 a b then drop_ws r2
            else
              match r2 with
              | String c r3 => if JS.is_ws3 a b c then drop_ws r3 else s
              | EmptyString => s
              end
        | EmptyString => s
        end
  | EmptyString => s
  end.

Fixpoint take_hex (s : string) : string :=
  match s with
  | String c r => if JS.is_hex c then String c (take_hex r) else EmptyString
  | EmptyString => EmptyString
  end.

Definition drop_quote (s : string) : string :=
  match s with
  | String c r => if Ascii.eqb c (ascii_of_N 34) then r else s
  | EmptyString => s
  end.

(** An attempt of [/original_image_hash:\s*"?([a-f0-9]+)"?/] at the start
    of [s]: the key, white space, an optional quote, and the longest run of
    hexadecimal digits, which must not be empty. *)
Definition hashMatchAt (s : string) : option string :=
  match strip_prefix "original_image_hash:" s with
  | Some r =>
      let h := take_hex (drop_quote (drop_ws r)) in
      if JS.truthy h then Some h else None
  | None => None
  end.

(** [frontmatter.match(/original_image_hash:\s*"?([a-f0-9]+)"?/)], the
    captured group of the leftmost match. *)
Fixpoint hashMatch (frontmatter : string) : option string :=
  match hashMatchAt frontmatter with
  | Some h => Some h
  | None =>
      match frontmatter with
      | EmptyString => None
      | String _ r => hashMatch r
      end
  end.

(** The embedded fingerprint of a page document, if one is found. *)
Definition embeddedHash (content : string) : option string :=
  match matchFrontmatter content with
  | Some frontmatter => hashMatch frontmatter
  | None => None
  end.

(** ** Change Analyzer: [analyzeChanges] *)

(** An entry of [existingMap]: [{ manifestInfo, fileHash? }]. *)
Record Existing := mkExisting {
  manifestInfo : PageInfo;
  fileHash : option string
}.

Record Analysis := mkAnalysis {
  changes : list PageChange;
  summary : ImportSummary
}.

(** The entries of a dictionary keyed by page number, in the order in which
    JavaScript enumerates integer keys: ascending. *)
Definition key_le {A} (a b : N * A) : Prop := (a.1 <= b.1)%N.

#[global] Instance key_le_dec {A} (a b : N * A) : Decision (key_le a b).
Proof. unfold key_le. apply _. Defined.

Definition entries {A} (m : gmap N A) : list (N * A) :=
  merge_sort key_le (map_to_list m).

(** The body of the loop that reads the hash of one page file; its [catch]
    swallows a rejected read. *)
Definition readFileHash (pf : Platform) (bookFolder : string) (n : N)
    (w : World) : option string * World :=
  let pagePath := pagePathOf bookFolder n in
  if isTFile (getAbstractFileByPath w pagePath) then
    match vault_read pf pagePath w with
    | (Returned content, w') => (embeddedHash content, w')
    | (Threw _, w') => (None, w')
    end
  else (None, w).

Fixpoint readFileHashes (pf : Platform) (bookFolder : string)
    (l : list (N * PageInfo)) (acc : gmap N Existing) (w : World)
    : gmap N Existing * World :=
  match l with
  | [] => (acc, w)
  | (n, info) :: r =>
      let '(h, w') := readFileHash pf bookFolder n w in
      readFileHashes pf bookFolder r (<[n := mkExisting info h]> acc) w'
  end.

(** [existingMap] once it is populated from the manifest and the page
    files. *)
Definition loadExistingMap (pf : Platform) (st : ViwoodsSettings)
    (book : BookResult) (m : ImportManifest) (w : World)
    : gmap N Existing * World :=
  readFileHashes pf (bookFolderOf st (book_name book))
    (entries (importedPages m))
    ((fun info => mkExisting info None) <$> importedPages m) w.

(** [existing.fileHash || existing.manifestInfo.imageHash] *)
Definition existingHash (e : Existing) : string :=
  JS.or_else (fileHash e) (imageHash (manifestInfo e)).

Definition isSpecialHash (h : string) : bool :=
  JS.startsWith "recovered-" h || JS.startsWith "RESET-" h.

Definition audioChanged (page : PageData) (e : Existing) : bool :=
  negb (Bool.eqb (bool_decide (is_Some (audio page)))
                 (JS.bangbang (hasAudio (manifestInfo e)))).

(** The change record pushed for one decoded page. *)
Definition classifyPage (existing : option Existing) (page : PageData)
    : PageChange :=
  match existing with
  | None =>
      mkPageChange (pageNum page) TNew None (Some (img_hash (image page))) None
  | Some e =>
      let h := existingHash e in
      let hashesMatch := String.eqb h (img_hash (image page)) in
      if isSpecialHash h then
        mkPageChange (pageNum page) TModified (Some h)
          (Some (img_hash (image page))) (Some (audioChanged page e))
      else if negb hashesMatch then
        mkPageChange (pageNum page) TModified (Some h)
          (Some (img_hash (image page))) (Some (audioChanged page e))
      else
        mkPageChange (pageNum page) TUnchanged (Some h)
          (Some (img_hash (image page))) None
  end.

Definition emptySummary (total : N) : ImportSummary :=
  mkImportSummary total [] [] [] [] [].

(** [summary.<list>.push(pageNum)] for the list of the change's type. *)
Definition pushSummary (t : ChangeType) (n : N) (s : ImportSummary)
    : ImportSummary :=
  match t with
  | TNew =>
      mkImportSummary (s_totalPages s) (newPages s ++ [n]) (modifiedPages s)
        (unchangedPages s) (deletedPages s) (errors s)
  | TModified =>
      mkImportSummary (s_totalPages s) (newPages s) (modifiedPages s ++ [n])
        (unchangedPages s) (deletedPages s) (errors s)
  | TUnchanged =>
      mkImportSummary (s_totalPages s) (newPages s) (modifiedPages s)
        (unchangedPages s ++ [n]) (deletedPages s) (errors s)
  | TDeleted =>
      mkImportSummary (s_totalPages s) (newPages s) (modifiedPages s)
        (unchangedPages s) (deletedPages s ++ [n]) (errors s)
  end.

Definition pushChange (c : PageChange) (a : Analysis) : Analysis :=
  mkAnalysis (changes a ++ [c]) (pushSummary (c_type c) (c_pageNum c) (summary a)).

(** The loop over the pages of the new import. *)
Fixpoint checkPages (ps : list PageData) (existingMap : gmap N Existing)
    (a : Analysis) : gmap N Existing * Analysis :=
  match ps with
  | [] => (existingMap, a)
  | page :: r =>
      let existing := existingMap !! pageNum page in
      let a' := pushChange (classifyPage existing page) a in
      match existing with
      | None => checkPages r existingMap a'
      | Some _ => checkPages r (delete (pageNum page) existingMap) a'
      end
  end.

Definition deletedChange (ne : N * Existing) : PageChange :=
  mkPageChange ne.1 TDeleted (Some (existingHash ne.2)) None None.

(** [existingMap.forEach(...)] over what is left of the map. *)
Definition markDeleted (l : list (N * Existing)) (a : Analysis) : Analysis :=
  fold_left (fun a ne => pushChange (deletedChange ne) a) l a.

Definition analyzeChanges (pf : Platform) (st : ViwoodsSettings)
    (book : BookResult) (existingManifest : option ImportManifest)
    (w : World) : Analysis * World :=
  let start := mkAnalysis [] (emptySummary (N.of_nat (length (book_pages book)))) in
  match existingManifest with
  | None =>
      (fold_left
         (fun a page =>
            pushChange
              (mkPageChange (pageNum page) TNew None
                 (Some (img_hash (image page))) None) a)
         (book_pages book) start, w)
  | Some m =>
      let '(existingMap, w') := loadExistingMap pf st book m w in
      let '(remaining, a) := checkPages (book_pages book) existingMap start in
      (markDeleted (entries remaining) a, w')
  end.

(** ** Manifest Store: [addHistoryEntry] *)

Definition setHistory (m : ImportManifest) (h : option (list ImportHistory))
    : ImportManifest :=
  mkImportManifest (bookName m) (totalPages m) (importedPages m)
    (lastImport m) (sourceFile m) (version m) h.

Definition historyOf (m : ImportManifest) : list ImportHistory :=
  default [] (history m).

Definition addHistoryEntry (pf : Platform) (st : ViwoodsSettings)
    (m : ImportManifest) (action : HistoryAction) (pages : list N)
    (summ : string) : ImportManifest :=
  if negb (keepHistory st) then m
  else
    let unshifted := mkImportHistory (now pf) action pages summ :: historyOf m in
    if maxHistoryEntries st <? N.of_nat (length unshifted) then
      setHistory m (Some (take (N.to_nat (maxHistoryEntries st)) unshifted))
    else setHistory m (Some unshifted).

(** ** Folders and whole-file writes *)

(** [path.split('/')] *)
Fixpoint split_slash (s : string) : list string :=
  match s with
  | EmptyString => [EmptyString]
  | String c r =>
      if Ascii.eqb c "/" then EmptyString :: split_slash r
      else
        match split_slash r with
        | h :: t => String c h :: t
        | [] => [String c EmptyString]
        end
  end.

Fixpoint ensureFolders (pf : Platform) (folders : list string)
    (currentPath : string) : IO unit :=
  match folders with
  | [] => ret tt
  | folder :: r =>
      let currentPath' :=
        if JS.truthy currentPath then currentPath +:+ "/" +:+ folder else folder in
      let normalizedPath := normalizePath pf currentPath' in
      fun w =>
        match getAbstractFileByPath w normalizedPath with
        | Some _ => ensureFolders pf r currentPath' w
        | None =>
            bind
              (try_catch (vault_createFolder pf normalizedPath)
                 (fun error w' =>
                    match getAbstractFileByPath w' normalizedPath with
                    | Some _ => ret tt w'
                    | None => throw error w'
                    end))
              (fun _ => ensureFolders pf r currentPath') w
        end
  end.

Definition ensureFolder (pf : Platform) (path : string) : IO unit :=
  ensureFolders pf (split_slash path) EmptyString.

(** The text before the last occurrence of the character [c]. *)
Fixpoint before_last (c : ascii) (s : string) : option string :=
  match s with
  | EmptyString => None
  | String a r =>
      match before_last c r with
      | Some p => Some (String a p)
      | None => if Ascii.eqb a c then Some EmptyString else None
      end
  end.

(** [manifestPath.substring(0, manifestPath.lastIndexOf('/'))] *)
Definition folderOfPath (path : string) : string :=
  default EmptyString (before_last "/" path).

(** [saveManifest]: both of its [catch] blocks swallow the error, so it
    never throws. *)
Definition saveManifest (pf : Platform) (manifestPath : string)
    (m : ImportManifest) (w : World) : World :=
  let w0 := mkWorld (vault w) (EvSaveManifest manifestPath :: calls w) in
  let content := JSON_stringify pf m in
  let attempt :=
    if isTFile (getAbstractFileByPath w0 manifestPath)
    then vault_modify pf manifestPath content
    else vault_create pf manifestPath content in
  match attempt w0 with
  | (Returned _, w1) => w1
  | (Threw _, w1) =>
      snd (bind (ensureFolder pf (folderOfPath manifestPath))
             (fun _ => adapter_write pf manifestPath content) w1)
  end.

Definition indexContent (pf : Platform) (name : string) : string :=
  "---" +:+ nl +:+ "cssclasses: cards" +:+ nl +:+ "---" +:+ nl +:+ nl +:+
  "```dataview" +:+ nl +:+ "TABLE embed(link(image))" +:+ nl +:+
  "FROM #" +:+ bookTagOf pf name +:+ nl +:+ "SORT page ASC" +:+ nl +:+
  "```" +:+ nl.

Definition createBookIndex (pf : Platform) (bookFolder name : string)
    : IO unit :=
  fun w =>
    let indexPath := bookFolder +:+ "/Index.md" in
    if isTFile (getAbstractFileByPath w indexPath)
    then vault_modify pf indexPath (indexContent pf name) w
    else vault_create pf indexPath (indexContent pf name) w.

(** ** Import Executor: one page *)

Definition dq : string := String (ascii_of_N 34) EmptyString.

Definition isPng (f : OutputFormat) : bool :=
  match f with FmtPng | FmtBoth => true | FmtSvg => false end.

Definition isSvg (f : OutputFormat) : bool :=
  match f with FmtSvg | FmtBoth => true | FmtPng => false end.

(** [a || b] on optional numbers: [undefined] and [0] are falsy. *)
Definition num_or (a b : option N) : option N :=
  match a with
  | Some 0 => b
  | Some x => Some x
  | None => b
  end.

Definition truthy_num (a : option N) : bool :=
  match a with
  | Some 0 => false
  | Some _ => true
  | None => false
  end.

Definition imageNameOf (book : BookResult) (n : N) : string :=
  book_name book +:+ "_page_" +:+ pad3 n +:+ ".png".

Definition svgNameOf (book : BookResult) (n : N) : string :=
  book_name book +:+ "_page_" +:+ pad3 n +:+ ".svg".

(** The calls of [formatDate] made while the frontmatter is put together,
    in their order; the first that throws ends the [try] block of the task,
    before its first [await]. *)
Definition frontmatterDates (pf : Platform) (st : ViwoodsSettings)
    (book : BookResult) : Outcome unit :=
  let created := num_or (createTime (book_metadata book))
                        (creationTime (book_metadata book)) in
  let updated := num_or (upTime (book_metadata book))
                        (lastModifiedTime (book_metadata book)) in
  if includeMetadata st && includeTimestamps st then
    match
      (if truthy_num created then formatDate pf (default 0 created)
       else Returned EmptyString)
    with
    | Threw msg => Threw msg
    | Returned _ =>
        match
          (if truthy_num updated then formatDate pf (default 0 updated)
           else Returned EmptyString)
        with
        | Threw msg => Threw msg
        | Returned _ => Returned tt
        end
    end
  else Returned tt.

(** The text of a date in the frontmatter; the frontmatter is put to use
    only where [frontmatterDates] has returned. *)
Definition dateText (pf : Platform) (t : N) : string :=
  match formatDate pf t with
  | Returned s => s
  | Threw _ => EmptyString
  end.

(** The frontmatter block of the page document. *)
Definition frontmatterOf (pf : Platform) (st : ViwoodsSettings)
    (book : BookResult) (total : N) (page : PageData) (isModified : bool)
    : string :=
  if includeMetadata st then
    let created := num_or (createTime (book_metadata book))
                          (creationTime (book_metadata book)) in
    let updated := num_or (upTime (book_metadata book))
                          (lastModifiedTime (book_metadata book)) in
    "---" +:+ nl +:+
    "book: " +:+ dq +:+ book_name book +:+ dq +:+ nl +:+
    "page: " +:+ JS.String_ (pageNum page) +:+ nl +:+
    "total_pages: " +:+ JS.String_ total +:+ nl +:+
    "original_image_hash: " +:+ dq +:+ img_hash (image page) +:+ dq +:+ nl +:+
    (if includeTimestamps st then
       (if truthy_num created
        then "book_created: " +:+ dateText pf (default 0 created) +:+ nl
        else EmptyString) +:+
       (if truthy_num updated
        then "book_updated: " +:+ dateText pf (default 0 updated) +:+ nl
        else EmptyString)
     else EmptyString) +:+
    "import_date: " +:+ now pf +:+ nl +:+
    (if isModified then "last_modified: " +:+ now pf +:+ nl else EmptyString) +:+
    (if bool_decide (is_Some (audio page)) then "has_audio: true" +:+ nl
     else EmptyString) +:+
    "image: " +:+ dq +:+ imageNameOf book (pageNum page) +:+ dq +:+ nl +:+
    "tags: [viwoods-import, handwritten, " +:+ bookTagOf pf (book_name book)
      +:+ "]" +:+ nl +:+
    "---" +:+ nl +:+ nl
  else EmptyString.

(** The block "Add audio if present"; it returns what it adds to the page
    document. *)
Definition importAudio (pf : Platform) (st : ViwoodsSettings)
    (bookFolder : string) (page : PageData) (isNew isModified : bool)
    : IO string :=
  match audio page with
  | None => ret EmptyString
  | Some a =>
      let audioFolder := bookFolder +:+ "/" +:+ audioFolder st in
      let normalizedAudioPath :=
        normalizePath pf (audioFolder +:+ "/" +:+ audio_name a) in
      (ensureFolder pf audioFolder ;;;
       fun w =>
         (if isTFile (getAbstractFileByPath w normalizedAudioPath) then
            if isNew || isModified then
              (vault_delete pf normalizedAudioPath ;;;
               data <- arrayBuffer (audio_blob a) ;;
               vault_createBinary pf normalizedAudioPath data)
            else ret tt
          else
            (data <- arrayBuffer (audio_blob a) ;;
             vault_createBinary pf normalizedAudioPath data)) w) ;;;
      ret ("## 🎙️ Audio Recording" +:+ nl +:+ nl +:+
           "![[" +:+ audio_name a +:+ "]]" +:+ nl +:+ nl +:+
           "---" +:+ nl +:+ nl)
  end.

(** [processImageWithBackground] *)
Definition processImageWithBackground (pf : Platform) (st : ViwoodsSettings)
    (blob : Blob) : IO (list byte) :=
  let bg := set_backgroundColor st in
  if negb (JS.truthy bg) || String.eqb bg "transparent" || String.eqb bg "#FFFFFF"
  then arrayBuffer blob
  else lift (composite pf bg blob).

(** An element of [imageFilesToProcess]: [{ file, pageNum }]. *)
Definition QueueItem : Type := string * N.

Definition imagePathOf (pf : Platform) (st : ViwoodsSettings)
    (bookFolder : string) (book : BookResult) (n : N) : string :=
  normalizePath pf
    (bookFolder +:+ "/" +:+ imagesFolder st +:+ "/" +:+ imageNameOf book n).

(** The inner [try] block of "Process and add image": the image file is
    written or reused; it returns what it adds to the page document and
    what it pushes onto [imageFilesToProcess]. *)
Definition writeImage (pf : Platform) (st : ViwoodsSettings)
    (bookFolder : string) (book : BookResult) (page : PageData)
    (isNew isModified backgroundChanged : bool)
    : IO (string * list QueueItem) :=
  let n := pageNum page in
  let normalizedImagePath := imagePathOf pf st bookFolder book n in
  let needsImageUpdate := isNew || isModified in
  (fun w =>
     (if isTFile (getAbstractFileByPath w normalizedImagePath) then
        if needsImageUpdate || backgroundChanged then
          (processedImage <- processImageWithBackground pf st (img_blob (image page)) ;;
           vault_delete pf normalizedImagePath ;;;
           vault_createBinary pf normalizedImagePath processedImage)
        else ret tt
      else
        (processedImage <- processImageWithBackground pf st (img_blob (image page)) ;;
         vault_createBinary pf normalizedImagePath processedImage)) w) ;;;
  ret (if processWithGemini st && (isNew || isModified) then
         ("![[" +:+ imageNameOf book n +:+ "]]" +:+ nl +:+ nl +:+
          "<!-- GEMINI_PLACEHOLDER_" +:+ JS.String_ n +:+ " -->" +:+ nl +:+ nl,
          [(normalizedImagePath, n)])
       else
         ("![[" +:+ imageNameOf book n +:+ "]]" +:+ nl +:+ nl, [])).

(** The block "Process and add image" with its [catch]: it never throws. *)
Definition importImage (pf : Platform) (st : ViwoodsSettings)
    (bookFolder : string) (book : BookResult) (page : PageData)
    (isNew isModified backgroundChanged : bool) (w : World)
    : (string * list QueueItem) * World :=
  if isPng (outputFormat st) then
    match writeImage pf st bookFolder book page isNew isModified backgroundChanged w with
    | (Returned r, w') => (r, w')
    | (Threw _, w') => (("*[Image failed to import]*" +:+ nl +:+ nl, []), w')
    end
  else ((EmptyString, []), w).

(** The block "Save SVG if needed". *)
Definition importSvg (pf : Platform) (st : ViwoodsSettings)
    (bookFolder : string) (book : BookResult) (page : PageData)
    (isNew isModified : bool) : IO string :=
  match stroke page with
  | Some strokes =>
      if isSvg (outputFormat st) then
        let svgContent := strokesToSVG pf strokes in
        let svgName := svgNameOf book (pageNum page) in
        let normalizedSvgPath :=
          normalizePath pf
            (bookFolder +:+ "/" +:+ imagesFolder st +:+ "/" +:+ svgName) in
        ((fun w =>
            (if isTFile (getAbstractFileByPath w normalizedSvgPath) then
               if isNew || isModified
               then vault_modify pf normalizedSvgPath svgContent
               else ret tt
             else vault_create pf normalizedSvgPath svgContent) w) ;;;
         ret (match outputFormat st with
              | FmtBoth => EmptyString
              | _ => "![Page " +:+ JS.String_ (pageNum page) +:+ "](" +:+
                     imagesFolder st +:+ "/" +:+ svgName +:+ ")" +:+ nl +:+ nl
              end))
      else ret EmptyString
  | None => ret EmptyString
  end.

(** The block "Save page file". *)
Definition savePageFile (pf : Platform) (pagePath pageContent : string)
    : IO unit :=
  fun w =>
    if isTFile (getAbstractFileByPath w pagePath)
    then vault_modify pf pagePath pageContent w
    else vault_create pf pagePath pageContent w.

(** [!existingManifest?.importedPages[pageNum]] *)
Definition isNewOf (existing : option PageInfo) : bool :=
  bool_decide (existing = None).

(** [existingManifest?.importedPages[pageNum]?.imageHash !== page.image.hash] *)
Definition isModifiedOf (existing : option PageInfo) (page : PageData) : bool :=
  JS.strict_ne (imageHash <$> existing) (img_hash (image page)).

(** [existingManifest?.importedPages[pageNum]?.backgroundColor !==
    this.settings.backgroundColor] *)
Definition backgroundChangedOf (st : ViwoodsSettings)
    (existing : option PageInfo) : bool :=
  JS.strict_ne (existing ≫= backgroundColor) (set_backgroundColor st).

(** The [try] block of one page task, up to (not including) the manifest
    update: its outcome, what it pushed onto [imageFilesToProcess], and the
    world it leaves. [existing] is [existingManifest?.importedPages[pageNum]]
    and [total] is [manifest.totalPages]. *)
Definition pageBody (pf : Platform) (st : ViwoodsSettings) (book : BookResult)
    (total : N) (existing : option PageInfo) (page : PageData) (w : World)
    : (Outcome unit * list QueueItem) * World :=
  let bookFolder := bookFolderOf st (book_name book) in
  let n := pageNum page in
  let isNew := isNewOf existing in
  let isModified := isModifiedOf existing page in
  let backgroundChanged := backgroundChangedOf st existing in
  let content0 := frontmatterOf pf st book total page isModified in
  match frontmatterDates pf st book with
  | Threw msg => ((Threw msg, []), w)
  | Returned _ =>
      match importAudio pf st bookFolder page isNew isModified w with
      | (Threw msg, w1) => ((Threw msg, []), w1)
      | (Returned audioContent, w1) =>
          let '((imageContent, queued), w2) :=
            importImage pf st bookFolder book page isNew isModified
              backgroundChanged w1 in
          match
            (svgContent <- importSvg pf st bookFolder book page isNew isModified ;;
             savePageFile pf (pagePathOf bookFolder n)
               (content0 +:+ audioContent +:+ imageContent +:+ svgContent)) w2
          with
          | (o, w3) => ((o, queued), w3)
          end
      end
  end.

(** What a run carries besides the world: the manifest object (shared with
    [existingManifest] when there is one), the summary, and
    [imageFilesToProcess]. *)
Record RunState := mkRunState {
  rs_manifest : ImportManifest;
  rs_summary : ImportSummary;
  rs_queue : list QueueItem
}.

Definition setImportedPages (m : ImportManifest) (ip : gmap N PageInfo)
    : ImportManifest :=
  mkImportManifest (bookName m) (totalPages m) ip (lastImport m)
    (sourceFile m) (version m) (history m).

Definition setTotalPages (m : ImportManifest) (t : N) : ImportManifest :=
  mkImportManifest (bookName m) t (importedPages m) (lastImport m)
    (sourceFile m) (version m) (history m).

(** [summary.errors.push({ page, error })] *)
Definition pushError (n : N) (msg : string) (s : ImportSummary)
    : ImportSummary :=
  mkImportSummary (s_totalPages s) (newPages s) (modifiedPages s)
    (unchangedPages s) (deletedPages s) (errors s ++ [(n, msg)]).

(** The record assigned to [manifest.importedPages[pageNum]]. *)
Definition importedEntry (pf : Platform) (st : ViwoodsSettings)
    (m : ImportManifest) (page : PageData) : PageInfo :=
  mkPageInfo (pageFileNameOf (pageNum page)) (now pf) (img_hash (image page))
    None
    (default false (geminiProcessed <$> importedPages m !! pageNum page))
    (Some (bool_decide (is_Some (audio page))))
    (Some (now pf))
    (Some (blob_size (img_blob (image page))))
    (Some (set_backgroundColor st)).

(** [existingManifest?.importedPages[pageNum]]: when there is an existing
    manifest it is the very object the run updates. *)
Definition existingEntry (hadManifest : bool) (rs : RunState) (n : N)
    : option PageInfo :=
  if hadManifest then importedPages (rs_manifest rs) !! n else None.

(** How the task classifies its page in the summary. *)
Definition taskType (existing : option PageInfo) (page : PageData)
    : ChangeType :=
  if isNewOf existing then TNew
  else if isModifiedOf existing page then TModified else TUnchanged.

(** [bookResult.pages.find(p => p.pageNum === pageNum)] *)
Definition findPage (book : BookResult) (n : N) : option PageData :=
  find (fun p => N.eqb (pageNum p) n) (book_pages book).

(** One task of a batch: the callback given to [batch.map]. *)
Definition importPage (pf : Platform) (st : ViwoodsSettings)
    (book : BookResult) (hadManifest : bool) (n : N)
    (sw : RunState * World) : RunState * World :=
  let '(rs, w) := sw in
  match findPage book n with
  | None => (rs, w)
  | Some page =>
      let existing := existingEntry hadManifest rs n in
      let summary1 := pushSummary (taskType existing page) n (rs_summary rs) in
      let '((o, queued), w') :=
        pageBody pf st book (totalPages (rs_manifest rs)) existing page w in
      match o with
      | Returned _ =>
          (mkRunState
             (setImportedPages (rs_manifest rs)
                (<[n := importedEntry pf st (rs_manifest rs) page]>
                   (importedPages (rs_manifest rs))))
             summary1 (rs_queue rs ++ queued), w')
      | Threw msg =>
          (mkRunState (rs_manifest rs) (pushError n msg summary1)
             (rs_queue rs ++ queued), w')
      end
  end.

(** The tasks of a list of page numbers, one after the other. *)
Definition importPages (pf : Platform) (st : ViwoodsSettings)
    (book : BookResult) (hadManifest : bool) (l : list N)
    (sw : RunState * World) : RunState * World :=
  fold_left (fun sw n => importPage pf st book hadManifest n sw) l sw.

(** [a.slice(start, stop)] *)
Definition slice {A} (start stop : nat) (l : list A) : list A :=
  take (stop - start) (drop start l).

(** The [for] loop over the batches.  [fuel] bounds the number of
    iterations; [None] is a loop that has not ended within it (a batch
    size of zero never advances [batchStart]). *)
Fixpoint runBatches (fuel : nat) (pf : Platform) (st : ViwoodsSettings)
    (book : BookResult) (hadManifest : bool) (pagesToImport : list N)
    (batchStart : nat) (sw : RunState * World) : option (RunState * World) :=
  if Nat.ltb batchStart (length pagesToImport) then
    match fuel with
    | O => None
    | S fuel' =>
        let batch :=
          slice batchStart
            (Nat.min (batchStart + N.to_nat (batchSize st)) (length pagesToImport))
            pagesToImport in
        runBatches fuel' pf st book hadManifest pagesToImport
          (batchStart + N.to_nat (batchSize st))
          (importPages pf st book hadManifest batch sw)
    end
  else Some sw.

(** ** Gemini post-processing: [processWithGemini] *)

(** The first occurrence of [pat] in [s]: the text before it and the text
    after it. *)
Fixpoint split_first (pat s : string) : option (string * string) :=
  match strip_prefix pat s with
  | Some after => Some (EmptyString, after)
  | None =>
      match s with
      | EmptyString => None
      | String c r =>
          (fun ba : string * string => (String c ba.1, ba.2))
            <$> split_first pat r
      end
  end.

(** What [replace] puts in for the match when the pattern is a string: in
    the replacement [$$] is a dollar sign, [$&] the matched text, a dollar
    sign with a backquote the text before the match and a dollar sign with
    a quote the text after it; a string pattern has no captures, so every
    other dollar sign stands for itself. *)
Fixpoint getSubstitution (matched before after rep : string) : string :=
  match rep with
  | String a r =>
      if Ascii.eqb a "$" then
        match r with
        | String b r2 =>
            if Ascii.eqb b "$" then
              String "$" (getSubstitution matched before after r2)
            else if Ascii.eqb b "&" then
              matched +:+ getSubstitution matched before after r2
            else if Ascii.eqb b "`" then
              before +:+ getSubstitution matched before after r2
            else if Ascii.eqb b "'" then
              after +:+ getSubstitution matched before after r2
            else String a (String b (getSubstitution matched before after r2))
        | EmptyString => rep
        end
      else String a (getSubstitution matched before after r)
  | EmptyString => EmptyString
  end.

(** [s.replace(pat, rep)] with a string pattern: the first occurrence. *)
Definition replace_first (pat rep s : string) : string :=
  match split_first pat s with
  | Some (before, after) =>
      before +:+ getSubstitution pat before after rep +:+ after
  | None => s
  end.

Definition markGemini (info : PageInfo) : PageInfo :=
  mkPageInfo (fileName info) (importDate info) (imageHash info)
    (displayImageHash info) true (hasAudio info) (lastModified info)
    (size info) (backgroundColor info).

(** [app.fileManager.processFrontMatter(pageFile, ...)] *)
Definition processFrontMatter (pf : Platform) (m : ImportManifest) (n : N)
    (path : string) : IO unit :=
  vault_call pf (CallProcessFrontMatter path)
    (fun v =>
       match v !! path with
       | Some (TFile d) =>
           <[path := TFile (Text (frontMatterUpdate pf m n (textOf d)))]> v
       | _ => v
       end).

(** The [try] block for one queued image; it returns whether the page was
    marked as processed. *)
Definition geminiOne (pf : Platform) (plugin : GeminiPlugin)
    (bookFolder : string) (m : ImportManifest) (item : QueueItem)
    : IO bool :=
  let '(file, n) := item in
  imageData <- vault_readBinary pf file ;;
  resultText <- lift (callGeminiAPI plugin imageData) ;;
  match resultText with
  | Some text =>
      if JS.truthy text then
        processedText <-
          (if enableTriggerWords plugin
           then lift (processTriggersInText plugin text)
           else ret text) ;;
        let pagePath := pagePathOf bookFolder n in
        fun w =>
          if isTFile (getAbstractFileByPath w pagePath) then
            (content <- vault_read pf pagePath ;;
             vault_modify pf pagePath
               (replace_first
                  ("<!-- GEMINI_PLACEHOLDER_" +:+ JS.String_ n +:+ " -->")
                  ("---" +:+ nl +:+ "### Gemini Transcription" +:+ nl +:+
                   processedText +:+ nl +:+ "---")
                  content) ;;;
             processFrontMatter pf m n pagePath ;;;
             ret true) w
          else ret false w
      else ret false
  | None => ret false
  end.

(** The loop over [imageFiles]; its [catch] swallows what a page throws. *)
Fixpoint geminiLoop (pf : Platform) (plugin : GeminiPlugin)
    (bookFolder : string) (items : list QueueItem)
    (mw : ImportManifest * World) : ImportManifest * World :=
  match items with
  | [] => mw
  | item :: r =>
      let '(m, w) := mw in
      match geminiOne pf plugin bookFolder m item w with
      | (Returned true, w') =>
          geminiLoop pf plugin bookFolder r
            (setImportedPages m (alter markGemini item.2 (importedPages m)), w')
      | (_, w') => geminiLoop pf plugin bookFolder r (m, w')
      end
  end.

(** [processWithGemini]: the outcome, the manifest object afterwards, and
    the world. *)
Definition processWithGeminiPages (pf : Platform) (st : ViwoodsSettings)
    (bookFolder : string) (imageFiles : list QueueItem)
    (m : ImportManifest) (w : World)
    : Outcome unit * ImportManifest * World :=
  if negb (geminiEnabled pf) then (Returned tt, m, w)
  else
    match geminiPlugin pf with
    | None => (Returned tt, m, w)
    | Some plugin =>
        let '(m', w1) := geminiLoop pf plugin bookFolder imageFiles (m, w) in
        let w2 := saveManifest pf (manifestPathOf bookFolder) m' w1 in
        if createIndex st then
          let '(o, w3) := createBookIndex pf bookFolder (bookName m') w2 in
          (o, m', w3)
        else (Returned tt, m', w2)
    end.

(** ** Import Executor: [importSelectedPagesWithProgress] *)

(** The manifest the run works on: [existingManifest] or a fresh object. *)
Definition initialManifest (pf : Platform) (book : BookResult)
    (existingManifest : option ImportManifest) : ImportManifest :=
  match existingManifest with
  | Some m => m
  | None =>
      mkImportManifest (book_name book) 0 ∅ (now pf) (book_name book) "1.1"
        (Some [])
  end.

Definition historyMessage (s : ImportSummary) : string :=
  "Imported " +:+ JS.String_ (N.of_nat (length (newPages s))) +:+ " new, " +:+
  JS.String_ (N.of_nat (length (modifiedPages s))) +:+ " modified pages".

(** The two [ensureFolder] calls that open the run. *)
Definition prologue (pf : Platform) (st : ViwoodsSettings) (book : BookResult)
    : IO unit :=
  let bookFolder := bookFolderOf st (book_name book) in
  ensureFolder pf bookFolder ;;;
  ensureFolder pf (bookFolder +:+ "/" +:+ imagesFolder st).

(** The state in which the batches start. *)
Definition startState (pf : Platform) (book : BookResult)
    (pagesToImport : list N) (existingManifest : option ImportManifest)
    : RunState :=
  let m := initialManifest pf book existingManifest in
  mkRunState
    (setTotalPages m (N.max (totalPages m) (N.of_nat (length (book_pages book)))))
    (emptySummary (N.of_nat (length pagesToImport))) [].

(** What a run leaves: its outcome, the manifest object, the manifest it
    handed to its own [saveManifest] call (if it got there), and the
    world. *)
Record RunResult := mkRunResult {
  run_outcome : Outcome ImportSummary;
  run_manifest : ImportManifest;
  run_saved : option ImportManifest;
  run_world : World
}.

(** The part of the run after the batches. *)
Definition epilogue (pf : Platform) (st : ViwoodsSettings) (book : BookResult)
    (pagesToImport : list N) (sw : RunState * World) : RunResult :=
  let '(rs, w) := sw in
  let bookFolder := bookFolderOf st (book_name book) in
  let m1 :=
    addHistoryEntry pf st (rs_manifest rs) ActImport pagesToImport
      (historyMessage (rs_summary rs)) in
  match
    (if createIndex st then createBookIndex pf bookFolder (book_name book) w
     else ret tt w)
  with
  | (Threw msg, w1) => mkRunResult (Threw msg) m1 None w1
  | (Returned _, w1) =>
      let w2 := saveManifest pf (manifestPathOf bookFolder) m1 w1 in
      if processWithGemini st && negb (bool_decide (rs_queue rs = [])) then
        match processWithGeminiPages pf st bookFolder (rs_queue rs) m1 w2 with
        | (Returned _, m2, w3) =>
            mkRunResult (Returned (rs_summary rs)) m2 (Some m1) w3
        | (Threw msg, m2, w3) => mkRunResult (Threw msg) m2 (Some m1) w3
        end
      else mkRunResult (Returned (rs_summary rs)) m1 (Some m1) w2
  end.

(** [importSelectedPagesWithProgress]; [None] when the loop over the
    batches does not end within [fuel] iterations. *)
Definition importSelectedPagesWithProgress (fuel : nat) (pf : Platform)
    (st : ViwoodsSettings) (book : BookResult) (pagesToImport : list N)
    (existingManifest : option ImportManifest) (w : World)
    : option RunResult :=
  match prologue pf st book w with
  | (Threw msg, w0) =>
      Some (mkRunResult (Threw msg) (initialManifest pf book existingManifest)
              None w0)
  | (Returned _, w0) =>
      match
        runBatches fuel pf st book (bool_decide (is_Some existingManifest))
          pagesToImport 0
          (startState pf book pagesToImport existingManifest, w0)
      with
      | None => None
      | Some sw => Some (epilogue pf st book pagesToImport sw)
      end
  end.

(** ** Vocabulary of the statements *)

(** Every character is a lower-case hexadecimal digit. *)
Fixpoint all_hex (s : string) : bool :=
  match s with
  | EmptyString => true
  | String c r => JS.is_hex c && all_hex r
  end.

(** The number of entries into [saveManifest] recorded in a call log. *)
Fixpoint saveCount (l : list Event) : nat :=
  match l with
  | [] => 0
  | EvSaveManifest _ :: r => S (saveCount r)
  | EvCall _ _ :: r => saveCount r
  end.

(** The page numbers of a decoded book, in order. *)
Definition pageNums (book : BookResult) : list N :=
  pageNum <$> book_pages book.

(** The change records of the decoded pages, in closed form: each page is
    classified against what is left of [existingMap]. *)
Fixpoint pageChanges (ps : list PageData) (existingMap : gmap N Existing)
    : list PageChange :=
  match ps with
  | [] => []
  | page :: r =>
      classifyPage (existingMap !! pageNum page) page
        :: pageChanges r (delete (pageNum page) existingMap)
  end.

(** [existingMap] after the loop over the pages. *)
Definition remainingMap (ps : list PageData) (existingMap : gmap N Existing)
    : gmap N Existing :=
  fold_left (fun m page => delete (pageNum page) m) ps existingMap.

(** The analysis that results from pushing a list of changes. *)
Definition analysisOf (a : Analysis) (cs : list PageChange) : Analysis :=
  fold_left (fun a c => pushChange c a) cs a.

Definition hasType (t : ChangeType) (c : PageChange) : Prop := c_type c = t.

#[global] Instance hasType_dec t c : Decision (hasType t c).
Proof. unfold hasType. apply _. Defined.

(** The page numbers of the changes of one type. *)
Definition numbersOf (t : ChangeType) (cs : list PageChange) : list N :=
  c_pageNum <$> filter (hasType t) cs.

(** A computation is quiet when all it adds to the log are vault calls:
    it never enters [saveManifest]. *)
Definition quiet {A} (f : World -> A * World) : Prop :=
  forall w, exists post, calls (f w).2 = post ++ calls w /\ saveCount post = 0%nat.

(** What Gemini post-processing may do to a manifest: set the
    [geminiProcessed] flag of entries of queued pages, nothing else. *)
Definition geminiTouched (m m' : ImportManifest) (items : list QueueItem) : Prop :=
  m' = setImportedPages m (importedPages m')
  /\ forall k,
       importedPages m' !! k = importedPages m !! k
       \/ (k ∈ items.*2
           /\ importedPages m' !! k = markGemini <$> importedPages m !! k).

(** Gemini post-processing gets past its two guards. *)
Definition geminiRuns (pf : Platform) : bool :=
  geminiEnabled pf && bool_decide (is_Some (geminiPlugin pf)).

(** The run calls [processWithGemini]. *)
Definition geminiCalled (st : ViwoodsSettings) (rs : RunState) : bool :=
  processWithGemini st && negb (bool_decide (rs_queue rs = [])).

(** The successful vault calls that write or delete the file at [path]. *)
Definition writesAt (path : string) (e : Event) : bool :=
  match e with
  | EvCall (CallCreateBinary p _) None
  | EvCall (CallCreate p _) None
  | EvCall (CallModify p _) None
  | EvCall (CallDelete p) None
  | EvCall (CallAdapterWrite p _) None => String.eqb p path
  | _ => false
  end.

(** Every page number a run state mentions, outside of the dictionary of
    its manifest, is a page number of the book; the dictionary agrees with
    that of [m0] outside of the book. *)
Definition withinBook (book : BookResult) (m0 : ImportManifest)
    (rs : RunState) : Prop :=
  (forall k, k ∈ newPages (rs_summary rs) -> k ∈ pageNums book)
  /\ (forall k, k ∈ modifiedPages (rs_summary rs) -> k ∈ pageNums book)
  /\ (forall k, k ∈ unchangedPages (rs_summary rs) -> k ∈ pageNums book)
  /\ (forall k, k ∈ (errors (rs_summary rs)).*1 -> k ∈ pageNums book)
  /\ (forall k, k ∈ (rs_queue rs).*2 -> k ∈ pageNums book)
  /\ (forall k, k ∉ pageNums book ->
        importedPages (rs_manifest rs) !! k = importedPages m0 !! k).

(** The path of the index document of a book. *)
Definition indexPathOf (st : ViwoodsSettings) (book : BookResult) : string :=
  bookFolderOf st (book_name book) +:+ "/Index.md".

(** The oracle never rejects a write of the index document. *)
Definition indexWritable (pf : Platform) (st : ViwoodsSettings)
    (book : BookResult) : Prop :=
  forall t content,
    rejects pf t (CallCreate (indexPathOf st book) content) = None
    /\ rejects pf t (CallModify (indexPathOf st book) content) = None.

(** The outcome of the body of the task of page [page], run after the
    tasks of the page numbers [done] of a run that started in [start]. *)
Definition bodyOutcomeAfter (pf : Platform) (st : ViwoodsSettings)
    (book : BookResult) (hadManifest : bool) (start : RunState * World)
    (done : list N) (page : PageData) : Outcome unit :=
  let sw := importPages pf st book hadManifest done start in
  (pageBody pf st book (totalPages (rs_manifest sw.1))
     (existingEntry hadManifest sw.1 (pageNum page)) page sw.2).1.1.

(** A log entry that is a read of the page document of one of [keys]. *)
Definition pageRead (bookFolder : string) (keys : list N) (e : Event) : Prop :=
  exists k rejected,
    k ∈ keys /\ e = EvCall (CallRead (pagePathOf bookFolder k)) rejected.

(** The successive values of [currentPath] in [ensureFolder]: the path of
    the folder and of each of its ancestors. *)
Fixpoint folderPaths (folders : list string) (currentPath : string)
    : list string :=
  match folders with
  | [] => []
  | folder :: r =>
      let currentPath' :=
        if JS.truthy currentPath then currentPath +:+ "/" +:+ folder else folder in
      currentPath' :: folderPaths r currentPath'
  end.

(** A log entry that is a [createFolder] call. *)
Definition isCreateFolder (e : Event) : Prop :=
  exists path rejected, e = EvCall (CallCreateFolder path) rejected.

(** The page numbers a summary counts as processed. *)
Definition classified (s : ImportSummary) : list N :=
  newPages s ++ modifiedPages s ++ unchangedPages s.

(** The selected page numbers that the book has, as often as selected. *)
Definition selectedInBook (book : BookResult) (sel : list N) : list N :=
  filter (fun k => k ∈ pageNums book) sel.

(** ** Further string primitives *)

(** [s.includes(pat)] *)
Definition includes (pat s : string) : bool :=
  match before_first pat s with
  | Some _ => true
  | None => false
  end.

(** The regular-expression class [\d]. *)
Definition is_digit (c : ascii) : bool :=
  let n := N_of_ascii c in (48 <=? n) && (n <=? 57).

(** Every character of [s] satisfies [cls]. *)
Fixpoint all_chars (cls : ascii -> bool) (s : string) : bool :=
  match s with
  | EmptyString => true
  | String c r => cls c && all_chars cls r
  end.

(** No occurrence of [pat] in [x +:+ y] starts inside [x]. *)
Fixpoint noStart (pat x y : string) : Prop :=
  match x with
  | EmptyString => True
  | String c x' => strip_prefix pat (x +:+ y) = None /\ noStart pat x' y
  end.

(** [pat] and [s] differ at a position both of them have. *)
Fixpoint clash (pat s : string) : bool :=
  match pat, s with
  | String a p', String b s' => negb (Ascii.eqb a b) || clash p' s'
  | _, _ => false
  end.

(** [pat] clashes with [s] at every position of [s]: whatever follows [s],
    no occurrence of [pat] starts inside [s]. *)
Fixpoint clashAll (pat s : string) : bool :=
  match s with
  | EmptyString => true
  | String c s' => clash pat s && clashAll pat s'
  end.

(** ** Loading, backing up, resetting and recovering a manifest *)

(** [file.stat] *)
Record FileStat := mkFileStat {
  stat_size : N;
  stat_mtime : N
}.

(** What these functions take from their host besides [Platform]. *)
Record Host := mkHost {
  (** [JSON.parse] of the text of a manifest *)
  JSON_parse : string -> Outcome ImportManifest;
  (** [new Date(ms).toISOString()] *)
  toISOString : N -> string;
  (** the [stat] of the file at a path *)
  statOf : string -> FileStat
}.

(** [loadManifest] *)
Definition loadManifest (hs : Host) (pf : Platform) (manifestPath : string)
    : IO (option ImportManifest) :=
  fun w =>
    if isTFile (getAbstractFileByPath w manifestPath) then
      (content <- vault_read pf manifestPath ;;
       manifest <- lift (JSON_parse hs content) ;;
       ret (Some manifest)) w
    else ret None w.

(** [createManifestBackup]; [dateNow] is what [Date.now()] returns.  Its
    [catch] swallows what the read or the write throws. *)
Definition createManifestBackup (pf : Platform) (st : ViwoodsSettings)
    (dateNow : N) (manifestPath : string) (w : World)
    : option string * World :=
  if negb (createBackups st) then (None, w)
  else if isTFile (getAbstractFileByPath w manifestPath) then
    let backupPath :=
      replace_first ".json" ("-backup-" +:+ JS.String_ dateNow +:+ ".json")
        manifestPath in
    match
      (content <- vault_read pf manifestPath ;;
       vault_create pf backupPath content) w
    with
    | (Returned _, w') => (Some backupPath, w')
    | (Threw _, w') => (None, w')
    end
  else (None, w).

(** [info.imageHash = 'RESET-' + Date.now()] *)
Definition resetHash (stamp : N) (info : PageInfo) : PageInfo :=
  mkPageInfo (fileName info) (importDate info) ("RESET-" +:+ JS.String_ stamp)
    (displayImageHash info) (geminiProcessed info) (hasAudio info)
    (lastModified info) (size info) (backgroundColor info).

(** The loop of the command "Reset book hashes" over the keys of
    [importedPages]; [clock k] is what [Date.now()] returns when the entry
    of page [k] is reached. *)
Definition resetHashes (clock : N -> N) (m : ImportManifest) : ImportManifest :=
  setImportedPages m
    (map_imap (fun k info => Some (resetHash (clock k) info)) (importedPages m)).

(** The handler of the button "Reset Hashes" for the book [name]. *)
Definition resetBookHashes (hs : Host) (pf : Platform) (st : ViwoodsSettings)
    (clock : N -> N) (name : string) : IO unit :=
  let manifestPath := notesFolder st +:+ "/" +:+ name +:+ "/.import-manifest.json" in
  manifest <- loadManifest hs pf manifestPath ;;
  match manifest with
  | Some m =>
      fun w =>
        (Returned tt, saveManifest pf manifestPath (resetHashes clock m) w)
  | None => ret tt
  end.

(** The value of a decimal digit. *)
Definition digitValue (c : ascii) : N := N_of_ascii c - 48.

(** [name.match(/^Page (\d{3})\.md$/)] and [parseInt] of the captured
    group. *)
Definition pageNumberOf (name : string) : option N :=
  match strip_prefix "Page " name with
  | Some (String a (String b (String c rest))) =>
      if is_digit a && is_digit b && is_digit c && String.eqb rest ".md"
      then Some (100 * digitValue a + 10 * digitValue b + digitValue c)
      else None
  | _ => None
  end.

(** A child of a folder: its [name], its [path], and what it is. *)
Record Child := mkChild {
  child_name : string;
  child_path : string;
  child_node : VNode
}.

(** The name of the file or folder at [path] when it lies directly in
    [folder]. *)
Definition childName (folder path : string) : option string :=
  match strip_prefix (folder +:+ "/") path with
  | Some name => if includes "/" name then None else Some name
  | None => None
  end.

(** [folder.children], read off the paths of the vault. *)
Definition children (w : World) (folder : string) : list Child :=
  omap (fun pn : string * VNode =>
          (fun name => mkChild name pn.1 pn.2) <$> childName folder pn.1)
       (map_to_list (vault w)).

(** The entry recovered for the page document [child] of page [n], whose
    text is [content]. *)
Definition recoveredEntry (hs : Host) (st : ViwoodsSettings) (w : World)
    (bookFolder name : string) (child : Child) (content : string) (n : N)
    : PageInfo :=
  let imageFileName := name +:+ "_page_" +:+ pad3 n +:+ ".png" in
  let imagePath :=
    bookFolder +:+ "/" +:+ imagesFolder st +:+ "/" +:+ imageFileName in
  let recovered :=
    if isTFile (getAbstractFileByPath w imagePath) then
      "recovered-" +:+ JS.String_ (stat_size (statOf hs imagePath)) +:+ "-" +:+
      JS.String_ (stat_mtime (statOf hs imagePath))
    else "recovered-unknown-" +:+ JS.String_ n in
  let mtime := toISOString hs (stat_mtime (statOf hs (child_path child))) in
  mkPageInfo (child_name child) mtime recovered None
    (includes "### Gemini Transcription" content)
    (Some (includes "🎙️ Audio Recording" content))
    (Some mtime)
    (Some (stat_size (statOf hs (child_path child))))
    None.

(** The loop over [folder.children]; it carries [manifest.importedPages]
    and [maxPage].  A read that rejects is not caught. *)
Fixpoint recoverPages (hs : Host) (pf : Platform) (st : ViwoodsSettings)
    (bookFolder name : string) (cs : list Child) (acc : gmap N PageInfo * N)
    : IO (gmap N PageInfo * N) :=
  match cs with
  | [] => ret acc
  | child :: r =>
      match child_node child, pageNumberOf (child_name child) with
      | TFile _, Some n =>
          content <- vault_read pf (child_path child) ;;
          fun w =>
            recoverPages hs pf st bookFolder name r
              (<[n := recoveredEntry hs st w bookFolder name child content n]>
                 acc.1,
               N.max acc.2 n) w
      | _, _ => recoverPages hs pf st bookFolder name r acc
      end
  end.

(** [recoverManifestFromExistingFiles] *)
Definition recoverManifestFromExistingFiles (hs : Host) (pf : Platform)
    (st : ViwoodsSettings) (bookFolder name : string)
    : IO (option ImportManifest) :=
  fun w =>
    match getAbstractFileByPath w bookFolder with
    | Some TFolder =>
        (found <- recoverPages hs pf st bookFolder name (children w bookFolder)
                    (∅, 0) ;;
         let manifest :=
           mkImportManifest name found.2 found.1 (now pf) name "1.1" (Some []) in
         if bool_decide (found.1 = ∅) then ret None
         else
           let manifest' :=
             addHistoryEntry pf st manifest ActImport (entries found.1).*1
               "Manifest recovered from existing files" in
           fun w' =>
             (Returned (Some manifest'),
              saveManifest pf (manifestPathOf bookFolder) manifest' w')) w
    | _ => (Returned None, w)
    end.

(** The characters of the class [\d]. *)
Definition decimalDigits : list ascii :=
  ["0"; "1"; "2"; "3"; "4"; "5"; "6"; "7"; "8"; "9"]%char.

(** [existingManifest?.importedPages[pageNum]] for the manifest the run is
    given. *)
Definition startEntry (existing : option ImportManifest) (k : N)
    : option PageInfo :=
  existing ≫= (fun m => importedPages m !! k).

(** How a page number is classified against the manifest the run is given:
    nothing when the book has no such page. *)
Definition taskOf (book : BookResult) (existing : option ImportManifest)
    (k : N) : option ChangeType :=
  taskType (startEntry existing k) <$> findPage book k.

(** The selected page numbers classified as [t]. *)
Definition selectedAs (book : BookResult) (existing : option ImportManifest)
    (t : ChangeType) (sel : list N) : list N :=
  filter (fun k => taskOf book existing k = Some t) sel.

(** Every entry of the manifest holds a sentinel in place of a
    fingerprint. *)
Definition allSentinel (m : ImportManifest) : Prop :=
  forall k info,
    importedPages m !! k = Some info -> isSpecialHash (imageHash info) = true.

(** No decoded page carries a sentinel as its fingerprint. *)
Definition plainFingerprints (book : BookResult) : Prop :=
  forall page,
    page ∈ book_pages book -> isSpecialHash (img_hash (image page)) = false.

(** [child instanceof TFile] *)
Definition isFileNode (n : VNode) : bool :=
  match n with TFile _ => true | TFolder => false end.

(** A child that the recovery loop takes for the page document of page
    [k]. *)
Definition pageChild (k : N) (child : Child) : Prop :=
  isFileNode (child_node child) = true
  /\ pageNumberOf (child_name child) = Some k.

(** ** Decoding an archive: [convertNoteToBook] *)

(** Code that may throw and does not touch the vault. *)
Definition andThen {A B} (m : Outcome A) (k : A -> Outcome B) : Outcome B :=
  match m with
  | Returned a => k a
  | Threw msg => Threw msg
  end.

Declare Scope outcome_scope.
Delimit Scope outcome_scope with outcome.
Notation "x <~ m ;; k" := (andThen m (fun x => k))
  (at level 100, m at next level, right associativity) : outcome_scope.
Open Scope outcome_scope.

(** What JSZip gives for the entries of an archive. *)
Record Archive := mkArchive {
  (** [zip.file(name).async('string')] *)
  zip_string : string -> Outcome string;
  (** [zip.file(name).async('blob')] *)
  zip_blob : string -> Outcome Blob
}.

(** An element of [PageResource.json]. *)
Record Resource := mkResource {
  res_fileName : option string;
  res_resourceType : option N
}.

(** [NoteFileInfo.json] *)
Record NoteFileInfo := mkNoteFileInfo {
  info_fileName : option string;
  info_metadata : Metadata
}.

(** [NotesBean.json] *)
Record NotesBean := mkNotesBean {
  nickname : option string;
  noteName : option string;
  bean_metadata : Metadata
}.

(** [JSON.parse] at the types the decoder reads its documents at. *)
Record Parser := mkParser {
  parseNoteFileInfo : string -> Outcome NoteFileInfo;
  parsePageResource : string -> Outcome (list Resource);
  parseStrokes : string -> Outcome (list (list N));
  parseNotesBean : string -> Outcome NotesBean;
  (** the [pageId] of each element of [NoteList.json], as a template
      literal renders it *)
  parseNoteList : string -> Outcome (list string)
}.

(** The two settings that only the decoder reads. *)
Record DecodeSettings := mkDecodeSettings {
  filePrefix : string;
  includeThumbnails : bool
}.

(** [s.endsWith(suffix)] *)
Definition endsWith (suffix s : string) : bool :=
  (String.length suffix <=? String.length s)%nat
  && String.eqb
       (String.substring (String.length s - String.length suffix)
          (String.length suffix) s)
       suffix.

(** [s.split(c).pop()] for a one-character separator: the text after the
    last [c], the whole of [s] when it has none. *)
Fixpoint lastSegment (c : ascii) (s : string) : string :=
  match s with
  | EmptyString => EmptyString
  | String a r =>
      if includes (String c EmptyString) r then lastSegment c r
      else if Ascii.eqb a c then r else s
  end.

(** [a || b] on strings *)
Definition or_string (a b : string) : string :=
  if JS.truthy a then a else b.

(** [files.find(p)] followed by a test of the result for truthiness: an
    empty name counts as not found. *)
Definition findTruthy (p : string -> bool) (files : list string)
    : option string :=
  match find p files with
  | Some f => if JS.truthy f then Some f else None
  | None => None
  end.

(** ASCII lower case, the case folding of the flag [i] for the letters of
    [audio]. *)
Definition lowerAscii (c : ascii) : ascii :=
  let n := N_of_ascii c in
  if (65 <=? n) && (n <=? 90) then ascii_of_N (n + 32) else c.

(** [strip_prefix] with the flag [i]; [p] is in lower case. *)
Fixpoint strip_prefix_ci (p s : string) : option string :=
  match p with
  | EmptyString => Some s
  | String a p' =>
      match s with
      | EmptyString => None
      | String b s' =>
          if Ascii.eqb a (lowerAscii b) then strip_prefix_ci p' s' else None
      end
  end.

(** The longest run of digits at the start of [s]. *)
Fixpoint take_digits (s : string) : string :=
  match s with
  | String c r => if is_digit c then String c (take_digits r) else EmptyString
  | EmptyString => EmptyString
  end.

(** [s] starts with a line terminator: LF, CR, U+2028 or U+2029 (in
    UTF-8). *)
Definition startsWithLineTerminator (s : string) : bool :=
  match s with
  | String c r =>
      let n := N_of_ascii c in
      (n =? 10) || (n =? 13)
      || JS.startsWith
           (String (ascii_of_N 226) (String (ascii_of_N 128)
              (String (ascii_of_N 168) EmptyString))) s
      || JS.startsWith
           (String (ascii_of_N 226) (String (ascii_of_N 128)
              (String (ascii_of_N 169) EmptyString))) s
  | EmptyString => false
  end.

(** [.*?(\d+)]: as few characters as possible, none of them a line
    terminator, up to the first digit; the group is the longest run of
    digits from there. *)
Fixpoint lazyDigits (s : string) : option string :=
  match s with
  | EmptyString => None
  | String c r =>
      if is_digit c then Some (take_digits s)
      else if startsWithLineTerminator s then None
      else lazyDigits r
  end.

(** An attempt of [/audio[\/\\].*?(\d+)/i] at the start of [s]. *)
Definition audioMatchAt (s : string) : option string :=
  match strip_prefix_ci "audio" s with
  | Some (String c r) =>
      if Ascii.eqb c "/" || Ascii.eqb c (ascii_of_N 92) then lazyDigits r
      else None
  | _ => None
  end.

(** [f.match(/audio[\/\\].*?(\d+)/i)], the captured group of the leftmost
    match. *)
Fixpoint audioMatch (f : string) : option string :=
  match audioMatchAt f with
  | Some d => Some d
  | None =>
      match f with
      | EmptyString => None
      | String _ r => audioMatch r
      end
  end.

(** [parseInt] of a run of digits (exact; JavaScript agrees below 2^53). *)
Definition parseDigits (s : string) : N :=
  (fix go (s : string) (acc : N) : N :=
     match s with
     | EmptyString => acc
     | String c r => go r (10 * acc + digitValue c)
     end) s 0.

(** [audioPatterns] for page [n]. *)
Definition audioPatterns (n : N) : list (string -> bool) :=
  [ includes ("audio/page_" +:+ JS.String_ n);
    includes ("audio/Page_" +:+ JS.String_ n);
    includes ("page_" +:+ JS.String_ n +:+ ".m4a");
    includes ("Page" +:+ pad3 n);
    includes ("audio/" +:+ JS.String_ n);
    fun f =>
      match audioMatch f with
      | Some d => N.eqb (parseDigits d) n
      | None => false
      end ].

(** The loop over [audioPatterns]: the first pattern that finds a file
    with a non-empty name. *)
Fixpoint findByPatterns (files : list string) (patterns : list (string -> bool))
    : option string :=
  match patterns with
  | [] => None
  | p :: r =>
      match findTruthy p files with
      | Some f => Some f
      | None => findByPatterns files r
      end
  end.

(** [allAudioFiles] *)
Definition allAudioFilesOf (files : list string) : list string :=
  List.filter
    (fun f => includes "audio" f || endsWith ".m4a" f || endsWith ".mp3" f)
    files.

(** The audio file of the page at index [i] of a new-format archive. *)
Definition newFormatAudioFile (files : list string) (i : nat) : option string :=
  match findByPatterns files (audioPatterns (N.of_nat i + 1)) with
  | Some f => Some f
  | None =>
      match merge_sort String.le (allAudioFilesOf files) !! i with
      | Some f => if JS.truthy f then Some f else None
      | None => None
      end
  end.

(** The audio file of page [n] of an old-format archive. *)
Definition oldFormatAudioFile (files : list string) (n : N) : option string :=
  findTruthy
    (fun f =>
       (includes "audio" f || endsWith ".m4a" f)
       && (includes (JS.String_ n) f
           || includes ("page" +:+ JS.String_ n) f
           || includes ("Page" +:+ JS.String_ n) f))
    files.

(** [pageData.audio] for the audio file that was found. *)
Definition audioOf (zip : Archive) (name : string) (n : N)
    (audioFile : option string) : Outcome (option AudioData) :=
  match audioFile with
  | Some f =>
      audioBlob <~ zip_blob zip f ;;
      let audioFileName :=
        or_string (lastSegment "/" f) (lastSegment (ascii_of_N 92) f) in
      Returned
        (Some (mkAudioData audioBlob audioFileName
                 (name +:+ "_page_" +:+ pad3 n +:+ "_audio.m4a")))
  | None => Returned None
  end.

(** [pageData.stroke] of the page at index [i] of a new-format archive. *)
Definition strokesOf (ps : Parser) (st : ViwoodsSettings) (zip : Archive)
    (files : list string) (pageResource : list Resource) (i : nat)
    : Outcome (option (list (list N))) :=
  if isSvg (outputFormat st) then
    let pathFiles :=
      List.filter (fun r => bool_decide (res_resourceType r = Some 7))
        pageResource in
    match pathFiles !! i with
    | Some pathResource =>
        match
          findTruthy
            (includes (default "undefined" (res_fileName pathResource))) files
        with
        | Some pathFile =>
            text <~ zip_string zip pathFile ;;
            strokes <~ parseStrokes ps text ;;
            Returned (Some strokes)
        | None => Returned None
        end
    | None => Returned None
    end
  else Returned None.

(** The loop over [mainBmpFiles] from index [i] on. *)
Fixpoint newFormatPages (ps : Parser) (pf : Platform) (st : ViwoodsSettings)
    (zip : Archive) (files : list string) (name : string)
    (pageResource : list Resource) (mainBmpFiles : list Resource) (i : nat)
    : Outcome (list PageData) :=
  match mainBmpFiles with
  | [] => Returned []
  | bmpResource :: rest =>
      match
        findTruthy
          (fun f => bool_decide (Some f = res_fileName bmpResource)) files
      with
      | Some imageFile =>
          blob <~ zip_blob zip imageFile ;;
          let hash := hashImageData pf blob in
          strokes <~ strokesOf ps st zip files pageResource i ;;
          audio <~ audioOf zip name (N.of_nat i + 1)
                     (newFormatAudioFile files i) ;;
          pages <~ newFormatPages ps pf st zip files name pageResource rest
                     (S i) ;;
          Returned
            (mkPageData (N.of_nat i + 1) (mkImageData blob hash) strokes audio
               :: pages)
      | None =>
          newFormatPages ps pf st zip files name pageResource rest (S i)
      end
  end.

(** The loop over [noteList] from index [i] on. *)
Fixpoint oldFormatPages (pf : Platform) (zip : Archive) (files : list string)
    (name : string) (noteList : list string) (i : nat)
    : Outcome (list PageData) :=
  match noteList with
  | [] => Returned []
  | pageId :: rest =>
      match findTruthy (String.eqb (pageId +:+ ".png")) files with
      | Some imageFile =>
          blob <~ zip_blob zip imageFile ;;
          let hash := hashImageData pf blob in
          audio <~ audioOf zip name (N.of_nat i + 1)
                     (oldFormatAudioFile files (N.of_nat i + 1)) ;;
          pages <~ oldFormatPages pf zip files name rest (S i) ;;
          Returned
            (mkPageData (N.of_nat i + 1) (mkImageData blob hash) None audio
               :: pages)
      | None => oldFormatPages pf zip files name rest (S i)
      end
  end.

Definition emptyMetadata : Metadata := mkMetadata None None None None.

(** [convertNoteToBook] *)
Definition convertNoteToBook (ps : Parser) (pf : Platform)
    (st : ViwoodsSettings) (ds : DecodeSettings) (zip : Archive)
    (files : list string) (fileName : string) (isNewFormat : bool)
    : Outcome BookResult :=
  let bookName0 :=
    replace_first ".zip" EmptyString
      (replace_first ".note" EmptyString fileName) in
  named <~
    (if isNewFormat then
       match findTruthy (includes "NoteFileInfo.json") files with
       | Some noteFileInfo =>
           text <~ zip_string zip noteFileInfo ;;
           info <~ parseNoteFileInfo ps text ;;
           Returned
             (filePrefix ds +:+ JS.or_else (info_fileName info) bookName0,
              info_metadata info)
       | None => Returned (bookName0, emptyMetadata)
       end
     else
       match findTruthy (includes "NotesBean.json") files with
       | Some notesBeanFile =>
           text <~ zip_string zip notesBeanFile ;;
           bean <~ parseNotesBean ps text ;;
           Returned
             (filePrefix ds +:+
              JS.or_else (nickname bean) (JS.or_else (noteName bean) bookName0),
              bean_metadata bean)
       | None => Returned (bookName0, emptyMetadata)
       end) ;;
  let '(name, metadata) := named in
  pages <~
    (if isNewFormat then
       match findTruthy (includes "PageResource.json") files with
       | Some pageResourceFile =>
           text <~ zip_string zip pageResourceFile ;;
           pageResource <~ parsePageResource ps text ;;
           let mainBmpFiles :=
             List.filter
               (fun r =>
                  match res_fileName r with
                  | Some fn => includes "mainBmp" fn
                  | None => false
                  end)
               pageResource in
           newFormatPages ps pf st zip files name pageResource mainBmpFiles 0
       | None => Returned []
       end
     else
       match findTruthy (includes "NoteList.json") files with
       | Some noteListFile =>
           text <~ zip_string zip noteListFile ;;
           noteList <~ parseNoteList ps text ;;
           oldFormatPages pf zip files name noteList 0
       | None => Returned []
       end) ;;
  thumbnail <~
    (if includeThumbnails ds then
       match
         findTruthy (fun f => includes "Thumbnail" f || includes "thumbnai" f)
           files
       with
       | Some thumbnailFile =>
           blob <~ zip_blob zip thumbnailFile ;;
           Returned (Some blob)
       | None => Returned None
       end
     else Returned None) ;;
  Returned (mkBookResult name metadata pages thumbnail).

(** What the decoder guarantees of a page at an index after [i]. *)
Definition decodedPage (pf : Platform) (st : ViwoodsSettings) (name : string)
    (i : nat) (page : PageData) : Prop :=
  (N.of_nat i < pageNum page)%N
  /\ img_hash (image page) = hashImageData pf (img_blob (image page))
  /\ (forall a, audio page = Some a ->
        audio_name a = name +:+ "_page_" +:+ pad3 (pageNum page) +:+ "_audio.m4a")
  /\ (is_Some (stroke page) -> isSvg (outputFormat st) = true).

(** ** The whole import: [processNoteFile] *)

(** A dropped or chosen file. *)
Record NoteFile := mkNoteFile {
  file_name : string;
  (** [JSZip.loadAsync(file)]: the names of the entries ([Object.keys
      (zip.files)]) and the archive *)
  file_load : Outcome (list string * Archive)
}.

(** How [processNoteFile] ends: the notice it shows, or the summary it
    hands to the summary dialog together with the path of the backup. *)
Inductive NoteResult :=
| AlreadyInProgress
| JSZipNotLoaded
| NothingSelected
| Imported (summ : ImportSummary) (backupPath : option string)
| FailedToImport (msg : string).

(** The user's answer to the import dialog. *)
Definition Dialog : Type :=
  BookResult -> option ImportManifest -> option Analysis -> list N.

(** "If no manifest but folder exists with pages, try to recover". *)
Definition loadOrRecover (hs : Host) (pf : Platform) (st : ViwoodsSettings)
    (book : BookResult) : IO (option ImportManifest) :=
  let bookFolder := bookFolderOf st (book_name book) in
  existingManifest <- loadManifest hs pf (manifestPathOf bookFolder) ;;
  match existingManifest with
  | Some m => ret (Some m)
  | None =>
      fun w =>
        match getAbstractFileByPath w bookFolder with
        | Some TFolder =>
            recoverManifestFromExistingFiles hs pf st bookFolder
              (book_name book) w
        | _ => ret None w
        end
  end.

(** The [try] block of [processNoteFile] from the decoded book on; [None]
    when the loop over the batches does not end within [fuel]
    iterations. *)
Definition importBook (fuel : nat) (hs : Host) (pf : Platform)
    (st : ViwoodsSettings) (dateNow : N) (dialog : Dialog) (book : BookResult)
    (w : World) : option (NoteResult * World) :=
  let bookFolder := bookFolderOf st (book_name book) in
  let manifestPath := manifestPathOf bookFolder in
  match loadOrRecover hs pf st book w with
  | (Threw msg, w1) => Some (FailedToImport msg, w1)
  | (Returned existingManifest, w1) =>
      let '(backupPath, w2) :=
        if bool_decide (is_Some existingManifest) && createBackups st
        then createManifestBackup pf st dateNow manifestPath w1
        else (None, w1) in
      let '(analysis, w3) :=
        match existingManifest with
        | Some m =>
            if autoDetectChanges st then
              let '(a, w') := analyzeChanges pf st book (Some m) w2 in
              (Some a, w')
            else (None, w2)
        | None => (None, w2)
        end in
      let pagesToImport := dialog book existingManifest analysis in
      if bool_decide (pagesToImport = []) then Some (NothingSelected, w3)
      else
        match
          importSelectedPagesWithProgress fuel pf st book pagesToImport
            existingManifest w3
        with
        | None => None
        | Some r =>
            match run_outcome r with
            | Returned summ => Some (Imported summ backupPath, run_world r)
            | Threw msg => Some (FailedToImport msg, run_world r)
            end
        end
  end.

(** [processNoteFile]; [jszip] tells whether [window.JSZip] is there, and
    the flag is [importInProgress], before and after. *)
Definition processNoteFile (fuel : nat) (hs : Host) (ps : Parser)
    (pf : Platform) (st : ViwoodsSettings) (ds : DecodeSettings) (jszip : bool)
    (dateNow : N) (dialog : Dialog) (file : NoteFile)
    (importInProgress : bool) (w : World)
    : option (NoteResult * bool * World) :=
  if importInProgress then Some (AlreadyInProgress, true, w)
  else if negb jszip then Some (JSZipNotLoaded, false, w)
  else
    match file_load file with
    | Threw msg => Some (FailedToImport msg, false, w)
    | Returned (files, zip) =>
        let isNewFormat := existsb (includes "NoteFileInfo.json") files in
        match
          convertNoteToBook ps pf st ds zip files (file_name file) isNewFormat
        with
        | Threw msg => Some (FailedToImport msg, false, w)
        | Returned book =>
            match importBook fuel hs pf st dateNow dialog book w with
            | Some (result, w') => Some (result, false, w')
            | None => None
            end
        end
    end.

(** A computation never changes or removes what the vault holds at [x]. *)
Definition preserves {A} (x : string) (f : World -> A * World) : Prop :=
  forall w node, vault w !! x = Some node -> vault (f w).2 !! x = Some node.

(** The files, other than its page document, that the task of a page may
    write: its image, its SVG and its audio. *)
Definition sidePaths (pf : Platform) (st : ViwoodsSettings) (book : BookResult)
    (page : PageData) : list string :=
  let bookFolder := bookFolderOf st (book_name book) in
  imagePathOf pf st bookFolder book (pageNum page)
  :: normalizePath pf
       (bookFolder +:+ "/" +:+ imagesFolder st +:+ "/" +:+
        svgNameOf book (pageNum page))
  :: match audio page with
     | Some a =>
         [normalizePath pf
            ((bookFolder +:+ "/" +:+ audioFolder st) +:+ "/" +:+ audio_name a)]
     | None => []
     end.

(** No page document of a selected page is the image, SVG or audio file of
    a page of the book. *)
Definition documentsApart (pf : Platform) (st : ViwoodsSettings)
    (book : BookResult) (sel : list N) : Prop :=
  forall p page,
    p ∈ sel -> page ∈ book_pages book ->
    pagePathOf (bookFolderOf st (book_name book)) p ∉ sidePaths pf st book page.

(** Every entry a computation adds to the log satisfies [P]. *)
Definition logsOnly {A} (P : Event -> Prop) (f : World -> A * World) : Prop :=
  forall w, exists post, calls (f w).2 = post ++ calls w /\ Forall P post.

(** A log entry that is no accepted write or deletion of the file at
    [path]. *)
Definition leavesFile (path : string) (e : Event) : Prop :=
  writesAt path e = false.

(** From the world [w0] to the world [w] the file at [path] was kept: the
    vault still holds the node [node] there, and no call accepted in
    between has written or deleted it. *)
Definition keptSince (path : string) (node : VNode) (w0 w : World) : Prop :=
  vault w !! path = Some node
  /\ exists post, calls w = post ++ calls w0 /\ Forall (leavesFile path) post.

(** The image file of page [n] has a path of its own: it is no page
    document, not the index, not the manifest, and not the image of
    another page, the SVG or the audio file of any page of the book.
    (Paths go through [normalizePath], and the names of audio files come
    from the archive.) *)
Definition imageApart (pf : Platform) (st : ViwoodsSettings)
    (book : BookResult) (n : N) : Prop :=
  let bookFolder := bookFolderOf st (book_name book) in
  let x := imagePathOf pf st bookFolder book n in
  (forall k, pagePathOf bookFolder k <> x)
  /\ bookFolder +:+ "/Index.md" <> x
  /\ manifestPathOf bookFolder <> x
  /\ forall page,
       page ∈ book_pages book ->
       (pageNum page <> n -> imagePathOf pf st bookFolder book (pageNum page) <> x)
       /\ normalizePath pf
            (bookFolder +:+ "/" +:+ imagesFolder st +:+ "/" +:+
             svgNameOf book (pageNum page)) <> x
       /\ forall a, audio page = Some a ->
            normalizePath pf
              ((bookFolder +:+ "/" +:+ audioFolder st) +:+ "/" +:+ audio_name a)
            <> x.

(** ** Concrete platforms, books and vaults *)

Module Ex.

(** A platform on which nothing rejects and no digest can be computed. *)
Definition noDigest : Platform :=
  mkPlatform (fun _ => Threw "digest unavailable") id (fun _ _ => None)
    "2025-01-01T00:00:00.000Z" (fun _ => "{}") (fun _ => Returned "2025-01-01")
    id (fun _ b => blob_arrayBuffer b) (fun _ => "<svg/>") false None
    (fun _ _ s => s).

Definition settings : ViwoodsSettings :=
  mkSettings "Viwoods Notes" "Images" "Audio" FmtPng "#FFFFFF"
    true true true false true 10 true true true 50.

Definition blobOf (sz : N) : Blob := mkBlob sz (Returned []).

Definition emptyWorld : World := mkWorld ∅ [].

(** Settings that keep two history entries. *)
Definition smallHistory : ViwoodsSettings :=
  mkSettings "Viwoods Notes" "Images" "Audio" FmtPng "#FFFFFF"
    true true true false true 10 true true true 2.

(** A manifest whose history already holds two entries. *)
Definition fullManifest : ImportManifest :=
  mkImportManifest "Book" 1 ∅ "2025-01-01T00:00:00.000Z" "Book" "1.1"
    (Some [mkImportHistory "2025-01-02" ActImport [1] "second";
           mkImportHistory "2025-01-01" ActImport [1] "first"]).

(** A decoded page without strokes or audio. *)
Definition plainPage (pf : Platform) (n : N) (b : Blob) : PageData :=
  mkPageData n (mkImageData b (hashImageData pf b)) None None.

(** The manifest entry an earlier import of [b] as page [n] has left. *)
Definition entryOf (pf : Platform) (st : ViwoodsSettings) (n : N) (b : Blob)
    : PageInfo :=
  mkPageInfo (pageFileNameOf n) (now pf) (hashImageData pf b) None false
    (Some false) (Some (now pf)) (Some (blob_size b))
    (Some (set_backgroundColor st)).

Definition manifestOf (total : N) (ip : gmap N PageInfo) : ImportManifest :=
  mkImportManifest "Book" total ip "2025-01-01T00:00:00.000Z" "Book" "1.1"
    (Some []).

Definition bookOf (ps : list PageData) : BookResult :=
  mkBookResult "Book" (mkMetadata None None None None) ps None.

(** Page 1 was imported from a 12-byte blob whose digest failed; the new
    archive holds a 120-byte blob whose digest fails too. *)
Definition fallbackManifest : ImportManifest :=
  manifestOf 1 {[ 1 := entryOf noDigest settings 1 (blobOf 12) ]}.

Definition fallbackBook : BookResult :=
  bookOf [plainPage noDigest 1 (blobOf 120)].

(** Three pages imported earlier; the new archive holds the first two. *)
Definition threePageManifest : ImportManifest :=
  manifestOf 3
    (<[1 := entryOf noDigest settings 1 (blobOf 10)]>
       (<[2 := entryOf noDigest settings 2 (blobOf 20)]>
          {[ 3 := entryOf noDigest settings 3 (blobOf 30) ]})).

Definition twoPageBook : BookResult :=
  bookOf [plainPage noDigest 1 (blobOf 10); plainPage noDigest 2 (blobOf 20)].

(** An entry whose fingerprint was reset by the "reset hashes" command. *)
Definition resetEntry : PageInfo :=
  mkPageInfo (pageFileNameOf 1) (now noDigest) "RESET-1735689600000" None
    false (Some false) (Some (now noDigest)) (Some 10)
    (Some (set_backgroundColor settings)).

Definition resetManifest : ImportManifest := manifestOf 1 {[ 1 := resetEntry ]}.

Definition onePageBook : BookResult := bookOf [plainPage noDigest 1 (blobOf 10)].

(** A page document whose frontmatter embeds a fingerprint, and a manifest
    whose copy of the fingerprint for that page is another one. *)
Definition pageDocument : string :=
  "---" +:+ nl +:+
  "book: " +:+ dq +:+ "Book" +:+ dq +:+ nl +:+
  "page: 1" +:+ nl +:+
  "original_image_hash: " +:+ dq +:+ "0123456789abcdef0123456789abcdef" +:+ dq
    +:+ nl +:+
  "---" +:+ nl +:+ nl +:+ "![[Book_page_001.png]]" +:+ nl.

Definition staleEntry : PageInfo :=
  mkPageInfo (pageFileNameOf 1) (now noDigest)
    "00000000000000000000000000000000" None false (Some false)
    (Some (now noDigest)) (Some 10) (Some (set_backgroundColor settings)).

Definition staleManifest : ImportManifest := manifestOf 1 {[ 1 := staleEntry ]}.

Definition pageWorld : World :=
  mkWorld {[ "Viwoods Notes/Book/Page 001.md" := TFile (Text pageDocument) ]} [].

(** A platform with the Gemini Note Processor plugin installed. *)
Definition withGemini : Platform :=
  mkPlatform (fun _ => Threw "digest unavailable") id (fun _ _ => None)
    "2025-01-01T00:00:00.000Z" (fun _ => "{}") (fun _ => Returned "2025-01-01")
    id (fun _ b => blob_arrayBuffer b) (fun _ => "<svg/>") true
    (Some (mkGeminiPlugin (fun _ => Returned (Some "transcribed")) false
             (fun s => Returned s)))
    (fun _ _ s => s).

(** The default settings with Gemini processing switched on. *)
Definition geminiSettings : ViwoodsSettings :=
  mkSettings "Viwoods Notes" "Images" "Audio" FmtPng "#FFFFFF"
    true true true true true 10 true true true 50.

(** Page 1 as an earlier import of the same blob, with the same settings,
    has left it in the manifest. *)
Definition unchangedManifest : ImportManifest :=
  manifestOf 1 {[ 1 := entryOf noDigest settings 1 (blobOf 10) ]}.

(** A vault that holds the image of page 1. *)
Definition imageWorld : World :=
  mkWorld {[ "Viwoods Notes/Book/Images/Book_page_001.png" := TFile (Binary []) ]}
    [].



(** A platform on which the page document of page 2 cannot be created. *)
Definition page2Fails : Platform :=
  mkPlatform (fun _ => Threw "digest unavailable") id
    (fun _ c =>
       match c with
       | CallCreate p _ =>
           if String.eqb p "Viwoods Notes/Book/Page 002.md"
           then Some "disk full" else None
       | _ => None
       end)
    "2025-01-01T00:00:00.000Z" (fun _ => "{}") (fun _ => Returned "2025-01-01")
    id (fun _ b => blob_arrayBuffer b) (fun _ => "<svg/>") false None
    (fun _ _ s => s).

(** The default settings with batches of two pages. *)
Definition batchSettings : ViwoodsSettings :=
  mkSettings "Viwoods Notes" "Images" "Audio" FmtPng "#FFFFFF"
    true true true false true 2 true true true 50.

Definition threePageBook : BookResult :=
  bookOf [plainPage noDigest 1 (blobOf 10); plainPage noDigest 2 (blobOf 20);
          plainPage noDigest 3 (blobOf 30)].

(** A platform with a working digest (a stand-in for SHA-256: the buffer
    itself, padded to 32 bytes). *)
Definition withDigest : Platform :=
  mkPlatform (fun b => Returned (take 32 (b ++ repeat Byte.x00 32))) id
    (fun _ _ => None)
    "2025-01-01T00:00:00.000Z" (fun _ => "{}") (fun _ => Returned "2025-01-01")
    id (fun _ b => blob_arrayBuffer b) (fun _ => "<svg/>") false None
    (fun _ _ s => s).

Definition digestBook : BookResult :=
  bookOf [plainPage withDigest 1 (mkBlob 2 (Returned [Byte.x01; Byte.xab]));
          plainPage withDigest 2 (mkBlob 1 (Returned [Byte.xff]))].

(** The manifest and the vault a first import of [digestBook] leaves. *)
Definition firstImport : option RunResult :=
  importSelectedPagesWithProgress 1 withDigest settings digestBook [1; 2] None
    emptyWorld.

(** A page document as the executor writes it when the digest failed. *)
Definition fallbackDocument : string :=
  frontmatterOf noDigest settings fallbackBook 1
    (plainPage noDigest 1 (blobOf 120)) true.

(** A vault in which the page document of page 1 embeds the digest of the
    page, while the manifest holds a reset marker. *)
Definition resetWorld : World :=
  mkWorld
    {[ "Viwoods Notes/Book/Page 001.md" :=
         TFile (Text (frontmatterOf noDigest settings onePageBook 1
                        (plainPage withDigest 1 (blobOf 10)) false)) ]} [].

Definition digestPageBook : BookResult :=
  bookOf [plainPage withDigest 1 (blobOf 10)].

(** A platform with the Gemini plugin on which the SVG of page 1 cannot be
    created. *)
Definition svgFails : Platform :=
  mkPlatform (fun _ => Threw "digest unavailable") id
    (fun _ c =>
       match c with
       | CallCreate p _ =>
           if String.eqb p "Viwoods Notes/Book/Images/Book_page_001.svg"
           then Some "disk full" else None
       | _ => None
       end)
    "2025-01-01T00:00:00.000Z" (fun _ => "{}") (fun _ => Returned "2025-01-01")
    id (fun _ b => blob_arrayBuffer b) (fun _ => "<svg/>") true
    (Some (mkGeminiPlugin (fun _ => Returned (Some "transcribed")) false
             (fun s => Returned s)))
    (fun _ _ s => s).

(** PNG and SVG output, with Gemini processing. *)
Definition bothSettings : ViwoodsSettings :=
  mkSettings "Viwoods Notes" "Images" "Audio" FmtBoth "#FFFFFF"
    true true true true true 10 true true true 50.

Definition strokeBook : BookResult :=
  bookOf [mkPageData 1
            (mkImageData (blobOf 10) (hashImageData noDigest (blobOf 10)))
            (Some [[1; 2; 3]]) None].

(** A platform on which the image of page 1 cannot be written. *)
Definition imageFails : Platform :=
  mkPlatform (fun _ => Threw "digest unavailable") id
    (fun _ c =>
       match c with
       | CallCreateBinary p _ =>
           if String.eqb p "Viwoods Notes/Book/Images/Book_page_001.png"
           then Some "disk full" else None
       | _ => None
       end)
    "2025-01-01T00:00:00.000Z" (fun _ => "{}") (fun _ => Returned "2025-01-01")
    id (fun _ b => blob_arrayBuffer b) (fun _ => "<svg/>") false None
    (fun _ _ s => s).

(** A host whose clock reads 1735689600000 and whose files have 10 bytes. *)
Definition host : Host :=
  mkHost (fun _ => Threw "Unexpected token") (fun _ => "2025-01-01T00:00:00.000Z")
    (fun _ => mkFileStat 10 1735689600000).

(** A vault that holds a book folder with the page documents of pages 1
    and 3, the image of page 1, and a file that is no page document. *)
Definition bookWorld : World :=
  mkWorld
    {[ "Viwoods Notes/Book" := TFolder;
       "Viwoods Notes/Book/Page 001.md" := TFile (Text "### Gemini Transcription");
       "Viwoods Notes/Book/Page 003.md" := TFile (Text "");
       "Viwoods Notes/Book/Index.md" := TFile (Text "");
       "Viwoods Notes/Book/Images" := TFolder;
       "Viwoods Notes/Book/Images/Book_page_001.png" := TFile (Binary []) ]} [].

(** An old-format archive of three pages; the image of page 2 is missing,
    and there is one recording. *)
Definition parser : Parser :=
  mkParser (fun _ => Threw "Unexpected token") (fun _ => Threw "Unexpected token")
    (fun _ => Threw "Unexpected token")
    (fun _ => Returned (mkNotesBean (Some "Book") None emptyMetadata))
    (fun _ => Returned ["p1"; "p2"; "p3"]).

Definition archive : Archive :=
  mkArchive (fun _ => Returned EmptyString)
    (fun f => Returned (if String.eqb f "p1.png" then blobOf 10 else blobOf 30)).

Definition archiveFiles : list string :=
  ["NotesBean.json"; "NoteList.json"; "p1.png"; "p3.png"; "audio/rec1.m4a"].

Definition decodeSettings : DecodeSettings := mkDecodeSettings EmptyString false.

Definition noteFile : NoteFile :=
  mkNoteFile "Book.note" (Returned (archiveFiles, archive)).

(** The book that archive decodes to. *)
Definition decodedBook : BookResult :=
  mkBookResult "Book" emptyMetadata
    [mkPageData 1 (mkImageData (blobOf 10) (hashImageData noDigest (blobOf 10)))
       None
       (Some (mkAudioData (blobOf 30) "rec1.m4a" "Book_page_001_audio.m4a"));
     mkPageData 3 (mkImageData (blobOf 30) (hashImageData noDigest (blobOf 30)))
       None None]
    None.

(** The dialog answered with "Import all pages". *)
Definition allPages : Dialog := fun book _ _ => pageNums book.

(** A host whose [JSON.parse] gives back the manifest [m]. *)
Definition parsingHost (m : ImportManifest) : Host :=
  mkHost (fun _ => Returned m) (fun _ => "2025-01-01T00:00:00.000Z")
    (fun _ => mkFileStat 10 1735689600000).

End Ex.

(** * Properties *)

(** ** History log *)

Lemma historyOf_setHistory m h : historyOf (setHistory m (Some h)) = h.
Proof. reflexivity. Qed.

(** C7. With history keeping enabled and a history that already holds at
    least [maxHistoryEntries] entries, [addHistoryEntry] leaves exactly
    [maxHistoryEntries] entries: the first [maxHistoryEntries] of the new
    entry followed by the old ones, so the entries are newest first and
    the oldest are the ones dropped. *)
Theorem addHistoryEntry_cap pf st m action pages summ :
  keepHistory st = true ->
  (maxHistoryEntries st <= N.of_nat (length (historyOf m)))%N ->
  let entry := mkImportHistory (now pf) action pages summ in
  let m' := addHistoryEntry pf st m action pages summ in
  historyOf m' = take (N.to_nat (maxHistoryEntries st)) (entry :: historyOf m)
  /\ length (historyOf m') = N.to_nat (maxHistoryEntries st)
  /\ ((0 < maxHistoryEntries st)%N ->
      historyOf m' =
        entry :: take (N.to_nat (maxHistoryEntries st) - 1) (historyOf m))
  /\ importedPages m' = importedPages m
  /\ totalPages m' = totalPages m.
Proof.
  intros Hkeep Hfull entry m'. subst m'. unfold addHistoryEntry.
  rewrite Hkeep. cbn [negb].
  fold entry.
  destruct (N.ltb_spec (maxHistoryEntries st)
              (N.of_nat (length (entry :: historyOf m)))) as [Hlt|Hge].
  - rewrite historyOf_setHistory. repeat split.
    + rewrite length_take. cbn [length] in *. lia.
    + intros Hpos.
      destruct (N.to_nat (maxHistoryEntries st)) as [|k] eqn:Hk; [lia|].
      cbn [take]. f_equal. f_equal. lia.
  - cbn [length] in Hge. lia.
Qed.

Lemma addHistoryEntry_cap_witness :
  keepHistory Ex.smallHistory = true
  /\ (maxHistoryEntries Ex.smallHistory
      <= N.of_nat (length (historyOf Ex.fullManifest)))%N
  /\ length (historyOf
               (addHistoryEntry Ex.noDigest Ex.smallHistory Ex.fullManifest
                  ActImport [1%N] "third")) = 2%nat.
Proof.
  assert (H1 : keepHistory Ex.smallHistory = true) by reflexivity.
  assert (H2 : (maxHistoryEntries Ex.smallHistory
                <= N.of_nat (length (historyOf Ex.fullManifest)))%N)
    by (vm_compute; discriminate).
  split; [exact H1|]. split; [exact H2|].
  exact (proj1 (proj2 (addHistoryEntry_cap Ex.noDigest Ex.smallHistory
                         Ex.fullManifest ActImport [1%N] "third" H1 H2))).
Defined.

(** ** Fingerprints *)

Lemma all_hex_app s t : all_hex s = true -> all_hex t = true -> all_hex (s +:+ t) = true.
Proof.
  induction s as [|c s IH]; simpl; [auto|].
  intros [Hc Hs]%andb_true_iff Ht. rewrite Hc. simpl. auto.
Qed.

Lemma all_hex_substring0 n s : all_hex s = true -> all_hex (JS.substring0 n s) = true.
Proof.
  unfold JS.substring0. revert s.
  induction n as [|n IH]; intros [|c s]; simpl; try reflexivity.
  intros [Hc Hs]%andb_true_iff. rewrite Hc. simpl. auto.
Qed.

Lemma all_hex_byte b : all_hex (JS.padStart 2 "0" (JS.toString16 b)) = true.
Proof. destruct b; reflexivity. Qed.

Lemma all_hex_hashHex l : all_hex (hashHex l) = true.
Proof.
  unfold hashHex. induction l as [|b l IH]; cbn [map JS.join_empty]; [reflexivity|].
  apply all_hex_app; [apply all_hex_byte | exact IH].
Qed.

Lemma realDigest_all_hex d : realDigest d -> all_hex d = true.
Proof. intros [l ->]. apply all_hex_substring0, all_hex_hashHex. Qed.

Lemma startsWith_true p s :
  JS.startsWith p s = true -> exists r, s = p +:+ r.
Proof.
  revert s. induction p as [|a p IH]; intros s; simpl.
  - intros _. exists s. reflexivity.
  - destruct s as [|b s]; [discriminate|].
    intros [Hab Hps]%andb_true_iff.
    apply Ascii.eqb_eq in Hab. subst b.
    destruct (IH s Hps) as [r ->]. exists r. reflexivity.
Qed.

(** A string of hexadecimal digits cannot start with [fallback-]: its third
    character would be an [l]. *)
Lemma all_hex_not_fallback d :
  all_hex d = true -> JS.startsWith "fallback-" d = false.
Proof.
  intros Hhex. destruct (JS.startsWith "fallback-" d) eqn:Hp; [|reflexivity].
  apply startsWith_true in Hp. destruct Hp as [r ->].
  discriminate Hhex.
Qed.

Lemma fallbackHash_shape sz :
  exists r, fallbackHash sz = "fallback-" +:+ r.
Proof.
  unfold fallbackHash, JS.padEnd, JS.substring0. cbn.
  eexists. reflexivity.
Qed.

Lemma fallbackHash_prefix sz : JS.startsWith "fallback-" (fallbackHash sz) = true.
Proof. destruct (fallbackHash_shape sz) as [r ->]. reflexivity. Qed.

Lemma fallbackHash_not_special sz : isSpecialHash (fallbackHash sz) = false.
Proof. destruct (fallbackHash_shape sz) as [r ->]. reflexivity. Qed.

Lemma hashImageData_fails pf blob :
  digestFails pf blob -> hashImageData pf blob = fallbackHash (blob_size blob).
Proof.
  unfold digestFails, hashImageData.
  destruct (blob_arrayBuffer blob) as [buffer|]; [|reflexivity].
  destruct (subtle_digest pf buffer); [intros []|reflexivity].
Qed.

(** C8, as the code has it. When the digest cannot be computed,
    [hashImageData] returns [fallback-<size>] padded with zeros and cut to
    32 characters. That string starts with [fallback-], which no real
    digest does, so it differs from every real digest. The comparison
    downstream gives it no special treatment: a page whose baseline and
    whose fresh fingerprint are the same fallback string is classified as
    unchanged. *)
Theorem fallback_fingerprint pf blob :
  digestFails pf blob ->
  hashImageData pf blob = fallbackHash (blob_size blob)
  /\ JS.startsWith "fallback-" (hashImageData pf blob) = true
  /\ (forall d, realDigest d ->
        JS.startsWith "fallback-" d = false /\ d <> hashImageData pf blob)
  /\ (forall info page,
        imageHash info = hashImageData pf blob ->
        img_hash (image page) = hashImageData pf blob ->
        c_type (classifyPage (Some (mkExisting info None)) page) = TUnchanged).
Proof.
  intros Hfail. rewrite (hashImageData_fails _ _ Hfail).
  split; [reflexivity|]. split; [apply fallbackHash_prefix|]. split.
  - intros d Hd. pose proof (all_hex_not_fallback d (realDigest_all_hex d Hd)) as Hn.
    split; [exact Hn|]. intros ->. rewrite fallbackHash_prefix in Hn. discriminate.
  - intros info page Hinfo Hpage. unfold classifyPage, existingHash.
    cbn [fileHash manifestInfo JS.or_else].
    rewrite Hinfo, Hpage, fallbackHash_not_special, String.eqb_refl.
    reflexivity.
Qed.

Lemma fallback_fingerprint_witness :
  digestFails Ex.noDigest (Ex.blobOf 12)
  /\ hashImageData Ex.noDigest (Ex.blobOf 12) = "fallback-12000000000000000000000".
Proof.
  assert (H : digestFails Ex.noDigest (Ex.blobOf 12)) by exact I.
  split; [exact H|].
  rewrite (proj1 (fallback_fingerprint Ex.noDigest (Ex.blobOf 12) H)).
  reflexivity.
Defined.

(** C8, as stated, fails: the digests of a 12-byte blob and of a 120-byte
    blob both fail, the two fallback fingerprints are the same string, and
    both the Change Analyzer (comparing with the manifest's copy) and the
    executor take the page for unchanged. *)
Lemma fallback_fingerprints_compare_equal :
  digestFails Ex.noDigest (Ex.blobOf 12)
  /\ digestFails Ex.noDigest (Ex.blobOf 120)
  /\ blob_size (Ex.blobOf 12) <> blob_size (Ex.blobOf 120)
  /\ c_type <$> changes (analyzeChanges Ex.noDigest Ex.settings Ex.fallbackBook
                           (Some Ex.fallbackManifest) Ex.emptyWorld).1
     = [TUnchanged]
  /\ taskType (importedPages Ex.fallbackManifest !! 1%N)
       (Ex.plainPage Ex.noDigest 1 (Ex.blobOf 120)) = TUnchanged.
Proof.
  split; [exact I|]. split; [exact I|]. split; [discriminate|].
  vm_compute. split; reflexivity.
Qed.

(** ** The Change Analyzer *)

Lemma entries_elem {A} (m : gmap N A) k v :
  (k, v) ∈ entries m <-> m !! k = Some v.
Proof.
  unfold entries. rewrite merge_sort_Permutation. apply elem_of_map_to_list.
Qed.

Lemma entries_NoDup {A} (m : gmap N A) : NoDup (entries m).*1.
Proof.
  unfold entries. rewrite merge_sort_Permutation. apply NoDup_fst_map_to_list.
Qed.

Lemma vault_call_vault_id pf c w : vault (vault_call pf c id w).2 = vault w.
Proof. unfold vault_call. destruct (rejects pf _ c); reflexivity. Qed.

Lemma vault_read_vault pf path w : vault (vault_read pf path w).2 = vault w.
Proof.
  unfold vault_read. pose proof (vault_call_vault_id pf (CallRead path) w) as H.
  destruct (vault_call pf (CallRead path) id w) as [[[]|msg] w']; cbn in *;
    [|exact H].
  destruct (vault w !! path) as [[d|]|]; exact H.
Qed.

Lemma vault_read_ok pf path w d :
  rejects pf (length (calls w)) (CallRead path) = None ->
  vault w !! path = Some (TFile d) ->
  (vault_read pf path w).1 = Returned (textOf d).
Proof.
  intros Hr Hv. unfold vault_read, vault_call. rewrite Hr, Hv. reflexivity.
Qed.

Lemma readFileHash_vault pf bf n w : vault (readFileHash pf bf n w).2 = vault w.
Proof.
  unfold readFileHash. destruct (isTFile _); [|reflexivity].
  pose proof (vault_read_vault pf (pagePathOf bf n) w) as H.
  destruct (vault_read pf (pagePathOf bf n) w) as [[c|msg] w']; exact H.
Qed.


Lemma readFileHash_found pf bf n w d :
  rejects pf (length (calls w)) (CallRead (pagePathOf bf n)) = None ->
  vault w !! pagePathOf bf n = Some (TFile d) ->
  (readFileHash pf bf n w).1 = embeddedHash (textOf d).
Proof.
  intros Hr Hv. unfold readFileHash, getAbstractFileByPath.
  rewrite Hv. cbn [isTFile].
  pose proof (vault_read_ok pf _ w d Hr Hv) as H.
  destruct (vault_read pf (pagePathOf bf n) w) as [[c|msg] w']; cbn in H;
    [|discriminate].
  inversion H; reflexivity.
Qed.


Lemma readFileHashes_vault pf bf l acc w :
  vault (readFileHashes pf bf l acc w).2 = vault w.
Proof.
  revert acc w. induction l as [|[n info] l IH]; intros acc w; cbn; [reflexivity|].
  pose proof (readFileHash_vault pf bf n w) as H.
  destruct (readFileHash pf bf n w) as [h w']. cbn in H.
  rewrite IH. exact H.
Qed.

Lemma readFileHashes_other pf bf l acc w k :
  k ∉ l.*1 -> (readFileHashes pf bf l acc w).1 !! k = acc !! k.
Proof.
  revert acc w. induction l as [|[n info] l IH]; intros acc w Hk; cbn; [reflexivity|].
  cbn in Hk. apply not_elem_of_cons in Hk as [Hne Hk].
  destruct (readFileHash pf bf n w) as [h w'].
  rewrite IH by exact Hk. apply lookup_insert_ne. congruence.
Qed.

(** The entry the loop over the page files leaves for a page of the
    manifest: the manifest's record and the fingerprint read from the page
    document at some moment of the loop. *)
Lemma readFileHashes_entry pf bf l acc w k info :
  NoDup l.*1 -> (k, info) ∈ l ->
  exists w1, vault w1 = vault w
    /\ (readFileHashes pf bf l acc w).1 !! k
       = Some (mkExisting info (readFileHash pf bf k w1).1).
Proof.
  revert acc w. induction l as [|[n i] l IH]; intros acc w Hnd Hin.
  - apply elem_of_nil in Hin as [].
  - cbn in Hnd. apply NoDup_cons in Hnd as [Hn Hnd].
    apply elem_of_cons in Hin as [Heq|Hin].
    + inversion Heq; subst n i. exists w. split; [reflexivity|].
      cbn. destruct (readFileHash pf bf k w) as [h w'] eqn:Hr.
      rewrite readFileHashes_other by exact Hn.
      rewrite lookup_insert_eq. reflexivity.
    + cbn. pose proof (readFileHash_vault pf bf n w) as Hv.
      destruct (readFileHash pf bf n w) as [h w'] eqn:Hr. cbn in Hv.
      destruct (IH (<[n:=mkExisting i h]> acc) w' Hnd Hin) as (w1 & Hv1 & Hl).
      exists w1. split; [congruence|exact Hl].
Qed.

Lemma loadExistingMap_None pf st book m w k :
  importedPages m !! k = None -> (loadExistingMap pf st book m w).1 !! k = None.
Proof.
  intros Hk. unfold loadExistingMap.
  rewrite readFileHashes_other.
  - rewrite lookup_fmap, Hk. reflexivity.
  - intros Hin. apply list_elem_of_fmap in Hin as ([k' i] & -> & Hin).
    apply entries_elem in Hin. cbn in Hk. congruence.
Qed.

Lemma loadExistingMap_Some pf st book m w k info :
  importedPages m !! k = Some info ->
  exists w1, vault w1 = vault w
    /\ (loadExistingMap pf st book m w).1 !! k
       = Some (mkExisting info
                 (readFileHash pf (bookFolderOf st (book_name book)) k w1).1).
Proof.
  intros Hk. unfold loadExistingMap.
  apply readFileHashes_entry; [apply entries_NoDup|].
  apply entries_elem, Hk.
Qed.

Lemma loadExistingMap_dom pf st book m w k :
  is_Some ((loadExistingMap pf st book m w).1 !! k)
  <-> is_Some (importedPages m !! k).
Proof.
  destruct (importedPages m !! k) as [info|] eqn:Hk.
  - destruct (loadExistingMap_Some pf st book m w k info Hk) as (w1 & _ & ->).
    split; eauto.
  - rewrite loadExistingMap_None by exact Hk.
    split; intros [x Hx]; discriminate.
Qed.

Lemma changes_pushChange c a : changes (pushChange c a) = changes a ++ [c].
Proof. reflexivity. Qed.

Lemma analysisOf_app a cs1 cs2 :
  analysisOf a (cs1 ++ cs2) = analysisOf (analysisOf a cs1) cs2.
Proof. unfold analysisOf. apply fold_left_app. Qed.

Lemma changes_analysisOf a cs : changes (analysisOf a cs) = changes a ++ cs.
Proof.
  revert a. induction cs as [|c cs IH]; intros a; cbn.
  - symmetry. apply app_nil_r.
  - unfold analysisOf in IH. rewrite IH, changes_pushChange, <- app_assoc.
    reflexivity.
Qed.

Lemma numbersOf_cons_eq t c cs :
  c_type c = t -> numbersOf t (c :: cs) = c_pageNum c :: numbersOf t cs.
Proof.
  intros H. unfold numbersOf. rewrite filter_cons_True by exact H. reflexivity.
Qed.

Lemma numbersOf_cons_ne t c cs :
  c_type c <> t -> numbersOf t (c :: cs) = numbersOf t cs.
Proof.
  intros H. unfold numbersOf. rewrite filter_cons_False by exact H. reflexivity.
Qed.

Lemma numbersOf_app t cs1 cs2 :
  numbersOf t (cs1 ++ cs2) = numbersOf t cs1 ++ numbersOf t cs2.
Proof. unfold numbersOf. rewrite filter_app. apply fmap_app. Qed.

(** The four lists of the summary are the page numbers of the changes of
    the four types, in the order of the changes. *)
Lemma summary_analysisOf a cs :
  let s := summary (analysisOf a cs) in
  newPages s = newPages (summary a) ++ numbersOf TNew cs
  /\ modifiedPages s = modifiedPages (summary a) ++ numbersOf TModified cs
  /\ unchangedPages s = unchangedPages (summary a) ++ numbersOf TUnchanged cs
  /\ deletedPages s = deletedPages (summary a) ++ numbersOf TDeleted cs
  /\ errors s = errors (summary a)
  /\ s_totalPages s = s_totalPages (summary a).
Proof.
  revert a. induction cs as [|c cs IH]; intros a.
  - cbn. rewrite !app_nil_r. repeat split.
  - cbn [analysisOf fold_left]. fold (analysisOf (pushChange c a) cs).
    destruct (IH (pushChange c a)) as (H1 & H2 & H3 & H4 & H5 & H6).
    cbn zeta. rewrite H1, H2, H3, H4, H5, H6.
    unfold pushChange. cbn [summary].
    destruct (c_type c) eqn:E;
      rewrite (numbersOf_cons_eq _ c cs E),
        !(numbersOf_cons_ne _ c cs) by (rewrite E; discriminate);
      cbn; rewrite <- ?app_assoc; repeat split.
Qed.

Lemma checkPages_closed ps existingMap a :
  checkPages ps existingMap a
  = (remainingMap ps existingMap, analysisOf a (pageChanges ps existingMap)).
Proof.
  revert existingMap a. induction ps as [|page ps IH]; intros em a; [reflexivity|].
  cbn [checkPages pageChanges remainingMap fold_left analysisOf].
  destruct (em !! pageNum page) as [e|] eqn:He.
  - rewrite IH. reflexivity.
  - rewrite IH. rewrite (delete_id em (pageNum page) He). reflexivity.
Qed.

Lemma markDeleted_closed l a : markDeleted l a = analysisOf a (deletedChange <$> l).
Proof.
  unfold markDeleted, analysisOf. revert a.
  induction l as [|x l IH]; intros a; cbn; [reflexivity|apply IH].
Qed.

Lemma remainingMap_lookup ps em k :
  remainingMap ps em !! k
  = if decide (k ∈ pageNum <$> ps) then None else em !! k.
Proof.
  unfold remainingMap. revert em.
  induction ps as [|p ps IH]; intros em; cbn [fold_left fmap list_fmap].
  - destruct (decide _) as [H|_]; [apply elem_of_nil in H as []|reflexivity].
  - rewrite IH. destruct (decide (k ∈ pageNum <$> ps)) as [Hin|Hnin].
    + rewrite decide_True by (apply elem_of_cons; auto). reflexivity.
    + destruct (decide (k = pageNum p)) as [->|Hne].
      * rewrite decide_True by (apply elem_of_cons; auto).
        apply lookup_delete_eq.
      * rewrite decide_False
          by (intros [?|?]%elem_of_cons; [congruence|contradiction]).
        apply lookup_delete_ne. congruence.
Qed.

(** The result of the Change Analyzer against an existing manifest, in
    closed form. *)
Lemma analyzeChanges_closed pf st book m w :
  let em := (loadExistingMap pf st book m w).1 in
  (analyzeChanges pf st book (Some m) w).1
  = analysisOf
      (mkAnalysis [] (emptySummary (N.of_nat (length (book_pages book)))))
      (pageChanges (book_pages book) em
         ++ (deletedChange <$> entries (remainingMap (book_pages book) em))).
Proof.
  cbn zeta. unfold analyzeChanges.
  destruct (loadExistingMap pf st book m w) as [em w'].
  rewrite checkPages_closed, markDeleted_closed, analysisOf_app. reflexivity.
Qed.

Lemma classifyPage_pageNum o page : c_pageNum (classifyPage o page) = pageNum page.
Proof.
  unfold classifyPage. destruct o as [e|]; [|reflexivity].
  destruct (isSpecialHash _); [reflexivity|].
  destruct (negb _); reflexivity.
Qed.

Lemma classifyPage_not_deleted o page : c_type (classifyPage o page) <> TDeleted.
Proof.
  unfold classifyPage. destruct o as [e|]; [|discriminate].
  destruct (isSpecialHash _); [discriminate|].
  destruct (negb _); discriminate.
Qed.

Lemma pageChanges_pageNums ps em : c_pageNum <$> pageChanges ps em = pageNum <$> ps.
Proof.
  revert em. induction ps as [|p ps IH]; intros em; cbn; [reflexivity|].
  rewrite classifyPage_pageNum. f_equal. apply IH.
Qed.

Lemma pageChanges_not_deleted ps em c :
  c ∈ pageChanges ps em -> c_type c <> TDeleted.
Proof.
  revert em. induction ps as [|p ps IH]; intros em; cbn.
  - intros H. apply elem_of_nil in H as [].
  - intros [->|H]%elem_of_cons; [apply classifyPage_not_deleted|eauto].
Qed.

Lemma numbersOf_none t cs :
  (forall c, c ∈ cs -> c_type c <> t) -> numbersOf t cs = [].
Proof.
  induction cs as [|c cs IH]; intros H; [reflexivity|].
  rewrite numbersOf_cons_ne by (apply H, elem_of_cons; auto).
  apply IH. intros c' Hc'. apply H. apply elem_of_cons; auto.
Qed.

Lemma numbersOf_all t cs :
  (forall c, c ∈ cs -> c_type c = t) -> numbersOf t cs = c_pageNum <$> cs.
Proof.
  induction cs as [|c cs IH]; intros H; [reflexivity|].
  rewrite numbersOf_cons_eq by (apply H, elem_of_cons; auto).
  cbn. f_equal. apply IH. intros c' Hc'. apply H. apply elem_of_cons; auto.
Qed.

Lemma deletedChange_type (l : list (N * Existing)) c :
  c ∈ deletedChange <$> l -> c_type c = TDeleted.
Proof. intros ([k e] & -> & _)%list_elem_of_fmap. reflexivity. Qed.

Lemma numbersOf_deleted_entries (l : list (N * Existing)) :
  numbersOf TDeleted (deletedChange <$> l) = l.*1.
Proof.
  rewrite numbersOf_all by apply deletedChange_type.
  rewrite <- list_fmap_compose. reflexivity.
Qed.

(** The three lists of the decoded pages hold, together, the page numbers
    of the changes that are not deletions. *)
Lemma numbersOf_partition cs :
  (forall c, c ∈ cs -> c_type c <> TDeleted) ->
  numbersOf TNew cs ++ numbersOf TModified cs ++ numbersOf TUnchanged cs
  ≡ₚ c_pageNum <$> cs.
Proof.
  induction cs as [|c cs IH]; intros H; [reflexivity|].
  assert (Hc : c_type c <> TDeleted) by (apply H, elem_of_cons; auto).
  assert (IH' := IH (fun c' Hc' => H c' (proj2 (elem_of_cons _ _ _) (or_intror Hc')))).
  cbn [fmap list_fmap].
  destruct (c_type c) eqn:E; try contradiction;
    rewrite (numbersOf_cons_eq _ c cs E),
      !(numbersOf_cons_ne _ c cs) by (rewrite E; discriminate); cbn.
  - constructor. exact IH'.
  - rewrite <- Permutation_middle. constructor. exact IH'.
  - rewrite app_assoc, <- Permutation_middle, <- app_assoc.
    constructor. exact IH'.
Qed.

Lemma filter_keep_all {A} (P : A -> Prop) `{!forall x, Decision (P x)} (l : list A) :
  (forall x, x ∈ l -> P x) -> filter P l = l.
Proof.
  induction l as [|x l IH]; intros Hall; [reflexivity|].
  rewrite filter_cons_True by (apply Hall, elem_of_cons; auto).
  f_equal. apply IH. intros y Hy. apply Hall, elem_of_cons; auto.
Qed.

Lemma filter_keep_none {A} (P : A -> Prop) `{!forall x, Decision (P x)} (l : list A) :
  (forall x, x ∈ l -> ~ P x) -> filter P l = [].
Proof.
  induction l as [|x l IH]; intros Hall; [reflexivity|].
  rewrite filter_cons_False by (apply Hall, elem_of_cons; auto).
  apply IH. intros y Hy. apply Hall, elem_of_cons; auto.
Qed.

Lemma remaining_entries_keys ps (em : gmap N Existing) k :
  k ∈ (entries (remainingMap ps em)).*1
  <-> is_Some (em !! k) /\ k ∉ pageNum <$> ps.
Proof.
  split.
  - intros ([k' e] & -> & Hin)%list_elem_of_fmap. cbn.
    apply entries_elem in Hin. rewrite remainingMap_lookup in Hin.
    destruct (decide (k' ∈ pageNum <$> ps)); [discriminate|eauto].
  - intros [[e He] Hk]. apply list_elem_of_fmap. exists (k, e). split; [reflexivity|].
    apply entries_elem. rewrite remainingMap_lookup.
    rewrite decide_False by exact Hk. exact He.
Qed.

(** C4. Against an existing manifest, the Change Analyzer classifies as
    deleted exactly the page numbers that have a manifest entry and no page
    in the decoded book, and the changes that are not deletions are, in
    order, one per decoded page: the lists of new, modified and unchanged
    pages hold together the page numbers of the book and nothing else. *)
Theorem deletion_detection pf st book m w :
  let a := (analyzeChanges pf st book (Some m) w).1 in
  (forall k, k ∈ deletedPages (summary a)
             <-> is_Some (importedPages m !! k) /\ k ∉ pageNums book)
  /\ (forall k, k ∈ numbersOf TDeleted (changes a)
                <-> is_Some (importedPages m !! k) /\ k ∉ pageNums book)
  /\ c_pageNum <$> filter (fun c => c_type c <> TDeleted) (changes a)
     = pageNums book
  /\ newPages (summary a) ++ modifiedPages (summary a)
       ++ unchangedPages (summary a) ≡ₚ pageNums book
  /\ s_totalPages (summary a) = N.of_nat (length (book_pages book)).
Proof.
  cbn zeta. rewrite analyzeChanges_closed. cbn zeta.
  set (em := (loadExistingMap pf st book m w).1).
  set (pc := pageChanges (book_pages book) em).
  set (dc := deletedChange <$> entries (remainingMap (book_pages book) em)).
  set (a0 := mkAnalysis [] _).
  destruct (summary_analysisOf a0 (pc ++ dc)) as (Hn & Hm & Hu & Hd & _ & Ht).
  cbn zeta in *. rewrite changes_analysisOf. cbn [changes a0 app].
  assert (Hpc : forall c, c ∈ pc -> c_type c <> TDeleted)
    by apply pageChanges_not_deleted.
  assert (Hdc : forall c, c ∈ dc -> c_type c = TDeleted)
    by apply deletedChange_type.
  assert (Hdel : numbersOf TDeleted (pc ++ dc)
                 = (entries (remainingMap (book_pages book) em)).*1).
  { rewrite numbersOf_app, (numbersOf_none _ pc Hpc).
    apply numbersOf_deleted_entries. }
  assert (Hkeys : forall k,
    k ∈ (entries (remainingMap (book_pages book) em)).*1
    <-> is_Some (importedPages m !! k) /\ k ∉ pageNums book).
  { intros k. rewrite remaining_entries_keys. unfold em.
    rewrite loadExistingMap_dom. reflexivity. }
  split; [|split; [|split; [|split]]].
  - intros k. rewrite Hd. cbn [deletedPages summary a0 emptySummary app].
    rewrite Hdel. apply Hkeys.
  - intros k. rewrite Hdel. apply Hkeys.
  - rewrite filter_app, (filter_keep_all _ pc Hpc).
    rewrite (filter_keep_none _ dc)
      by (intros c Hc Hne; apply Hne, Hdc, Hc).
    rewrite app_nil_r. apply pageChanges_pageNums.
  - rewrite Hn, Hm, Hu. cbn [newPages modifiedPages unchangedPages summary a0
                             emptySummary app].
    rewrite !numbersOf_app.
    rewrite !(numbersOf_none _ dc) by (intros c Hc; rewrite (Hdc c Hc); discriminate).
    rewrite !app_nil_r.
    rewrite (numbersOf_partition pc Hpc). unfold pc.
    rewrite pageChanges_pageNums. reflexivity.
  - rewrite Ht. reflexivity.
Qed.

(** The scenario of the claim: a manifest with pages 1, 2 and 3 against a
    book that holds pages 1 and 2 only. *)
Example deletion_detection_example :
  let a := (analyzeChanges Ex.noDigest Ex.settings Ex.twoPageBook
              (Some Ex.threePageManifest) Ex.emptyWorld).1 in
  ((fun c => (c_pageNum c, c_type c)) <$> changes a)
    = [(1%N, TUnchanged); (2%N, TUnchanged); (3%N, TDeleted)]
  /\ deletedPages (summary a) = [3%N]
  /\ unchangedPages (summary a) = [1%N; 2%N]
  /\ s_totalPages (summary a) = 2%N.
Proof. vm_compute. repeat split. Qed.

Lemma classifyPage_special e page :
  isSpecialHash (existingHash e) = true ->
  classifyPage (Some e) page
  = mkPageChange (pageNum page) TModified (Some (existingHash e))
      (Some (img_hash (image page))) (Some (audioChanged page e)).
Proof. intros H. unfold classifyPage. rewrite H. reflexivity. Qed.

Lemma pageChanges_sentinel ps em page e :
  page ∈ ps -> em !! pageNum page = Some e ->
  isSpecialHash (existingHash e) = true ->
  exists c, c ∈ pageChanges ps em /\ c_pageNum c = pageNum page
            /\ c_type c = TModified /\ c_oldHash c = Some (existingHash e).
Proof.
  intros Hin He Hs. revert em He.
  induction ps as [|p ps IH]; intros em He; [apply elem_of_nil in Hin as []|].
  cbn [pageChanges].
  destruct (decide (pageNum p = pageNum page)) as [Heq|Hne].
  - exists (classifyPage (em !! pageNum p) p). rewrite Heq, He.
    rewrite (classifyPage_special e p Hs). cbn.
    split; [apply elem_of_cons; auto|]. auto.
  - apply elem_of_cons in Hin as [->|Hin]; [contradiction|].
    destruct (IH Hin (delete (pageNum p) em)) as (c & Hc & H).
    + rewrite lookup_delete_ne by exact Hne. exact He.
    + exists c. split; [apply elem_of_cons; auto|exact H].
Qed.

Lemma pageChanges_never_unchanged ps em k :
  (forall e, em !! k = Some e -> isSpecialHash (existingHash e) = true) ->
  forall c, c ∈ pageChanges ps em -> c_pageNum c = k -> c_type c <> TUnchanged.
Proof.
  revert em. induction ps as [|p ps IH]; intros em Hem c Hc Hk.
  - apply elem_of_nil in Hc as [].
  - cbn [pageChanges] in Hc. apply elem_of_cons in Hc as [->|Hc].
    + rewrite classifyPage_pageNum in Hk. rewrite Hk.
      destruct (em !! k) as [e|] eqn:He; [|discriminate].
      rewrite (classifyPage_special e p (Hem e eq_refl)). discriminate.
    + apply (IH (delete (pageNum p) em)); [|exact Hc|exact Hk].
      intros e He. apply lookup_delete_Some in He as [_ He]. auto.
Qed.

(** C1. A decoded page whose comparison baseline (the fingerprint embedded
    in its page document or else the manifest's) starts with [recovered-]
    or [RESET-] is classified as modified, with that baseline as its old
    hash, and never as unchanged, whatever its fresh digest is. *)
Theorem sentinel_dominance pf st book m w page e :
  page ∈ book_pages book ->
  (loadExistingMap pf st book m w).1 !! pageNum page = Some e ->
  isSpecialHash (existingHash e) = true ->
  let a := (analyzeChanges pf st book (Some m) w).1 in
  (exists c, c ∈ changes a /\ c_pageNum c = pageNum page
             /\ c_type c = TModified /\ c_oldHash c = Some (existingHash e))
  /\ (forall c, c ∈ changes a -> c_pageNum c = pageNum page ->
        c_type c <> TUnchanged)
  /\ pageNum page ∈ modifiedPages (summary a)
  /\ pageNum page ∉ unchangedPages (summary a).
Proof.
  intros Hin He Hs. cbn zeta. rewrite analyzeChanges_closed. cbn zeta.
  set (em := (loadExistingMap pf st book m w).1) in *.
  set (pc := pageChanges (book_pages book) em).
  set (dc := deletedChange <$> entries (remainingMap (book_pages book) em)).
  set (a0 := mkAnalysis [] _).
  destruct (summary_analysisOf a0 (pc ++ dc)) as (_ & Hm & Hu & _).
  cbn zeta in *. rewrite changes_analysisOf. cbn [changes a0 app].
  destruct (pageChanges_sentinel _ em page e Hin He Hs) as (c & Hc & Hn & Ht & Ho).
  fold pc in Hc.
  assert (Hnever : forall c', c' ∈ pc ++ dc -> c_pageNum c' = pageNum page ->
                              c_type c' <> TUnchanged).
  { intros c' [Hc'|Hc']%elem_of_app Hk.
    - apply (pageChanges_never_unchanged (book_pages book) em (pageNum page));
        [|exact Hc'|exact Hk].
      intros e' He'. rewrite He in He'. inversion He'; subst e'. exact Hs.
    - rewrite (deletedChange_type _ _ Hc'). discriminate. }
  split; [|split; [exact Hnever|split]].
  - exists c. split; [apply elem_of_app; auto|auto].
  - rewrite Hm. cbn [modifiedPages summary a0 emptySummary app].
    unfold numbersOf. apply list_elem_of_fmap. exists c. split; [auto|].
    apply list_elem_of_filter. split; [exact Ht|apply elem_of_app; auto].
  - rewrite Hu. cbn [unchangedPages summary a0 emptySummary app].
    unfold numbersOf. intros (c' & Hk & Hc')%list_elem_of_fmap.
    apply list_elem_of_filter in Hc' as [Ht' Hc'].
    apply (Hnever c' Hc'); [congruence|exact Ht'].
Qed.

Lemma sentinel_dominance_witness :
  let page := Ex.plainPage Ex.noDigest 1 (Ex.blobOf 10) in
  page ∈ book_pages Ex.onePageBook
  /\ isSpecialHash (imageHash Ex.resetEntry) = true
  /\ 1%N ∈ modifiedPages
            (summary (analyzeChanges Ex.noDigest Ex.settings Ex.onePageBook
                        (Some Ex.resetManifest) Ex.emptyWorld).1).
Proof.
  cbn zeta.
  assert (H1 : Ex.plainPage Ex.noDigest 1 (Ex.blobOf 10)
               ∈ book_pages Ex.onePageBook) by (apply elem_of_cons; auto).
  assert (H2 : (loadExistingMap Ex.noDigest Ex.settings Ex.onePageBook
                  Ex.resetManifest Ex.emptyWorld).1
               !! pageNum (Ex.plainPage Ex.noDigest 1 (Ex.blobOf 10))
               = Some (mkExisting Ex.resetEntry None))
    by (vm_compute; reflexivity).
  assert (H3 : isSpecialHash (existingHash (mkExisting Ex.resetEntry None)) = true)
    by reflexivity.
  split; [exact H1|]. split; [reflexivity|].
  exact (proj1 (proj2 (proj2
    (sentinel_dominance Ex.noDigest Ex.settings Ex.onePageBook Ex.resetManifest
       Ex.emptyWorld _ _ H1 H2 H3)))).
Defined.

Lemma hashMatch_truthy s h : hashMatch s = Some h -> JS.truthy h = true.
Proof.
  induction s as [|c s IH]; cbn [hashMatch].
  - unfold hashMatchAt. cbn. discriminate.
  - destruct (hashMatchAt (String c s)) as [h'|] eqn:E; [|exact IH].
    intros [= <-]. unfold hashMatchAt in E.
    destruct (strip_prefix _ _) as [r|]; [|discriminate].
    destruct (JS.truthy (take_hex _)) eqn:T; [|discriminate].
    inversion E; subst. exact T.
Qed.

Lemma embeddedHash_truthy content h :
  embeddedHash content = Some h -> JS.truthy h = true.
Proof.
  unfold embeddedHash. destruct (matchFrontmatter content); [|discriminate].
  apply hashMatch_truthy.
Qed.



(** ** The call log of the executor *)

Lemma saveCount_app l1 l2 : saveCount (l1 ++ l2) = (saveCount l1 + saveCount l2)%nat.
Proof.
  induction l1 as [|[c r|p] l1 IH]; cbn; [reflexivity|exact IH|].
  rewrite IH. reflexivity.
Qed.

Lemma quiet_ret {A} (a : A) : quiet (ret a).
Proof. intros w. exists []. split; reflexivity. Qed.

Lemma quiet_throw {A} msg : quiet (@throw A msg).
Proof. intros w. exists []. split; reflexivity. Qed.

Lemma quiet_lift {A} (o : Outcome A) : quiet (lift o).
Proof. intros w. exists []. split; reflexivity. Qed.

Lemma quiet_pure {A} (a : A) : quiet (fun w => (a, w)).
Proof. intros w. exists []. split; reflexivity. Qed.

Lemma quiet_bind {A B} (m : IO A) (k : A -> IO B) :
  quiet m -> (forall a, quiet (k a)) -> quiet (bind m k).
Proof.
  intros Hm Hk w. unfold bind. destruct (Hm w) as (p1 & H1 & S1).
  destruct (m w) as [[a|msg] w1]; cbn in H1.
  - destruct (Hk a w1) as (p2 & H2 & S2). exists (p2 ++ p1).
    rewrite H2, H1, <- app_assoc, saveCount_app, S1, S2. split; reflexivity.
  - exists p1. split; [exact H1|exact S1].
Qed.

Lemma quiet_try_catch {A} (m : IO A) (h : string -> IO A) :
  quiet m -> (forall msg, quiet (h msg)) -> quiet (try_catch m h).
Proof.
  intros Hm Hh w. unfold try_catch. destruct (Hm w) as (p1 & H1 & S1).
  destruct (m w) as [[a|msg] w1]; cbn in H1.
  - exists p1. split; [exact H1|exact S1].
  - destruct (Hh msg w1) as (p2 & H2 & S2). exists (p2 ++ p1).
    rewrite H2, H1, <- app_assoc, saveCount_app, S1, S2. split; reflexivity.
Qed.

(** Sequencing of quiet steps that always leave a world. *)
Lemma quiet_then {A B} (f : World -> A * World) (g : A -> World -> B * World) :
  quiet f -> (forall a, quiet (g a)) ->
  quiet (fun w => g (f w).1 (f w).2).
Proof.
  intros Hf Hg w. destruct (Hf w) as (p1 & H1 & S1).
  destruct (Hg (f w).1 (f w).2) as (p2 & H2 & S2).
  exists (p2 ++ p1). cbn. rewrite H2, H1, <- app_assoc, saveCount_app, S1, S2.
  split; reflexivity.
Qed.

Lemma quiet_if {A} (c : World -> bool) (f g : World -> A * World) :
  quiet f -> quiet g -> quiet (fun w => if c w then f w else g w).
Proof. intros Hf Hg w. destruct (c w); [apply Hf|apply Hg]. Qed.

Lemma quiet_ext {A} (f g : World -> A * World) :
  (forall w, f w = g w) -> quiet g -> quiet f.
Proof. intros E Hg w. rewrite E. apply Hg. Qed.

Lemma quiet_vault_call pf c effect : quiet (vault_call pf c effect).
Proof.
  intros w. unfold vault_call. destruct (rejects pf _ c) as [msg|].
  - exists [EvCall c (Some msg)]. split; reflexivity.
  - exists [EvCall c None]. split; reflexivity.
Qed.

Lemma quiet_vault_read pf path : quiet (vault_read pf path).
Proof.
  intros w. unfold vault_read.
  destruct (quiet_vault_call pf (CallRead path) id w) as (p & H & S).
  destruct (vault_call pf (CallRead path) id w) as [[[]|msg] w1]; cbn in H.
  - destruct (vault w !! path) as [[d|]|]; exists p; split; assumption.
  - exists p; split; assumption.
Qed.

Lemma quiet_vault_readBinary pf path : quiet (vault_readBinary pf path).
Proof.
  intros w. unfold vault_readBinary.
  destruct (quiet_vault_call pf (CallReadBinary path) id w) as (p & H & S).
  destruct (vault_call pf (CallReadBinary path) id w) as [[[]|msg] w1]; cbn in H.
  - destruct (vault w !! path) as [[d|]|]; exists p; split; assumption.
  - exists p; split; assumption.
Qed.

Create HintDb quiet.
#[global] Hint Resolve quiet_ret quiet_throw quiet_lift quiet_pure
  quiet_vault_call quiet_vault_read quiet_vault_readBinary : quiet.

Ltac quiet_step :=
  first
    [ apply quiet_ret | apply quiet_throw | apply quiet_lift | apply quiet_pure
    | apply quiet_vault_call | apply quiet_vault_read
    | apply quiet_vault_readBinary
    | apply quiet_bind; [|intros ?]
    | apply quiet_try_catch; [|intros ?]
    | apply quiet_if
    | solve [auto with quiet] ].

Ltac quiet_auto :=
  unfold vault_create, vault_createBinary, vault_modify, vault_delete,
    vault_createFolder, adapter_write, arrayBuffer;
  repeat quiet_step.

Lemma quiet_ensureFolders pf folders cur : quiet (ensureFolders pf folders cur).
Proof.
  revert cur. induction folders as [|f r IH]; intros cur; cbn [ensureFolders].
  - apply quiet_ret.
  - intros w. destruct (getAbstractFileByPath w _); [apply IH|].
    apply (quiet_bind (try_catch _ _) (fun _ => ensureFolders pf r _)).
    + apply quiet_try_catch; [apply quiet_vault_call|].
      intros msg w'.
      destruct (getAbstractFileByPath w' _); [apply quiet_ret|apply quiet_throw].
    + intros _. apply IH.
Qed.

Lemma quiet_ensureFolder pf path : quiet (ensureFolder pf path).
Proof. apply quiet_ensureFolders. Qed.
#[global] Hint Resolve quiet_ensureFolder : quiet.

Lemma quiet_createBookIndex pf bf name : quiet (createBookIndex pf bf name).
Proof. unfold createBookIndex. quiet_auto. Qed.

Lemma quiet_savePageFile pf path content : quiet (savePageFile pf path content).
Proof. unfold savePageFile. quiet_auto. Qed.

Lemma quiet_processImageWithBackground pf st blob :
  quiet (processImageWithBackground pf st blob).
Proof. unfold processImageWithBackground. destruct (_ || _); quiet_auto. Qed.
#[global] Hint Resolve quiet_createBookIndex quiet_savePageFile
  quiet_processImageWithBackground : quiet.

Lemma quiet_importAudio pf st bf page isNew isModified :
  quiet (importAudio pf st bf page isNew isModified).
Proof.
  unfold importAudio. destruct (audio page) as [a|]; [|apply quiet_ret].
  quiet_auto. intros w. destruct (isTFile _); [destruct (_ || _)|]; quiet_auto.
Qed.

Lemma quiet_writeImage pf st bf book page isNew isModified bg :
  quiet (writeImage pf st bf book page isNew isModified bg).
Proof.
  unfold writeImage. quiet_auto.
  intros w. destruct (isTFile _); [destruct (_ || _)|]; quiet_auto.
Qed.

Lemma quiet_importImage pf st bf book page isNew isModified bg :
  quiet (importImage pf st bf book page isNew isModified bg).
Proof.
  intros w. unfold importImage. destruct (isPng _); [|exists []; split; reflexivity].
  destruct (quiet_writeImage pf st bf book page isNew isModified bg w) as (p & H & S).
  destruct (writeImage _ _ _ _ _ _ _ _ w) as [[r|msg] w1]; exists p; split; assumption.
Qed.

Lemma quiet_importSvg pf st bf book page isNew isModified :
  quiet (importSvg pf st bf book page isNew isModified).
Proof.
  unfold importSvg. destruct (stroke page); [|apply quiet_ret].
  destruct (isSvg _); [|apply quiet_ret].
  quiet_auto. intros w. destruct (isTFile _); [destruct (_ || _)|]; quiet_auto.
Qed.
#[global] Hint Resolve quiet_importAudio quiet_writeImage quiet_importImage
  quiet_importSvg : quiet.

Lemma quiet_pageBody pf st book total existing page :
  quiet (pageBody pf st book total existing page).
Proof.
  intros w. unfold pageBody.
  destruct (frontmatterDates pf st book) as [[]|msgd];
    [|exists []; split; reflexivity].
  destruct (quiet_importAudio pf st (bookFolderOf st (book_name book)) page
              (isNewOf existing) (isModifiedOf existing page) w) as (p1 & H1 & S1).
  destruct (importAudio _ _ _ _ _ _ w) as [[ac|msg] w1]; cbn in H1;
    [|exists p1; split; assumption].
  destruct (quiet_importImage pf st (bookFolderOf st (book_name book)) book page
              (isNewOf existing) (isModifiedOf existing page)
              (backgroundChangedOf st existing) w1) as (p2 & H2 & S2).
  destruct (importImage _ _ _ _ _ _ _ _ w1) as [[ic q] w2]; cbn in H2.
  match goal with |- context [bind ?m ?k w2] =>
    assert (Hq : quiet (bind m k)) by quiet_auto;
    destruct (Hq w2) as (p3 & H3 & S3);
    destruct (bind m k w2) as [o w3] end.
  cbn in *. exists (p3 ++ p2 ++ p1).
  rewrite H3, H2, H1, <- !app_assoc, !saveCount_app, S1, S2, S3.
  split; reflexivity.
Qed.

(** ** The loop over the batches *)

Lemma importPages_app pf st book hm l1 l2 sw :
  importPages pf st book hm (l1 ++ l2) sw
  = importPages pf st book hm l2 (importPages pf st book hm l1 sw).
Proof. unfold importPages. apply fold_left_app. Qed.

Lemma importPages_cons pf st book hm n l sw :
  importPages pf st book hm (n :: l) sw
  = importPages pf st book hm l (importPage pf st book hm n sw).
Proof. reflexivity. Qed.

Lemma slice_take_drop {A} (l : list A) start b :
  (start < length l)%nat ->
  slice start (Nat.min (start + b) (length l)) l = take b (drop start l).
Proof.
  intros Hlt. unfold slice.
  destruct (Nat.le_gt_cases (start + b) (length l)) as [Hle|Hgt].
  - rewrite Nat.min_l by exact Hle. f_equal. lia.
  - rewrite Nat.min_r by lia.
    rewrite !take_ge; [reflexivity| |]; rewrite length_drop; lia.
Qed.

(** With a positive batch size the loop over the batches ends, within as
    many iterations as there are pages left, and it amounts to running the
    tasks of the selected pages in order. *)
Lemma runBatches_importPages pf st book hm sel :
  (0 < batchSize st)%N ->
  forall fuel start sw,
    (length sel - start <= fuel)%nat ->
    runBatches fuel pf st book hm sel start sw
    = Some (importPages pf st book hm (drop start sel) sw).
Proof.
  intros Hb. induction fuel as [|fuel IH]; intros start sw Hf;
    cbn [runBatches]; destruct (Nat.ltb_spec start (length sel)) as [Hlt|Hge];
    try lia.
  - rewrite drop_ge by exact Hge. reflexivity.
  - rewrite IH by lia. f_equal.
    rewrite slice_take_drop by exact Hlt.
    rewrite <- importPages_app.
    rewrite <- drop_drop, take_drop. reflexivity.
  - rewrite drop_ge by exact Hge. reflexivity.
Qed.

Lemma runBatches_total pf st book hm sel sw fuel :
  (0 < batchSize st)%N -> (length sel <= fuel)%nat ->
  runBatches fuel pf st book hm sel 0 sw
  = Some (importPages pf st book hm sel sw).
Proof.
  intros Hb Hf. rewrite (runBatches_importPages pf st book hm sel Hb) by lia.
  reflexivity.
Qed.

(** A batch size of zero: the loop never ends when a page is selected. *)
Lemma runBatches_zero pf st book hm sel sw fuel :
  batchSize st = 0%N -> sel <> [] ->
  runBatches fuel pf st book hm sel 0 sw = None.
Proof.
  intros Hb Hsel. revert sw. induction fuel as [|fuel IH]; intros sw;
    cbn [runBatches]; destruct (Nat.ltb_spec 0 (length sel)) as [Hlt|Hge].
  - reflexivity.
  - destruct sel; [contradiction|cbn in Hge; lia].
  - rewrite Hb. cbn [N.to_nat Nat.add]. apply IH.
  - destruct sel; [contradiction|cbn in Hge; lia].
Qed.

(** ** One page task *)

Lemma findPage_pageNum book n page : findPage book n = Some page -> pageNum page = n.
Proof.
  unfold findPage. intros H. apply find_some in H as [_ H].
  apply N.eqb_eq, H.
Qed.

Lemma findPage_in book n page : findPage book n = Some page -> n ∈ pageNums book.
Proof.
  intros H. pose proof (findPage_pageNum _ _ _ H) as <-.
  unfold findPage in H. apply find_some in H as [H _].
  apply list_elem_of_fmap. exists page. split; [reflexivity|].
  apply list_elem_of_In, H.
Qed.

Lemma findPage_None book n : findPage book n = None <-> n ∉ pageNums book.
Proof.
  split.
  - intros H Hin. apply list_elem_of_fmap in Hin as (p & -> & Hp).
    apply list_elem_of_In in Hp.
    pose proof (find_none _ _ H p Hp) as Hf. cbn in Hf.
    rewrite N.eqb_refl in Hf. discriminate.
  - intros H. destruct (findPage book n) as [page|] eqn:E; [|reflexivity].
    exfalso. apply H, (findPage_in _ _ _ E).
Qed.

(** The task of a page that is not in the decoded book does nothing. *)
Lemma importPage_absent pf st book hm n sw :
  findPage book n = None -> importPage pf st book hm n sw = sw.
Proof. intros H. destruct sw as [rs w]. unfold importPage. rewrite H. reflexivity. Qed.

(** The task of a page of the decoded book, by the outcome of its body. *)
Lemma importPage_found pf st book hm n rs w page :
  findPage book n = Some page ->
  let existing := existingEntry hm rs n in
  let r := pageBody pf st book (totalPages (rs_manifest rs)) existing page w in
  importPage pf st book hm n (rs, w)
  = (match r.1.1 with
     | Returned _ =>
         mkRunState
           (setImportedPages (rs_manifest rs)
              (<[n := importedEntry pf st (rs_manifest rs) page]>
                 (importedPages (rs_manifest rs))))
           (pushSummary (taskType existing page) n (rs_summary rs))
           (rs_queue rs ++ r.1.2)
     | Threw msg =>
         mkRunState (rs_manifest rs)
           (pushError n msg
              (pushSummary (taskType existing page) n (rs_summary rs)))
           (rs_queue rs ++ r.1.2)
     end, r.2).
Proof.
  intros H. cbn zeta. unfold importPage. rewrite H.
  destruct (pageBody _ _ _ _ _ _ w) as [[[[]|msg] q] w']; reflexivity.
Qed.

Lemma setImportedPages_id m : setImportedPages m (importedPages m) = m.
Proof. destruct m; reflexivity. Qed.

(** What a task may change: the dictionary of the manifest at its own page
    number, the summary, the queue; nothing else of the manifest. *)
Lemma importPage_frame pf st book hm n sw :
  let sw' := importPage pf st book hm n sw in
  rs_manifest sw'.1
  = setImportedPages (rs_manifest sw.1) (importedPages (rs_manifest sw'.1))
  /\ (forall k, k <> n ->
        importedPages (rs_manifest sw'.1) !! k
        = importedPages (rs_manifest sw.1) !! k)
  /\ (n ∉ pageNums book -> sw' = sw)
  /\ s_totalPages (rs_summary sw'.1) = s_totalPages (rs_summary sw.1)
  /\ deletedPages (rs_summary sw'.1) = deletedPages (rs_summary sw.1).
Proof.
  cbn zeta. destruct sw as [rs w].
  destruct (findPage book n) as [page|] eqn:Hf.
  - rewrite (importPage_found pf st book hm n rs w page Hf). cbn zeta.
    destruct (pageBody _ _ _ _ _ _ w) as [[[[]|msg] q] w']; cbn.
    + split; [reflexivity|]. split; [intros k Hk; apply lookup_insert_ne; congruence|].
      split; [intros Hn; exfalso; apply Hn, (findPage_in _ _ _ Hf)|].
      unfold taskType; destruct (isNewOf _); [|destruct (isModifiedOf _ _)];
        split; reflexivity.
    + split; [symmetry; apply setImportedPages_id|]. split; [reflexivity|].
      split; [intros Hn; exfalso; apply Hn, (findPage_in _ _ _ Hf)|].
      unfold taskType; destruct (isNewOf _); [|destruct (isModifiedOf _ _)];
        split; reflexivity.
  - rewrite importPage_absent by exact Hf. cbn.
    split; [symmetry; apply setImportedPages_id|]. repeat split.
Qed.

Lemma importPages_frame pf st book hm l sw :
  let sw' := importPages pf st book hm l sw in
  rs_manifest sw'.1
  = setImportedPages (rs_manifest sw.1) (importedPages (rs_manifest sw'.1))
  /\ (forall k, k ∉ l ->
        importedPages (rs_manifest sw'.1) !! k
        = importedPages (rs_manifest sw.1) !! k)
  /\ s_totalPages (rs_summary sw'.1) = s_totalPages (rs_summary sw.1)
  /\ deletedPages (rs_summary sw'.1) = deletedPages (rs_summary sw.1).
Proof.
  cbn zeta. revert sw. induction l as [|n l IH]; intros sw.
  - cbn. split; [symmetry; apply setImportedPages_id|]. repeat split.
  - rewrite importPages_cons.
    destruct (IH (importPage pf st book hm n sw)) as (H1 & H2 & H3 & H4).
    destruct (importPage_frame pf st book hm n sw) as (G1 & G2 & _ & G3 & G4).
    cbn zeta in *. split; [|split; [|split]].
    + rewrite H1 at 1. rewrite G1. reflexivity.
    + intros k Hk. apply not_elem_of_cons in Hk as [Hkn Hkl].
      rewrite H2 by exact Hkl. apply G2, Hkn.
    + congruence.
    + congruence.
Qed.

Lemma importPage_quiet pf st book hm n sw :
  exists post,
    calls (importPage pf st book hm n sw).2 = post ++ calls sw.2
    /\ saveCount post = 0%nat.
Proof.
  destruct sw as [rs w]. destruct (findPage book n) as [page|] eqn:Hf.
  - rewrite (importPage_found pf st book hm n rs w page Hf). cbn zeta. cbn [snd].
    apply quiet_pageBody.
  - rewrite importPage_absent by exact Hf. exists []. split; reflexivity.
Qed.

Lemma importPages_quiet pf st book hm l sw :
  exists post,
    calls (importPages pf st book hm l sw).2 = post ++ calls sw.2
    /\ saveCount post = 0%nat.
Proof.
  revert sw. induction l as [|n l IH]; intros sw.
  - exists []. split; reflexivity.
  - rewrite importPages_cons.
    destruct (IH (importPage pf st book hm n sw)) as (p2 & H2 & S2).
    destruct (importPage_quiet pf st book hm n sw) as (p1 & H1 & S1).
    exists (p2 ++ p1). rewrite H2, H1, <- app_assoc, saveCount_app, S1, S2.
    split; reflexivity.
Qed.

Lemma runBatches_Some pf st book hm sel fuel start sw sw' :
  runBatches fuel pf st book hm sel start sw = Some sw' ->
  sw' = importPages pf st book hm (drop start sel) sw.
Proof.
  revert start sw. induction fuel as [|fuel IH]; intros start sw;
    cbn [runBatches]; destruct (Nat.ltb_spec start (length sel)) as [Hlt|Hge].
  - discriminate.
  - intros [= <-]. rewrite drop_ge by exact Hge. reflexivity.
  - intros H. apply IH in H. rewrite H.
    rewrite slice_take_drop by exact Hlt.
    rewrite <- importPages_app, <- drop_drop, take_drop. reflexivity.
  - intros [= <-]. rewrite drop_ge by exact Hge. reflexivity.
Qed.

(** A run that ends is its prologue, the tasks of the selected pages in
    order, and its epilogue. *)
Lemma run_shape fuel pf st book sel existing w r :
  importSelectedPagesWithProgress fuel pf st book sel existing w = Some r ->
  (exists msg, (prologue pf st book w).1 = Threw msg
     /\ r = mkRunResult (Threw msg) (initialManifest pf book existing) None
              (prologue pf st book w).2)
  \/ ((prologue pf st book w).1 = Returned tt
      /\ r = epilogue pf st book sel
               (importPages pf st book (bool_decide (is_Some existing)) sel
                  (startState pf book sel existing, (prologue pf st book w).2))).
Proof.
  unfold importSelectedPagesWithProgress.
  destruct (prologue pf st book w) as [[[]|msg] w0]; cbn [fst snd].
  - destruct (runBatches _ _ _ _ _ _ _ _) as [sw|] eqn:Hb; [|discriminate].
    intros [= <-]. right. split; [reflexivity|].
    apply runBatches_Some in Hb. rewrite Hb. reflexivity.
  - intros [= <-]. left. exists msg. split; reflexivity.
Qed.

Lemma run_total fuel pf st book sel existing w :
  (0 < batchSize st)%N -> (length sel <= fuel)%nat ->
  (prologue pf st book w).1 = Returned tt ->
  importSelectedPagesWithProgress fuel pf st book sel existing w
  = Some (epilogue pf st book sel
            (importPages pf st book (bool_decide (is_Some existing)) sel
               (startState pf book sel existing, (prologue pf st book w).2))).
Proof.
  intros Hb Hf Hp. unfold importSelectedPagesWithProgress.
  destruct (prologue pf st book w) as [[[]|msg] w0]; cbn in Hp; [|discriminate].
  rewrite runBatches_total by assumption. reflexivity.
Qed.

(** With a positive batch size and as much fuel as there are selected
    pages, a run ends. *)
Lemma run_returns fuel pf st book sel existing w :
  (0 < batchSize st)%N -> (length sel <= fuel)%nat ->
  exists r, importSelectedPagesWithProgress fuel pf st book sel existing w = Some r.
Proof.
  intros Hb Hf. unfold importSelectedPagesWithProgress.
  destruct (prologue pf st book w) as [[[]|msg] w0]; [|eauto].
  rewrite runBatches_total by assumption. eauto.
Qed.

(** ** Persisting and post-processing *)

Lemma saveManifest_log pf path m w :
  exists post,
    calls (saveManifest pf path m w) = post ++ calls w
    /\ saveCount post = 1%nat.
Proof.
  unfold saveManifest.
  set (w0 := mkWorld (vault w) (EvSaveManifest path :: calls w)).
  set (attempt := if isTFile _ then _ else _).
  assert (Ha : quiet attempt) by (subst attempt; destruct (isTFile _); quiet_auto).
  destruct (Ha w0) as (p1 & H1 & S1).
  destruct (attempt w0) as [[[]|msg] w1]; cbn [snd] in H1.
  - exists (p1 ++ [EvSaveManifest path]). rewrite H1. cbn [calls w0].
    rewrite <- app_assoc, saveCount_app, S1. split; reflexivity.
  - match goal with |- context [bind ?a ?b w1] =>
      assert (Hq : quiet (bind a b)) by quiet_auto;
      destruct (Hq w1) as (p2 & H2 & S2) end.
    exists (p2 ++ p1 ++ [EvSaveManifest path]). rewrite H2, H1. cbn [calls w0].
    rewrite <- !app_assoc, !saveCount_app, S1, S2. split; reflexivity.
Qed.

Lemma quiet_processFrontMatter pf m n path : quiet (processFrontMatter pf m n path).
Proof. apply quiet_vault_call. Qed.
#[global] Hint Resolve quiet_processFrontMatter : quiet.

Lemma quiet_geminiOne pf plugin bf m item : quiet (geminiOne pf plugin bf m item).
Proof.
  unfold geminiOne. destruct item as [file n].
  apply quiet_bind; [apply quiet_vault_readBinary|]. intros imageData.
  apply quiet_bind; [apply quiet_lift|]. intros [text|]; [|apply quiet_ret].
  destruct (JS.truthy text); [|apply quiet_ret].
  apply quiet_bind.
  - destruct (enableTriggerWords plugin); quiet_auto.
  - intros processedText w. destruct (isTFile _); revert w; quiet_auto.
Qed.

Lemma geminiTouched_refl m items : geminiTouched m m items.
Proof.
  split; [symmetry; apply setImportedPages_id|]. intros k. left. reflexivity.
Qed.

Lemma geminiTouched_mono m m' items item :
  geminiTouched m m' items -> geminiTouched m m' (item :: items).
Proof.
  intros [H1 H2]. split; [exact H1|]. intros k.
  destruct (H2 k) as [H|[Hin H]]; [left; exact H|right].
  split; [cbn; apply elem_of_cons; auto|exact H].
Qed.

Lemma markGemini_idemp info : markGemini (markGemini info) = markGemini info.
Proof. reflexivity. Qed.

Lemma geminiLoop_spec pf plugin bf items m w :
  let r := geminiLoop pf plugin bf items (m, w) in
  geminiTouched m r.1 items
  /\ exists post, calls r.2 = post ++ calls w /\ saveCount post = 0%nat.
Proof.
  cbn zeta. revert m w. induction items as [|item items IH]; intros m w.
  - cbn. split; [apply geminiTouched_refl|]. exists []. split; reflexivity.
  - cbn [geminiLoop].
    destruct (quiet_geminiOne pf plugin bf m item w) as (p1 & H1 & S1).
    destruct (geminiOne pf plugin bf m item w) as [[[|]|msg] w1]; cbn [snd] in H1.
    + destruct (IH (setImportedPages m (alter markGemini item.2 (importedPages m))) w1)
        as ([G1 G2] & p2 & H2 & S2).
      split.
      * split; [rewrite G1 at 1; reflexivity|]. intros k.
        cbn [importedPages setImportedPages] in G2.
        destruct (decide (k = item.2)) as [->|Hne].
        -- right. split; [cbn; apply elem_of_cons; auto|].
           destruct (G2 item.2) as [G|[_ G]]; rewrite G, lookup_alter_eq;
             [reflexivity|].
           destruct (importedPages m !! item.2); reflexivity.
        -- destruct (G2 k) as [G|[Hin G]]; rewrite G, lookup_alter_ne by congruence.
           ++ left. reflexivity.
           ++ right. split; [cbn; apply elem_of_cons; auto|reflexivity].
      * exists (p2 ++ p1). rewrite H2, H1, <- app_assoc, saveCount_app, S1, S2.
        split; reflexivity.
    + destruct (IH m w1) as (G & p2 & H2 & S2). split.
      * apply geminiTouched_mono, G.
      * exists (p2 ++ p1). rewrite H2, H1, <- app_assoc, saveCount_app, S1, S2.
        split; reflexivity.
    + destruct (IH m w1) as (G & p2 & H2 & S2). split.
      * apply geminiTouched_mono, G.
      * exists (p2 ++ p1). rewrite H2, H1, <- app_assoc, saveCount_app, S1, S2.
        split; reflexivity.
Qed.

Lemma processWithGeminiPages_spec pf st bf items m w :
  let r := processWithGeminiPages pf st bf items m w in
  geminiTouched m r.1.2 items
  /\ exists post,
       calls r.2 = post ++ calls w
       /\ saveCount post = (if geminiRuns pf then 1 else 0)%nat.
Proof.
  cbn zeta. unfold processWithGeminiPages, geminiRuns.
  destruct (geminiEnabled pf); cbn [negb andb].
  2:{ split; [apply geminiTouched_refl|]. exists []. split; reflexivity. }
  destruct (geminiPlugin pf) as [plugin|].
  2:{ split; [apply geminiTouched_refl|]. exists []. split; reflexivity. }
  rewrite bool_decide_eq_true_2 by eauto.
  destruct (geminiLoop_spec pf plugin bf items m w) as (G & p1 & H1 & S1).
  destruct (geminiLoop pf plugin bf items (m, w)) as [m' w1]. cbn [fst snd] in *.
  destruct (saveManifest_log pf (manifestPathOf bf) m' w1) as (p2 & H2 & S2).
  destruct (createIndex st).
  - destruct (quiet_createBookIndex pf bf (bookName m')
                (saveManifest pf (manifestPathOf bf) m' w1)) as (p3 & H3 & S3).
    destruct (createBookIndex _ _ _ _) as [o w3]. cbn [fst snd] in *.
    split; [exact G|]. exists (p3 ++ p2 ++ p1).
    rewrite H3, H2, H1, <- !app_assoc, !saveCount_app, S1, S2, S3.
    split; reflexivity.
  - cbn [fst snd]. split; [exact G|]. exists (p2 ++ p1).
    rewrite H2, H1, <- !app_assoc, !saveCount_app, S1, S2.
    split; reflexivity.
Qed.

Lemma addHistoryEntry_frame pf st m action pages summ :
  importedPages (addHistoryEntry pf st m action pages summ) = importedPages m
  /\ totalPages (addHistoryEntry pf st m action pages summ) = totalPages m.
Proof.
  unfold addHistoryEntry. destruct (negb _); [split; reflexivity|].
  destruct (_ <? _)%N; split; reflexivity.
Qed.

(** The epilogue of a run, by what it adds to the log and what it makes of
    the manifest. *)
Lemma epilogue_spec pf st book sel rs w :
  let r := epilogue pf st book sel (rs, w) in
  let m1 := addHistoryEntry pf st (rs_manifest rs) ActImport sel
              (historyMessage (rs_summary rs)) in
  geminiTouched m1 (run_manifest r) (rs_queue rs)
  /\ (geminiCalled st rs = false -> run_manifest r = m1)
  /\ (forall s, run_outcome r = Returned s ->
        s = rs_summary rs /\ run_saved r = Some m1)
  /\ (forall ms, run_saved r = Some ms -> ms = m1)
  /\ exists post,
       calls (run_world r) = post ++ calls w
       /\ (saveCount post <= 2)%nat
       /\ (is_Some (run_saved r) ->
           saveCount post
           = (if geminiCalled st rs && geminiRuns pf then 2 else 1)%nat)
       /\ (run_saved r = None -> saveCount post = 0%nat).
Proof.
  cbn zeta. unfold epilogue, geminiCalled.
  set (bf := bookFolderOf st (book_name book)).
  set (m1 := addHistoryEntry pf st (rs_manifest rs) ActImport sel _).
  assert (Hidx : quiet (fun w => if createIndex st
                                 then createBookIndex pf bf (book_name book) w
                                 else ret tt w))
    by (destruct (createIndex st); quiet_auto).
  destruct (Hidx w) as (p1 & H1 & S1).
  destruct (if createIndex st then _ else _) as [[[]|msg] w1]; cbn [snd] in H1.
  2:{ cbn. split; [apply geminiTouched_refl|]. split; [reflexivity|].
      split; [discriminate|]. split; [discriminate|].
      exists p1. split; [exact H1|]. split; [lia|].
      split; [intros [? [=]]|intros _; exact S1]. }
  destruct (saveManifest_log pf (manifestPathOf bf) m1 w1) as (p2 & H2 & S2).
  destruct (processWithGemini st && negb (bool_decide (rs_queue rs = []))) eqn:Hg.
  - destruct (processWithGeminiPages_spec pf st bf (rs_queue rs) m1
                (saveManifest pf (manifestPathOf bf) m1 w1))
      as (G & p3 & H3 & S3).
    destruct (processWithGeminiPages _ _ _ _ _ _) as [[o m2] w3].
    cbn [fst snd] in *.
    assert (Hlog : exists post,
      calls w3 = post ++ calls w
      /\ (saveCount post <= 2)%nat
      /\ saveCount post = (if geminiRuns pf then 2 else 1)%nat).
    { exists (p3 ++ p2 ++ p1).
      rewrite H3, H2, H1, <- !app_assoc, !saveCount_app, S1, S2, S3.
      destruct (geminiRuns pf); repeat split; lia. }
    destruct Hlog as (post & Hp & Hle & Hc).
    destruct o as [[]|msg]; cbn.
    + split; [exact G|]. split; [discriminate|].
      split; [intros s [= <-]; split; reflexivity|].
      split; [intros ms [= <-]; reflexivity|].
      exists post. split; [exact Hp|]. split; [exact Hle|].
      split; [intros _; exact Hc|discriminate].
    + split; [exact G|]. split; [discriminate|].
      split; [discriminate|].
      split; [intros ms [= <-]; reflexivity|].
      exists post. split; [exact Hp|]. split; [exact Hle|].
      split; [intros _; exact Hc|discriminate].
  - cbn. split; [apply geminiTouched_refl|]. split; [reflexivity|].
    split; [intros s [= <-]; split; reflexivity|].
    split; [intros ms [= <-]; reflexivity|].
    exists (p2 ++ p1). rewrite H2, H1, <- app_assoc, saveCount_app, S1, S2.
    split; [reflexivity|]. split; [lia|]. split; [reflexivity|discriminate].
Qed.

Lemma quiet_prologue pf st book : quiet (prologue pf st book).
Proof. unfold prologue. quiet_auto. Qed.

(** ** Persisting the manifest *)

(** What a run that ends has added to the log: nothing but vault calls
    up to the end of the batches, and at most two entries into
    [saveManifest] after them. *)
Lemma saves_of_run fuel pf st book sel existing w r :
  importSelectedPagesWithProgress fuel pf st book sel existing w = Some r ->
  let sw := importPages pf st book (bool_decide (is_Some existing)) sel
              (startState pf book sel existing, (prologue pf st book w).2) in
  exists pre post,
    calls (run_world r) = post ++ pre ++ calls w
    /\ saveCount pre = 0%nat
    /\ (saveCount post <= 2)%nat
    /\ ((prologue pf st book w).1 = Returned tt -> pre ++ calls w = calls sw.2)
    /\ (forall s, run_outcome r = Returned s ->
          s = rs_summary sw.1
          /\ saveCount post
             = (if geminiCalled st sw.1 && geminiRuns pf then 2 else 1)%nat).
Proof.
  intros Hrun. cbn zeta.
  destruct (quiet_prologue pf st book w) as (p0 & H0 & S0).
  destruct (run_shape _ _ _ _ _ _ _ _ Hrun) as [(msg & Hp & ->)|(Hp & ->)].
  - exists p0, []. cbn [run_world run_outcome app].
    split; [exact H0|]. split; [exact S0|]. split; [cbn; lia|].
    split; [rewrite Hp; discriminate|discriminate].
  - set (sw := importPages _ _ _ _ _ _).
    destruct (importPages_quiet pf st book (bool_decide (is_Some existing)) sel
                (startState pf book sel existing, (prologue pf st book w).2))
      as (p1 & H1 & S1).
    fold sw in H1. cbn [snd] in H1.
    destruct sw as [rs wb] eqn:Esw. cbn [fst snd] in *.
    destruct (epilogue_spec pf st book sel rs wb)
      as (_ & _ & Hret & _ & post & Hpost & Hle & Hsome & _).
    cbn zeta in *.
    exists (p1 ++ p0), post.
    rewrite Hpost, H1, H0, <- !app_assoc, saveCount_app, S0, S1.
    split; [reflexivity|]. split; [reflexivity|]. split; [exact Hle|].
    split; [reflexivity|].
    intros s Hs. destruct (Hret s Hs) as [-> Hsaved].
    split; [reflexivity|]. apply Hsome. rewrite Hsaved. eauto.
Qed.

(** C5, as the code has it. A run of the executor (with a positive batch
    size) ends, and it never enters [saveManifest] before all the batches
    have completed, so never once per page: what it adds to the log up to
    the end of the batches are vault calls only. A run that returns its
    summary has entered [saveManifest] once after the batches and, when
    Gemini processing is enabled, some image was queued for it and the
    Gemini plugin is there, a second time at the end of
    [processWithGemini]. *)
Theorem manifest_saved_after_batches fuel pf st book sel existing w :
  (0 < batchSize st)%N ->
  (length sel <= fuel)%nat ->
  let sw := importPages pf st book (bool_decide (is_Some existing)) sel
              (startState pf book sel existing, (prologue pf st book w).2) in
  exists r pre post,
    importSelectedPagesWithProgress fuel pf st book sel existing w = Some r
    /\ calls (run_world r) = post ++ pre ++ calls w
    /\ saveCount pre = 0%nat
    /\ (saveCount post <= 2)%nat
    /\ ((prologue pf st book w).1 = Returned tt -> pre ++ calls w = calls sw.2)
    /\ (forall s, run_outcome r = Returned s ->
          s = rs_summary sw.1
          /\ saveCount post
             = (if geminiCalled st sw.1 && geminiRuns pf then 2 else 1)%nat).
Proof.
  intros Hb Hf. cbn zeta.
  destruct (run_returns fuel pf st book sel existing w Hb Hf) as [r Hrun].
  destruct (saves_of_run _ _ _ _ _ _ _ _ Hrun) as (pre & post & H).
  exists r, pre, post. split; [exact Hrun|exact H].
Qed.

Lemma manifest_saved_after_batches_witness :
  (0 < batchSize Ex.settings)%N
  /\ exists r pre post,
       importSelectedPagesWithProgress 1 Ex.noDigest Ex.settings Ex.onePageBook
         [1%N] None Ex.emptyWorld = Some r
       /\ calls (run_world r) = post ++ pre ++ calls Ex.emptyWorld
       /\ saveCount pre = 0%nat /\ (saveCount post <= 2)%nat.
Proof.
  assert (Hb : (0 < batchSize Ex.settings)%N) by reflexivity.
  assert (Hf : (length [1%N] <= 1)%nat) by (cbn; lia).
  split; [exact Hb|].
  destruct (manifest_saved_after_batches 1 Ex.noDigest Ex.settings
              Ex.onePageBook [1%N] None Ex.emptyWorld Hb Hf)
    as (r & pre & post & H0 & H1 & H2 & H3 & _).
  exists r, pre, post. auto.
Defined.

(** C5, as stated, fails: with Gemini processing enabled a run that imports
    one new page enters [saveManifest] twice. *)
Lemma manifest_saved_twice :
  (fun r => (run_outcome r, saveCount (calls (run_world r))))
    <$> importSelectedPagesWithProgress 1 Ex.withGemini Ex.geminiSettings
          Ex.onePageBook [1%N] None Ex.emptyWorld
  = Some (Returned (mkImportSummary 1 [1%N] [] [] [] []), 2%nat).
Proof. vm_compute. reflexivity. Qed.

(** ** The page count of the manifest *)

Lemma totalPages_of_run fuel pf st book sel existing w r :
  importSelectedPagesWithProgress fuel pf st book sel existing w = Some r ->
  let old := totalPages (initialManifest pf book existing) in
  let len := N.of_nat (length (book_pages book)) in
  (old <= totalPages (run_manifest r))%N
  /\ ((prologue pf st book w).1 = Returned tt ->
      totalPages (run_manifest r) = N.max old len)
  /\ (forall ms, run_saved r = Some ms -> totalPages ms = N.max old len).
Proof.
  intros Hrun. cbn zeta.
  destruct (run_shape _ _ _ _ _ _ _ _ Hrun) as [(msg & Hp & ->)|(Hp & ->)].
  - cbn [run_manifest run_saved]. split; [lia|].
    split; [rewrite Hp; discriminate|discriminate].
  - set (sw := importPages _ _ _ _ _ _).
    destruct (importPages_frame pf st book (bool_decide (is_Some existing)) sel
                (startState pf book sel existing, (prologue pf st book w).2))
      as (Hm & _).
    cbn zeta in Hm. fold sw in Hm. cbn [fst] in Hm.
    destruct sw as [rs wb]. cbn [fst] in Hm.
    destruct (epilogue_spec pf st book sel rs wb) as ([G _] & _ & _ & Hsaved & _).
    cbn zeta in *.
    destruct (addHistoryEntry_frame pf st (rs_manifest rs) ActImport sel
                (historyMessage (rs_summary rs))) as [_ Ht].
    assert (Hrs : totalPages (rs_manifest rs)
                  = N.max (totalPages (initialManifest pf book existing))
                      (N.of_nat (length (book_pages book))))
      by (rewrite Hm; reflexivity).
    assert (Hfin : totalPages (run_manifest (epilogue pf st book sel (rs, wb)))
                   = N.max (totalPages (initialManifest pf book existing))
                       (N.of_nat (length (book_pages book))))
      by (rewrite G; cbn [totalPages setImportedPages]; congruence).
    split; [rewrite Hfin; lia|]. split; [intros _; exact Hfin|].
    intros ms Hms. rewrite (Hsaved ms Hms). congruence.
Qed.

(** C9. A run of the executor (with a positive batch size) ends, and it
    sets [totalPages] to the maximum of its previous value (zero for a
    fresh manifest) and the number of pages of the decoded book, in memory
    and in the manifest it saves; a run never lowers it, whether it returns
    or throws. *)
Theorem totalPages_never_decreases fuel pf st book sel existing w :
  (0 < batchSize st)%N ->
  (length sel <= fuel)%nat ->
  let old := totalPages (initialManifest pf book existing) in
  let len := N.of_nat (length (book_pages book)) in
  exists r,
    importSelectedPagesWithProgress fuel pf st book sel existing w = Some r
    /\ (old <= totalPages (run_manifest r))%N
    /\ ((prologue pf st book w).1 = Returned tt ->
        totalPages (run_manifest r) = N.max old len)
    /\ (forall ms, run_saved r = Some ms -> totalPages ms = N.max old len).
Proof.
  intros Hb Hf. cbn zeta.
  destruct (run_returns fuel pf st book sel existing w Hb Hf) as [r Hrun].
  exists r. split; [exact Hrun|].
  exact (totalPages_of_run _ _ _ _ _ _ _ _ Hrun).
Qed.

Lemma totalPages_never_decreases_witness :
  (0 < batchSize Ex.settings)%N
  /\ totalPages Ex.threePageManifest = 3%N
  /\ length (book_pages Ex.twoPageBook) = 2%nat
  /\ exists r,
       importSelectedPagesWithProgress 2 Ex.noDigest Ex.settings Ex.twoPageBook
         [1%N; 2%N] (Some Ex.threePageManifest) Ex.emptyWorld = Some r
       /\ totalPages (run_manifest r) = 3%N.
Proof.
  assert (Hb : (0 < batchSize Ex.settings)%N) by reflexivity.
  assert (Hf : (length [1%N; 2%N] <= 2)%nat) by (cbn; lia).
  split; [exact Hb|]. split; [reflexivity|]. split; [reflexivity|].
  destruct (totalPages_never_decreases 2 Ex.noDigest Ex.settings Ex.twoPageBook
              [1%N; 2%N] (Some Ex.threePageManifest) Ex.emptyWorld Hb Hf)
    as (r & Hrun & _ & Hmax & _).
  exists r. split; [exact Hrun|].
  rewrite Hmax; [reflexivity|]. vm_compute. reflexivity.
Defined.

(** ** The image artifact *)

Lemma importImage_reuse pf st bf book page w :
  isTFile (vault w !! imagePathOf pf st bf book (pageNum page)) = true ->
  importImage pf st bf book page false false false w
  = ((if isPng (outputFormat st)
      then "![[" +:+ imageNameOf book (pageNum page) +:+ "]]" +:+ nl +:+ nl
      else EmptyString, []), w).
Proof.
  intros Hx. unfold importImage. destruct (isPng _); [|reflexivity].
  unfold writeImage, bind, getAbstractFileByPath. rewrite Hx. cbn.
  rewrite andb_false_r. reflexivity.
Qed.

(** C6, as stated, fails: page 1 is unchanged and its stored background
    colour is the current one, but its image file is missing from the
    vault, and the run writes it. *)
Lemma missing_image_written_for_unchanged_page :
  taskType (importedPages Ex.unchangedManifest !! 1%N)
    (Ex.plainPage Ex.noDigest 1 (Ex.blobOf 10)) = TUnchanged
  /\ backgroundChangedOf Ex.settings (importedPages Ex.unchangedManifest !! 1%N)
     = false
  /\ (fun r => (run_outcome r,
                existsb (writesAt "Viwoods Notes/Book/Images/Book_page_001.png")
                  (calls (run_world r))))
       <$> importSelectedPagesWithProgress 1 Ex.noDigest Ex.settings
             Ex.onePageBook [1%N] (Some Ex.unchangedManifest) Ex.emptyWorld
     = Some (Returned (mkImportSummary 1 [] [] [1%N] [] []), true).
Proof. vm_compute. repeat split. Qed.

(** ** Pages that are selected but not in the decoded book *)

Lemma bind_Returned {A B} (m : IO A) (k : A -> IO B) w b w' :
  bind m k w = (Returned b, w') ->
  exists a w1, m w = (Returned a, w1) /\ k a w1 = (Returned b, w').
Proof.
  unfold bind. destruct (m w) as [[a|msg] w1]; [eauto|discriminate].
Qed.

Lemma writeImage_queue pf st bf book page isNew isModified bg w r w' :
  writeImage pf st bf book page isNew isModified bg w = (Returned r, w') ->
  forall item, item ∈ r.2 -> item.2 = pageNum page.
Proof.
  unfold writeImage. intros H.
  apply bind_Returned in H as (a & w1 & _ & Hk).
  unfold ret in Hk. injection Hk as <- _. intros item Hitem.
  destruct (_ && _); cbn in Hitem.
  - apply list_elem_of_singleton in Hitem. subst item. reflexivity.
  - apply elem_of_nil in Hitem as [].
Qed.

Lemma importImage_queue pf st bf book page isNew isModified bg w item :
  item ∈ (importImage pf st bf book page isNew isModified bg w).1.2 ->
  item.2 = pageNum page.
Proof.
  unfold importImage. destruct (isPng _).
  - destruct (writeImage _ _ _ _ _ _ _ _ w) as [[r|msg] w'] eqn:E; cbn.
    + apply (writeImage_queue _ _ _ _ _ _ _ _ _ _ _ E).
    + intros H. apply elem_of_nil in H as [].
  - cbn. intros H. apply elem_of_nil in H as [].
Qed.

Lemma pageBody_queue pf st book total existing page w item :
  item ∈ (pageBody pf st book total existing page w).1.2 ->
  item.2 = pageNum page.
Proof.
  unfold pageBody.
  destruct (frontmatterDates pf st book) as [[]|msgd];
    [|intros H; apply elem_of_nil in H as []].
  destruct (importAudio _ _ _ _ _ _ w) as [[ac|msg] w1]; cbn [fst snd].
  - pose proof (importImage_queue pf st (bookFolderOf st (book_name book)) book
                  page (isNewOf existing) (isModifiedOf existing page)
                  (backgroundChangedOf st existing) w1 item) as Hq.
    destruct (importImage _ _ _ _ _ _ _ _ w1) as [[ic q] w2]. cbn [fst snd] in *.
    match goal with |- context [bind ?m ?k w2] =>
      destruct (bind m k w2) as [o w3] end.
    exact Hq.
  - intros H. apply elem_of_nil in H as [].
Qed.

Lemma pushSummary_lists t n s :
  (forall k, k ∈ newPages (pushSummary t n s) -> k ∈ newPages s \/ k = n)
  /\ (forall k, k ∈ modifiedPages (pushSummary t n s) ->
        k ∈ modifiedPages s \/ k = n)
  /\ (forall k, k ∈ unchangedPages (pushSummary t n s) ->
        k ∈ unchangedPages s \/ k = n)
  /\ errors (pushSummary t n s) = errors s.
Proof.
  destruct t; cbn; repeat split; auto;
    intros k [H|H%list_elem_of_singleton]%elem_of_app; auto.
Qed.

Lemma importPage_within pf st book hm m0 n rs w :
  withinBook book m0 rs ->
  withinBook book m0 (importPage pf st book hm n (rs, w)).1.
Proof.
  intros (Hn & Hm & Hu & He & Hq & Hk).
  destruct (findPage book n) as [page|] eqn:Hf.
  2:{ rewrite importPage_absent by exact Hf. repeat split; assumption. }
  pose proof (findPage_in _ _ _ Hf) as Hin.
  pose proof (findPage_pageNum _ _ _ Hf) as Hpn.
  rewrite (importPage_found pf st book hm n rs w page Hf). cbn zeta.
  pose proof (pageBody_queue pf st book (totalPages (rs_manifest rs))
                (existingEntry hm rs n) page w) as Hbq.
  destruct (pushSummary_lists (taskType (existingEntry hm rs n) page) n
              (rs_summary rs)) as (Pn & Pm & Pu & Pe).
  assert (Hq' : forall k,
    k ∈ (rs_queue rs
         ++ (pageBody pf st book (totalPages (rs_manifest rs))
               (existingEntry hm rs n) page w).1.2).*2 ->
    k ∈ pageNums book).
  { intros k. rewrite fmap_app. intros [H|H]%elem_of_app; [auto|].
    apply list_elem_of_fmap in H as (item & -> & Hitem).
    rewrite (Hbq item Hitem), Hpn. exact Hin. }
  destruct (pageBody _ _ _ _ _ _ w) as [[[[]|msg] q] w']; cbn [fst snd] in *;
    unfold withinBook; cbn [rs_summary rs_queue rs_manifest pushError newPages
      modifiedPages unchangedPages errors importedPages setImportedPages].
  - split; [intros k [H| ->]%Pn; auto|].
    split; [intros k [H| ->]%Pm; auto|].
    split; [intros k [H| ->]%Pu; auto|].
    split; [rewrite Pe; exact He|]. split; [exact Hq'|].
    intros k Hnotin. rewrite lookup_insert_ne by (intros ->; contradiction).
    apply Hk, Hnotin.
  - split; [intros k [H| ->]%Pn; auto|].
    split; [intros k [H| ->]%Pm; auto|].
    split; [intros k [H| ->]%Pu; auto|].
    split.
    { intros k. rewrite Pe, fmap_app.
      intros [H|H%list_elem_of_singleton]%elem_of_app; [auto|].
      cbn in H. subst k. exact Hin. }
    split; [exact Hq'|exact Hk].
Qed.

Lemma importPages_within pf st book hm m0 l sw :
  withinBook book m0 sw.1 ->
  withinBook book m0 (importPages pf st book hm l sw).1.
Proof.
  revert sw. induction l as [|n l IH]; intros [rs w] H; [exact H|].
  rewrite importPages_cons. apply IH, importPage_within, H.
Qed.

Lemma startState_within pf book sel existing :
  withinBook book (initialManifest pf book existing)
    (startState pf book sel existing).
Proof.
  unfold withinBook, startState. cbn.
  repeat split; try (intros k H; apply elem_of_nil in H as []).
Qed.

Lemma importPages_skip pf st book hm n l sw :
  n ∉ pageNums book ->
  importPages pf st book hm l sw
  = importPages pf st book hm (filter (fun k => k <> n) l) sw.
Proof.
  intros Hn. revert sw. induction l as [|k l IH]; intros sw; [reflexivity|].
  rewrite importPages_cons. destruct (decide (k = n)) as [->|Hne].
  - rewrite filter_cons_False by auto.
    rewrite importPage_absent by (apply findPage_None, Hn). apply IH.
  - rewrite filter_cons_True by exact Hne. rewrite importPages_cons. apply IH.
Qed.

Lemma absent_page_of_run fuel pf st book sel existing w n r :
  n ∉ pageNums book ->
  importSelectedPagesWithProgress fuel pf st book sel existing w = Some r ->
  let m0 := initialManifest pf book existing in
  importedPages (run_manifest r) !! n = importedPages m0 !! n
  /\ (forall ms, run_saved r = Some ms ->
        importedPages ms !! n = importedPages m0 !! n)
  /\ (forall s, run_outcome r = Returned s ->
        (n ∉ newPages s) /\ (n ∉ modifiedPages s) /\ (n ∉ unchangedPages s)
        /\ (n ∉ deletedPages s) /\ (n ∉ (errors s).*1)).
Proof.
  intros Hn Hrun. cbn zeta.
  destruct (run_shape _ _ _ _ _ _ _ _ Hrun) as [(msg & Hp & ->)|(Hp & ->)].
  - cbn [run_manifest run_saved run_outcome].
    split; [reflexivity|]. split; discriminate.
  - set (sw := importPages _ _ _ _ _ _).
    pose proof (importPages_within pf st book (bool_decide (is_Some existing))
                  (initialManifest pf book existing) sel
                  (startState pf book sel existing, (prologue pf st book w).2)
                  (startState_within pf book sel existing)) as Hw.
    destruct (importPages_frame pf st book (bool_decide (is_Some existing)) sel
                (startState pf book sel existing, (prologue pf st book w).2))
      as (_ & _ & _ & Hdel).
    cbn zeta in Hdel. fold sw in Hw, Hdel.
    destruct sw as [rs wb]. cbn [fst] in Hw, Hdel.
    destruct Hw as (Wn & Wm & Wu & We & Wq & Wk).
    destruct (epilogue_spec pf st book sel rs wb)
      as ([_ G] & _ & Hret & Hsaved & _).
    cbn zeta in *.
    destruct (addHistoryEntry_frame pf st (rs_manifest rs) ActImport sel
                (historyMessage (rs_summary rs))) as [Hip _].
    split; [|split].
    + destruct (G n) as [Hg|[Hin _]]; [|exfalso; apply Hn, Wq, Hin].
      rewrite Hg, Hip. apply Wk, Hn.
    + intros ms Hms. rewrite (Hsaved ms Hms), Hip. apply Wk, Hn.
    + intros s Hs. destruct (Hret s Hs) as [-> _].
      split; [intros H; apply Hn, Wn, H|].
      split; [intros H; apply Hn, Wm, H|].
      split; [intros H; apply Hn, Wu, H|].
      split; [rewrite Hdel; cbn; apply not_elem_of_nil|].
      intros H; apply Hn, We, H.
Qed.

(** C10. A selected page number with no page in the decoded book is
    skipped: its task changes nothing and makes no vault call, so the
    batches run as if it had not been selected; the run (with a positive
    batch size) ends and leaves its manifest entry as it was, in memory and
    in the manifest it saves, and its number is in none of the lists of the
    summary and not in the errors. *)
Theorem absent_page_skipped fuel pf st book sel existing w n :
  n ∉ pageNums book ->
  (0 < batchSize st)%N ->
  (length sel <= fuel)%nat ->
  let hm := bool_decide (is_Some existing) in
  let m0 := initialManifest pf book existing in
  (forall sw, importPage pf st book hm n sw = sw)
  /\ (forall sw, importPages pf st book hm sel sw
                 = importPages pf st book hm (filter (fun k => k <> n) sel) sw)
  /\ exists r,
       importSelectedPagesWithProgress fuel pf st book sel existing w = Some r
       /\ importedPages (run_manifest r) !! n = importedPages m0 !! n
       /\ (forall ms, run_saved r = Some ms ->
             importedPages ms !! n = importedPages m0 !! n)
       /\ (forall s, run_outcome r = Returned s ->
             (n ∉ newPages s) /\ (n ∉ modifiedPages s) /\ (n ∉ unchangedPages s)
             /\ (n ∉ deletedPages s) /\ (n ∉ (errors s).*1)).
Proof.
  intros Hn Hb Hf. cbn zeta.
  split; [intros sw; apply importPage_absent, findPage_None, Hn|].
  split; [intros sw; apply importPages_skip, Hn|].
  destruct (run_returns fuel pf st book sel existing w Hb Hf) as [r Hrun].
  exists r. split; [exact Hrun|].
  exact (absent_page_of_run _ _ _ _ _ _ _ _ _ Hn Hrun).
Qed.

Lemma absent_page_skipped_witness :
  (7%N ∉ pageNums Ex.onePageBook)
  /\ (0 < batchSize Ex.settings)%N
  /\ exists r s,
       importSelectedPagesWithProgress 2 Ex.noDigest Ex.settings Ex.onePageBook
         [1%N; 7%N] None Ex.emptyWorld = Some r
       /\ run_outcome r = Returned s
       /\ importedPages (run_manifest r) !! 7%N = None
       /\ (7%N ∉ newPages s) /\ (7%N ∉ (errors s).*1).
Proof.
  assert (Hn : 7%N ∉ pageNums Ex.onePageBook).
  { intros H. apply list_elem_of_singleton in H. discriminate H. }
  assert (Hb : (0 < batchSize Ex.settings)%N) by reflexivity.
  assert (Hf : (length [1%N; 7%N] <= 2)%nat) by (cbn; lia).
  split; [exact Hn|]. split; [exact Hb|].
  destruct (absent_page_skipped 2 Ex.noDigest Ex.settings Ex.onePageBook
              [1%N; 7%N] None Ex.emptyWorld 7%N Hn Hb Hf)
    as (_ & _ & r & Hrun & Hm & _ & Hs).
  assert (Hout : run_outcome r
                 = Returned (mkImportSummary 2 [1%N] [] [] [] [])).
  { assert (E : Some (run_outcome r)
                = Some (Returned (mkImportSummary 2 [1%N] [] [] [] []))).
    { replace (Some (run_outcome r))
        with (run_outcome <$> importSelectedPagesWithProgress 2 Ex.noDigest
                Ex.settings Ex.onePageBook [1%N; 7%N] None Ex.emptyWorld)
        by (rewrite Hrun; reflexivity).
      vm_compute. reflexivity. }
    injection E as E. exact E. }
  exists r, (mkImportSummary 2 [1%N] [] [] [] []).
  split; [exact Hrun|]. split; [exact Hout|].
  destruct (Hs _ Hout) as (H1 & _ & _ & _ & H5).
  split; [exact Hm|]. split; [exact H1|exact H5].
Defined.

(** ** Failures of single pages *)

Lemma createBookIndex_ok pf st book name w :
  indexWritable pf st book ->
  (createBookIndex pf (bookFolderOf st (book_name book)) name w).1 = Returned tt.
Proof.
  intros Hi. unfold createBookIndex, vault_modify, vault_create, vault_call.
  fold (indexPathOf st book).
  destruct (isTFile _).
  - rewrite (proj2 (Hi _ _)). reflexivity.
  - rewrite (proj1 (Hi _ _)). reflexivity.
Qed.

Lemma processWithGeminiPages_ok pf st book items m w :
  indexWritable pf st book ->
  (processWithGeminiPages pf st (bookFolderOf st (book_name book)) items m w).1.1
  = Returned tt.
Proof.
  intros Hi. unfold processWithGeminiPages.
  destruct (negb _); [reflexivity|].
  destruct (geminiPlugin pf) as [plugin|]; [|reflexivity].
  destruct (geminiLoop _ _ _ _ _) as [m' w1].
  destruct (createIndex st); [|reflexivity].
  pose proof (createBookIndex_ok pf st book (bookName m')
                (saveManifest pf (manifestPathOf (bookFolderOf st (book_name book)))
                   m' w1) Hi) as H.
  destruct (createBookIndex _ _ _ _) as [o w3]. exact H.
Qed.

(** When the index document can be written, the epilogue returns the
    summary. *)
Lemma epilogue_ok pf st book sel rs w :
  indexWritable pf st book ->
  run_outcome (epilogue pf st book sel (rs, w)) = Returned (rs_summary rs).
Proof.
  intros Hi. unfold epilogue.
  assert (Hidx : ((if createIndex st
                   then createBookIndex pf (bookFolderOf st (book_name book))
                          (book_name book) w
                   else ret tt w)).1 = Returned tt).
  { destruct (createIndex st); [apply createBookIndex_ok, Hi|reflexivity]. }
  destruct (if createIndex st then _ else _) as [[[]|msg] w1]; [|discriminate].
  destruct (_ && _); [|reflexivity].
  pose proof (processWithGeminiPages_ok pf st book (rs_queue rs)
                (addHistoryEntry pf st (rs_manifest rs) ActImport sel
                   (historyMessage (rs_summary rs)))
                (saveManifest pf (manifestPathOf (bookFolderOf st (book_name book)))
                   (addHistoryEntry pf st (rs_manifest rs) ActImport sel
                      (historyMessage (rs_summary rs))) w1) Hi) as H.
  destruct (processWithGeminiPages _ _ _ _ _ _) as [[o m2] w3].
  cbn in H. subst o. reflexivity.
Qed.

Lemma importPage_errors pf st book hm n sw x :
  x ∈ errors (rs_summary sw.1) ->
  x ∈ errors (rs_summary (importPage pf st book hm n sw).1).
Proof.
  destruct sw as [rs w]. intros Hx.
  destruct (findPage book n) as [page|] eqn:Hf.
  - rewrite (importPage_found pf st book hm n rs w page Hf). cbn zeta.
    destruct (pushSummary_lists (taskType (existingEntry hm rs n) page) n
                (rs_summary rs)) as (_ & _ & _ & Pe).
    destruct (pageBody _ _ _ _ _ _ w) as [[[[]|msg] q] w']; cbn.
    + rewrite Pe. exact Hx.
    + rewrite Pe. apply elem_of_app. auto.
  - rewrite importPage_absent by exact Hf. exact Hx.
Qed.

Lemma importPages_errors pf st book hm l sw x :
  x ∈ errors (rs_summary sw.1) ->
  x ∈ errors (rs_summary (importPages pf st book hm l sw).1).
Proof.
  revert sw. induction l as [|n l IH]; intros sw Hx; [exact Hx|].
  rewrite importPages_cons. apply IH, importPage_errors, Hx.
Qed.

(** In a selection without repetition, the entry of a page number after
    the batches is the one its own task has left. *)
Lemma importPages_own_entry pf st book hm l1 q l2 sw :
  q ∉ l2 ->
  importedPages (rs_manifest (importPages pf st book hm (l1 ++ q :: l2) sw).1) !! q
  = importedPages
      (rs_manifest (importPage pf st book hm q (importPages pf st book hm l1 sw)).1)
      !! q.
Proof.
  intros Hq. rewrite importPages_app, importPages_cons.
  destruct (importPages_frame pf st book hm l2
              (importPage pf st book hm q (importPages pf st book hm l1 sw)))
    as (_ & H & _).
  apply H, Hq.
Qed.

Lemma importedEntry_ext pf st m1 m2 page :
  importedPages m1 !! pageNum page = importedPages m2 !! pageNum page ->
  importedEntry pf st m1 page = importedEntry pf st m2 page.
Proof. intros H. unfold importedEntry. rewrite H. reflexivity. Qed.

Lemma NoDup_split_notin {A} (l1 l2 : list A) x :
  NoDup (l1 ++ x :: l2) -> (x ∉ l1) /\ (x ∉ l2).
Proof.
  intros H. apply NoDup_app in H as (_ & H1 & H2).
  apply NoDup_cons in H2 as [H2 _]. split; [|exact H2].
  intros Hin. apply (H1 x Hin). apply elem_of_cons; auto.
Qed.

(** The entry of a page after the batches of a selection without
    repetition, by the outcome of the body of its task. *)
Lemma importPages_entry pf st book hm sel l1 q l2 page start :
  NoDup sel -> sel = l1 ++ q :: l2 -> findPage book q = Some page ->
  let final := importPages pf st book hm sel start in
  match bodyOutcomeAfter pf st book hm start l1 page with
  | Returned _ =>
      importedPages (rs_manifest final.1) !! q
      = Some (importedEntry pf st (rs_manifest start.1) page)
  | Threw msg =>
      importedPages (rs_manifest final.1) !! q
      = importedPages (rs_manifest start.1) !! q
      /\ (q, msg) ∈ errors (rs_summary final.1)
  end.
Proof.
  intros Hnd -> Hf. cbn zeta.
  destruct (NoDup_split_notin _ _ _ Hnd) as [Hq1 Hq2].
  pose proof (findPage_pageNum _ _ _ Hf) as Hpn.
  unfold bodyOutcomeAfter. cbn zeta. rewrite Hpn.
  rewrite importPages_own_entry by exact Hq2.
  rewrite importPages_app, importPages_cons.
  destruct (importPages_frame pf st book hm l1 start) as (_ & Hk1 & _).
  cbn zeta in Hk1. specialize (Hk1 q Hq1).
  destruct (importPages pf st book hm l1 start) as [rs1 w1] eqn:E1.
  cbn [fst snd] in *.
  rewrite (importPage_found pf st book hm q rs1 w1 page Hf). cbn zeta.
  destruct (pageBody _ _ _ _ _ _ w1) as [[[[]|msg] qd] w'] eqn:Eb; cbn [fst snd].
  - cbn. rewrite lookup_insert_eq. f_equal.
    apply importedEntry_ext. rewrite Hpn. exact Hk1.
  - cbn [rs_manifest]. split; [exact Hk1|].
    apply importPages_errors. cbn. apply elem_of_app. right.
    apply list_elem_of_singleton. reflexivity.
Qed.


(** ** The model at work: further scenarios *)

Lemma take_hex_all_hex s : all_hex (take_hex s) = true.
Proof.
  induction s as [|c s IH]; simpl; [reflexivity|].
  destruct (JS.is_hex c) eqn:E; simpl; [rewrite E; exact IH|reflexivity].
Qed.

Lemma hashMatch_all_hex s h : hashMatch s = Some h -> all_hex h = true.
Proof.
  induction s as [|c s IH]; cbn [hashMatch].
  - unfold hashMatchAt. cbn. discriminate.
  - destruct (hashMatchAt (String c s)) as [h'|] eqn:E; [|exact IH].
    intros [= <-]. unfold hashMatchAt in E.
    destruct (strip_prefix _ _) as [r|]; [|discriminate].
    destruct (JS.truthy _); [|discriminate].
    inversion E; subst. apply take_hex_all_hex.
Qed.

Lemma all_hex_not_special h : all_hex h = true -> isSpecialHash h = false.
Proof.
  intros Hhex. unfold isSpecialHash.
  destruct (JS.startsWith "recovered-" h) eqn:H1.
  { apply startsWith_true in H1 as [r ->]. discriminate Hhex. }
  destruct (JS.startsWith "RESET-" h) eqn:H2; [|reflexivity].
  apply startsWith_true in H2 as [r ->]. discriminate Hhex.
Qed.

(** A fingerprint read from a page document is a run of hexadecimal digits,
    hence never a sentinel: a sentinel baseline is always the manifest's. *)
Lemma embeddedHash_not_special content h :
  embeddedHash content = Some h -> isSpecialHash h = false.
Proof.
  unfold embeddedHash. destruct (matchFrontmatter content); [|discriminate].
  intros H. apply all_hex_not_special, (hashMatch_all_hex _ _ H).
Qed.

Lemma take_hex_app h c r :
  all_hex h = true -> JS.is_hex c = false -> take_hex (h +:+ String c r) = h.
Proof.
  intros Hh Hc. induction h as [|a h IH]; simpl in *.
  - rewrite Hc. reflexivity.
  - apply andb_true_iff in Hh as [Ha Hh]. rewrite Ha, (IH Hh). reflexivity.
Qed.

(** The run of white space stops at a quotation mark. *)
Lemma drop_ws_quote r :
  drop_ws (String (ascii_of_N 34) r) = String (ascii_of_N 34) r.
Proof. destruct r as [|b [|c r]]; reflexivity. Qed.

(** What the pattern of the analyzer captures from the line the executor
    writes for the value [v]: the hexadecimal digits [v] starts with. *)
Lemma hashMatchAt_line v rest :
  hashMatchAt ("original_image_hash: " +:+ dq +:+ v +:+ rest)
  = if JS.truthy (take_hex (v +:+ rest)) then Some (take_hex (v +:+ rest))
    else None.
Proof.
  unfold hashMatchAt.
  change ("original_image_hash: " +:+ dq +:+ v +:+ rest)
    with ("original_image_hash:"
          +:+ String " " (String (ascii_of_N 34) (v +:+ rest))).
  assert (Hs : forall p s, strip_prefix p (p +:+ s) = Some s).
  { induction p as [|a p IH]; intros s; [reflexivity|].
    change (String a p +:+ s) with (String a (p +:+ s)). cbn [strip_prefix].
    rewrite Ascii.eqb_refl. apply IH. }
  rewrite Hs.
  change (drop_ws (String " " (String (ascii_of_N 34) (v +:+ rest))))
    with (drop_ws (String (ascii_of_N 34) (v +:+ rest))).
  rewrite drop_ws_quote. reflexivity.
Qed.

(** The line the executor writes for a real digest is read back in full. *)
Lemma hashMatchAt_written h rest :
  all_hex h = true -> JS.truthy h = true ->
  hashMatchAt ("original_image_hash: " +:+ dq +:+ h +:+ dq +:+ rest) = Some h.
Proof.
  intros Hh Ht. rewrite hashMatchAt_line.
  change (dq +:+ rest) with (String (ascii_of_N 34) rest).
  rewrite (take_hex_app h _ rest Hh) by reflexivity.
  rewrite Ht. reflexivity.
Qed.

(** Importing the same archive a second time: the Change Analyzer finds
    every page unchanged, and the second run makes no call on the image
    files. *)
Example reimport_is_idempotent :
  match Ex.firstImport with
  | Some r1 =>
      ((fun c => (c_pageNum c, c_type c))
         <$> changes (analyzeChanges Ex.withDigest Ex.settings Ex.digestBook
                        (Some (run_manifest r1)) (run_world r1)).1,
       (fun r2 =>
          (run_outcome r2,
           existsb (writesAt "Viwoods Notes/Book/Images/Book_page_001.png")
             (calls (run_world r2)),
           existsb (writesAt "Viwoods Notes/Book/Images/Book_page_002.png")
             (calls (run_world r2))))
         <$> importSelectedPagesWithProgress 1 Ex.withDigest Ex.settings
               Ex.digestBook [1%N; 2%N] (Some (run_manifest r1))
               (mkWorld (vault (run_world r1)) []))
      = ([(1%N, TUnchanged); (2%N, TUnchanged)],
         Some (Returned (mkImportSummary 2 [] [] [1%N; 2%N] [] []), false, false))
  | None => False
  end.
Proof. vm_compute. reflexivity. Qed.

(** A fallback fingerprint written into a page document is read back as
    its first two characters, the only hexadecimal digits it starts with. *)
Example embedded_fallback_truncated :
  embeddedHash Ex.fallbackDocument = Some "fa".
Proof. vm_compute. reflexivity. Qed.

(** A reset marker in the manifest does not reach the comparison when the
    page document embeds a fingerprint: the embedded one is the baseline. *)
Example reset_marker_overridden_by_embedded_hash :
  isSpecialHash (imageHash Ex.resetEntry) = true
  /\ (fun c => (c_pageNum c, c_type c, c_oldHash c))
       <$> changes (analyzeChanges Ex.withDigest Ex.settings Ex.digestPageBook
                      (Some Ex.resetManifest) Ex.resetWorld).1
     = [(1%N, TUnchanged, Some "00000000000000000000000000000000")].
Proof. vm_compute. split; reflexivity. Qed.

(** An exception raised while the image is written does not reach the
    [catch] of the page task: the inner handler swallows it, the page
    document gets a line that says so, no error is recorded and the
    manifest entry of the page is the one of this import. *)
Example image_failure_is_swallowed :
  (fun r =>
     (run_outcome r,
      imageHash <$> importedPages (run_manifest r) !! 1%N,
      existsb (writesAt "Viwoods Notes/Book/Images/Book_page_001.png")
        (calls (run_world r)),
      existsb (writesAt "Viwoods Notes/Book/Page 001.md") (calls (run_world r))))
    <$> importSelectedPagesWithProgress 1 Ex.imageFails Ex.settings
          Ex.onePageBook [1%N] None Ex.emptyWorld
  = Some (Returned (mkImportSummary 1 [1%N] [] [] [] []),
          Some "fallback-10000000000000000000000", false, true).
Proof. vm_compute. reflexivity. Qed.


(** ** The analysis of a first import *)

Lemma fold_new_closed (ps : list PageData) a :
  fold_left
    (fun a page =>
       pushChange
         (mkPageChange (pageNum page) TNew None
            (Some (img_hash (image page))) None) a) ps a
  = analysisOf a
      ((fun page =>
          mkPageChange (pageNum page) TNew None
            (Some (img_hash (image page))) None) <$> ps).
Proof.
  revert a. induction ps as [|p ps IH]; intros a; simpl; [reflexivity|].
  apply IH.
Qed.

(** X1. Without a manifest the analysis reads nothing and reports every
    decoded page as new, in the order of the archive: no page is modified,
    unchanged or deleted, and the world is left as it was. *)
Theorem analysis_without_manifest pf st book w :
  let r := analyzeChanges pf st book None w in
  r.2 = w
  /\ changes r.1
     = (fun page =>
          mkPageChange (pageNum page) TNew None
            (Some (img_hash (image page))) None) <$> book_pages book
  /\ newPages (summary r.1) = pageNums book
  /\ modifiedPages (summary r.1) = []
  /\ unchangedPages (summary r.1) = []
  /\ deletedPages (summary r.1) = []
  /\ errors (summary r.1) = []
  /\ s_totalPages (summary r.1) = N.of_nat (length (book_pages book)).
Proof.
  unfold analyzeChanges; simpl. rewrite fold_new_closed.
  set (cs := _ <$> book_pages book).
  set (a0 := mkAnalysis [] _).
  destruct (summary_analysisOf a0 cs) as (Hn & Hm & Hu & Hd & He & Ht).
  assert (Hall : forall c, c ∈ cs -> c_type c = TNew).
  { intros c Hc. apply list_elem_of_fmap in Hc as (p & -> & _). reflexivity. }
  split; [reflexivity|]. split; [apply changes_analysisOf|].
  rewrite Hn, Hm, Hu, Hd, He, Ht. simpl.
  rewrite (numbersOf_all TNew cs Hall).
  rewrite !numbersOf_none
    by (intros c Hc; rewrite (Hall c Hc); discriminate).
  repeat split; try reflexivity.
  unfold cs, pageNums. rewrite <- list_fmap_compose. reflexivity.
Qed.

(** ** The analysis only reads *)

Lemma vault_call_log pf c effect w :
  exists rejected,
    calls (vault_call pf c effect w).2 = EvCall c rejected :: calls w.
Proof.
  unfold vault_call. destruct (rejects pf _ c); simpl; eauto.
Qed.

Lemma vault_read_log pf path w :
  exists rejected,
    calls (vault_read pf path w).2 = EvCall (CallRead path) rejected :: calls w.
Proof.
  unfold vault_read.
  destruct (vault_call_log pf (CallRead path) id w) as [rej Hlog].
  destruct (vault_call pf (CallRead path) id w) as [[[]|msg] w1]; simpl in *.
  - exists rej. destruct (vault w !! path) as [[d|]|]; exact Hlog.
  - exists rej. exact Hlog.
Qed.

Lemma readFileHash_log pf bf n w :
  calls (readFileHash pf bf n w).2 = calls w
  \/ exists rejected,
       calls (readFileHash pf bf n w).2
       = EvCall (CallRead (pagePathOf bf n)) rejected :: calls w.
Proof.
  unfold readFileHash.
  destruct (isTFile _); [|left; reflexivity].
  right. destruct (vault_read_log pf (pagePathOf bf n) w) as [rej Hlog].
  exists rej. destruct (vault_read pf (pagePathOf bf n) w) as [[c|msg] w1];
    exact Hlog.
Qed.

Lemma readFileHashes_log pf bf l acc w :
  exists post,
    calls (readFileHashes pf bf l acc w).2 = post ++ calls w
    /\ (length post <= length l)%nat
    /\ Forall (pageRead bf l.*1) post.
Proof.
  revert acc w. induction l as [|[n info] l IH]; intros acc w; simpl.
  - exists []. split; [reflexivity|]. split; [simpl; lia|constructor].
  - destruct (readFileHash pf bf n w) as [h w1] eqn:Hr.
    destruct (IH (<[n := mkExisting info h]> acc) w1) as (post & Hp & Hlen & Hall).
    assert (Hw1 : w1 = (readFileHash pf bf n w).2) by (rewrite Hr; reflexivity).
    assert (Hmono : Forall (pageRead bf (n :: l.*1)) post).
    { eapply Forall_impl; [exact Hall|].
      intros e (k & rej & Hk & ->). exists k, rej. split; [|reflexivity].
      apply elem_of_cons. right. exact Hk. }
    destruct (readFileHash_log pf bf n w) as [Hsame|[rej Hone]];
      rewrite <- Hw1 in *.
    + exists post. rewrite Hp, Hsame. split; [reflexivity|].
      split; [lia|exact Hmono].
    + exists (post ++ [EvCall (CallRead (pagePathOf bf n)) rej]).
      rewrite Hp, Hone, <- app_assoc. split; [reflexivity|]. split.
      * rewrite length_app. simpl. lia.
      * apply Forall_app. split; [exact Hmono|].
        constructor; [|constructor]. exists n, rej.
        split; [apply elem_of_cons; left|]; reflexivity.
Qed.

Lemma analyzeChanges_world pf st book m w :
  (analyzeChanges pf st book (Some m) w).2 = (loadExistingMap pf st book m w).2.
Proof.
  unfold analyzeChanges.
  destruct (loadExistingMap pf st book m w) as [em w1].
  destruct (checkPages _ _ _) as [rem a]. reflexivity.
Qed.

Lemma entries_length {A} (m : gmap N A) : length (entries m) = base.size m.
Proof.
  unfold entries. rewrite <- length_map_to_list.
  apply Permutation_length, merge_sort_Permutation.
Qed.

(** X2. The analysis never writes: it leaves the vault as it was, and all it
    adds to the call log are reads of page documents of pages recorded in
    the manifest, at most one for each of them. *)
Theorem analysis_only_reads pf st book m w :
  let r := analyzeChanges pf st book (Some m) w in
  vault r.2 = vault w
  /\ exists post,
       calls r.2 = post ++ calls w
       /\ (length post <= base.size (importedPages m))%nat
       /\ forall e, e ∈ post ->
            exists k rejected,
              is_Some (importedPages m !! k)
              /\ e = EvCall
                       (CallRead
                          (pagePathOf (bookFolderOf st (book_name book)) k))
                       rejected.
Proof.
  cbv zeta. rewrite analyzeChanges_world. unfold loadExistingMap.
  split; [apply readFileHashes_vault|].
  destruct (readFileHashes_log pf (bookFolderOf st (book_name book))
              (entries (importedPages m))
              ((fun info => mkExisting info None) <$> importedPages m) w)
    as (post & Hp & Hlen & Hall).
  exists post. split; [exact Hp|]. split.
  { rewrite entries_length in Hlen. exact Hlen. }
  intros e He. rewrite Forall_forall in Hall.
  destruct (Hall e He) as (k & rej & Hk & ->).
  exists k, rej. split; [|reflexivity].
  apply list_elem_of_fmap in Hk as ([k' info] & -> & Hin).
  apply entries_elem in Hin. simpl. eauto.
Qed.

(** ** Classification by fingerprint *)

Lemma numbersOf_elem t cs k :
  k ∈ numbersOf t cs <-> exists c, c ∈ cs /\ c_type c = t /\ c_pageNum c = k.
Proof.
  unfold numbersOf. rewrite list_elem_of_fmap. split.
  - intros (c & -> & Hc). apply list_elem_of_filter in Hc as [Ht Hc]. eauto.
  - intros (c & Hc & Ht & <-). exists c. split; [reflexivity|].
    apply list_elem_of_filter. split; assumption.
Qed.

Lemma pageChanges_NoDup ps (em : gmap N Existing) page :
  NoDup (pageNum <$> ps) -> page ∈ ps ->
  classifyPage (em !! pageNum page) page ∈ pageChanges ps em
  /\ forall c, c ∈ pageChanges ps em -> c_pageNum c = pageNum page ->
       c = classifyPage (em !! pageNum page) page.
Proof.
  revert em. induction ps as [|p ps IH]; intros em Hnd Hin.
  { apply elem_of_nil in Hin. destruct Hin. }
  rewrite fmap_cons in Hnd. apply NoDup_cons in Hnd as [Hp Hnd]. simpl.
  apply elem_of_cons in Hin as [->|Hin].
  - split; [apply elem_of_cons; left; reflexivity|].
    intros c Hc Hk. apply elem_of_cons in Hc as [->|Hc]; [reflexivity|].
    exfalso. apply Hp. rewrite <- Hk, <- (pageChanges_pageNums ps (delete (pageNum p) em)).
    apply list_elem_of_fmap. eauto.
  - assert (Hne : pageNum p <> pageNum page).
    { intros Heq. apply Hp. rewrite Heq. apply list_elem_of_fmap. eauto. }
    destruct (IH (delete (pageNum p) em) Hnd Hin) as [Hex Hun].
    rewrite lookup_delete_ne in Hex, Hun by exact Hne.
    split; [apply elem_of_cons; right; exact Hex|].
    intros c Hc Hk. apply elem_of_cons in Hc as [->|Hc].
    + rewrite classifyPage_pageNum in Hk. contradiction.
    + apply Hun; assumption.
Qed.

Lemma classifyPage_type e page :
  c_type (classifyPage (Some e) page)
  = if negb (isSpecialHash (existingHash e))
       && String.eqb (existingHash e) (img_hash (image page))
    then TUnchanged else TModified.
Proof.
  unfold classifyPage.
  destruct (isSpecialHash (existingHash e)); simpl; [reflexivity|].
  destruct (String.eqb _ _); reflexivity.
Qed.

Lemma analysis_classifies pf st book m w page e :
  NoDup (pageNums book) ->
  page ∈ book_pages book ->
  (loadExistingMap pf st book m w).1 !! pageNum page = Some e ->
  let a := (analyzeChanges pf st book (Some m) w).1 in
  let same :=
    negb (isSpecialHash (existingHash e))
    && String.eqb (existingHash e) (img_hash (image page)) in
  (pageNum page ∈ unchangedPages (summary a) <-> same = true)
  /\ (pageNum page ∈ modifiedPages (summary a) <-> same = false)
  /\ (pageNum page ∉ newPages (summary a))
  /\ (pageNum page ∉ deletedPages (summary a)).
Proof.
  intros Hnd Hin He a same. subst a.
  rewrite analyzeChanges_closed.
  set (em := (loadExistingMap pf st book m w).1) in *.
  set (a0 := mkAnalysis [] _).
  set (cs := pageChanges (book_pages book) em).
  set (ds := deletedChange <$> entries (remainingMap (book_pages book) em)).
  destruct (summary_analysisOf a0 (cs ++ ds)) as (Hn & Hm & Hu & Hd & _ & _).
  rewrite Hn, Hm, Hu, Hd. simpl. clear Hn Hm Hu Hd.
  destruct (pageChanges_NoDup (book_pages book) em page Hnd Hin) as [Hex Hun].
  fold cs in Hex, Hun. rewrite He in Hex, Hun.
  pose proof (classifyPage_type e page) as Hty. fold same in Hty.
  assert (Hds : forall t, t <> TDeleted -> numbersOf t ds = []).
  { intros t Ht. apply numbersOf_none. intros c Hc.
    rewrite (deletedChange_type _ c Hc). congruence. }
  assert (Hcs : forall t, pageNum page ∈ numbersOf t (cs ++ ds)
                          -> t <> TDeleted
                          -> c_type (classifyPage (Some e) page) = t).
  { intros t Hk Ht. rewrite numbersOf_app, (Hds t Ht), app_nil_r in Hk.
    apply numbersOf_elem in Hk as (c & Hc & Hct & Hk).
    rewrite <- (Hun c Hc Hk). exact Hct. }
  assert (Hin' : forall t, c_type (classifyPage (Some e) page) = t ->
                   pageNum page ∈ numbersOf t (cs ++ ds)).
  { intros t Ht. rewrite numbersOf_app. apply elem_of_app. left.
    apply numbersOf_elem. exists (classifyPage (Some e) page).
    split; [exact Hex|]. split; [exact Ht|apply classifyPage_pageNum]. }
  split; [|split; [|split]].
  - split.
    + intros Hk. apply Hcs in Hk; [|discriminate]. rewrite Hty in Hk.
      destruct same; [reflexivity|discriminate].
    + intros Hs. apply Hin'. rewrite Hty, Hs. reflexivity.
  - split.
    + intros Hk. apply Hcs in Hk; [|discriminate]. rewrite Hty in Hk.
      destruct same; [discriminate|reflexivity].
    + intros Hs. apply Hin'. rewrite Hty, Hs. reflexivity.
  - intros Hk. apply Hcs in Hk; [|discriminate]. rewrite Hty in Hk.
    destruct same; discriminate.
  - intros Hk. rewrite numbersOf_app in Hk. apply elem_of_app in Hk as [Hk|Hk].
    + apply numbersOf_elem in Hk as (c & Hc & Hct & _).
      exact (pageChanges_not_deleted _ _ c Hc Hct).
    + unfold ds in Hk. rewrite numbersOf_deleted_entries in Hk.
      apply remaining_entries_keys in Hk as [_ Hk]. apply Hk.
      apply list_elem_of_fmap. eauto.
Qed.

(** X3. In a book without repeated page numbers, a page that has a manifest
    entry is reported unchanged exactly when its baseline is not a sentinel
    and equals the fingerprint of the decoded image, and modified
    otherwise; it is never reported new or deleted.  Whether the page has
    audio plays no part. *)
Theorem classification_by_fingerprint pf st book m w page e :
  NoDup (pageNums book) ->
  page ∈ book_pages book ->
  (loadExistingMap pf st book m w).1 !! pageNum page = Some e ->
  let a := (analyzeChanges pf st book (Some m) w).1 in
  let same :=
    negb (isSpecialHash (existingHash e))
    && String.eqb (existingHash e) (img_hash (image page)) in
  (pageNum page ∈ unchangedPages (summary a) <-> same = true)
  /\ (pageNum page ∈ modifiedPages (summary a) <-> same = false)
  /\ (pageNum page ∉ newPages (summary a))
  /\ (pageNum page ∉ deletedPages (summary a)).
Proof. apply analysis_classifies. Qed.

Lemma classification_by_fingerprint_witness :
  let page := Ex.plainPage Ex.noDigest 1 (Ex.blobOf 10) in
  let a := (analyzeChanges Ex.noDigest Ex.settings Ex.onePageBook
              (Some Ex.unchangedManifest) Ex.emptyWorld).1 in
  NoDup (pageNums Ex.onePageBook)
  /\ page ∈ book_pages Ex.onePageBook
  /\ (1%N ∈ unchangedPages (summary a)).
Proof.
  assert (Hnd : NoDup (pageNums Ex.onePageBook)).
  { apply NoDup_singleton. }
  assert (Hin : Ex.plainPage Ex.noDigest 1 (Ex.blobOf 10)
                ∈ book_pages Ex.onePageBook).
  { apply list_elem_of_singleton. reflexivity. }
  split; [exact Hnd|]. split; [exact Hin|].
  apply (classification_by_fingerprint Ex.noDigest Ex.settings Ex.onePageBook
           Ex.unchangedManifest Ex.emptyWorld
           (Ex.plainPage Ex.noDigest 1 (Ex.blobOf 10))
           (mkExisting (Ex.entryOf Ex.noDigest Ex.settings 1 (Ex.blobOf 10)) None)
           Hnd Hin).
  - vm_compute. reflexivity.
  - vm_compute. reflexivity.
Defined.

(** ** The shape of a fingerprint *)

Lemma length_append (s t : string) :
  String.length (s +:+ t) = (String.length s + String.length t)%nat.
Proof. induction s as [|c s IH]; simpl; [reflexivity|]. rewrite IH. reflexivity. Qed.

Lemma length_repeat_char c n : String.length (JS.repeat_char c n) = n.
Proof. induction n as [|n IH]; simpl; [reflexivity|]. rewrite IH. reflexivity. Qed.

Lemma length_substring0 n s :
  String.length (JS.substring0 n s) = Nat.min n (String.length s).
Proof.
  unfold JS.substring0. revert s.
  induction n as [|n IH]; intros [|c s]; simpl; try reflexivity.
  rewrite IH. reflexivity.
Qed.

Lemma length_padStart n c s :
  String.length (JS.padStart n c s) = Nat.max n (String.length s).
Proof. unfold JS.padStart. rewrite length_append, length_repeat_char. lia. Qed.

Lemma length_padEnd n c s :
  String.length (JS.padEnd n c s) = Nat.max n (String.length s).
Proof. unfold JS.padEnd. rewrite length_append, length_repeat_char. lia. Qed.

Lemma length_toString16 b :
  (1 <= String.length (JS.toString16 b) <= 2)%nat.
Proof. unfold JS.toString16. destruct (_ <? 16); simpl; lia. Qed.

Lemma length_hashHex l : String.length (hashHex l) = (2 * length l)%nat.
Proof.
  unfold hashHex. induction l as [|b l IH]; simpl; [reflexivity|].
  rewrite length_append, IH, length_padStart.
  pose proof (length_toString16 b). lia.
Qed.

Lemma length_fallbackHash sz : String.length (fallbackHash sz) = 32%nat.
Proof.
  unfold fallbackHash. rewrite length_substring0, length_padEnd. lia.
Qed.

Lemma hashImageData_cases pf blob :
  (digestFails pf blob /\ hashImageData pf blob = fallbackHash (blob_size blob))
  \/ exists buffer digest,
       blob_arrayBuffer blob = Returned buffer
       /\ subtle_digest pf buffer = Returned digest
       /\ hashImageData pf blob = JS.substring0 32 (hashHex digest).
Proof.
  unfold digestFails, hashImageData.
  destruct (blob_arrayBuffer blob) as [buffer|msg]; [|left; split; [exact I|reflexivity]].
  destruct (subtle_digest pf buffer) as [digest|msg] eqn:Hd.
  - right. exists buffer, digest. repeat split. exact Hd.
  - left. split; [exact I|reflexivity].
Qed.

Lemma hashImageData_not_special pf blob :
  isSpecialHash (hashImageData pf blob) = false.
Proof.
  destruct (hashImageData_cases pf blob) as [[_ ->]|(b & d & _ & _ & ->)].
  - apply fallbackHash_not_special.
  - apply all_hex_not_special, all_hex_substring0, all_hex_hashHex.
Qed.

(** X4. A fingerprint computed by [hashImageData] has at most 32
    characters and never looks like a sentinel; it is either a run of
    lower-case hexadecimal digits (two for each of the first 16 bytes of
    the digest) or the 32-character fallback value. *)
Theorem hashImageData_shape pf blob :
  let h := hashImageData pf blob in
  (String.length h <= 32)%nat
  /\ isSpecialHash h = false
  /\ (all_hex h = true
      \/ (JS.startsWith "fallback-" h = true /\ String.length h = 32%nat))
  /\ (forall buffer digest,
        blob_arrayBuffer blob = Returned buffer ->
        subtle_digest pf buffer = Returned digest ->
        all_hex h = true
        /\ String.length h = Nat.min 32 (2 * length digest)).
Proof.
  intros h. subst h.
  split; [|split; [apply hashImageData_not_special|split]].
  - destruct (hashImageData_cases pf blob) as [[_ ->]|(b & d & _ & _ & ->)].
    + rewrite length_fallbackHash. lia.
    + rewrite length_substring0. lia.
  - destruct (hashImageData_cases pf blob) as [[_ ->]|(b & d & _ & _ & ->)].
    + right. split; [apply fallbackHash_prefix|apply length_fallbackHash].
    + left. apply all_hex_substring0, all_hex_hashHex.
  - intros buffer digest Hb Hd. unfold hashImageData. rewrite Hb, Hd.
    split; [apply all_hex_substring0, all_hex_hashHex|].
    rewrite length_substring0, length_hashHex. reflexivity.
Qed.

(** ** Decimal numerals *)

Lemma string_app_cons c (s t : string) : String c s +:+ t = String c (s +:+ t).
Proof. reflexivity. Qed.

Lemma string_app_assoc (s t u : string) : (s +:+ t) +:+ u = s +:+ (t +:+ u).
Proof.
  induction s as [|c s IH]; [reflexivity|].
  rewrite !string_app_cons, IH. reflexivity.
Qed.

Lemma string_app_nil_r (s : string) : s +:+ "" = s.
Proof.
  induction s as [|c s IH]; [reflexivity|].
  rewrite string_app_cons, IH. reflexivity.
Qed.

Lemma pretty_N_go_app x s :
  pretty_N_go x s = pretty_N_go x "" +:+ s.
Proof.
  revert s. induction (N.lt_wf_0 x) as [x _ IH]; intros s.
  destruct (decide (x = 0)) as [->|Hx].
  { rewrite !pretty_N_go_0. reflexivity. }
  rewrite (pretty_N_go_step x s), (pretty_N_go_step x "") by lia.
  assert (Hlt : (x `div` 10 < x)%N) by (apply N.div_lt; lia).
  rewrite (IH _ Hlt (String _ s)), (IH _ Hlt (String _ "")).
  rewrite !string_app_assoc. reflexivity.
Qed.

Lemma String_times_ten n :
  (0 < n)%N -> JS.String_ (10 * n) = JS.String_ n +:+ "0".
Proof.
  intros Hn. unfold JS.String_, pretty, pretty_N.
  destruct (decide (10 * n = 0)%N); [lia|].
  destruct (decide (n = 0)%N); [lia|].
  rewrite (pretty_N_go_step (10 * n)) by lia.
  replace ((10 * n) `div` 10)%N with n
    by (symmetry; rewrite N.mul_comm; apply N.div_mul; lia).
  replace ((10 * n) `mod` 10)%N with 0%N
    by (symmetry; rewrite N.mul_comm; apply N.Div0.mod_mul).
  apply pretty_N_go_app.
Qed.

Lemma repeat_char_S_end c n :
  JS.repeat_char c (S n) = String c "" +:+ JS.repeat_char c n.
Proof. reflexivity. Qed.

Lemma substring0_append_exact s t :
  JS.substring0 (String.length s) (s +:+ t) = s.
Proof.
  unfold JS.substring0. induction s as [|c s IH]; simpl.
  - destruct t; reflexivity.
  - rewrite IH. reflexivity.
Qed.

Lemma pretty_N_go_length (k : nat) x s :
  (x < 10 ^ N.of_nat k)%N ->
  (String.length (pretty_N_go x s) <= String.length s + k)%nat.
Proof.
  revert x s. induction k as [|k IH]; intros x s Hx.
  - assert (x = 0%N) as -> by (cbn in Hx; lia).
    rewrite pretty_N_go_0. lia.
  - destruct (decide (x = 0%N)) as [->|Hne].
    { rewrite pretty_N_go_0. lia. }
    rewrite pretty_N_go_step by lia.
    assert (Hd : (x `div` 10 < 10 ^ N.of_nat k)%N).
    { apply N.Div0.div_lt_upper_bound.
      rewrite Nat2N.inj_succ, N.pow_succ_r' in Hx. exact Hx. }
    specialize (IH _ (String (pretty_N_char (x `mod` 10)) s) Hd).
    cbn [String.length] in IH. lia.
Qed.

(** A safe integer has at most sixteen digits. *)
Lemma String_length_safe n :
  (n <= JS.MAX_SAFE_INTEGER)%N -> (String.length (JS.String_ n) <= 16)%nat.
Proof.
  intros Hn. unfold JS.String_, pretty, pretty_N.
  destruct (decide (n = 0)%N); [cbn; lia|].
  pose proof (pretty_N_go_length 16 n "") as H. cbn [String.length] in H.
  apply H. unfold JS.MAX_SAFE_INTEGER in Hn.
  change (10 ^ N.of_nat 16)%N with 10000000000000000%N.
  change (2 ^ 53 - 1)%N with 9007199254740991%N in Hn. lia.
Qed.

Lemma fallbackHash_pads_zero n :
  (0 < n)%N ->
  (String.length (JS.String_ n) < 23)%nat ->
  fallbackHash (10 * n) = fallbackHash n.
Proof.
  intros Hn Hlen. unfold fallbackHash, JS.padEnd.
  rewrite (String_times_ten n Hn).
  rewrite !length_append. simpl String.length.
  set (d := JS.String_ n) in *.
  replace (32 - (9 + String.length d))%nat
    with (S (32 - (9 + (String.length d + 1))))%nat by lia.
  rewrite repeat_char_S_end.
  rewrite !string_app_assoc. reflexivity.
Qed.

(** X5. The fallback fingerprint does not tell a size from ten times that
    size: the digits are padded with the character 0, so the blobs of [n]
    and [10 * n] bytes get the same fallback fingerprint.  The sizes are
    those a blob can report: [10 * n] is a safe integer, which [String]
    prints in full. *)
Theorem fallbackHash_times_ten n :
  (0 < n)%N ->
  (10 * n <= JS.MAX_SAFE_INTEGER)%N ->
  fallbackHash (10 * n) = fallbackHash n.
Proof.
  intros Hn Hsafe. apply fallbackHash_pads_zero; [exact Hn|].
  pose proof (String_length_safe n) as H.
  assert (n <= JS.MAX_SAFE_INTEGER)%N by lia. specialize (H ltac:(assumption)).
  lia.
Qed.

Lemma fallbackHash_times_ten_witness :
  (0 < 12)%N
  /\ (10 * 12 <= JS.MAX_SAFE_INTEGER)%N
  /\ fallbackHash (10 * 12) = fallbackHash 12.
Proof.
  split; [lia|]. split; [vm_compute; discriminate|].
  apply (fallbackHash_times_ten 12); [lia|vm_compute; discriminate].
Defined.

(** ** The history below its cap *)

(** X6. With history switched off [addHistoryEntry] returns the manifest
    untouched.  With history on it puts the new entry in front and keeps
    the first [maxHistoryEntries] entries: below the cap nothing is
    dropped, and afterwards the history never has more entries than the
    cap, whatever its length was before.  Only the history changes. *)
Theorem addHistoryEntry_result pf st m action pages summ :
  let entry := mkImportHistory (now pf) action pages summ in
  let m' := addHistoryEntry pf st m action pages summ in
  (keepHistory st = false -> m' = m)
  /\ (keepHistory st = true ->
      historyOf m'
      = take (N.to_nat (maxHistoryEntries st)) (entry :: historyOf m)
      /\ length (historyOf m')
         = Nat.min (N.to_nat (maxHistoryEntries st)) (S (length (historyOf m)))
      /\ ((length (historyOf m) < N.to_nat (maxHistoryEntries st))%nat ->
          historyOf m' = entry :: historyOf m))
  /\ m' = setHistory m (history m').
Proof.
  intros entry m'. subst m'. unfold addHistoryEntry. fold entry.
  destruct (keepHistory st); simpl.
  - split; [discriminate|].
    destruct (N.ltb_spec (maxHistoryEntries st)
                (N.of_nat (S (length (historyOf m))))) as [Hlt|Hge].
    + split; [|reflexivity]. intros _.
      rewrite historyOf_setHistory. split; [reflexivity|]. split.
      * rewrite length_take. simpl. reflexivity.
      * intros Hlen. lia.
    + split; [|reflexivity]. intros _.
      rewrite historyOf_setHistory.
      assert (Hle : (S (length (historyOf m))
                     <= N.to_nat (maxHistoryEntries st))%nat) by lia.
      split; [symmetry; apply take_ge; simpl; lia|].
      split; [simpl; lia|reflexivity].
  - split; [reflexivity|]. split; [discriminate|].
    destruct m; reflexivity.
Qed.

(** ** What [ensureFolder] leaves *)

Lemma ensureFolders_spec pf folders cur w :
  let r := ensureFolders pf folders cur w in
  (forall p node, vault w !! p = Some node -> vault r.2 !! p = Some node)
  /\ (r.1 = Returned tt ->
      forall p, p ∈ folderPaths folders cur ->
        is_Some (vault r.2 !! normalizePath pf p))
  /\ ((forall p, p ∈ folderPaths folders cur ->
         is_Some (vault w !! normalizePath pf p)) ->
      r = (Returned tt, w))
  /\ exists post, calls r.2 = post ++ calls w /\ Forall isCreateFolder post.
Proof.
  revert cur w. induction folders as [|folder r IH]; intros cur w.
  { simpl. split; [auto|]. split.
    - intros _ p Hp. apply elem_of_nil in Hp. destruct Hp.
    - split; [reflexivity|]. exists []. split; [reflexivity|constructor]. }
  simpl.
  set (cur' := if JS.truthy cur then cur +:+ "/" +:+ folder else folder).
  set (np := normalizePath pf cur').
  unfold getAbstractFileByPath.
  destruct (vault w !! np) as [node0|] eqn:Hnp.
  - destruct (IH cur' w) as (Hkeep & Hall & Hnone & post & Hlog & Hposts).
    split; [exact Hkeep|]. split; [|split].
    + intros Hret p Hp. apply elem_of_cons in Hp as [->|Hp].
      * fold np. erewrite Hkeep by exact Hnp. eauto.
      * apply Hall; assumption.
    + intros Hex. apply Hnone. intros p Hp. apply Hex.
      apply elem_of_cons. right. exact Hp.
    + exists post. split; assumption.
  - unfold bind, try_catch, vault_createFolder, vault_call.
    destruct (rejects pf (length (calls w)) (CallCreateFolder np)) as [msg|] eqn:Hrej;
      simpl.
    + rewrite Hnp. simpl.
      split; [auto|]. split; [discriminate|]. split.
      * intros Hex. specialize (Hex cur').
        fold np in Hex. rewrite Hnp in Hex.
        destruct Hex as [x Hx]; [apply elem_of_cons; left; reflexivity|discriminate].
      * exists [EvCall (CallCreateFolder np) (Some msg)].
        split; [reflexivity|]. constructor; [|constructor].
        exists np, (Some msg). reflexivity.
    + set (w1 := mkWorld (<[np := TFolder]> (vault w))
                   (EvCall (CallCreateFolder np) None :: calls w)).
      destruct (IH cur' w1) as (Hkeep & Hall & Hnone & post & Hlog & Hposts).
      assert (Hnew : vault w1 !! np = Some TFolder)
        by (simpl; apply lookup_insert_eq).
      split; [|split; [|split]].
      * intros p node Hp. apply Hkeep. simpl.
        rewrite lookup_insert_ne; [exact Hp|]. intros <-. congruence.
      * intros Hret p Hp. apply elem_of_cons in Hp as [->|Hp].
        -- fold np. erewrite Hkeep by exact Hnew. eauto.
        -- apply Hall; assumption.
      * intros Hex. specialize (Hex cur').
        fold np in Hex. rewrite Hnp in Hex.
        destruct Hex as [x Hx]; [apply elem_of_cons; left; reflexivity|discriminate].
      * exists (post ++ [EvCall (CallCreateFolder np) None]).
        rewrite Hlog, <- app_assoc. split; [reflexivity|].
        apply Forall_app. split; [exact Hposts|].
        constructor; [|constructor]. exists np, None. reflexivity.
Qed.

(** X7. [ensureFolder] only ever calls [createFolder] and never changes or
    removes what the vault already holds.  When it returns normally, the
    folder and every one of its ancestors exist; when they all exist
    beforehand it makes no call at all. *)
Theorem ensureFolder_result pf path w :
  let r := ensureFolder pf path w in
  let paths := folderPaths (split_slash path) EmptyString in
  (forall p node, vault w !! p = Some node -> vault r.2 !! p = Some node)
  /\ (r.1 = Returned tt ->
      forall p, p ∈ paths -> is_Some (vault r.2 !! normalizePath pf p))
  /\ ((forall p, p ∈ paths -> is_Some (vault w !! normalizePath pf p)) ->
      r = (Returned tt, w))
  /\ exists post, calls r.2 = post ++ calls w /\ Forall isCreateFolder post.
Proof. apply ensureFolders_spec. Qed.

Example ensureFolder_paths :
  folderPaths (split_slash "Viwoods Notes/Book/Images") EmptyString
  = ["Viwoods Notes"; "Viwoods Notes/Book"; "Viwoods Notes/Book/Images"].
Proof. reflexivity. Qed.

(** ** What [saveManifest] leaves *)

Lemma ensureFolder_throw_log pf path w msg :
  (ensureFolder pf path w).1 = Threw msg ->
  exists c m l, calls (ensureFolder pf path w).2 = EvCall c (Some m) :: l.
Proof.
  unfold ensureFolder. generalize (split_slash path) as folders.
  generalize EmptyString as cur. intros cur folders. revert cur w.
  induction folders as [|folder r IH]; intros cur w; simpl; [discriminate|].
  set (cur' := if JS.truthy cur then cur +:+ "/" +:+ folder else folder).
  set (np := normalizePath pf cur').
  unfold getAbstractFileByPath.
  destruct (vault w !! np) as [node0|] eqn:Hnp; [apply IH|].
  unfold bind, try_catch, vault_createFolder, vault_call.
  destruct (rejects pf (length (calls w)) (CallCreateFolder np)) as [m|]; simpl.
  - rewrite Hnp. simpl. intros _. eauto.
  - apply IH.
Qed.

Lemma saveManifest_cases pf path m w :
  let content := JSON_stringify pf m in
  let first :=
    if isTFile (vault w !! path) then CallModify path content
    else CallCreate path content in
  (rejects pf (S (length (calls w))) first = None
   /\ saveManifest pf path m w
      = mkWorld (<[path := TFile (Text content)]> (vault w))
          (EvCall first None :: EvSaveManifest path :: calls w))
  \/ exists msg,
       rejects pf (S (length (calls w))) first = Some msg
       /\ saveManifest pf path m w
          = (bind (ensureFolder pf (folderOfPath path))
               (fun _ => adapter_write pf path content)
               (mkWorld (vault w)
                  (EvCall first (Some msg) :: EvSaveManifest path :: calls w))).2.
Proof.
  intros content first. unfold saveManifest.
  fold content. unfold getAbstractFileByPath. simpl vault.
  set (w0 := mkWorld (vault w) (EvSaveManifest path :: calls w)).
  assert (Hfirst :
    (if isTFile (vault w0 !! path) then vault_modify pf path content
     else vault_create pf path content) w0
    = vault_call pf first (<[path := TFile (Text content)]>) w0).
  { unfold first. simpl. destruct (isTFile _); reflexivity. }
  rewrite Hfirst. clear Hfirst. unfold vault_call. simpl.
  destruct (rejects pf (S (length (calls w))) first) as [msg|] eqn:Hrej.
  - right. exists msg. split; reflexivity.
  - left. split; reflexivity.
Qed.

(** X8. [saveManifest] fails silently, and the call log tells: afterwards
    either the manifest path holds the serialised manifest, or the newest
    entry of the log is a rejected call.  When the first write is accepted,
    that write is the only call and the only change to the vault.  In every
    case, what the vault held at other paths is still there. *)
Theorem saveManifest_result pf path m w :
  let w' := saveManifest pf path m w in
  let content := JSON_stringify pf m in
  let first :=
    if isTFile (vault w !! path) then CallModify path content
    else CallCreate path content in
  (vault w' !! path = Some (TFile (Text content))
   \/ exists c msg l, calls w' = EvCall c (Some msg) :: l)
  /\ (rejects pf (S (length (calls w))) first = None ->
      vault w' = <[path := TFile (Text content)]> (vault w)
      /\ calls w' = EvCall first None :: EvSaveManifest path :: calls w)
  /\ (forall p node, p <> path -> vault w !! p = Some node ->
        vault w' !! p = Some node).
Proof.
  intros w' content first. subst w'.
  destruct (saveManifest_cases pf path m w) as [[Hrej ->]|(msg & Hrej & ->)];
    fold content; fold first; fold content in Hrej; fold first in Hrej.
  - simpl. split; [left; apply lookup_insert_eq|].
    split; [intros _; split; reflexivity|].
    intros p node Hne Hp. rewrite lookup_insert_ne by congruence. exact Hp.
  - rewrite Hrej.
    set (w1 := mkWorld (vault w)
                 (EvCall first (Some msg) :: EvSaveManifest path :: calls w)).
    unfold bind.
    destruct (ensureFolders_spec pf (split_slash (folderOfPath path)) EmptyString w1)
      as (Hkeep & _ & _ & _).
    fold (ensureFolder pf (folderOfPath path)) in Hkeep.
    pose proof (ensureFolder_throw_log pf (folderOfPath path) w1) as Hthrow.
    destruct (ensureFolder pf (folderOfPath path) w1) as [[[]|msg1] w2];
      simpl in Hkeep, Hthrow.
    + unfold adapter_write, vault_call.
      destruct (rejects pf (length (calls w2)) _) as [msg2|]; simpl.
      * split; [right; eauto|]. split; [discriminate|].
        intros p node _ Hp. apply (Hkeep p node). exact Hp.
      * split; [left; apply lookup_insert_eq|]. split; [discriminate|].
        intros p node Hne Hp. rewrite lookup_insert_ne by congruence.
        apply (Hkeep p node). exact Hp.
    + simpl. split; [right; apply (Hthrow msg1); reflexivity|].
      split; [discriminate|].
      intros p node _ Hp. apply (Hkeep p node). exact Hp.
Qed.

(** ** What the summary of a run counts *)

Lemma classified_pushSummary t n s :
  t <> TDeleted -> classified (pushSummary t n s) ≡ₚ classified s ++ [n].
Proof.
  unfold classified. intros Ht. destruct t; simpl; try congruence.
  - rewrite <- !app_assoc. apply Permutation_app_head.
    rewrite (app_assoc (modifiedPages s)). apply Permutation_app_comm.
  - rewrite <- !app_assoc. do 2 apply Permutation_app_head.
    apply Permutation_app_comm.
  - rewrite <- !app_assoc. reflexivity.
Qed.

Lemma taskType_not_deleted existing page : taskType existing page <> TDeleted.
Proof.
  unfold taskType. destruct (isNewOf _); [discriminate|].
  destruct (isModifiedOf _ _); discriminate.
Qed.

Lemma importPage_summary pf st book hm n rs w page :
  findPage book n = Some page ->
  let s' := rs_summary (importPage pf st book hm n (rs, w)).1 in
  let s1 := pushSummary (taskType (existingEntry hm rs n) page) n (rs_summary rs) in
  newPages s' = newPages s1 /\ modifiedPages s' = modifiedPages s1
  /\ unchangedPages s' = unchangedPages s1
  /\ (errors s' = errors (rs_summary rs)
      \/ exists msg, errors s' = errors (rs_summary rs) ++ [(n, msg)]).
Proof.
  intros Hf. rewrite (importPage_found pf st book hm n rs w page Hf). simpl.
  destruct (pageBody _ _ _ _ _ _ _) as [[[[]|msg] q] w']; simpl.
  - repeat split; try reflexivity. left.
    destruct (taskType _ _); reflexivity.
  - repeat split; try reflexivity. right. exists msg.
    destruct (taskType _ _); reflexivity.
Qed.

Lemma selectedInBook_snoc book l n :
  selectedInBook book (l ++ [n])
  = selectedInBook book l ++ (if decide (n ∈ pageNums book) then [n] else []).
Proof.
  unfold selectedInBook. rewrite filter_app. reflexivity.
Qed.

Lemma importPages_snoc pf st book hm l n sw :
  importPages pf st book hm (l ++ [n]) sw
  = importPage pf st book hm n (importPages pf st book hm l sw).
Proof. rewrite importPages_app. reflexivity. Qed.

Lemma importPages_classified pf st book hm l sw :
  let s' := rs_summary (importPages pf st book hm l sw).1 in
  classified s' ≡ₚ classified (rs_summary sw.1) ++ selectedInBook book l
  /\ (forall k msg, (k, msg) ∈ errors s' ->
        (k, msg) ∈ errors (rs_summary sw.1)
        \/ (k ∈ l /\ k ∈ pageNums book)).
Proof.
  induction l as [|n l IH] using rev_ind.
  { simpl. split; [rewrite app_nil_r; reflexivity|]. intros k msg Hk. left. exact Hk. }
  cbv zeta in *. rewrite importPages_snoc, selectedInBook_snoc.
  destruct (importPages pf st book hm l sw) as [rs w] eqn:Hrun.
  simpl in IH. destruct IH as [IHc IHe].
  destruct (findPage book n) as [page|] eqn:Hf.
  - pose proof (findPage_in book n page Hf) as Hin.
    destruct (importPage_summary pf st book hm n rs w page Hf)
      as (Hn & Hm & Hu & Herr).
    destruct (decide (n ∈ pageNums book)) as [_|Hout]; [|contradiction].
    split.
    + unfold classified at 1. rewrite Hn, Hm, Hu.
      fold (classified (pushSummary (taskType (existingEntry hm rs n) page) n
                          (rs_summary rs))).
      rewrite classified_pushSummary by apply taskType_not_deleted.
      rewrite IHc, <- app_assoc. reflexivity.
    + intros k msg Hk.
      destruct Herr as [Herr|[msg' Herr]]; rewrite Herr in Hk.
      * destruct (IHe k msg Hk) as [?|[? ?]]; [left; assumption|].
        right. split; [apply elem_of_app; left|]; assumption.
      * apply elem_of_app in Hk as [Hk|Hk].
        -- destruct (IHe k msg Hk) as [?|[? ?]]; [left; assumption|].
           right. split; [apply elem_of_app; left|]; assumption.
        -- apply list_elem_of_singleton in Hk. injection Hk as -> ->.
           right. split; [|exact Hin].
           apply elem_of_app. right. apply list_elem_of_singleton. reflexivity.
  - rewrite (importPage_absent pf st book hm n (rs, w) Hf).
    apply findPage_None in Hf.
    destruct (decide (n ∈ pageNums book)) as [Hin|_]; [contradiction|].
    rewrite app_nil_r. split; [exact IHc|].
    intros k msg Hk. destruct (IHe k msg Hk) as [?|[? ?]]; [left; assumption|].
    right. split; [apply elem_of_app; left|]; assumption.
Qed.

Lemma importPages_first pf st book l sw :
  let s' := rs_summary (importPages pf st book false l sw).1 in
  newPages s' = newPages (rs_summary sw.1) ++ selectedInBook book l
  /\ modifiedPages s' = modifiedPages (rs_summary sw.1)
  /\ unchangedPages s' = unchangedPages (rs_summary sw.1).
Proof.
  induction l as [|n l IH] using rev_ind.
  { simpl. rewrite app_nil_r. repeat split. }
  cbv zeta in *. rewrite importPages_snoc, selectedInBook_snoc.
  destruct (importPages pf st book false l sw) as [rs w] eqn:Hrun.
  simpl in IH. destruct IH as (IHn & IHm & IHu).
  destruct (findPage book n) as [page|] eqn:Hf.
  - pose proof (findPage_in book n page Hf) as Hin.
    destruct (importPage_summary pf st book false n rs w page Hf)
      as (Hn & Hm & Hu & _).
    destruct (decide (n ∈ pageNums book)) as [_|Hout]; [|contradiction].
    rewrite Hn, Hm, Hu. simpl. rewrite IHn, IHm, IHu, <- app_assoc.
    repeat split.
  - rewrite (importPage_absent pf st book false n (rs, w) Hf).
    apply findPage_None in Hf.
    destruct (decide (n ∈ pageNums book)) as [Hin|_]; [contradiction|].
    rewrite app_nil_r. repeat split; assumption.
Qed.

Lemma run_summary fuel pf st book sel existing w r s :
  importSelectedPagesWithProgress fuel pf st book sel existing w = Some r ->
  run_outcome r = Returned s ->
  s = rs_summary
        (importPages pf st book (bool_decide (is_Some existing)) sel
           (startState pf book sel existing, (prologue pf st book w).2)).1.
Proof.
  intros Hrun Hout.
  destruct (run_shape fuel pf st book sel existing w r Hrun)
    as [(msg & _ & ->)|[_ ->]]; [discriminate|].
  destruct (importPages _ _ _ _ _ _) as [rs w1].
  destruct (epilogue_spec pf st book sel rs w1) as (_ & _ & Hs & _).
  destruct (Hs s Hout) as [-> _]. reflexivity.
Qed.

(** X9. The summary a run returns counts every selected page number that
    the book has exactly once for each time it was selected, as new,
    modified or unchanged; page numbers the book does not have are counted
    nowhere.  Its total is the length of the selection, it lists no deleted
    page, and every error it lists is for a selected page of the book. *)
Theorem run_summary_accounts fuel pf st book sel existing w :
  (0 < batchSize st)%N ->
  (length sel <= fuel)%nat ->
  exists r,
    importSelectedPagesWithProgress fuel pf st book sel existing w = Some r
    /\ forall s, run_outcome r = Returned s ->
         classified s ≡ₚ selectedInBook book sel
         /\ s_totalPages s = N.of_nat (length sel)
         /\ deletedPages s = []
         /\ (forall k msg, (k, msg) ∈ errors s ->
               k ∈ sel /\ k ∈ pageNums book).
Proof.
  intros Hb Hf.
  destruct (run_returns fuel pf st book sel existing w Hb Hf) as [r Hrun].
  exists r. split; [exact Hrun|]. intros s Hs.
  rewrite (run_summary fuel pf st book sel existing w r s Hrun Hs).
  set (start := (startState pf book sel existing, (prologue pf st book w).2)).
  destruct (importPages_classified pf st book
              (bool_decide (is_Some existing)) sel start) as [Hc He].
  destruct (importPages_frame pf st book
              (bool_decide (is_Some existing)) sel start) as (_ & _ & Ht & Hd).
  split; [exact Hc|]. split; [rewrite Ht; reflexivity|].
  split; [rewrite Hd; reflexivity|].
  intros k msg Hk. destruct (He k msg Hk) as [Hk'|Hk']; [|exact Hk'].
  simpl in Hk'. apply elem_of_nil in Hk'. destruct Hk'.
Qed.

Lemma run_summary_accounts_witness :
  (0 < batchSize Ex.batchSettings)%N
  /\ exists r,
       importSelectedPagesWithProgress 4 Ex.page2Fails Ex.batchSettings
         Ex.threePageBook [1%N; 2%N; 7%N; 2%N] None Ex.emptyWorld = Some r
       /\ forall s, run_outcome r = Returned s ->
            classified s ≡ₚ [1%N; 2%N; 2%N].
Proof.
  split; [reflexivity|].
  destruct (run_summary_accounts 4 Ex.page2Fails Ex.batchSettings
              Ex.threePageBook [1%N; 2%N; 7%N; 2%N] None Ex.emptyWorld)
    as (r & Hrun & Hs); [reflexivity|simpl; lia|].
  exists r. split; [exact Hrun|]. intros s Hout.
  destruct (Hs s Hout) as [Hc _]. exact Hc.
Defined.

(** X10. On an import without an existing manifest every selected page the
    book has is reported new, in the order of the selection and once for
    each time it was selected; no page is reported modified or
    unchanged. *)
Theorem first_import_reports_new fuel pf st book sel w :
  (0 < batchSize st)%N ->
  (length sel <= fuel)%nat ->
  exists r,
    importSelectedPagesWithProgress fuel pf st book sel None w = Some r
    /\ forall s, run_outcome r = Returned s ->
         newPages s = selectedInBook book sel
         /\ modifiedPages s = []
         /\ unchangedPages s = [].
Proof.
  intros Hb Hf.
  destruct (run_returns fuel pf st book sel None w Hb Hf) as [r Hrun].
  exists r. split; [exact Hrun|]. intros s Hs.
  rewrite (run_summary fuel pf st book sel None w r s Hrun Hs).
  replace (bool_decide (is_Some (@None ImportManifest))) with false.
  2:{ symmetry. apply bool_decide_eq_false. intros [x Hx]. discriminate. }
  set (start := (startState pf book sel None, (prologue pf st book w).2)).
  destruct (importPages_first pf st book sel start) as (Hn & Hm & Hu).
  rewrite Hn, Hm, Hu. repeat split.
Qed.

Lemma first_import_reports_new_witness :
  (0 < batchSize Ex.settings)%N
  /\ exists r,
       importSelectedPagesWithProgress 4 Ex.noDigest Ex.settings
         Ex.twoPageBook [2%N; 9%N; 1%N; 2%N] None Ex.emptyWorld = Some r
       /\ forall s, run_outcome r = Returned s -> newPages s = [2%N; 1%N; 2%N].
Proof.
  split; [reflexivity|].
  destruct (first_import_reports_new 4 Ex.noDigest Ex.settings
              Ex.twoPageBook [2%N; 9%N; 1%N; 2%N] Ex.emptyWorld)
    as (r & Hrun & Hs); [reflexivity|simpl; lia|].
  exists r. split; [exact Hrun|]. intros s Hout.
  destruct (Hs s Hout) as [Hn _]. exact Hn.
Defined.

(** ** A page that was imported is settled *)

Lemma settled_entry st page info :
  imageHash info = img_hash (image page) ->
  backgroundColor info = Some (set_backgroundColor st) ->
  taskType (Some info) page = TUnchanged
  /\ isNewOf (Some info) = false
  /\ isModifiedOf (Some info) page = false
  /\ backgroundChangedOf st (Some info) = false.
Proof.
  intros Hh Hb.
  assert (Hm : isModifiedOf (Some info) page = false).
  { unfold isModifiedOf. simpl. rewrite Hh, String.eqb_refl. reflexivity. }
  assert (Hn : isNewOf (Some info) = false).
  { unfold isNewOf. apply bool_decide_eq_false. discriminate. }
  repeat split; try assumption.
  - unfold taskType. rewrite Hn, Hm. reflexivity.
  - unfold backgroundChangedOf. simpl. rewrite Hb. simpl.
    rewrite String.eqb_refl. reflexivity.
Qed.

(** X11. Once the task of a selected page has run to its end, the entry the
    run leaves for the page carries the fingerprint of the decoded image
    and the current background colour.  Against that entry the same page is
    neither new nor modified, its background has not changed, and the image
    step leaves a world in which the image file exists exactly as it is. *)
Theorem imported_page_settles fuel pf st book sel existing w l1 p l2 page :
  (0 < batchSize st)%N ->
  (length sel <= fuel)%nat ->
  (prologue pf st book w).1 = Returned tt ->
  NoDup sel ->
  sel = l1 ++ p :: l2 ->
  findPage book p = Some page ->
  let hm := bool_decide (is_Some existing) in
  let start := (startState pf book sel existing, (prologue pf st book w).2) in
  let bf := bookFolderOf st (book_name book) in
  bodyOutcomeAfter pf st book hm start l1 page = Returned tt ->
  exists r info,
    importSelectedPagesWithProgress fuel pf st book sel existing w = Some r
    /\ importedPages (run_manifest r) !! p = Some info
    /\ imageHash info = img_hash (image page)
    /\ backgroundColor info = Some (set_backgroundColor st)
    /\ taskType (Some info) page = TUnchanged
    /\ backgroundChangedOf st (Some info) = false
    /\ forall w2,
         isTFile (vault w2 !! imagePathOf pf st bf book (pageNum page)) = true ->
         (importImage pf st bf book page (isNewOf (Some info))
            (isModifiedOf (Some info) page)
            (backgroundChangedOf st (Some info)) w2).2 = w2.
Proof.
  intros Hb Hf Hpro Hnd Hsel Hfind hm start bf Hbody.
  exists (epilogue pf st book sel (importPages pf st book hm sel start)).
  pose proof (importPages_entry pf st book hm sel l1 p l2 page start
                Hnd Hsel Hfind) as Hentry.
  cbv zeta in Hentry. rewrite Hbody in Hentry.
  destruct (importPages pf st book hm sel start) as [rs w1] eqn:Hrun.
  simpl in Hentry.
  destruct (epilogue_spec pf st book sel rs w1) as ((_ & Htouch) & _).
  set (e := importedEntry pf st (rs_manifest start.1) page) in *.
  assert (Hinfo : exists info,
             importedPages (run_manifest (epilogue pf st book sel (rs, w1))) !! p
             = Some info
             /\ imageHash info = img_hash (image page)
             /\ backgroundColor info = Some (set_backgroundColor st)).
  { destruct (Htouch p) as [Hk|[_ Hk]]; rewrite Hk;
      rewrite (proj1 (addHistoryEntry_frame pf st (rs_manifest rs) ActImport sel
                        (historyMessage (rs_summary rs)))), Hentry.
    - exists e. repeat split.
    - exists (markGemini e). repeat split. }
  destruct Hinfo as (info & Hlook & Hh & Hbg).
  exists info.
  destruct (settled_entry st page info Hh Hbg) as (Ht & Hn & Hm & Hc).
  split.
  { rewrite <- Hrun. apply run_total; assumption. }
  split; [exact Hlook|]. split; [exact Hh|]. split; [exact Hbg|].
  split; [exact Ht|]. split; [exact Hc|].
  intros w2 Hex. rewrite Hn, Hm, Hc.
  rewrite (importImage_reuse pf st bf book page w2 Hex). reflexivity.
Qed.

Lemma imported_page_settles_witness :
  exists r info,
    importSelectedPagesWithProgress 2 Ex.withDigest Ex.settings Ex.digestBook
      [1%N; 2%N] None Ex.emptyWorld = Some r
    /\ importedPages (run_manifest r) !! 2%N = Some info
    /\ imageHash info = "ff000000000000000000000000000000".
Proof.
  destruct (imported_page_settles 2 Ex.withDigest Ex.settings Ex.digestBook
              [1%N; 2%N] None Ex.emptyWorld [1%N] 2%N []
              (Ex.plainPage Ex.withDigest 2 (mkBlob 1 (Returned [Byte.xff]))))
    as (r & info & Hrun & Hlook & Hh & _).
  - reflexivity.
  - simpl; lia.
  - vm_compute. reflexivity.
  - apply (bool_decide_unpack _). vm_compute. exact I.
  - reflexivity.
  - vm_compute. reflexivity.
  - vm_compute. reflexivity.
  - exists r, info. split; [exact Hrun|]. split; [exact Hlook|].
    rewrite Hh. vm_compute. reflexivity.
Defined.

(** ** Scanning for a pattern *)

Lemma strip_prefix_app p s : strip_prefix p (p +:+ s) = Some s.
Proof.
  induction p as [|a p IH]; [reflexivity|].
  rewrite string_app_cons. simpl. rewrite Ascii.eqb_refl. exact IH.
Qed.

Lemma clash_strip pat s y :
  clash pat s = true -> strip_prefix pat (s +:+ y) = None.
Proof.
  revert s. induction pat as [|a p IH]; intros [|b s] H; simpl in H;
    try discriminate.
  rewrite string_app_cons. simpl.
  destruct (Ascii.eqb a b); [|reflexivity].
  apply IH. exact H.
Qed.

Lemma noStart_clashAll pat x y : clashAll pat x = true -> noStart pat x y.
Proof.
  induction x as [|c x IH]; intros H; [exact I|].
  simpl in H. apply andb_prop in H as [H1 H2].
  split; [apply clash_strip; exact H1|apply IH; exact H2].
Qed.

Lemma noStart_class (cls : ascii -> bool) a p x y :
  cls a = false -> all_chars cls x = true -> noStart (String a p) x y.
Proof.
  intros Ha. induction x as [|c x IH]; intros H; [exact I|].
  simpl in H. apply andb_prop in H as [H1 H2].
  split; [|apply IH; exact H2].
  rewrite string_app_cons. simpl.
  destruct (Ascii.eqb_spec a c) as [->|_]; [congruence|reflexivity].
Qed.

Lemma strip_prefix_end pat s d y :
  strip_prefix pat s = None ->
  all_chars (fun c => negb (Ascii.eqb c d)) pat = true ->
  strip_prefix pat (s +:+ String d y) = None.
Proof.
  revert s. induction pat as [|a p IH]; intros s Hs Hd; [discriminate|].
  simpl in Hd. apply andb_prop in Hd as [Ha Hp].
  destruct s as [|b s].
  - simpl. destruct (Ascii.eqb a d); [discriminate|reflexivity].
  - rewrite string_app_cons. simpl in *.
    destruct (Ascii.eqb a b); [|reflexivity].
    apply IH; assumption.
Qed.

Lemma includes_cons pat c s :
  includes pat (String c s) = false ->
  strip_prefix pat (String c s) = None /\ includes pat s = false.
Proof.
  unfold includes. simpl.
  destruct (strip_prefix pat (String c s)); [discriminate|].
  destruct (before_first pat s); [discriminate|]. split; reflexivity.
Qed.

Lemma noStart_includes pat x d y :
  includes pat x = false ->
  all_chars (fun c => negb (Ascii.eqb c d)) pat = true ->
  noStart pat x (String d y).
Proof.
  intros Hx Hd. induction x as [|c x IH]; [exact I|].
  apply includes_cons in Hx as [Hc Hx].
  split; [apply strip_prefix_end; assumption|apply IH; exact Hx].
Qed.

Lemma before_first_noStart pat x y :
  noStart pat x y ->
  before_first pat (x +:+ y) = (fun r => x +:+ r) <$> before_first pat y.
Proof.
  induction x as [|c x IH]; intros H.
  - change (EmptyString +:+ y) with y.
    destruct (before_first pat y); reflexivity.
  - destruct H as [H1 H2]. rewrite string_app_cons in *. simpl.
    rewrite H1, (IH H2). destruct (before_first pat y); reflexivity.
Qed.

Lemma before_first_mono pat x y :
  is_Some (before_first pat y) -> is_Some (before_first pat (x +:+ y)).
Proof.
  intros Hy. induction x as [|c x IH]; [exact Hy|].
  rewrite string_app_cons. simpl.
  destruct (strip_prefix pat (String c (x +:+ y))); [eauto|].
  destruct IH as [r ->]. simpl. eauto.
Qed.

Lemma before_first_here pat y : is_Some (before_first pat (pat +:+ y)).
Proof.
  destruct (pat +:+ y) as [|c r] eqn:E; simpl; rewrite <- E, strip_prefix_app;
    eauto.
Qed.

Lemma hashMatch_here s h : hashMatchAt s = Some h -> hashMatch s = Some h.
Proof. intros H. destruct s; cbn [hashMatch]; rewrite H; reflexivity. Qed.

Lemma hashMatch_noStart x y :
  noStart "original_image_hash:" x y -> hashMatch (x +:+ y) = hashMatch y.
Proof.
  induction x as [|c x IH]; intros H; [reflexivity|].
  destruct H as [H1 H2]. rewrite string_app_cons in *.
  cbn [hashMatch]. unfold hashMatchAt. rewrite H1. apply IH. exact H2.
Qed.

(** ** Decimal numerals are digits *)

Lemma pretty_N_char_digit x : is_digit (pretty_N_char x) = true.
Proof.
  unfold pretty_N_char.
  destruct x as [|p]; [reflexivity|].
  do 4 (destruct p as [p|p|]; try reflexivity).
Qed.

Lemma pretty_N_go_digits x s :
  all_chars is_digit s = true -> all_chars is_digit (pretty_N_go x s) = true.
Proof.
  revert s. induction (N.lt_wf_0 x) as [x _ IH]; intros s Hs.
  destruct (decide (x = 0)) as [->|Hx].
  { rewrite pretty_N_go_0. exact Hs. }
  rewrite pretty_N_go_step by lia.
  apply IH; [apply N.div_lt; lia|].
  simpl. rewrite pretty_N_char_digit. exact Hs.
Qed.

Lemma String_digits n : all_chars is_digit (JS.String_ n) = true.
Proof.
  unfold JS.String_, pretty, pretty_N.
  destruct (decide (n = 0)); [reflexivity|].
  apply pretty_N_go_digits. reflexivity.
Qed.

Lemma all_hex_all_chars s : all_hex s = all_chars JS.is_hex s.
Proof. induction s as [|c s IH]; simpl; [reflexivity|]. rewrite IH. reflexivity. Qed.

(** ** The fingerprint a page document embeds reads back *)

Lemma before_first_step pat x y r :
  noStart pat x y -> before_first pat y = Some r ->
  before_first pat (x +:+ y) = Some (x +:+ r).
Proof. intros H E. rewrite (before_first_noStart pat x y H), E. reflexivity. Qed.

Lemma hashMatch_step x y h :
  noStart "original_image_hash:" x y -> hashMatch y = Some h ->
  hashMatch (x +:+ y) = Some h.
Proof. intros H E. rewrite (hashMatch_noStart x y H). exact E. Qed.

Lemma before_first_end z :
  is_Some (before_first (nl +:+ "---") (nl +:+ "---" +:+ z)).
Proof. apply (before_first_here (nl +:+ "---") z). Qed.

Lemma is_hex_not_nl : JS.is_hex (ascii_of_N 10) = false.
Proof. reflexivity. Qed.

Lemma all_chars_app cls (x y : string) :
  all_chars cls (x +:+ y) = all_chars cls x && all_chars cls y.
Proof.
  induction x as [|c x IH]; [reflexivity|].
  rewrite string_app_cons. cbn [all_chars]. rewrite IH, andb_assoc. reflexivity.
Qed.

Lemma all_chars_impl (P Q : ascii -> bool) s :
  (forall c, P c = true -> Q c = true) ->
  all_chars P s = true -> all_chars Q s = true.
Proof.
  intros HPQ. induction s as [|c s IH]; [reflexivity|]. cbn [all_chars].
  intros [Hc Hs]%andb_true_iff. rewrite (HPQ c Hc), (IH Hs). reflexivity.
Qed.

Lemma take_hex_stop h c r :
  JS.is_hex c = false -> take_hex (h +:+ String c r) = take_hex h.
Proof.
  intros Hc. induction h as [|a h IH].
  - change ("" +:+ String c r) with (String c r). cbn [take_hex].
    rewrite Hc. reflexivity.
  - rewrite string_app_cons. cbn [take_hex].
    destruct (JS.is_hex a); [rewrite IH|]; reflexivity.
Qed.

Lemma take_hex_all h : all_hex h = true -> take_hex h = h.
Proof.
  induction h as [|a h IH]; [reflexivity|]. cbn [all_hex take_hex].
  intros [Ha Hh]%andb_true_iff. rewrite Ha, (IH Hh). reflexivity.
Qed.

(** What the analyzer reads back from a page document that starts with
    the frontmatter the importer writes: the hexadecimal digits the
    written value starts with, when it starts with one. *)
Lemma embedded_capture pf st book total page isModified rest :
  includeMetadata st = true ->
  includes (nl +:+ "---") (book_name book) = false ->
  includes "original_image_hash:" (book_name book) = false ->
  all_chars (fun c => negb (Ascii.eqb c (ascii_of_N 10)))
    (img_hash (image page)) = true ->
  JS.truthy (take_hex (img_hash (image page))) = true ->
  embeddedHash (frontmatterOf pf st book total page isModified +:+ rest)
  = Some (take_hex (img_hash (image page))).
Proof.
  intros Hmeta Hdash Hkey Hnl Hne.
  unfold embeddedHash, matchFrontmatter, frontmatterOf. rewrite Hmeta.
  rewrite !string_app_assoc.
  set (name := book_name book). set (h := img_hash (image page)) in *.
  set (P := JS.String_ (pageNum page)). set (T := JS.String_ total).
  match goal with
  | |- context [h +:+ dq +:+ ?t] => set (tail := t)
  end.
  assert (Htail : is_Some (before_first (nl +:+ "---") tail)).
  { subst tail.
    repeat first [ exact (before_first_end _) | apply before_first_mono ]. }
  destruct Htail as [F HF].
  assert (E :
    "---" +:+ nl +:+ "book: " +:+ dq +:+ name +:+ dq +:+ nl +:+ "page: " +:+ P
      +:+ nl +:+ "total_pages: " +:+ T +:+ nl +:+ "original_image_hash: "
      +:+ dq +:+ h +:+ dq +:+ tail
    = ("---" +:+ nl) +:+ ("book: " +:+ dq) +:+ name +:+ (dq +:+ nl +:+ "page: ")
        +:+ P +:+ (nl +:+ "total_pages: ") +:+ T
        +:+ (nl +:+ "original_image_hash: " +:+ dq) +:+ h +:+ dq +:+ tail)
    by reflexivity.
  rewrite E. clear E. rewrite strip_prefix_app.
  assert (Hbf :
    before_first (nl +:+ "---")
      (("book: " +:+ dq) +:+ name +:+ (dq +:+ nl +:+ "page: ")
         +:+ P +:+ (nl +:+ "total_pages: ") +:+ T
         +:+ (nl +:+ "original_image_hash: " +:+ dq) +:+ h +:+ dq +:+ tail)
    = Some (("book: " +:+ dq) +:+ name +:+ (dq +:+ nl +:+ "page: ")
              +:+ P +:+ (nl +:+ "total_pages: ") +:+ T
              +:+ (nl +:+ "original_image_hash: " +:+ dq) +:+ h +:+ dq +:+ F)).
  { apply before_first_step; [apply noStart_clashAll; reflexivity|].
    apply before_first_step.
    { apply (noStart_includes (nl +:+ "---") name (ascii_of_N 34));
        [exact Hdash|reflexivity]. }
    apply before_first_step; [apply noStart_clashAll; reflexivity|].
    apply before_first_step.
    { apply (noStart_class is_digit (ascii_of_N 10) "---");
        [reflexivity|apply String_digits]. }
    apply before_first_step; [apply noStart_clashAll; reflexivity|].
    apply before_first_step.
    { apply (noStart_class is_digit (ascii_of_N 10) "---");
        [reflexivity|apply String_digits]. }
    apply before_first_step; [apply noStart_clashAll; reflexivity|].
    apply before_first_step.
    { apply (noStart_class (fun c => negb (Ascii.eqb c (ascii_of_N 10)))
               (ascii_of_N 10) "---"); [reflexivity|exact Hnl]. }
    apply before_first_step; [apply noStart_clashAll; reflexivity|].
    exact HF. }
  rewrite Hbf. clear Hbf.
  apply hashMatch_step; [apply noStart_clashAll; reflexivity|].
  apply hashMatch_step.
  { apply (noStart_includes "original_image_hash:" name (ascii_of_N 34));
      [exact Hkey|reflexivity]. }
  apply hashMatch_step; [apply noStart_clashAll; reflexivity|].
  apply hashMatch_step.
  { apply (noStart_class is_digit "o" "riginal_image_hash:");
      [reflexivity|apply String_digits]. }
  apply hashMatch_step; [apply noStart_clashAll; reflexivity|].
  apply hashMatch_step.
  { apply (noStart_class is_digit "o" "riginal_image_hash:");
      [reflexivity|apply String_digits]. }
  change (hashMatch
            (nl +:+ "original_image_hash: " +:+ dq +:+ h +:+ dq +:+ F)
          = Some (take_hex h)).
  apply hashMatch_step; [apply noStart_clashAll; reflexivity|].
  apply hashMatch_here. rewrite hashMatchAt_line.
  change (dq +:+ F) with (String (ascii_of_N 34) F).
  rewrite take_hex_stop by reflexivity. rewrite Hne. reflexivity.
Qed.

Lemma embedded_hash_round_trip_core pf st book total page isModified rest :
  includeMetadata st = true ->
  includes (nl +:+ "---") (book_name book) = false ->
  includes "original_image_hash:" (book_name book) = false ->
  all_hex (img_hash (image page)) = true ->
  JS.truthy (img_hash (image page)) = true ->
  embeddedHash (frontmatterOf pf st book total page isModified +:+ rest)
  = Some (img_hash (image page)).
Proof.
  intros Hmeta Hdash Hkey Hhex Hne.
  rewrite <- (take_hex_all _ Hhex) at 1.
  apply embedded_capture; try assumption.
  - rewrite all_hex_all_chars in Hhex.
    apply (all_chars_impl JS.is_hex); [|exact Hhex].
    intros c Hc. destruct (Ascii.eqb_spec c (ascii_of_N 10)) as [->|];
      [discriminate Hc|reflexivity].
  - rewrite (take_hex_all _ Hhex). exact Hne.
Qed.

(** X12. Round trip of the embedded fingerprint: from a page document that
    starts with the frontmatter the importer writes, [embeddedHash] reads
    back exactly the fingerprint that was written, provided the fingerprint
    is a non-empty run of hexadecimal digits and the book name contains
    neither the key [original_image_hash:] nor a line that starts with
    three dashes. *)
Theorem embedded_hash_round_trip pf st book total page isModified rest :
  includeMetadata st = true ->
  includes (nl +:+ "---") (book_name book) = false ->
  includes "original_image_hash:" (book_name book) = false ->
  all_hex (img_hash (image page)) = true ->
  JS.truthy (img_hash (image page)) = true ->
  embeddedHash (frontmatterOf pf st book total page isModified +:+ rest)
  = Some (img_hash (image page)).
Proof. apply embedded_hash_round_trip_core. Qed.

Lemma embedded_hash_round_trip_witness :
  embeddedHash
    (frontmatterOf Ex.withDigest Ex.settings Ex.digestBook 2
       (Ex.plainPage Ex.withDigest 2 (mkBlob 1 (Returned [Byte.xff]))) false
     +:+ "![[Book_page_002.png]]")
  = Some "ff000000000000000000000000000000".
Proof.
  apply (embedded_hash_round_trip Ex.withDigest Ex.settings Ex.digestBook 2
           (Ex.plainPage Ex.withDigest 2 (mkBlob 1 (Returned [Byte.xff])))
           false "![[Book_page_002.png]]"); vm_compute; reflexivity.
Defined.

(** ** The page document decides *)

Lemma existing_from_document pf st book m w k info doc h :
  importedPages m !! k = Some info ->
  vault w !! pagePathOf (bookFolderOf st (book_name book)) k
    = Some (TFile (Text doc)) ->
  (forall t, rejects pf t
               (CallRead (pagePathOf (bookFolderOf st (book_name book)) k))
             = None) ->
  embeddedHash doc = Some h ->
  exists e,
    (loadExistingMap pf st book m w).1 !! k = Some e
    /\ manifestInfo e = info
    /\ existingHash e = h
    /\ isSpecialHash (existingHash e) = false.
Proof.
  intros Hinfo Hdoc Hread Hemb.
  destruct (loadExistingMap_Some pf st book m w k info Hinfo)
    as (w1 & Hv & Hlook).
  eexists. split; [exact Hlook|]. split; [reflexivity|].
  assert (Hfile : (readFileHash pf (bookFolderOf st (book_name book)) k w1).1
                  = Some h).
  { rewrite (readFileHash_found pf _ k w1 (Text doc));
      [exact Hemb|apply Hread|rewrite Hv; exact Hdoc]. }
  assert (Hh : existingHash
                 (mkExisting info
                    (readFileHash pf (bookFolderOf st (book_name book)) k w1).1)
               = h).
  { unfold existingHash. simpl. rewrite Hfile. simpl.
    rewrite (embeddedHash_truthy doc h Hemb). reflexivity. }
  split; [exact Hh|]. rewrite Hh.
  exact (embeddedHash_not_special doc h Hemb).
Qed.

(** X13. The page document decides, not the manifest.  In a book without
    repeated page numbers, take a page that has a manifest entry and whose
    page document can be read and starts with the frontmatter the importer
    writes, with metadata switched on, for the fingerprint of the decoded
    image.  If that fingerprint is a non-empty run of hexadecimal digits (a
    digest, not a fallback fingerprint) and the book name written into the
    frontmatter holds neither the key [original_image_hash:] nor a line
    break followed by three dashes, the analysis reports the page
    unchanged, whatever fingerprint the manifest entry holds, a sentinel
    included. *)
Theorem written_document_is_unchanged
    pf st book m w page info pf0 st0 book0 total0 page0 isModified0 rest :
  NoDup (pageNums book) ->
  page ∈ book_pages book ->
  importedPages m !! pageNum page = Some info ->
  let path := pagePathOf (bookFolderOf st (book_name book)) (pageNum page) in
  vault w !! path
    = Some (TFile (Text (frontmatterOf pf0 st0 book0 total0 page0 isModified0
                           +:+ rest))) ->
  (forall t, rejects pf t (CallRead path) = None) ->
  includeMetadata st0 = true ->
  includes (nl +:+ "---") (book_name book0) = false ->
  includes "original_image_hash:" (book_name book0) = false ->
  img_hash (image page0) = img_hash (image page) ->
  all_hex (img_hash (image page)) = true ->
  JS.truthy (img_hash (image page)) = true ->
  let a := (analyzeChanges pf st book (Some m) w).1 in
  (pageNum page ∈ unchangedPages (summary a))
  /\ (pageNum page ∉ modifiedPages (summary a))
  /\ (pageNum page ∉ newPages (summary a)).
Proof.
  intros Hnd Hin Hinfo path Hdoc Hread Hmeta Hdash Hkey Hsame Hhex Hne a.
  assert (Hemb :
    embeddedHash (frontmatterOf pf0 st0 book0 total0 page0 isModified0 +:+ rest)
    = Some (img_hash (image page))).
  { rewrite <- Hsame. apply embedded_hash_round_trip_core; try assumption;
      rewrite Hsame; assumption. }
  destruct (existing_from_document pf st book m w (pageNum page) info _ _
              Hinfo Hdoc Hread Hemb) as (e & Hlook & _ & Hh & Hsp).
  destruct (analysis_classifies pf st book m w page e Hnd Hin Hlook)
    as (Hu & Hm & Hn & _).
  assert (Hs : negb (isSpecialHash (existingHash e))
               && String.eqb (existingHash e) (img_hash (image page)) = true).
  { rewrite Hsp, Hh, String.eqb_refl. reflexivity. }
  split; [apply Hu; exact Hs|]. split; [|exact Hn].
  intros Hmod. apply Hm in Hmod. rewrite Hs in Hmod. discriminate.
Qed.

Lemma written_document_is_unchanged_witness :
  isSpecialHash (imageHash Ex.resetEntry) = true
  /\ (1%N ∈ unchangedPages
              (summary (analyzeChanges Ex.withDigest Ex.settings
                          Ex.digestPageBook (Some Ex.resetManifest)
                          Ex.resetWorld).1)).
Proof.
  split; [reflexivity|].
  apply (written_document_is_unchanged Ex.withDigest Ex.settings
           Ex.digestPageBook Ex.resetManifest Ex.resetWorld
           (Ex.plainPage Ex.withDigest 1 (Ex.blobOf 10)) Ex.resetEntry
           Ex.noDigest Ex.settings Ex.onePageBook 1
           (Ex.plainPage Ex.withDigest 1 (Ex.blobOf 10)) false EmptyString).
  - apply NoDup_singleton.
  - apply list_elem_of_singleton. reflexivity.
  - vm_compute. reflexivity.
  - vm_compute. reflexivity.
  - intros t. reflexivity.
  - reflexivity.
  - vm_compute. reflexivity.
  - vm_compute. reflexivity.
  - reflexivity.
  - vm_compute. reflexivity.
  - vm_compute. reflexivity.
Defined.

(** ** What Gemini post-processing leaves alone *)

(** X15. Gemini post-processing never adds or removes a manifest entry and
    changes no field of an entry but [geminiProcessed], which it only ever
    sets, and only for queued pages; the page count and the history stay as
    they are.  When the Gemini plugin is disabled or not loaded it returns
    at once, leaving manifest and world untouched. *)
Theorem gemini_keeps_fingerprints pf st bf items m w :
  let r := processWithGeminiPages pf st bf items m w in
  let m' := r.1.2 in
  (forall k,
     match importedPages m !! k with
     | None => importedPages m' !! k = None
     | Some info =>
         importedPages m' !! k = Some info
         \/ (k ∈ items.*2 /\ importedPages m' !! k = Some (markGemini info))
     end)
  /\ totalPages m' = totalPages m
  /\ history m' = history m
  /\ (geminiRuns pf = false -> r = (Returned tt, m, w)).
Proof.
  intros r m'. subst m' r.
  destruct (processWithGeminiPages_spec pf st bf items m w) as [[Hm Hk] _].
  split; [|split; [|split]].
  - intros k. destruct (Hk k) as [H|[Hin H]]; rewrite H.
    + destruct (importedPages m !! k); [left|]; reflexivity.
    + destruct (importedPages m !! k); [right; split; [exact Hin|]|];
        reflexivity.
  - rewrite Hm. reflexivity.
  - rewrite Hm. reflexivity.
  - unfold geminiRuns, processWithGeminiPages.
    destruct (geminiEnabled pf); simpl; [|reflexivity].
    destruct (geminiPlugin pf); [|reflexivity].
    intros H. apply bool_decide_eq_false in H. exfalso. apply H. eauto.
Qed.

(** ** A batch size of zero *)

(** X16. With a batch size of zero the loop over the batches never
    advances: when the opening folder calls succeed and at least one page is
    selected, the run does not end, whatever the number of iterations
    allowed; with an empty selection it ends without entering the loop. *)
Theorem zero_batch_size_never_ends pf st book existing w sel :
  batchSize st = 0%N ->
  (prologue pf st book w).1 = Returned tt ->
  (sel <> [] ->
   forall fuel,
     importSelectedPagesWithProgress fuel pf st book sel existing w = None)
  /\ (sel = [] ->
      is_Some (importSelectedPagesWithProgress 0 pf st book sel existing w)).
Proof.
  intros Hz Hpro. unfold importSelectedPagesWithProgress.
  destruct (prologue pf st book w) as [[[]|msg] w0]; [|discriminate].
  split.
  - intros Hsel fuel. rewrite (runBatches_zero pf st book _ sel _ fuel Hz Hsel).
    reflexivity.
  - intros ->. simpl. eauto.
Qed.

Lemma zero_batch_size_never_ends_witness :
  importSelectedPagesWithProgress 1000 Ex.noDigest
    (mkSettings "Viwoods Notes" "Images" "Audio" FmtPng "#FFFFFF"
       true true true false true 0 true true true 50)
    Ex.onePageBook [1%N] None Ex.emptyWorld = None.
Proof.
  apply (zero_batch_size_never_ends Ex.noDigest
           (mkSettings "Viwoods Notes" "Images" "Audio" FmtPng "#FFFFFF"
              true true true false true 0 true true true 50)
           Ex.onePageBook None Ex.emptyWorld [1%N]).
  - reflexivity.
  - vm_compute. reflexivity.
  - discriminate.
Defined.

(** ** Page document names *)

Lemma strip_prefix_Some p s r : strip_prefix p s = Some r -> s = p +:+ r.
Proof.
  revert s. induction p as [|a p IH]; intros s H; simpl in H.
  - injection H as ->. reflexivity.
  - destruct s as [|b s]; [discriminate|].
    destruct (Ascii.eqb_spec a b) as [->|_]; [|discriminate].
    rewrite string_app_cons, (IH s H). reflexivity.
Qed.

Lemma is_digit_cases c : is_digit c = true -> c ∈ decimalDigits.
Proof.
  intros H. apply (bool_decide_unpack _).
  destruct c as [[] [] [] [] [] [] [] []]; try discriminate H; reflexivity.
Qed.

Lemma three_digit_names :
  Forall (fun a => Forall (fun b => Forall (fun c =>
    pageFileNameOf (100 * digitValue a + 10 * digitValue b + digitValue c)
    = "Page " +:+ String a (String b (String c ".md"))
    /\ (100 * digitValue a + 10 * digitValue b + digitValue c < 1000)%N)
    decimalDigits) decimalDigits) decimalDigits.
Proof. apply (bool_decide_unpack _). vm_compute. reflexivity. Qed.

Lemma pageNumberOf_Some name k :
  pageNumberOf name = Some k -> name = pageFileNameOf k /\ (k < 1000)%N.
Proof.
  unfold pageNumberOf.
  destruct (strip_prefix "Page " name) as [[|a [|b [|c rest]]]|] eqn:Hp;
    try discriminate.
  destruct (is_digit a) eqn:Ha; [|discriminate].
  destruct (is_digit b) eqn:Hb; [|discriminate].
  destruct (is_digit c) eqn:Hc; [|discriminate].
  destruct (String.eqb_spec rest ".md") as [->|_]; [|discriminate].
  simpl. intros [= <-].
  apply strip_prefix_Some in Hp. subst name.
  pose proof three_digit_names as H.
  rewrite Forall_forall in H. specialize (H a (is_digit_cases a Ha)).
  rewrite Forall_forall in H. specialize (H b (is_digit_cases b Hb)).
  rewrite Forall_forall in H. specialize (H c (is_digit_cases c Hc)).
  destruct H as [H1 H2]. split; [symmetry; exact H1|exact H2].
Qed.

Lemma small_page_names :
  Forall (fun n => pageNumberOf (pageFileNameOf (N.of_nat n)) = Some (N.of_nat n))
    (seq 0 1000).
Proof. apply (bool_decide_unpack _). vm_compute. reflexivity. Qed.

Lemma pageNumberOf_small k :
  (k < 1000)%N -> pageNumberOf (pageFileNameOf k) = Some k.
Proof.
  intros Hk. pose proof small_page_names as H.
  rewrite Forall_forall in H. specialize (H (N.to_nat k)).
  rewrite N2Nat.id in H. apply H. apply elem_of_seq. lia.
Qed.

Lemma pretty_N_go_nonempty x :
  (0 < x)%N -> (1 <= String.length (pretty_N_go x ""))%nat.
Proof.
  intros Hx. rewrite pretty_N_go_step by exact Hx.
  rewrite pretty_N_go_app, length_append. simpl. lia.
Qed.

Lemma String_length_large k :
  (1000 <= k)%N -> (4 <= String.length (JS.String_ k))%nat.
Proof.
  intros Hk. unfold JS.String_, pretty, pretty_N.
  destruct (decide (k = 0)%N); [lia|].
  assert (H1 : (0 < k `div` 10)%N) by (apply N.div_str_pos; lia).
  assert (H2 : (0 < (k `div` 10) `div` 10)%N).
  { apply N.div_str_pos. split; [lia|].
    apply N.div_le_lower_bound; lia. }
  assert (H3 : (0 < ((k `div` 10) `div` 10) `div` 10)%N).
  { apply N.div_str_pos. split; [lia|].
    apply N.div_le_lower_bound; [lia|].
    apply N.div_le_lower_bound; lia. }
  rewrite (pretty_N_go_step k) by lia.
  rewrite (pretty_N_go_step (k `div` 10)) by exact H1.
  rewrite (pretty_N_go_step ((k `div` 10) `div` 10)) by exact H2.
  rewrite pretty_N_go_app, length_append. simpl.
  pose proof (pretty_N_go_nonempty _ H3). lia.
Qed.

Lemma pageNumberOf_large k :
  (1000 <= k)%N -> pageNumberOf (pageFileNameOf k) = None.
Proof.
  intros Hk. pose proof (String_length_large k Hk) as Hlen.
  pose proof (String_digits k) as Hdig.
  unfold pageNumberOf, pageFileNameOf, pad3, JS.padStart.
  replace (3 - String.length (JS.String_ k))%nat with 0%nat by lia.
  change (JS.repeat_char "0" 0 +:+ JS.String_ k) with (JS.String_ k).
  rewrite strip_prefix_app.
  destruct (JS.String_ k) as [|a [|b [|c [|d r]]]]; simpl in Hlen; try lia.
  rewrite !string_app_cons.
  simpl in Hdig.
  apply andb_prop in Hdig as [Ha Hdig]. apply andb_prop in Hdig as [Hb Hdig].
  apply andb_prop in Hdig as [Hc Hdig]. apply andb_prop in Hdig as [Hd _].
  rewrite Ha, Hb, Hc. simpl.
  destruct (Ascii.eqb_spec d ".") as [->|_]; [discriminate Hd|reflexivity].
Qed.

(** X17. The names the importer gives its page documents and the pattern
    by which recovery recognises them agree up to page 999: the name of
    page [k] is read back as [k], and every name that is recognised is the
    name of the page it is read as.  From page 1000 on the name has four
    digits and is not recognised. *)
Theorem page_name_round_trip k :
  (forall name, pageNumberOf name = Some k <->
                name = pageFileNameOf k /\ (k < 1000)%N)
  /\ (pageNumberOf (pageFileNameOf k)
      = if (k <? 1000)%N then Some k else None).
Proof.
  split.
  - intros name. split; [apply pageNumberOf_Some|].
    intros [-> Hk]. apply pageNumberOf_small. exact Hk.
  - destruct (N.ltb_spec k 1000);
      [apply pageNumberOf_small|apply pageNumberOf_large]; assumption.
Qed.

(** ** The executor classifies against the manifest it is given *)

Lemma pushSummary_filter t n s (t' : ChangeType) :
  (match t' with
   | TNew => newPages | TModified => modifiedPages
   | TUnchanged => unchangedPages | TDeleted => deletedPages
   end) (pushSummary t n s)
  = (match t' with
     | TNew => newPages | TModified => modifiedPages
     | TUnchanged => unchangedPages | TDeleted => deletedPages
     end) s ++ (if decide (t = t') then [n] else []).
Proof.
  destruct t, t'; simpl; rewrite ?app_nil_r; reflexivity.
Qed.

Lemma importPages_classify pf st book hm l start :
  NoDup l ->
  let s' := rs_summary (importPages pf st book hm l start).1 in
  let cls t :=
    filter (fun k => taskType (existingEntry hm start.1 k) <$> findPage book k
                     = Some t) l in
  newPages s' = newPages (rs_summary start.1) ++ cls TNew
  /\ modifiedPages s' = modifiedPages (rs_summary start.1) ++ cls TModified
  /\ unchangedPages s' = unchangedPages (rs_summary start.1) ++ cls TUnchanged.
Proof.
  induction l as [|n l IH] using rev_ind; intros Hnd.
  { simpl. rewrite !app_nil_r. repeat split. }
  apply NoDup_app in Hnd as (Hnd & Hn & _).
  specialize (IH Hnd). cbv zeta in *.
  rewrite importPages_snoc, !filter_app.
  destruct (importPages_frame pf st book hm l start) as (_ & Hframe & _).
  destruct (importPages pf st book hm l start) as [rs w] eqn:Hrun.
  simpl in IH, Hframe. destruct IH as (IHn & IHm & IHu).
  assert (Hentry : existingEntry hm rs n = existingEntry hm start.1 n).
  { unfold existingEntry. destruct hm; [|reflexivity].
    apply Hframe. intros Hin. apply (Hn n Hin).
    apply list_elem_of_singleton. reflexivity. }
  destruct (findPage book n) as [page|] eqn:Hf.
  - destruct (importPage_summary pf st book hm n rs w page Hf)
      as (Hn' & Hm' & Hu' & _).
    rewrite Hn', Hm', Hu', Hentry.
    set (t := taskType (existingEntry hm start.1 n) page).
    rewrite (pushSummary_filter t n (rs_summary rs) TNew),
            (pushSummary_filter t n (rs_summary rs) TModified),
            (pushSummary_filter t n (rs_summary rs) TUnchanged).
    rewrite IHn, IHm, IHu, <- !app_assoc.
    assert (Hone : forall t',
      filter (fun k => taskType (existingEntry hm start.1 k) <$> findPage book k
                       = Some t') [n]
      = if decide (t = t') then [n] else []).
    { intros t'. destruct (decide (t = t')) as [Ht|Ht].
      - rewrite filter_cons_True; [reflexivity|].
        rewrite Hf. simpl. fold t. rewrite Ht. reflexivity.
      - rewrite filter_cons_False; [reflexivity|].
        rewrite Hf. simpl. fold t. intros [= Heq]. contradiction. }
    rewrite !Hone. repeat split.
  - rewrite (importPage_absent pf st book hm n (rs, w) Hf). simpl.
    assert (Hone : forall t',
      filter (fun k => taskType (existingEntry hm start.1 k) <$> findPage book k
                       = Some t') [n] = []).
    { intros t'. rewrite filter_cons_False; [reflexivity|].
      rewrite Hf. discriminate. }
    rewrite !Hone, !app_nil_r. repeat split; assumption.
Qed.

Lemma existingEntry_start pf book sel existing k :
  existingEntry (bool_decide (is_Some existing))
    (startState pf book sel existing) k
  = startEntry existing k.
Proof.
  unfold existingEntry, startEntry. destruct existing as [m|].
  - rewrite bool_decide_eq_true_2 by eauto. reflexivity.
  - rewrite bool_decide_eq_false_2; [reflexivity|].
    intros [x Hx]. discriminate.
Qed.

Lemma run_classification fuel pf st book sel existing w r s :
  NoDup sel ->
  importSelectedPagesWithProgress fuel pf st book sel existing w = Some r ->
  run_outcome r = Returned s ->
  newPages s = selectedAs book existing TNew sel
  /\ modifiedPages s = selectedAs book existing TModified sel
  /\ unchangedPages s = selectedAs book existing TUnchanged sel.
Proof.
  intros Hnd Hrun Hs.
  rewrite (run_summary fuel pf st book sel existing w r s Hrun Hs).
  set (start := (startState pf book sel existing, (prologue pf st book w).2)).
  destruct (importPages_classify pf st book (bool_decide (is_Some existing))
              sel start Hnd) as (Hn & Hm & Hu).
  rewrite Hn, Hm, Hu. simpl. unfold selectedAs, taskOf.
  repeat split; apply list_filter_iff; intros k;
    rewrite existingEntry_start; reflexivity.
Qed.

(** X18. In a run over a selection without repeated page numbers, each
    selected page of the book is classified against the manifest the run
    was given, untouched by the tasks that ran before: it is reported new
    when that manifest has no entry for it (or there is no manifest),
    modified when the entry holds another fingerprint, and unchanged when
    it holds the same one; each of the three lists is in the order of the
    selection. *)
Theorem run_classifies_against_manifest fuel pf st book sel existing w :
  (0 < batchSize st)%N ->
  (length sel <= fuel)%nat ->
  NoDup sel ->
  exists r,
    importSelectedPagesWithProgress fuel pf st book sel existing w = Some r
    /\ forall s, run_outcome r = Returned s ->
         newPages s = selectedAs book existing TNew sel
         /\ modifiedPages s = selectedAs book existing TModified sel
         /\ unchangedPages s = selectedAs book existing TUnchanged sel.
Proof.
  intros Hb Hf Hnd.
  destruct (run_returns fuel pf st book sel existing w Hb Hf) as [r Hrun].
  exists r. split; [exact Hrun|]. intros s Hs.
  exact (run_classification fuel pf st book sel existing w r s Hnd Hrun Hs).
Qed.

Lemma run_classifies_against_manifest_witness :
  exists r,
    importSelectedPagesWithProgress 3 Ex.noDigest Ex.settings Ex.threePageBook
      [3%N; 1%N; 2%N] (Some Ex.staleManifest) Ex.emptyWorld = Some r
    /\ forall s, run_outcome r = Returned s ->
         newPages s = [3%N; 2%N] /\ modifiedPages s = [1%N]
         /\ unchangedPages s = [].
Proof.
  apply (run_classifies_against_manifest 3 Ex.noDigest Ex.settings
           Ex.threePageBook [3%N; 1%N; 2%N] (Some Ex.staleManifest)
           Ex.emptyWorld).
  - reflexivity.
  - simpl; lia.
  - apply (bool_decide_unpack _). vm_compute. exact I.
Defined.

(** ** Resetting the fingerprints of a book *)

Lemma resetHashes_lookup clock m k :
  importedPages (resetHashes clock m) !! k
  = resetHash (clock k) <$> importedPages m !! k.
Proof.
  unfold resetHashes. simpl. rewrite map_lookup_imap.
  destruct (importedPages m !! k); reflexivity.
Qed.

Lemma taskType_sentinel info page :
  isSpecialHash (imageHash info) = true ->
  isSpecialHash (img_hash (image page)) = false ->
  taskType (Some info) page = TModified.
Proof.
  intros Hs Hp. unfold taskType.
  replace (isNewOf (Some info)) with false
    by (symmetry; apply bool_decide_eq_false; discriminate).
  unfold isModifiedOf. simpl.
  destruct (String.eqb_spec (imageHash info) (img_hash (image page))) as [E|_];
    [|reflexivity].
  rewrite E, Hp in Hs. discriminate.
Qed.

Lemma reset_entries_sentinel clock m : allSentinel (resetHashes clock m).
Proof.
  intros k info' Hk. rewrite resetHashes_lookup in Hk.
  destruct (importedPages m !! k) as [info|]; [|discriminate].
  injection Hk as <-. reflexivity.
Qed.

(** X19. The command "Reset book hashes" replaces the fingerprint of every
    entry by a [RESET-] sentinel and changes nothing else: the same pages
    have entries, their other fields, the page count and the history are
    kept.  Against a reset entry, a page whose fingerprint [hashImageData]
    computed is always modified for the executor. *)
Theorem reset_marks_every_entry clock m :
  let m' := resetHashes clock m in
  (forall k,
     importedPages m' !! k = resetHash (clock k) <$> importedPages m !! k)
  /\ allSentinel m'
  /\ (forall k info', importedPages m' !! k = Some info' ->
        exists info,
          importedPages m !! k = Some info
          /\ fileName info' = fileName info
          /\ geminiProcessed info' = geminiProcessed info
          /\ hasAudio info' = hasAudio info
          /\ backgroundColor info' = backgroundColor info)
  /\ totalPages m' = totalPages m
  /\ history m' = history m
  /\ (forall pf blob k info' page,
        importedPages m' !! k = Some info' ->
        img_hash (image page) = hashImageData pf blob ->
        taskType (Some info') page = TModified).
Proof.
  intros m'. subst m'.
  pose proof (reset_entries_sentinel clock m) as Hsent.
  split; [apply resetHashes_lookup|]. split; [exact Hsent|].
  split; [|split; [reflexivity|split; [reflexivity|]]].
  - intros k info' Hk. rewrite resetHashes_lookup in Hk.
    destruct (importedPages m !! k) as [info|]; [|discriminate].
    injection Hk as <-. exists info. repeat split.
  - intros pf blob k info' page Hk Hh.
    apply taskType_sentinel; [exact (Hsent k info' Hk)|].
    rewrite Hh. apply hashImageData_not_special.
Qed.

(** ** A run over a manifest of sentinels *)

Lemma sentinel_taskOf book m k :
  allSentinel m -> plainFingerprints book ->
  taskOf book (Some m) k
  = if decide (k ∈ pageNums book)
    then Some (if decide (is_Some (importedPages m !! k))
               then TModified else TNew)
    else None.
Proof.
  intros Hs Hp. unfold taskOf, startEntry. simpl.
  destruct (findPage book k) as [page|] eqn:Hf.
  - rewrite decide_True by (eapply findPage_in; exact Hf). simpl. f_equal.
    destruct (importedPages m !! k) as [info|] eqn:Hk.
    + rewrite decide_True by eauto.
      apply taskType_sentinel; [exact (Hs k info Hk)|].
      apply Hp. unfold findPage in Hf. apply find_some in Hf as [Hin _].
      apply list_elem_of_In. exact Hin.
    + rewrite decide_False by (intros [x Hx]; discriminate). reflexivity.
  - apply findPage_None in Hf. rewrite decide_False by exact Hf. reflexivity.
Qed.

(** X20. A run over a manifest whose entries all hold sentinels (a reset or
    a recovered manifest) reports no page unchanged: in a selection without
    repeated page numbers, every selected page of the book that has an
    entry is reported modified, and every one that has none is reported
    new. *)
Theorem sentinel_manifest_reimports fuel pf st book sel m w :
  (0 < batchSize st)%N ->
  (length sel <= fuel)%nat ->
  NoDup sel ->
  allSentinel m ->
  plainFingerprints book ->
  exists r,
    importSelectedPagesWithProgress fuel pf st book sel (Some m) w = Some r
    /\ forall s, run_outcome r = Returned s ->
         unchangedPages s = []
         /\ modifiedPages s
            = filter (fun k => k ∈ pageNums book
                               /\ is_Some (importedPages m !! k)) sel
         /\ newPages s
            = filter (fun k => k ∈ pageNums book
                               /\ importedPages m !! k = None) sel.
Proof.
  intros Hb Hf Hnd Hs Hp.
  destruct (run_returns fuel pf st book sel (Some m) w Hb Hf) as [r Hrun].
  exists r. split; [exact Hrun|]. intros s Hout.
  destruct (run_classification fuel pf st book sel (Some m) w r s Hnd Hrun Hout)
    as (Hn & Hm & Hu).
  rewrite Hn, Hm, Hu. unfold selectedAs.
  split; [|split].
  - apply filter_keep_none. intros k _.
    rewrite (sentinel_taskOf book m k Hs Hp).
    destruct (decide (k ∈ pageNums book)); [|discriminate].
    destruct (decide (is_Some (importedPages m !! k))); discriminate.
  - apply list_filter_iff. intros k.
    rewrite (sentinel_taskOf book m k Hs Hp).
    destruct (decide (k ∈ pageNums book)) as [Hin|Hout'].
    + destruct (decide (is_Some (importedPages m !! k))) as [He|He].
      * split; [intros _; split; assumption|reflexivity].
      * split; [discriminate|]. intros [_ He']. contradiction.
    + split; [discriminate|]. intros [Hin _]. contradiction.
  - apply list_filter_iff. intros k.
    rewrite (sentinel_taskOf book m k Hs Hp).
    destruct (decide (k ∈ pageNums book)) as [Hin|Hout'].
    + destruct (decide (is_Some (importedPages m !! k))) as [He|He].
      * split; [discriminate|]. intros [_ He']. rewrite He' in He.
        destruct He as [x Hx]. discriminate.
      * split; [|reflexivity]. intros _. split; [exact Hin|].
        destruct (importedPages m !! k) eqn:E; [|reflexivity].
        exfalso. apply He. eauto.
    + split; [discriminate|]. intros [Hin _]. contradiction.
Qed.

Lemma sentinel_manifest_reimports_witness :
  exists r,
    importSelectedPagesWithProgress 2 Ex.noDigest Ex.settings Ex.twoPageBook
      [2%N; 1%N] (Some (resetHashes (fun _ => 1735689600000%N) Ex.unchangedManifest))
      Ex.emptyWorld = Some r
    /\ forall s, run_outcome r = Returned s ->
         unchangedPages s = [] /\ modifiedPages s = [1%N]
         /\ newPages s = [2%N].
Proof.
  apply (sentinel_manifest_reimports 2 Ex.noDigest Ex.settings Ex.twoPageBook
           [2%N; 1%N] (resetHashes (fun _ => 1735689600000%N) Ex.unchangedManifest)
           Ex.emptyWorld).
  - reflexivity.
  - simpl; lia.
  - apply (bool_decide_unpack _). vm_compute. exact I.
  - apply (reset_entries_sentinel (fun _ => 1735689600000%N) Ex.unchangedManifest).
  - intros page Hin.
    apply elem_of_cons in Hin as [->|Hin]; [reflexivity|].
    apply list_elem_of_singleton in Hin. subst page. reflexivity.
Defined.

(** ** Recovering a manifest from the page documents *)

Lemma startsWith_app p s : JS.startsWith p (p +:+ s) = true.
Proof.
  induction p as [|a p IH]; [reflexivity|].
  rewrite string_app_cons. simpl. rewrite Ascii.eqb_refl. exact IH.
Qed.

Lemma recoveredEntry_facts hs st w bf name child content n :
  let info := recoveredEntry hs st w bf name child content n in
  isSpecialHash (imageHash info) = true
  /\ fileName info = child_name child
  /\ backgroundColor info = None.
Proof.
  unfold recoveredEntry. simpl. split; [|split; reflexivity].
  unfold isSpecialHash. apply orb_true_intro. left.
  destruct (isTFile _).
  - apply startsWith_app.
  - apply (startsWith_app "recovered-" ("unknown-" +:+ JS.String_ n)).
Qed.

Lemma vault_read_Returned pf path w content w' :
  vault_read pf path w = (Returned content, w') ->
  vault w' = vault w
  /\ exists rejected,
       calls w' = EvCall (CallRead path) rejected :: calls w.
Proof.
  intros H. pose proof (vault_read_vault pf path w) as Hv.
  destruct (vault_read_log pf path w) as [rej Hl].
  rewrite H in Hv, Hl. simpl in Hv, Hl. split; [exact Hv|]. eauto.
Qed.

Lemma recoverPages_spec hs pf st bf name cs acc w acc' w' :
  recoverPages hs pf st bf name cs acc w = (Returned acc', w') ->
  vault w' = vault w
  /\ (exists post, calls w' = post ++ calls w /\ saveCount post = 0%nat)
  /\ (forall k info, acc'.1 !! k = Some info ->
        acc.1 !! k = Some info
        \/ exists child content w1,
             child ∈ cs /\ pageChild k child
             /\ info = recoveredEntry hs st w1 bf name child content k)
  /\ (forall k, is_Some (acc'.1 !! k) <->
        is_Some (acc.1 !! k) \/ exists child, child ∈ cs /\ pageChild k child)
  /\ (acc.2 <= acc'.2)%N
  /\ (forall k child, child ∈ cs -> pageChild k child -> (k <= acc'.2)%N)
  /\ (acc'.2 = acc.2
      \/ exists child, child ∈ cs /\ pageChild acc'.2 child).
Proof.
  revert acc w. induction cs as [|child r IH]; intros acc w H.
  { simpl in H. injection H as <- <-.
    split; [reflexivity|]. split; [exists []; split; reflexivity|].
    split; [intros k info Hk; left; exact Hk|]. split.
    { intros k. split; [intros Hk; left; exact Hk|].
      intros [Hk|(c & Hc & _)]; [exact Hk|].
      apply elem_of_nil in Hc. destruct Hc. }
    split; [lia|]. split; [|left; reflexivity].
    intros k c Hc. apply elem_of_nil in Hc. destruct Hc. }
  assert (Hskip :
    (forall k, ~ pageChild k child) ->
    recoverPages hs pf st bf name r acc w = (Returned acc', w') ->
    vault w' = vault w
    /\ (exists post, calls w' = post ++ calls w /\ saveCount post = 0%nat)
    /\ (forall k info, acc'.1 !! k = Some info ->
          acc.1 !! k = Some info
          \/ exists child0 content w1,
               child0 ∈ child :: r /\ pageChild k child0
               /\ info = recoveredEntry hs st w1 bf name child0 content k)
    /\ (forall k, is_Some (acc'.1 !! k) <->
          is_Some (acc.1 !! k)
          \/ exists child0, child0 ∈ child :: r /\ pageChild k child0)
    /\ (acc.2 <= acc'.2)%N
    /\ (forall k child0, child0 ∈ child :: r -> pageChild k child0 ->
          (k <= acc'.2)%N)
    /\ (acc'.2 = acc.2
        \/ exists child0, child0 ∈ child :: r /\ pageChild acc'.2 child0)).
  { intros Hno H'. apply IH in H'.
    destruct H' as (Hv & Hlog & Ha & Hb & Hc & Hd & He).
    split; [exact Hv|]. split; [exact Hlog|]. split; [|split; [|split; [exact Hc|split]]].
    - intros k info Hk. destruct (Ha k info Hk) as [?|(c & ct & w1 & Hin & Hp & ->)];
        [left; assumption|].
      right. exists c, ct, w1. split; [apply elem_of_cons; right; exact Hin|].
      split; [exact Hp|reflexivity].
    - intros k. rewrite Hb. split.
      + intros [?|(c & Hin & Hp)]; [left; assumption|].
        right. exists c. split; [apply elem_of_cons; right; exact Hin|exact Hp].
      + intros [?|(c & Hin & Hp)]; [left; assumption|].
        apply elem_of_cons in Hin as [->|Hin]; [destruct (Hno k Hp)|].
        right. eauto.
    - intros k c Hin Hp.
      apply elem_of_cons in Hin as [->|Hin]; [destruct (Hno k Hp)|].
      eapply Hd; eassumption.
    - destruct He as [?|(c & Hin & Hp)]; [left; assumption|].
      right. exists c. split; [apply elem_of_cons; right; exact Hin|exact Hp]. }
  simpl in H.
  destruct (child_node child) as [d|] eqn:Hnode.
  2:{ apply Hskip; [|exact H]. intros k [Hf _]. rewrite Hnode in Hf.
      discriminate. }
  destruct (pageNumberOf (child_name child)) as [n|] eqn:Hnum.
  2:{ apply Hskip; [|exact H]. intros k [_ Hp]. rewrite Hnum in Hp.
      discriminate. }
  assert (Hchild : pageChild n child).
  { split; [rewrite Hnode; reflexivity|exact Hnum]. }
  unfold bind in H.
  destruct (vault_read pf (child_path child) w) as [[content|msg] w1] eqn:Hread;
    [|discriminate H].
  apply vault_read_Returned in Hread as [Hv1 [rej Hl1]].
  apply IH in H. simpl in H.
  destruct H as (Hv & (post & Hlog & Hsc) & Ha & Hb & Hc & Hd & He).
  split; [rewrite Hv; exact Hv1|]. split.
  { exists (post ++ [EvCall (CallRead (child_path child)) rej]).
    rewrite Hlog, Hl1, <- app_assoc. split; [reflexivity|].
    rewrite saveCount_app, Hsc. reflexivity. }
  split; [|split; [|split; [lia|split]]].
  - intros k info Hk. destruct (Ha k info Hk) as [Hold|(c & ct & w2 & Hin & Hp & ->)].
    + destruct (decide (k = n)) as [->|Hne].
      * rewrite lookup_insert_eq in Hold. injection Hold as <-.
        right. exists child, content, w1.
        split; [apply elem_of_cons; left; reflexivity|].
        split; [exact Hchild|reflexivity].
      * rewrite lookup_insert_ne in Hold by congruence. left. exact Hold.
    + right. exists c, ct, w2. split; [apply elem_of_cons; right; exact Hin|].
      split; [exact Hp|reflexivity].
  - intros k. rewrite Hb. split.
    + intros [Hold|(c & Hin & Hp)].
      * destruct (decide (k = n)) as [->|Hne].
        -- right. exists child. split; [apply elem_of_cons; left; reflexivity|].
           exact Hchild.
        -- rewrite lookup_insert_ne in Hold by congruence. left. exact Hold.
      * right. exists c. split; [apply elem_of_cons; right; exact Hin|exact Hp].
    + intros [Hold|(c & Hin & Hp)].
      * left. destruct (decide (k = n)) as [->|Hne].
        -- rewrite lookup_insert_eq. eauto.
        -- rewrite lookup_insert_ne by congruence. exact Hold.
      * apply elem_of_cons in Hin as [->|Hin].
        -- destruct Hp as [_ Hp]. rewrite Hnum in Hp. injection Hp as <-.
           left. rewrite lookup_insert_eq. eauto.
        -- right. eauto.
  - intros k c Hin Hp. apply elem_of_cons in Hin as [->|Hin].
    + destruct Hp as [_ Hp]. rewrite Hnum in Hp. injection Hp as <-. lia.
    + eapply Hd; eassumption.
  - destruct He as [He|(c & Hin & Hp)].
    + destruct (N.max_spec (acc.2) n) as [[_ Hmax]|[_ Hmax]];
        rewrite Hmax in He.
      * right. exists child. split; [apply elem_of_cons; left; reflexivity|].
        rewrite He. exact Hchild.
      * left. exact He.
    + right. exists c. split; [apply elem_of_cons; right; exact Hin|exact Hp].
Qed.

Lemma elem_of_children w bf child :
  child ∈ children w bf
  <-> vault w !! child_path child = Some (child_node child)
      /\ childName bf (child_path child) = Some (child_name child).
Proof.
  unfold children. rewrite list_elem_of_omap. split.
  - intros ([path node] & Hin & Hf). apply elem_of_map_to_list in Hin.
    simpl in Hf. destruct (childName bf path) as [cname|] eqn:Hc;
      [|discriminate].
    injection Hf as <-. simpl. split; assumption.
  - intros [Hv Hc]. exists (child_path child, child_node child).
    split; [apply elem_of_map_to_list; exact Hv|].
    simpl. rewrite Hc. destruct child; reflexivity.
Qed.

Lemma childName_Some bf path cname :
  childName bf path = Some cname ->
  path = bf +:+ "/" +:+ cname /\ includes "/" cname = false.
Proof.
  unfold childName. destruct (strip_prefix _ path) as [rest|] eqn:Hs;
    [|discriminate].
  destruct (includes "/" rest) eqn:Hi; [discriminate|].
  intros [= <-]. apply strip_prefix_Some in Hs.
  rewrite Hs, string_app_assoc. split; [reflexivity|exact Hi].
Qed.

Lemma childName_intro bf cname :
  includes "/" cname = false ->
  childName bf (bf +:+ "/" +:+ cname) = Some cname.
Proof.
  intros Hi. unfold childName.
  rewrite <- string_app_assoc, strip_prefix_app, Hi. reflexivity.
Qed.

Lemma page_names_without_slash :
  Forall (fun n => includes "/" (pageFileNameOf (N.of_nat n)) = false)
    (seq 0 1000).
Proof. apply (bool_decide_unpack _). vm_compute. reflexivity. Qed.

Lemma pageFileNameOf_no_slash k :
  (k < 1000)%N -> includes "/" (pageFileNameOf k) = false.
Proof.
  intros Hk. pose proof page_names_without_slash as H.
  rewrite Forall_forall in H. specialize (H (N.to_nat k)).
  rewrite N2Nat.id in H. apply H. apply elem_of_seq. lia.
Qed.

Lemma pageChild_vault w bf k :
  (exists child, child ∈ children w bf /\ pageChild k child)
  <-> (k < 1000)%N /\ isTFile (vault w !! pagePathOf bf k) = true.
Proof.
  split.
  - intros (child & Hin & Hfile & Hnum).
    apply elem_of_children in Hin as [Hv Hc].
    apply pageNumberOf_Some in Hnum as [Hname Hk].
    apply childName_Some in Hc as [Hpath _].
    split; [exact Hk|].
    unfold pagePathOf. rewrite <- Hname, <- Hpath, Hv.
    destruct (child_node child); [reflexivity|discriminate].
  - intros [Hk Hfile].
    destruct (vault w !! pagePathOf bf k) as [[d|]|] eqn:Hv; try discriminate.
    exists (mkChild (pageFileNameOf k) (pagePathOf bf k) (TFile d)).
    split.
    + apply elem_of_children. simpl. split; [exact Hv|].
      apply childName_intro, pageFileNameOf_no_slash. exact Hk.
    + split; [reflexivity|]. simpl. apply pageNumberOf_small. exact Hk.
Qed.

Lemma recover_Some hs pf st bf name w m w' :
  recoverManifestFromExistingFiles hs pf st bf name w = (Returned (Some m), w') ->
  exists found w1,
    recoverPages hs pf st bf name (children w bf) (∅, 0%N) w
    = (Returned found, w1)
    /\ found.1 <> ∅
    /\ m = addHistoryEntry pf st
             (mkImportManifest name found.2 found.1 (now pf) name "1.1" (Some []))
             ActImport (entries found.1).*1
             "Manifest recovered from existing files"
    /\ w' = saveManifest pf (manifestPathOf bf) m w1.
Proof.
  unfold recoverManifestFromExistingFiles, getAbstractFileByPath.
  destruct (vault w !! bf) as [[d|]|]; try discriminate.
  unfold bind.
  destruct (recoverPages _ _ _ _ _ _ _ w) as [[found|msg] w1]; [|discriminate].
  destruct (bool_decide_reflect (found.1 = ∅)) as [He|Hne]; [discriminate|].
  intros [= <- <-]. exists found, w1. repeat split. exact Hne.
Qed.

Lemma recovered_manifest_facts hs pf st bf name w m w' :
  recoverManifestFromExistingFiles hs pf st bf name w = (Returned (Some m), w') ->
  allSentinel m
  /\ (forall k, is_Some (importedPages m !! k) <->
        (k < 1000)%N /\ isTFile (vault w !! pagePathOf bf k) = true)
  /\ (forall k info, importedPages m !! k = Some info ->
        fileName info = pageFileNameOf k
        /\ (k <= totalPages m)%N
        /\ forall st', backgroundChangedOf st' (Some info) = true)
  /\ is_Some (importedPages m !! totalPages m)
  /\ bookName m = name
  /\ exists post,
       calls w' = post ++ calls w /\ saveCount post = 1%nat.
Proof.
  intros H. apply recover_Some in H as (found & w1 & Hrec & Hne & Hm & ->).
  apply recoverPages_spec in Hrec.
  destruct Hrec as (Hv & (post & Hlog & Hsc) & Ha & Hb & _ & Hd & He).
  simpl in Ha, Hb, Hd, He.
  pose proof (addHistoryEntry_frame pf st
                (mkImportManifest name found.2 found.1 (now pf) name "1.1"
                   (Some []))
                ActImport (entries found.1).*1
                "Manifest recovered from existing files") as [Hip Htp].
  rewrite <- Hm in Hip, Htp. simpl in Hip, Htp.
  assert (Hentry : forall k info, found.1 !! k = Some info ->
            exists child content w2,
              pageChild k child /\ child ∈ children w bf
              /\ info = recoveredEntry hs st w2 bf name child content k).
  { intros k info Hk. destruct (Ha k info Hk) as [Hold|(c & ct & w2 & Hin & Hp & ->)].
    - rewrite lookup_empty in Hold. discriminate.
    - exists c, ct, w2. repeat split; try assumption; apply Hp. }
  rewrite Hip, Htp.
  split; [|split; [|split; [|split; [|split]]]].
  - intros k info Hk. rewrite Hip in Hk.
    destruct (Hentry k info Hk) as (c & ct & w2 & _ & _ & ->).
    apply recoveredEntry_facts.
  - intros k. rewrite Hb, <- pageChild_vault. split.
    + intros [Hold|Hnew]; [|exact Hnew].
      rewrite lookup_empty in Hold. destruct Hold as [x Hx]. discriminate.
    + intros Hnew. right. exact Hnew.
  - intros k info Hk.
    destruct (Hentry k info Hk) as (c & ct & w2 & Hp & Hin & ->).
    destruct (recoveredEntry_facts hs st w2 bf name c ct k) as (_ & Hfn & Hbg).
    split; [|split].
    + rewrite Hfn. destruct Hp as [_ Hp].
      apply pageNumberOf_Some in Hp as [Hp _]. exact Hp.
    + eapply Hd; eassumption.
    + intros st'. unfold backgroundChangedOf. cbn [mbind option_bind].
      rewrite Hbg. reflexivity.
  - destruct He as [He|(c & Hin & Hp)].
    + destruct (map_choose found.1 Hne) as (k & info & Hk).
      destruct (Hentry k info Hk) as (c & ct & w2 & Hp & Hin & _).
      pose proof (Hd k c Hin Hp) as Hle. rewrite He in Hle |- *.
      replace 0%N with k by lia. eauto.
    + apply Hb. right. eauto.
  - rewrite Hm. unfold addHistoryEntry.
    destruct (negb (keepHistory st)); [reflexivity|].
    destruct (_ <? _); reflexivity.
  - destruct (saveManifest_log pf (manifestPathOf bf) m w1) as (post2 & Hl2 & Hs2).
    exists (post2 ++ post). rewrite Hl2, Hlog, <- app_assoc.
    split; [reflexivity|]. rewrite saveCount_app, Hs2, Hsc. reflexivity.
Qed.

Lemma recoverPages_none hs pf st bf name cs acc w :
  (forall k child, child ∈ cs -> ~ pageChild k child) ->
  recoverPages hs pf st bf name cs acc w = (Returned acc, w).
Proof.
  induction cs as [|child r IH]; intros Hno; [reflexivity|].
  simpl.
  assert (IH' : recoverPages hs pf st bf name r acc w = (Returned acc, w)).
  { apply IH. intros k c Hin. apply Hno. apply elem_of_cons. right. exact Hin. }
  destruct (child_node child) as [d|] eqn:Hnode; [|exact IH'].
  destruct (pageNumberOf (child_name child)) as [n|] eqn:Hnum; [|exact IH'].
  exfalso. apply (Hno n child); [apply elem_of_cons; left; reflexivity|].
  split; [rewrite Hnode; reflexivity|exact Hnum].
Qed.

(** X22. When the book folder is missing, or holds no page document of a
    page number below 1000, recovery returns no manifest and leaves the
    world untouched: it reads nothing and saves nothing. *)
Theorem recovery_finds_nothing hs pf st bf name w :
  vault w !! bf <> Some TFolder
  \/ (forall k, (k < 1000)%N -> isTFile (vault w !! pagePathOf bf k) = false) ->
  recoverManifestFromExistingFiles hs pf st bf name w = (Returned None, w).
Proof.
  intros H. unfold recoverManifestFromExistingFiles, getAbstractFileByPath.
  destruct (vault w !! bf) as [[d|]|] eqn:Hbf; try reflexivity.
  destruct H as [H|H]; [congruence|].
  unfold bind. rewrite recoverPages_none; [reflexivity|].
  intros k child Hin Hp.
  assert (Hex : exists child, child ∈ children w bf /\ pageChild k child)
    by eauto.
  apply pageChild_vault in Hex as [Hk Hfile].
  rewrite (H k Hk) in Hfile. discriminate.
Qed.

Lemma recovery_finds_nothing_witness :
  recoverManifestFromExistingFiles Ex.host Ex.noDigest Ex.settings
    "Viwoods Notes/Book" "Book" Ex.emptyWorld = (Returned None, Ex.emptyWorld).
Proof.
  apply (recovery_finds_nothing Ex.host Ex.noDigest Ex.settings
           "Viwoods Notes/Book" "Book" Ex.emptyWorld).
  left. discriminate.
Defined.

(** ** Backing up the manifest *)

Lemma split_first_spec pat s b a :
  split_first pat s = Some (b, a) -> s = b +:+ pat +:+ a.
Proof.
  revert b. induction s as [|c s IH]; intros b; cbn [split_first].
  - destruct (strip_prefix pat "") as [rest|] eqn:Hs; [|discriminate].
    intros [= <- <-]. exact (strip_prefix_Some _ _ _ Hs).
  - destruct (strip_prefix pat (String c s)) as [rest|] eqn:Hs.
    + intros [= <- <-]. exact (strip_prefix_Some _ _ _ Hs).
    + destruct (split_first pat s) as [[b0 a0]|]; [|discriminate].
      cbn. intros [= <- <-]. rewrite string_app_cons. f_equal.
      apply IH. reflexivity.
Qed.

Lemma split_first_includes pat s :
  includes pat s = true -> is_Some (split_first pat s).
Proof.
  unfold includes. induction s as [|c s IH]; cbn [before_first split_first].
  - destruct (strip_prefix pat ""); [eauto|discriminate].
  - destruct (strip_prefix pat (String c s)); [eauto|].
    destruct (before_first pat s); [|discriminate].
    intros _. destruct (IH eq_refl) as [[b a] ->]. cbn. eauto.
Qed.

(** A replacement without a dollar sign is put in as it is. *)
Lemma getSubstitution_plain matched before after rep :
  all_chars (fun c => negb (Ascii.eqb c "$")) rep = true ->
  getSubstitution matched before after rep = rep.
Proof.
  induction rep as [|c rep IH]; [reflexivity|]. cbn [all_chars getSubstitution].
  intros [Hc Hs]%andb_true_iff. apply negb_true_iff in Hc. rewrite Hc.
  rewrite (IH Hs). reflexivity.
Qed.

Lemma replace_first_length pat rep s :
  includes pat s = true ->
  all_chars (fun c => negb (Ascii.eqb c "$")) rep = true ->
  (String.length (replace_first pat rep s) + String.length pat
   = String.length s + String.length rep)%nat.
Proof.
  intros Hi Hrep. unfold replace_first.
  destruct (split_first_includes pat s Hi) as [[b a] Hs]. rewrite Hs.
  rewrite (getSubstitution_plain _ _ _ _ Hrep).
  rewrite (split_first_spec _ _ _ _ Hs).
  rewrite !length_append. lia.
Qed.

(** The replacement that names a backup holds no dollar sign. *)
Lemma backup_suffix_plain dateNow :
  all_chars (fun c => negb (Ascii.eqb c "$"))
    ("-backup-" +:+ JS.String_ dateNow +:+ ".json") = true.
Proof.
  rewrite !all_chars_app.
  rewrite (all_chars_impl is_digit _ (JS.String_ dateNow)).
  - reflexivity.
  - intros c Hc. destruct (Ascii.eqb_spec c "$") as [->|]; [discriminate Hc|].
    reflexivity.
  - apply String_digits.
Qed.

Lemma createManifestBackup_cases pf st dateNow path w :
  let bp :=
    replace_first ".json" ("-backup-" +:+ JS.String_ dateNow +:+ ".json") path in
  (createManifestBackup pf st dateNow path w = (None, w)
   /\ (createBackups st = false \/ isTFile (vault w !! path) = false))
  \/ (exists d,
        createBackups st = true
        /\ vault w !! path = Some (TFile d)
        /\ ((exists msg,
               createManifestBackup pf st dateNow path w
               = (None, mkWorld (vault w)
                          (EvCall (CallRead path) (Some msg) :: calls w)))
            \/ (exists msg,
                  createManifestBackup pf st dateNow path w
                  = (None,
                     mkWorld (vault w)
                       (EvCall (CallCreate bp (textOf d)) (Some msg)
                        :: EvCall (CallRead path) None :: calls w)))
            \/ createManifestBackup pf st dateNow path w
               = (Some bp,
                  mkWorld (<[bp := TFile (Text (textOf d))]> (vault w))
                    (EvCall (CallCreate bp (textOf d)) None
                     :: EvCall (CallRead path) None :: calls w)))).
Proof.
  intros bp. unfold createManifestBackup. fold bp.
  destruct (createBackups st); simpl; [|left; split; [reflexivity|left; reflexivity]].
  unfold getAbstractFileByPath.
  destruct (vault w !! path) as [[d|]|] eqn:Hv; simpl;
    try (left; split; [reflexivity|right; reflexivity]).
  right. exists d. split; [reflexivity|]. split; [reflexivity|].
  unfold bind, vault_read, vault_call. rewrite Hv.
  destruct (rejects pf (length (calls w)) (CallRead path)) as [msg|]; simpl.
  - left. exists msg. reflexivity.
  - unfold vault_create, vault_call. simpl.
    destruct (rejects pf (S (length (calls w))) (CallCreate bp (textOf d)))
      as [msg|]; simpl.
    + right. left. exists msg. reflexivity.
    + right. right. reflexivity.
Qed.

(** X23. [createManifestBackup] never throws and never alters the text of
    the manifest.  With backups switched off, or without a manifest file,
    it returns no path and does nothing.  When it returns a path, the file
    at that path holds the text of the manifest, nothing else in the vault
    has changed, and for a manifest path that contains [.json] the backup
    path is another path; when it returns none, the vault is as it was. *)
Theorem backup_copies_manifest pf st dateNow path w :
  let r := createManifestBackup pf st dateNow path w in
  (createBackups st = false \/ isTFile (vault w !! path) = false ->
   r = (None, w))
  /\ (r.1 = None -> vault r.2 = vault w)
  /\ (forall bp, r.1 = Some bp ->
        exists d,
          vault w !! path = Some (TFile d)
          /\ vault r.2 = <[bp := TFile (Text (textOf d))]> (vault w)
          /\ (includes ".json" path = true -> bp <> path))
  /\ (forall d, vault w !! path = Some (TFile d) ->
        exists d', vault r.2 !! path = Some (TFile d')
                   /\ textOf d' = textOf d)
  /\ exists post,
       calls r.2 = post ++ calls w /\ saveCount post = 0%nat
       /\ (length post <= 2)%nat.
Proof.
  intros r. subst r.
  destruct (createManifestBackup_cases pf st dateNow path w)
    as [[-> Hoff]|(d & Hon & Hv & Hcase)].
  { simpl. split; [reflexivity|]. split; [reflexivity|].
    split; [discriminate|]. split; [eauto|].
    exists []. split; [reflexivity|]. split; [reflexivity|]. simpl. lia. }
  set (bp := replace_first ".json"
               ("-backup-" +:+ JS.String_ dateNow +:+ ".json") path) in *.
  assert (Hoff : createBackups st = false \/ isTFile (vault w !! path) = false
                 -> False).
  { rewrite Hon, Hv. intros [?|?]; discriminate. }
  destruct Hcase as [(msg & ->)|[(msg & ->)| ->]]; simpl.
  - split; [intros H; destruct (Hoff H)|]. split; [reflexivity|].
    split; [discriminate|]. split.
    { intros d0 Hd0. exists d0. split; [exact Hd0|reflexivity]. }
    exists [EvCall (CallRead path) (Some msg)].
    split; [reflexivity|]. split; [reflexivity|]. simpl. lia.
  - split; [intros H; destruct (Hoff H)|]. split; [reflexivity|].
    split; [discriminate|]. split.
    { intros d0 Hd0. exists d0. split; [exact Hd0|reflexivity]. }
    exists [EvCall (CallCreate bp (textOf d)) (Some msg);
            EvCall (CallRead path) None].
    split; [reflexivity|]. split; [reflexivity|]. simpl. lia.
  - split; [intros H; destruct (Hoff H)|]. split; [discriminate|].
    split.
    { intros bp' [= <-]. exists d. split; [exact Hv|]. split; [reflexivity|].
      intros Hinc Heq.
      pose proof (replace_first_length ".json"
                    ("-backup-" +:+ JS.String_ dateNow +:+ ".json") path Hinc
                    (backup_suffix_plain dateNow))
        as Hlen.
      fold bp in Hlen. rewrite Heq in Hlen.
      rewrite (length_append "-backup-") in Hlen. simpl in Hlen. lia. }
    split.
    { intros d0 Hd0. rewrite Hv in Hd0. injection Hd0 as <-.
      destruct (decide (bp = path)) as [->|Hne].
      - rewrite lookup_insert_eq. eauto.
      - rewrite lookup_insert_ne by exact Hne. eauto. }
    exists [EvCall (CallCreate bp (textOf d)) None;
            EvCall (CallRead path) None].
    split; [reflexivity|]. split; [reflexivity|]. simpl. lia.
Qed.

(** ** The preview of the analysis and the report of the run *)

Lemma filter_ext_elem {A} (P Q : A -> Prop)
    `{!forall x, Decision (P x)} `{!forall x, Decision (Q x)} (l : list A) :
  (forall x, x ∈ l -> P x <-> Q x) -> filter P l = filter Q l.
Proof.
  induction l as [|x l IH]; intros Hext; [reflexivity|].
  assert (IH' : filter P l = filter Q l).
  { apply IH. intros y Hy. apply Hext. apply elem_of_cons. right. exact Hy. }
  assert (Hx : P x <-> Q x).
  { apply Hext. apply elem_of_cons. left. reflexivity. }
  destruct (decide (P x)) as [Hp|Hp].
  - rewrite (filter_cons_True P) by exact Hp.
    rewrite (filter_cons_True Q) by (apply Hx; exact Hp).
    rewrite IH'. reflexivity.
  - rewrite (filter_cons_False P) by exact Hp.
    rewrite (filter_cons_False Q) by (intros Hq; apply Hp, Hx; exact Hq).
    exact IH'.
Qed.

Lemma filter_fmap_comm {A B} (f : A -> B) (Q : B -> Prop)
    `{!forall y, Decision (Q y)} (l : list A) :
  filter Q (f <$> l) = f <$> filter (fun x => Q (f x)) l.
Proof.
  induction l as [|x l IH]; [reflexivity|].
  rewrite fmap_cons. destruct (decide (Q (f x))) as [Hq|Hq].
  - rewrite !filter_cons_True by exact Hq. rewrite fmap_cons, IH. reflexivity.
  - rewrite !filter_cons_False by exact Hq. exact IH.
Qed.

Lemma pageChanges_NoDup_map ps (em : gmap N Existing) :
  NoDup (pageNum <$> ps) ->
  pageChanges ps em
  = (fun page => classifyPage (em !! pageNum page) page) <$> ps.
Proof.
  revert em. induction ps as [|p ps IH]; intros em Hnd; [reflexivity|].
  rewrite fmap_cons in Hnd. apply NoDup_cons in Hnd as [Hp Hnd].
  simpl. f_equal. rewrite (IH _ Hnd).
  apply list_fmap_ext. intros i page Hi.
  rewrite lookup_delete_ne; [reflexivity|].
  intros Heq. apply Hp. rewrite Heq. apply list_elem_of_fmap.
  exists page. split; [reflexivity|]. eapply list_elem_of_lookup_2. exact Hi.
Qed.

Lemma findPage_NoDup book page :
  NoDup (pageNums book) -> page ∈ book_pages book ->
  findPage book (pageNum page) = Some page.
Proof.
  unfold findPage, pageNums. induction (book_pages book) as [|p ps IH];
    intros Hnd Hin.
  { apply elem_of_nil in Hin. destruct Hin. }
  rewrite fmap_cons in Hnd. apply NoDup_cons in Hnd as [Hp Hnd].
  simpl. destruct (N.eqb_spec (pageNum p) (pageNum page)) as [Heq|Hne].
  - apply elem_of_cons in Hin as [->|Hin]; [reflexivity|].
    exfalso. apply Hp. rewrite Heq. apply list_elem_of_fmap. eauto.
  - apply elem_of_cons in Hin as [->|Hin]; [congruence|].
    apply IH; assumption.
Qed.

Lemma classify_agrees pf st book m w page :
  isSpecialHash (img_hash (image page)) = false ->
  (forall e, (loadExistingMap pf st book m w).1 !! pageNum page = Some e ->
     existingHash e = imageHash (manifestInfo e)) ->
  c_type (classifyPage ((loadExistingMap pf st book m w).1 !! pageNum page) page)
  = taskType (importedPages m !! pageNum page) page.
Proof.
  intros Hplain Hcons.
  destruct (importedPages m !! pageNum page) as [info|] eqn:Hm.
  - destruct (loadExistingMap_Some pf st book m w _ info Hm) as (w1 & _ & He).
    specialize (Hcons _ He). rewrite He, classifyPage_type, Hcons. simpl.
    unfold taskType.
    replace (isNewOf (Some info)) with false
      by (symmetry; apply bool_decide_eq_false; discriminate).
    unfold isModifiedOf. simpl.
    destruct (isSpecialHash (imageHash info)) eqn:Hs; simpl.
    + destruct (String.eqb_spec (imageHash info) (img_hash (image page)))
        as [E|_]; [|reflexivity].
      rewrite E, Hplain in Hs. discriminate.
    + destruct (String.eqb _ _); reflexivity.
  - rewrite (loadExistingMap_None pf st book m w _ Hm). reflexivity.
Qed.

Lemma analysis_lists pf st book m w t :
  t <> TDeleted ->
  NoDup (pageNums book) ->
  numbersOf t (changes (analyzeChanges pf st book (Some m) w).1)
  = pageNum <$>
      filter (fun page =>
                c_type (classifyPage
                          ((loadExistingMap pf st book m w).1 !! pageNum page)
                          page) = t)
        (book_pages book).
Proof.
  intros Ht Hnd. rewrite analyzeChanges_closed, changes_analysisOf. simpl.
  rewrite numbersOf_app.
  rewrite (numbersOf_none t (deletedChange <$> _)).
  2:{ intros c Hc. rewrite (deletedChange_type _ c Hc). congruence. }
  rewrite app_nil_r, (pageChanges_NoDup_map _ _ Hnd).
  unfold numbersOf, hasType.
  rewrite (filter_fmap_comm
             (fun page => classifyPage
                            ((loadExistingMap pf st book m w).1 !! pageNum page)
                            page)
             (fun c => c_type c = t)).
  rewrite <- list_fmap_compose. apply list_fmap_ext.
  intros i page _. apply classifyPage_pageNum.
Qed.

(** X24. The preview agrees with the report: for a book without repeated
    page numbers whose fingerprints are not sentinels, and a vault in which
    no page document embeds a fingerprint other than the one its manifest
    entry holds, a run over all pages of the book reports as new, modified
    and unchanged exactly the pages the analysis listed as such, in the
    same order. *)
Theorem preview_matches_report fuel pf st book m w w2 :
  (0 < batchSize st)%N ->
  (length (pageNums book) <= fuel)%nat ->
  NoDup (pageNums book) ->
  plainFingerprints book ->
  (forall k e, (loadExistingMap pf st book m w).1 !! k = Some e ->
     existingHash e = imageHash (manifestInfo e)) ->
  let a := (analyzeChanges pf st book (Some m) w).1 in
  exists r,
    importSelectedPagesWithProgress fuel pf st book (pageNums book) (Some m) w2
    = Some r
    /\ forall s, run_outcome r = Returned s ->
         newPages s = newPages (summary a)
         /\ modifiedPages s = modifiedPages (summary a)
         /\ unchangedPages s = unchangedPages (summary a).
Proof.
  intros Hb Hf Hnd Hplain Hcons a.
  destruct (run_returns fuel pf st book (pageNums book) (Some m) w2 Hb Hf)
    as [r Hrun].
  exists r. split; [exact Hrun|]. intros s Hout.
  destruct (run_classification fuel pf st book (pageNums book) (Some m) w2 r s
              Hnd Hrun Hout) as (Hn & Hm & Hu).
  assert (Hlist : forall t, t <> TDeleted ->
            selectedAs book (Some m) t (pageNums book)
            = numbersOf t (changes a)).
  { intros t Ht. unfold a. rewrite (analysis_lists pf st book m w t Ht Hnd).
    unfold selectedAs, pageNums.
    rewrite (filter_fmap_comm pageNum
               (fun k => taskOf book (Some m) k = Some t)).
    f_equal. apply filter_ext_elem. intros page Hin.
    unfold taskOf, startEntry. simpl.
    rewrite (findPage_NoDup book page Hnd Hin). simpl.
    rewrite (classify_agrees pf st book m w page (Hplain page Hin)
               (Hcons (pageNum page))).
    split; [intros [= H]; exact H|intros H; rewrite H; reflexivity]. }
  assert (Hsum : newPages (summary a) = numbersOf TNew (changes a)
                 /\ modifiedPages (summary a) = numbersOf TModified (changes a)
                 /\ unchangedPages (summary a)
                    = numbersOf TUnchanged (changes a)).
  { unfold a. rewrite analyzeChanges_closed.
    set (a0 := mkAnalysis [] _). set (cs := _ ++ _).
    destruct (summary_analysisOf a0 cs) as (H1 & H2 & H3 & _).
    rewrite H1, H2, H3, changes_analysisOf. repeat split. }
  destruct Hsum as (S1 & S2 & S3).
  rewrite Hn, Hm, Hu, S1, S2, S3, !Hlist by discriminate. repeat split.
Qed.

Lemma preview_matches_report_witness :
  exists r,
    importSelectedPagesWithProgress 3 Ex.noDigest Ex.settings Ex.threePageBook
      (pageNums Ex.threePageBook) (Some Ex.staleManifest) Ex.emptyWorld = Some r
    /\ forall s, run_outcome r = Returned s ->
         newPages s = [2%N; 3%N] /\ modifiedPages s = [1%N]
         /\ unchangedPages s = [].
Proof.
  apply (preview_matches_report 3 Ex.noDigest Ex.settings Ex.threePageBook
           Ex.staleManifest Ex.emptyWorld Ex.emptyWorld).
  - reflexivity.
  - simpl; lia.
  - apply (bool_decide_unpack _). vm_compute. exact I.
  - intros page Hin. repeat (apply elem_of_cons in Hin as [->|Hin];
                              [reflexivity|]).
    apply elem_of_nil in Hin. destruct Hin.
  - intros k e He.
    destruct (decide (k = 1%N)) as [->|Hne].
    + vm_compute in He. injection He as <-. reflexivity.
    + rewrite loadExistingMap_None in He; [discriminate|].
      apply lookup_singleton_ne. congruence.
Defined.

(** ** The page document a task leaves *)

Lemma vault_call_Returned pf c effect w w' :
  vault_call pf c effect w = (Returned tt, w') ->
  vault w' = effect (vault w).
Proof.
  unfold vault_call. destruct (rejects pf _ c); intros H; inversion H.
  reflexivity.
Qed.

Lemma savePageFile_Returned pf path content w w' :
  savePageFile pf path content w = (Returned tt, w') ->
  vault w' !! path = Some (TFile (Text content)).
Proof.
  unfold savePageFile, vault_modify, vault_create.
  destruct (isTFile _); intros H; apply vault_call_Returned in H;
    rewrite H; apply lookup_insert_eq.
Qed.

Lemma pageBody_document pf st book total existing page w :
  (pageBody pf st book total existing page w).1.1 = Returned tt ->
  exists rest,
    vault (pageBody pf st book total existing page w).2
      !! pagePathOf (bookFolderOf st (book_name book)) (pageNum page)
    = Some (TFile (Text (frontmatterOf pf st book total page
                           (isModifiedOf existing page) +:+ rest))).
Proof.
  unfold pageBody.
  destruct (frontmatterDates pf st book) as [[]|msgd]; [|discriminate].
  destruct (importAudio _ _ _ _ _ _ w) as [[audioContent|msg] w1];
    [|discriminate].
  destruct (importImage _ _ _ _ _ _ _ _ w1) as [[imageContent queued] w2].
  match goal with
  | |- context [bind ?m ?k w2] => destruct (bind m k w2) as [o w3] eqn:Hb
  end.
  simpl. intros ->.
  apply bind_Returned in Hb as (svgContent & w' & _ & Hsave).
  apply savePageFile_Returned in Hsave.
  exists (audioContent +:+ imageContent +:+ svgContent). exact Hsave.
Qed.


(** ** What a decoded book looks like *)

Lemma andThen_Returned {A B} (m : Outcome A) (k : A -> Outcome B) b :
  andThen m k = Returned b -> exists a, m = Returned a /\ k a = Returned b.
Proof. destruct m as [a|msg]; simpl; [eauto|discriminate]. Qed.

Lemma audioOf_name zip name n file a :
  audioOf zip name n file = Returned (Some a) ->
  audio_name a = name +:+ "_page_" +:+ pad3 n +:+ "_audio.m4a".
Proof.
  unfold audioOf. destruct file as [f|]; [|discriminate].
  intros H. apply andThen_Returned in H as (blob & _ & H).
  injection H as <-. reflexivity.
Qed.

Lemma strokesOf_svg ps st zip files pageResource i strokes :
  strokesOf ps st zip files pageResource i = Returned (Some strokes) ->
  isSvg (outputFormat st) = true.
Proof.
  unfold strokesOf. destruct (isSvg (outputFormat st)); [reflexivity|discriminate].
Qed.

Lemma decodedPage_weaken pf st name i j page :
  (i <= j)%nat -> decodedPage pf st name j page -> decodedPage pf st name i page.
Proof.
  intros Hij (H1 & H2 & H3 & H4). split; [lia|]. repeat split; assumption.
Qed.

Lemma decoded_cons pf st name i blob strokes au pages zip files pr ps :
  strokesOf ps st zip files pr i = Returned strokes ->
  audioOf zip name (N.of_nat i + 1) au.1 = Returned au.2 ->
  Forall (decodedPage pf st name (S i)) pages ->
  StronglySorted N.lt (pageNum <$> pages) ->
  let page :=
    mkPageData (N.of_nat i + 1) (mkImageData blob (hashImageData pf blob))
      strokes au.2 in
  Forall (decodedPage pf st name i) (page :: pages)
  /\ StronglySorted N.lt (pageNum <$> page :: pages).
Proof.
  intros Hs Ha Hall Hsorted page. split.
  - constructor.
    + split; [simpl; lia|]. split; [reflexivity|]. split.
      * intros a Hau. simpl in Hau. rewrite Hau in Ha.
        apply (audioOf_name zip name _ au.1 a Ha).
      * intros [x Hx]. simpl in Hx. rewrite Hx in Hs.
        exact (strokesOf_svg ps st zip files pr i x Hs).
    + eapply Forall_impl; [exact Hall|]. intros p Hp.
      apply (decodedPage_weaken pf st name i (S i)); [lia|exact Hp].
  - rewrite fmap_cons. constructor; [exact Hsorted|].
    rewrite Forall_fmap. eapply Forall_impl; [exact Hall|].
    intros p (Hp & _). simpl. lia.
Qed.

Lemma newFormatPages_spec ps pf st zip files name pageResource rs i pages :
  newFormatPages ps pf st zip files name pageResource rs i = Returned pages ->
  Forall (decodedPage pf st name i) pages
  /\ StronglySorted N.lt (pageNum <$> pages).
Proof.
  revert i pages. induction rs as [|r rs IH]; intros i pages H; simpl in H.
  { injection H as <-. split; constructor. }
  destruct (findTruthy _ files) as [imageFile|].
  - apply andThen_Returned in H as (blob & _ & H).
    apply andThen_Returned in H as (strokes & Hs & H).
    apply andThen_Returned in H as (au & Ha & H).
    apply andThen_Returned in H as (rest & Hrest & H).
    injection H as <-. apply IH in Hrest as [Hall Hsorted].
    apply (decoded_cons pf st name i blob strokes (newFormatAudioFile files i, au)
             rest zip files pageResource ps); assumption.
  - apply IH in H as [Hall Hsorted]. split; [|exact Hsorted].
    eapply Forall_impl; [exact Hall|]. intros p Hp.
    apply (decodedPage_weaken pf st name i (S i)); [lia|exact Hp].
Qed.

Lemma oldFormatPages_spec pf st zip files name noteList i pages :
  oldFormatPages pf zip files name noteList i = Returned pages ->
  Forall (decodedPage pf st name i) pages
  /\ StronglySorted N.lt (pageNum <$> pages).
Proof.
  revert i pages. induction noteList as [|pageId rs IH]; intros i pages H;
    simpl in H.
  { injection H as <-. split; constructor. }
  destruct (findTruthy _ files) as [imageFile|].
  - apply andThen_Returned in H as (blob & _ & H).
    apply andThen_Returned in H as (au & Ha & H).
    apply andThen_Returned in H as (rest & Hrest & H).
    injection H as <-. apply IH in Hrest as [Hall Hsorted].
    split.
    + constructor.
      * split; [simpl; lia|]. split; [reflexivity|]. split.
        -- intros a Hau. simpl in Hau. rewrite Hau in Ha.
           apply (audioOf_name zip name _ _ a Ha).
        -- intros [x Hx]. discriminate.
      * eapply Forall_impl; [exact Hall|]. intros p Hp.
        apply (decodedPage_weaken pf st name i (S i)); [lia|exact Hp].
    + rewrite fmap_cons. constructor; [exact Hsorted|].
      rewrite Forall_fmap. eapply Forall_impl; [exact Hall|].
      intros p (Hp & _). simpl. lia.
  - apply IH in H as [Hall Hsorted]. split; [|exact Hsorted].
    eapply Forall_impl; [exact Hall|]. intros p Hp.
    apply (decodedPage_weaken pf st name i (S i)); [lia|exact Hp].
Qed.

Lemma StronglySorted_lt_NoDup (l : list N) : StronglySorted N.lt l -> NoDup l.
Proof.
  induction 1 as [|x l Hs IH Hall]; constructor; [|exact IH].
  intros Hin. rewrite Forall_forall in Hall. specialize (Hall x Hin). lia.
Qed.

Lemma convertNoteToBook_pages ps pf st ds zip files fileName isNew book :
  convertNoteToBook ps pf st ds zip files fileName isNew = Returned book ->
  Forall (decodedPage pf st (book_name book) 0) (book_pages book)
  /\ StronglySorted N.lt (pageNums book).
Proof.
  unfold convertNoteToBook. intros H.
  apply andThen_Returned in H as ([name metadata] & _ & H).
  apply andThen_Returned in H as (pages & Hpages & H).
  apply andThen_Returned in H as (thumbnail & _ & H).
  injection H as <-. simpl. unfold pageNums. simpl.
  destruct isNew.
  - destruct (findTruthy _ files) as [f|].
    + apply andThen_Returned in Hpages as (text & _ & Hpages).
      apply andThen_Returned in Hpages as (pageResource & _ & Hpages).
      exact (newFormatPages_spec _ _ _ _ _ _ _ _ _ _ Hpages).
    + injection Hpages as <-. split; constructor.
  - destruct (findTruthy _ files) as [f|].
    + apply andThen_Returned in Hpages as (text & _ & Hpages).
      apply andThen_Returned in Hpages as (noteList & _ & Hpages).
      exact (oldFormatPages_spec _ st _ _ _ _ _ _ Hpages).
    + injection Hpages as <-. split; constructor.
Qed.

Lemma convertNoteToBook_plain ps pf st ds zip files fileName isNew book :
  convertNoteToBook ps pf st ds zip files fileName isNew = Returned book ->
  NoDup (pageNums book) /\ plainFingerprints book.
Proof.
  intros H. apply convertNoteToBook_pages in H as [Hall Hsorted].
  split; [apply StronglySorted_lt_NoDup; exact Hsorted|].
  intros page Hin. rewrite Forall_forall in Hall.
  destruct (Hall page Hin) as (_ & -> & _). apply hashImageData_not_special.
Qed.

(** X25. In a book that [convertNoteToBook] returns, the pages are numbered
    from their position in the archive's page list, so the page numbers are
    at least 1 and strictly increasing: no page number is repeated.  The
    fingerprint of every page is the one [hashImageData] computes for its
    image, hence never a sentinel; the audio of a page is named after the
    book and the page number; and a page has strokes only when the output
    format asks for SVG. *)
Theorem decoded_book_shape ps pf st ds zip files fileName isNew book :
  convertNoteToBook ps pf st ds zip files fileName isNew = Returned book ->
  StronglySorted N.lt (pageNums book)
  /\ NoDup (pageNums book)
  /\ plainFingerprints book
  /\ forall page, page ∈ book_pages book ->
       (1 <= pageNum page)%N
       /\ img_hash (image page) = hashImageData pf (img_blob (image page))
       /\ (forall a, audio page = Some a ->
             audio_name a
             = book_name book +:+ "_page_" +:+ pad3 (pageNum page)
                 +:+ "_audio.m4a")
       /\ (is_Some (stroke page) -> isSvg (outputFormat st) = true).
Proof.
  intros H.
  destruct (convertNoteToBook_plain _ _ _ _ _ _ _ _ _ H) as [Hnd Hplain].
  apply convertNoteToBook_pages in H as [Hall Hsorted].
  split; [exact Hsorted|]. split; [exact Hnd|]. split; [exact Hplain|].
  intros page Hin. rewrite Forall_forall in Hall.
  destruct (Hall page Hin) as (H1 & H2 & H3 & H4).
  split; [lia|]. repeat split; assumption.
Qed.

Lemma decoded_book_shape_witness :
  exists book,
    convertNoteToBook Ex.parser Ex.noDigest Ex.settings Ex.decodeSettings
      Ex.archive Ex.archiveFiles "Book.note" false = Returned book
    /\ pageNums book = [1%N; 3%N]
    /\ (audio_name <$> (book_pages book !! 0%nat ≫= audio))
       = Some "Book_page_001_audio.m4a"
    /\ NoDup (pageNums book)
    /\ plainFingerprints book.
Proof.
  destruct (convertNoteToBook Ex.parser Ex.noDigest Ex.settings
              Ex.decodeSettings Ex.archive Ex.archiveFiles "Book.note" false)
    as [book|msg] eqn:H; [|vm_compute in H; discriminate H].
  exists book. split; [reflexivity|].
  destruct (decoded_book_shape _ _ _ _ _ _ _ _ _ H) as (_ & Hnd & Hplain & _).
  vm_compute in H. injection H as <-.
  split; [reflexivity|]. split; [reflexivity|]. split; assumption.
Defined.

(** ** A book whose manifest was lost *)

Lemma sentinel_selected book m sel :
  allSentinel m -> plainFingerprints book ->
  selectedAs book (Some m) TUnchanged sel = []
  /\ selectedAs book (Some m) TModified sel
     = filter (fun k => k ∈ pageNums book /\ is_Some (importedPages m !! k)) sel
  /\ selectedAs book (Some m) TNew sel
     = filter (fun k => k ∈ pageNums book /\ importedPages m !! k = None) sel.
Proof.
  intros Hs Hp. unfold selectedAs. split; [|split].
  - apply filter_keep_none. intros k _.
    rewrite (sentinel_taskOf book m k Hs Hp).
    destruct (decide (k ∈ pageNums book)); [|discriminate].
    destruct (decide (is_Some (importedPages m !! k))); discriminate.
  - apply list_filter_iff. intros k.
    rewrite (sentinel_taskOf book m k Hs Hp).
    destruct (decide (k ∈ pageNums book)) as [Hin|Hout'].
    + destruct (decide (is_Some (importedPages m !! k))) as [He|He].
      * split; [intros _; split; assumption|reflexivity].
      * split; [discriminate|]. intros [_ He']. contradiction.
    + split; [discriminate|]. intros [Hin _]. contradiction.
  - apply list_filter_iff. intros k.
    rewrite (sentinel_taskOf book m k Hs Hp).
    destruct (decide (k ∈ pageNums book)) as [Hin|Hout'].
    + destruct (decide (is_Some (importedPages m !! k))) as [He|He].
      * split; [discriminate|]. intros [_ He']. rewrite He' in He.
        destruct He as [x Hx]. discriminate.
      * split; [|reflexivity]. intros _. split; [exact Hin|].
        destruct (importedPages m !! k) eqn:E; [|reflexivity].
        exfalso. apply He. eauto.
    + split; [discriminate|]. intros [Hin _]. contradiction.
Qed.

Lemma recover_Some_folder hs pf st bf name w m w' :
  recoverManifestFromExistingFiles hs pf st bf name w = (Returned (Some m), w') ->
  vault w !! bf = Some TFolder.
Proof.
  unfold recoverManifestFromExistingFiles, getAbstractFileByPath.
  destruct (vault w !! bf) as [[d|]|]; try discriminate. reflexivity.
Qed.

Lemma loadOrRecover_lost hs pf st book w m w1 :
  isTFile (vault w !! manifestPathOf (bookFolderOf st (book_name book))) = false ->
  recoverManifestFromExistingFiles hs pf st (bookFolderOf st (book_name book))
    (book_name book) w = (Returned (Some m), w1) ->
  loadOrRecover hs pf st book w = (Returned (Some m), w1).
Proof.
  intros Hlost Hrec. unfold loadOrRecover, bind, loadManifest.
  unfold getAbstractFileByPath at 1. rewrite Hlost. simpl.
  unfold getAbstractFileByPath.
  rewrite (recover_Some_folder _ _ _ _ _ _ _ _ Hrec). exact Hrec.
Qed.

Lemma importBook_recovered fuel hs pf st dateNow (dialog : Dialog) book w m w1 :
  loadOrRecover hs pf st book w = (Returned (Some m), w1) ->
  (0 < batchSize st)%N ->
  (forall a, dialog book (Some m) a <> []
             /\ (length (dialog book (Some m) a) <= fuel)%nat) ->
  exists a w3 r,
    importBook fuel hs pf st dateNow dialog book w
    = Some (match run_outcome r with
            | Returned summ =>
                Imported summ
                  (if createBackups st
                   then (createManifestBackup pf st dateNow
                           (manifestPathOf (bookFolderOf st (book_name book)))
                           w1).1
                   else None)
            | Threw msg => FailedToImport msg
            end, run_world r)
    /\ importSelectedPagesWithProgress fuel pf st book (dialog book (Some m) a)
         (Some m) w3 = Some r.
Proof.
  intros Hload Hb Hdialog. unfold importBook. rewrite Hload.
  cbv beta iota zeta.
  rewrite bool_decide_eq_true_2 by eauto. simpl andb.
  set (bk := if createBackups st
             then createManifestBackup pf st dateNow
                    (manifestPathOf (bookFolderOf st (book_name book))) w1
             else (None, w1)).
  assert (Hbk : bk.1 = if createBackups st
                       then (createManifestBackup pf st dateNow
                               (manifestPathOf (bookFolderOf st (book_name book)))
                               w1).1
                       else None).
  { unfold bk. destruct (createBackups st); reflexivity. }
  destruct bk as [backupPath w2]. simpl in Hbk. subst backupPath.
  set (an := if autoDetectChanges st
             then let '(a, w') := analyzeChanges pf st book (Some m) w2 in
                  (Some a, w')
             else (None, w2)).
  destruct an as [analysis w3].
  destruct (Hdialog analysis) as [Hne Hlen].
  rewrite bool_decide_eq_false_2 by exact Hne.
  destruct (run_returns fuel pf st book (dialog book (Some m) analysis)
              (Some m) w3 Hb Hlen) as [r Hrun].
  exists analysis, w3, r. rewrite Hrun. split; [|reflexivity].
  destruct (run_outcome r); reflexivity.
Qed.

(** X26. A lost manifest: when the manifest file of the book is gone but
    its folder still holds page documents, [processNoteFile] recovers a
    manifest and runs the import against it.  For a selection without
    repeated page numbers the summary it shows reports no page unchanged:
    every selected page of the book whose page document exists (below
    page 1000) is reported modified, every other selected page of the book
    new.  The flag [importInProgress] is cleared at the end. *)
Theorem lost_manifest_is_reimported
    fuel hs ps pf st ds dateNow (dialog : Dialog) file files zip book w m w1 :
  file_load file = Returned (files, zip) ->
  convertNoteToBook ps pf st ds zip files (file_name file)
    (existsb (includes "NoteFileInfo.json") files) = Returned book ->
  let bf := bookFolderOf st (book_name book) in
  isTFile (vault w !! manifestPathOf bf) = false ->
  recoverManifestFromExistingFiles hs pf st bf (book_name book) w
    = (Returned (Some m), w1) ->
  (0 < batchSize st)%N ->
  (forall a, dialog book (Some m) a <> []
             /\ NoDup (dialog book (Some m) a)
             /\ (length (dialog book (Some m) a) <= fuel)%nat) ->
  exists result w',
    processNoteFile fuel hs ps pf st ds true dateNow dialog file false w
    = Some (result, false, w')
    /\ result <> NothingSelected
    /\ forall summ backupPath, result = Imported summ backupPath ->
         exists a,
           let sel := dialog book (Some m) a in
           unchangedPages summ = []
           /\ modifiedPages summ
              = filter (fun k => k ∈ pageNums book
                                 /\ is_Some (importedPages m !! k)) sel
           /\ newPages summ
              = filter (fun k => k ∈ pageNums book
                                 /\ importedPages m !! k = None) sel
           /\ forall k, is_Some (importedPages m !! k) <->
                (k < 1000)%N /\ isTFile (vault w !! pagePathOf bf k) = true.
Proof.
  intros Hfile Hconv bf Hlost Hrec Hb Hdialog.
  pose proof (loadOrRecover_lost hs pf st book w m w1 Hlost Hrec) as Hload.
  destruct (importBook_recovered fuel hs pf st dateNow dialog book w m w1
              Hload Hb) as (a & w3 & r & Himp & Hrun).
  { intros a0. destruct (Hdialog a0) as (H1 & _ & H3). split; assumption. }
  unfold processNoteFile. simpl. rewrite Hfile, Hconv, Himp.
  eexists _, _. split; [reflexivity|].
  split; [destruct (run_outcome r); discriminate|].
  intros summ backupPath Hres.
  destruct (run_outcome r) as [s|msg] eqn:Hout; [|discriminate].
  injection Hres as <- _.
  exists a. cbv zeta.
  destruct (Hdialog a) as (_ & Hnd & _).
  destruct (run_classification fuel pf st book _ (Some m) w3 r s Hnd Hrun Hout)
    as (Hn & Hm & Hu).
  destruct (recovered_manifest_facts hs pf st bf (book_name book) w m w1 Hrec)
    as (Hsent & Hkeys & _).
  destruct (convertNoteToBook_plain _ _ _ _ _ _ _ _ _ Hconv) as [_ Hplain].
  destruct (sentinel_selected book m (dialog book (Some m) a) Hsent Hplain)
    as (S1 & S2 & S3).
  rewrite Hn, Hm, Hu, S1, S2, S3.
  split; [reflexivity|]. split; [reflexivity|]. split; [reflexivity|].
  exact Hkeys.
Qed.

Lemma lost_manifest_is_reimported_witness :
  exists result w',
    processNoteFile 2 Ex.host Ex.parser Ex.noDigest Ex.settings
      Ex.decodeSettings true 0 Ex.allPages Ex.noteFile false Ex.bookWorld
    = Some (result, false, w')
    /\ result <> NothingSelected.
Proof.
  assert (Hconv :
    convertNoteToBook Ex.parser Ex.noDigest Ex.settings Ex.decodeSettings
      Ex.archive Ex.archiveFiles (file_name Ex.noteFile)
      (existsb (includes "NoteFileInfo.json") Ex.archiveFiles)
    = Returned Ex.decodedBook) by (vm_compute; reflexivity).
  destruct (recoverManifestFromExistingFiles Ex.host Ex.noDigest Ex.settings
              (bookFolderOf Ex.settings (book_name Ex.decodedBook))
              (book_name Ex.decodedBook) Ex.bookWorld)
    as [[[m|]|msg] w1] eqn:Hrec; try (vm_compute in Hrec; discriminate Hrec).
  destruct (lost_manifest_is_reimported 2 Ex.host Ex.parser Ex.noDigest
              Ex.settings Ex.decodeSettings 0 Ex.allPages Ex.noteFile
              Ex.archiveFiles Ex.archive Ex.decodedBook Ex.bookWorld m w1)
    as (result & w' & Hres & Hne & _).
  - reflexivity.
  - exact Hconv.
  - vm_compute. reflexivity.
  - exact Hrec.
  - reflexivity.
  - intros a. split; [discriminate|]. split.
    + apply (bool_decide_unpack _). vm_compute. exact I.
    + simpl. lia.
  - exists result, w'. split; [exact Hres|exact Hne].
Defined.

(** ** Doing it twice *)

(** X27. [ensureFolder] is idempotent: once it has returned normally, a
    second call for the same path returns normally without making any call
    and leaves the world as the first call left it. *)
Theorem ensureFolder_idempotent pf path w :
  (ensureFolder pf path w).1 = Returned tt ->
  ensureFolder pf path (ensureFolder pf path w).2
  = (Returned tt, (ensureFolder pf path w).2).
Proof.
  intros Hret. unfold ensureFolder in *.
  destruct (ensureFolders_spec pf (split_slash path) EmptyString w)
    as (_ & Hall & _).
  destruct (ensureFolders_spec pf (split_slash path) EmptyString
              (ensureFolders pf (split_slash path) EmptyString w).2)
    as (_ & _ & Hnone & _).
  apply Hnone. apply Hall. exact Hret.
Qed.

Lemma ensureFolder_idempotent_witness :
  ensureFolder Ex.noDigest "Viwoods Notes/Book/Images"
    (ensureFolder Ex.noDigest "Viwoods Notes/Book/Images" Ex.emptyWorld).2
  = (Returned tt,
     (ensureFolder Ex.noDigest "Viwoods Notes/Book/Images" Ex.emptyWorld).2).
Proof.
  apply (ensureFolder_idempotent Ex.noDigest "Viwoods Notes/Book/Images"
           Ex.emptyWorld).
  vm_compute. reflexivity.
Defined.

(** ** Saving and loading the manifest *)

(** X28. Round trip of the manifest store: when the write of
    [saveManifest] and the read of [loadManifest] are accepted, and
    [JSON.parse] gives the manifest back from its serialisation,
    [loadManifest] returns the manifest that was saved, and the vault is not
    changed by the load. *)
Theorem manifest_store_round_trip hs pf path m w :
  let content := JSON_stringify pf m in
  let first :=
    if isTFile (vault w !! path) then CallModify path content
    else CallCreate path content in
  rejects pf (S (length (calls w))) first = None ->
  rejects pf (S (S (length (calls w)))) (CallRead path) = None ->
  JSON_parse hs content = Returned m ->
  let w1 := saveManifest pf path m w in
  (loadManifest hs pf path w1).1 = Returned (Some m)
  /\ vault (loadManifest hs pf path w1).2 = vault w1.
Proof.
  intros content first Hwrite Hread Hparse w1. subst w1.
  destruct (saveManifest_cases pf path m w) as [[_ Hsave]|(msg & Hrej & _)].
  2:{ fold content in Hrej. fold first in Hrej. congruence. }
  fold content in Hsave. fold first in Hsave. rewrite Hsave.
  unfold loadManifest, getAbstractFileByPath. simpl vault.
  rewrite lookup_insert_eq. simpl isTFile. cbv iota.
  unfold bind, vault_read, vault_call. simpl.
  rewrite Hread. simpl. rewrite lookup_insert_eq. simpl.
  unfold lift. rewrite Hparse. simpl. split; reflexivity.
Qed.

Lemma manifest_store_round_trip_witness :
  (loadManifest (Ex.parsingHost Ex.threePageManifest) Ex.noDigest
     "Viwoods Notes/Book/.import-manifest.json"
     (saveManifest Ex.noDigest "Viwoods Notes/Book/.import-manifest.json"
        Ex.threePageManifest Ex.emptyWorld)).1
  = Returned (Some Ex.threePageManifest).
Proof.
  apply (manifest_store_round_trip (Ex.parsingHost Ex.threePageManifest)
           Ex.noDigest "Viwoods Notes/Book/.import-manifest.json"
           Ex.threePageManifest Ex.emptyWorld); reflexivity.
Defined.

(** ** Distinct pages, distinct documents *)

Lemma string_app_inv_tail (s s' t : string) : s +:+ t = s' +:+ t -> s = s'.
Proof.
  revert s'. induction s as [|a s IH]; intros [|b s'] H.
  - reflexivity.
  - exfalso. apply (f_equal String.length) in H.
    rewrite !length_append in H. simpl in H. lia.
  - exfalso. apply (f_equal String.length) in H.
    rewrite !length_append in H. simpl in H. lia.
  - rewrite !string_app_cons in H. injection H as -> H.
    rewrite (IH s' H). reflexivity.
Qed.

Lemma pad3_large k : (1000 <= k)%N -> pad3 k = JS.String_ k.
Proof.
  intros Hk. pose proof (String_length_large k Hk) as Hlen.
  unfold pad3, JS.padStart.
  replace (3 - String.length (JS.String_ k))%nat with 0%nat by lia.
  reflexivity.
Qed.

Lemma pageFileNameOf_inj p q : pageFileNameOf p = pageFileNameOf q -> p = q.
Proof.
  intros H.
  destruct (N.ltb_spec p 1000) as [Hp|Hp]; destruct (N.ltb_spec q 1000) as [Hq|Hq].
  - pose proof (pageNumberOf_small p Hp) as H1.
    rewrite H, (pageNumberOf_small q Hq) in H1. congruence.
  - pose proof (pageNumberOf_small p Hp) as H1.
    rewrite H, (pageNumberOf_large q Hq) in H1. discriminate.
  - pose proof (pageNumberOf_small q Hq) as H1.
    rewrite <- H, (pageNumberOf_large p Hp) in H1. discriminate.
  - unfold pageFileNameOf in H. rewrite (pad3_large p Hp), (pad3_large q Hq) in H.
    apply String.app_inj in H. apply string_app_inv_tail in H.
    apply (inj pretty). exact H.
Qed.

(** X29. Distinct pages have distinct page documents: the path of the page
    document determines the page number, and it is never the path of the
    index document or of the manifest of the book. *)
Theorem page_documents_are_distinct bookFolder p q :
  (pagePathOf bookFolder p = pagePathOf bookFolder q -> p = q)
  /\ pagePathOf bookFolder p <> bookFolder +:+ "/Index.md"
  /\ pagePathOf bookFolder p <> manifestPathOf bookFolder.
Proof.
  unfold pagePathOf, manifestPathOf, pageFileNameOf.
  split; [|split].
  - intros H. apply String.app_inj in H. apply String.app_inj in H.
    apply pageFileNameOf_inj. exact H.
  - intros H. apply String.app_inj in H. discriminate H.
  - intros H. apply String.app_inj in H. discriminate H.
Qed.

(** ** What a run leaves of a page document *)

Lemma preserves_ret {A} x (a : A) : preserves x (ret a).
Proof. intros w node H. exact H. Qed.

Lemma preserves_lift {A} x (o : Outcome A) : preserves x (lift o).
Proof. intros w node H. exact H. Qed.

Lemma preserves_bind {A B} x (m : IO A) (k : A -> IO B) :
  preserves x m -> (forall a, preserves x (k a)) -> preserves x (bind m k).
Proof.
  intros Hm Hk w node H. unfold bind. specialize (Hm w node H).
  destruct (m w) as [[a|msg] w1]; simpl in Hm; [|exact Hm].
  apply Hk. exact Hm.
Qed.

Lemma preserves_ext {A} x (f g : World -> A * World) :
  (forall w, f w = g w) -> preserves x g -> preserves x f.
Proof. intros E Hg w node H. rewrite E. apply Hg. exact H. Qed.

Lemma preserves_if {A} x (c : World -> bool) (f g : World -> A * World) :
  preserves x f -> preserves x g ->
  preserves x (fun w => (if c w then f else g) w).
Proof. intros Hf Hg w node H. destruct (c w); [apply Hf|apply Hg]; exact H. Qed.

Lemma preserves_if_applied {A} x (c : World -> bool)
    (f g : World -> A * World) :
  preserves x f -> preserves x g ->
  preserves x (fun w => if c w then f w else g w).
Proof. intros Hf Hg w node H. destruct (c w); [apply Hf|apply Hg]; exact H. Qed.

Lemma preserves_vault_call pf c effect x :
  (forall v node, v !! x = Some node -> effect v !! x = Some node) ->
  preserves x (vault_call pf c effect).
Proof.
  intros He w node H. unfold vault_call.
  destruct (rejects pf _ c); simpl; [exact H|apply He; exact H].
Qed.

Lemma preserves_insert pf c y (n : VNode) x :
  y <> x -> preserves x (vault_call pf c (<[y := n]>)).
Proof.
  intros Hne. apply preserves_vault_call. intros v node H.
  rewrite lookup_insert_ne by exact Hne. exact H.
Qed.

Lemma preserves_delete pf c y x :
  y <> x -> preserves x (vault_call pf c (delete y)).
Proof.
  intros Hne. apply preserves_vault_call. intros v node H.
  rewrite lookup_delete_ne by exact Hne. exact H.
Qed.

Lemma preserves_ensureFolder pf path x : preserves x (ensureFolder pf path).
Proof.
  intros w node H.
  destruct (ensureFolders_spec pf (split_slash path) EmptyString w) as (Hk & _).
  apply Hk. exact H.
Qed.

Lemma preserves_processImage pf st blob x :
  preserves x (processImageWithBackground pf st blob).
Proof.
  unfold processImageWithBackground.
  destruct (_ || _); [apply preserves_lift|apply preserves_lift].
Qed.

Lemma preserves_importAudio pf st bf page isNew isModified x :
  (forall a, audio page = Some a ->
     normalizePath pf
       ((bf +:+ "/" +:+ audioFolder st) +:+ "/" +:+ audio_name a) <> x) ->
  preserves x (importAudio pf st bf page isNew isModified).
Proof.
  intros Hne. unfold importAudio.
  destruct (audio page) as [a|]; [|apply preserves_ret].
  specialize (Hne a eq_refl).
  apply preserves_bind; [|intros; apply preserves_ret].
  apply preserves_bind; [apply preserves_ensureFolder|]. intros _.
  apply preserves_if.
  - destruct (isNew || isModified); [|apply preserves_ret].
    apply preserves_bind; [apply preserves_delete; exact Hne|]. intros _.
    apply preserves_bind; [apply preserves_lift|]. intros data.
    apply preserves_insert. exact Hne.
  - apply preserves_bind; [apply preserves_lift|]. intros data.
    apply preserves_insert. exact Hne.
Qed.

Lemma preserves_writeImage pf st bf book page isNew isModified bg x :
  imagePathOf pf st bf book (pageNum page) <> x ->
  preserves x (writeImage pf st bf book page isNew isModified bg).
Proof.
  intros Hne. unfold writeImage.
  apply preserves_bind; [|intros; apply preserves_ret].
  apply preserves_if.
  - destruct (_ || _); [|apply preserves_ret].
    apply preserves_bind; [apply preserves_processImage|]. intros data.
    apply preserves_bind; [apply preserves_delete; exact Hne|]. intros _.
    apply preserves_insert. exact Hne.
  - apply preserves_bind; [apply preserves_processImage|]. intros data.
    apply preserves_insert. exact Hne.
Qed.

Lemma preserves_importImage pf st bf book page isNew isModified bg x :
  imagePathOf pf st bf book (pageNum page) <> x ->
  preserves x (importImage pf st bf book page isNew isModified bg).
Proof.
  intros Hne w node H. unfold importImage.
  destruct (isPng (outputFormat st)); [|exact H].
  pose proof (preserves_writeImage pf st bf book page isNew isModified bg x
                Hne w node H) as Hw.
  destruct (writeImage _ _ _ _ _ _ _ _ w) as [[r|msg] w']; exact Hw.
Qed.

Lemma preserves_importSvg pf st bf book page isNew isModified x :
  normalizePath pf
    (bf +:+ "/" +:+ imagesFolder st +:+ "/" +:+ svgNameOf book (pageNum page))
  <> x ->
  preserves x (importSvg pf st bf book page isNew isModified).
Proof.
  intros Hne. unfold importSvg.
  destruct (stroke page) as [strokes|]; [|apply preserves_ret].
  destruct (isSvg (outputFormat st)); [|apply preserves_ret].
  apply preserves_bind; [|intros; apply preserves_ret].
  apply preserves_if.
  - destruct (_ || _); [|apply preserves_ret].
    apply preserves_insert. exact Hne.
  - apply preserves_insert. exact Hne.
Qed.

Lemma preserves_savePageFile pf path content x :
  path <> x -> preserves x (savePageFile pf path content).
Proof.
  intros Hne. unfold savePageFile.
  apply preserves_if_applied; apply preserves_insert; exact Hne.
Qed.

Lemma preserves_pageBody pf st book total existing page x :
  x ∉ sidePaths pf st book page ->
  pagePathOf (bookFolderOf st (book_name book)) (pageNum page) <> x ->
  preserves x (pageBody pf st book total existing page).
Proof.
  intros Hside Hdoc w node H. unfold pageBody.
  set (bf := bookFolderOf st (book_name book)) in *.
  destruct (frontmatterDates pf st book) as [[]|msgd]; [|exact H].
  assert (Himg : imagePathOf pf st bf book (pageNum page) <> x).
  { intros E. apply Hside. unfold sidePaths. fold bf. rewrite E.
    apply elem_of_cons. left. reflexivity. }
  assert (Hsvg : normalizePath pf
                   (bf +:+ "/" +:+ imagesFolder st +:+ "/" +:+
                    svgNameOf book (pageNum page)) <> x).
  { intros E. apply Hside. unfold sidePaths. fold bf. rewrite E.
    apply elem_of_cons. right. apply elem_of_cons. left. reflexivity. }
  assert (Haud : forall a, audio page = Some a ->
            normalizePath pf
              ((bf +:+ "/" +:+ audioFolder st) +:+ "/" +:+ audio_name a) <> x).
  { intros a Ha E. apply Hside. unfold sidePaths. fold bf. rewrite Ha, E.
    apply elem_of_cons. right. apply elem_of_cons. right.
    apply list_elem_of_singleton. reflexivity. }
  pose proof (preserves_importAudio pf st bf page (isNewOf existing)
                (isModifiedOf existing page) x Haud w node H) as H1.
  destruct (importAudio _ _ _ _ _ _ w) as [[audioContent|msg] w1];
    [|exact H1].
  simpl in H1.
  pose proof (preserves_importImage pf st bf book page (isNewOf existing)
                (isModifiedOf existing page) (backgroundChangedOf st existing)
                x Himg w1 node H1) as H2.
  destruct (importImage _ _ _ _ _ _ _ _ w1) as [[imageContent queued] w2].
  simpl in H2.
  match goal with
  | |- context [bind ?m ?k w2] =>
      pose proof (preserves_bind x m k
                    (preserves_importSvg pf st bf book page _ _ x Hsvg)
                    (fun svg => preserves_savePageFile pf _ _ x Hdoc)
                    w2 node H2) as H3;
      destruct (bind m k w2) as [o w3]
  end.
  exact H3.
Qed.

Lemma importPage_keeps pf st book hm n x sw node :
  (forall page, findPage book n = Some page ->
     (x ∉ sidePaths pf st book page)
     /\ pagePathOf (bookFolderOf st (book_name book)) (pageNum page) <> x) ->
  vault sw.2 !! x = Some node ->
  vault (importPage pf st book hm n sw).2 !! x = Some node.
Proof.
  intros Hcond H. destruct sw as [rs w]. simpl in H.
  destruct (findPage book n) as [page|] eqn:Hf.
  - rewrite (importPage_found pf st book hm n rs w page Hf). simpl.
    destruct (Hcond page eq_refl) as [Hside Hdoc].
    apply (preserves_pageBody pf st book _ _ page x Hside Hdoc). exact H.
  - rewrite (importPage_absent pf st book hm n (rs, w) Hf). exact H.
Qed.

Lemma importPages_keeps pf st book hm l x sw node :
  (forall n page, n ∈ l -> findPage book n = Some page ->
     (x ∉ sidePaths pf st book page)
     /\ pagePathOf (bookFolderOf st (book_name book)) (pageNum page) <> x) ->
  vault sw.2 !! x = Some node ->
  vault (importPages pf st book hm l sw).2 !! x = Some node.
Proof.
  revert sw. induction l as [|n l IH]; intros sw Hcond H; [exact H|].
  rewrite importPages_cons. apply IH.
  - intros k page Hk. apply Hcond. apply elem_of_cons. right. exact Hk.
  - apply importPage_keeps; [|exact H].
    intros page. apply Hcond. apply elem_of_cons. left. reflexivity.
Qed.

Lemma saveManifest_keeps pf path m x w node :
  path <> x -> vault w !! x = Some node ->
  vault (saveManifest pf path m w) !! x = Some node.
Proof.
  intros Hne H.
  destruct (saveManifest_cases pf path m w) as [[_ ->]|(msg & _ & ->)].
  - simpl. rewrite lookup_insert_ne by exact Hne. exact H.
  - apply (preserves_bind x (ensureFolder pf (folderOfPath path))
             (fun _ => adapter_write pf path (JSON_stringify pf m))).
    + apply preserves_ensureFolder.
    + intros _. apply preserves_insert. exact Hne.
    + exact H.
Qed.

Lemma createBookIndex_keeps pf bf name x :
  bf +:+ "/Index.md" <> x -> preserves x (createBookIndex pf bf name).
Proof.
  intros Hne. unfold createBookIndex.
  apply preserves_if_applied; apply preserves_insert; exact Hne.
Qed.

Lemma epilogue_keeps pf st book sel rs w x node :
  processWithGemini st = false ->
  bookFolderOf st (book_name book) +:+ "/Index.md" <> x ->
  manifestPathOf (bookFolderOf st (book_name book)) <> x ->
  vault w !! x = Some node ->
  vault (run_world (epilogue pf st book sel (rs, w))) !! x = Some node
  /\ run_manifest (epilogue pf st book sel (rs, w))
     = addHistoryEntry pf st (rs_manifest rs) ActImport sel
         (historyMessage (rs_summary rs)).
Proof.
  intros Hg Hidx Hman H. unfold epilogue. rewrite Hg. simpl.
  assert (H1 : vault (if createIndex st
                      then createBookIndex pf (bookFolderOf st (book_name book))
                             (book_name book) w
                      else ret tt w).2 !! x = Some node).
  { destruct (createIndex st); [|exact H].
    apply createBookIndex_keeps; assumption. }
  destruct (if createIndex st then _ else _) as [[[]|msg] w1]; simpl in *.
  - split; [|reflexivity]. apply saveManifest_keeps; assumption.
  - split; [exact H1|reflexivity].
Qed.

(** ** Importing again *)

Lemma pagePathOf_inj bf p q : pagePathOf bf p = pagePathOf bf q -> p = q.
Proof.
  unfold pagePathOf. intros H. apply String.app_inj in H.
  apply String.app_inj in H. apply pageFileNameOf_inj. exact H.
Qed.

Lemma pagePathOf_not_index bf p : bf +:+ "/Index.md" <> pagePathOf bf p.
Proof.
  unfold pagePathOf, pageFileNameOf. intros H.
  apply String.app_inj in H. discriminate H.
Qed.

Lemma pagePathOf_not_manifest bf p : manifestPathOf bf <> pagePathOf bf p.
Proof.
  unfold pagePathOf, manifestPathOf, pageFileNameOf. intros H.
  apply String.app_inj in H. discriminate H.
Qed.

Lemma findPage_elem book n page :
  findPage book n = Some page -> page ∈ book_pages book.
Proof.
  unfold findPage. intros H. apply find_some in H as [Hin _].
  apply list_elem_of_In. exact Hin.
Qed.

Lemma run_leaves_document fuel pf st book sel existing w l1 p l2 page :
  (0 < batchSize st)%N ->
  (length sel <= fuel)%nat ->
  (prologue pf st book w).1 = Returned tt ->
  NoDup sel ->
  processWithGemini st = false ->
  documentsApart pf st book sel ->
  sel = l1 ++ p :: l2 ->
  findPage book p = Some page ->
  let hm := bool_decide (is_Some existing) in
  let start := (startState pf book sel existing, (prologue pf st book w).2) in
  bodyOutcomeAfter pf st book hm start l1 page = Returned tt ->
  exists r total isModified rest,
    importSelectedPagesWithProgress fuel pf st book sel existing w = Some r
    /\ vault (run_world r) !! pagePathOf (bookFolderOf st (book_name book)) p
       = Some (TFile (Text (frontmatterOf pf st book total page isModified
                            +:+ rest)))
    /\ is_Some (importedPages (run_manifest r) !! p).
Proof.
  intros Hb Hf Hpro Hnd Hg Hapart Hsel Hfind hm start Hbody.
  pose proof (findPage_pageNum book p page Hfind) as Hpn.
  set (bf := bookFolderOf st (book_name book)).
  set (x := pagePathOf bf p).
  exists (epilogue pf st book sel (importPages pf st book hm sel start)).
  set (sw1 := importPages pf st book hm l1 start).
  unfold bodyOutcomeAfter in Hbody. fold sw1 in Hbody. rewrite Hpn in Hbody.
  destruct (pageBody_document pf st book (totalPages (rs_manifest sw1.1))
              (existingEntry hm sw1.1 p) page sw1.2 Hbody) as [rest Hdoc].
  rewrite Hpn in Hdoc. fold bf in Hdoc. fold x in Hdoc.
  exists (totalPages (rs_manifest sw1.1)),
         (isModifiedOf (existingEntry hm sw1.1 p) page), rest.
  split; [apply run_total; assumption|].
  assert (Hp2 : vault (importPage pf st book hm p sw1).2 !! x
                = Some (TFile (Text (frontmatterOf pf st book
                                       (totalPages (rs_manifest sw1.1)) page
                                       (isModifiedOf (existingEntry hm sw1.1 p) page)
                                     +:+ rest)))).
  { replace sw1 with (sw1.1, sw1.2) at 1 by (destruct sw1; reflexivity).
    rewrite (importPage_found pf st book hm p sw1.1 sw1.2 page Hfind). simpl.
    exact Hdoc. }
  destruct (NoDup_split_notin l1 l2 p) as [_ Hnot2]; [rewrite <- Hsel; exact Hnd|].
  assert (Hfinal : vault (importPages pf st book hm sel start).2 !! x
                   = Some (TFile (Text (frontmatterOf pf st book
                                          (totalPages (rs_manifest sw1.1)) page
                                          (isModifiedOf (existingEntry hm sw1.1 p) page)
                                        +:+ rest)))).
  { rewrite Hsel, importPages_app, importPages_cons. fold sw1.
    apply importPages_keeps; [|exact Hp2].
    intros n pg Hn Hfn. split.
    - apply Hapart; [|eapply findPage_elem; exact Hfn].
      rewrite Hsel. apply elem_of_app. right. apply elem_of_cons. left.
      reflexivity.
    - rewrite (findPage_pageNum book n pg Hfn). intros E.
      apply pagePathOf_inj in E. subst n. contradiction. }
  pose proof (importPages_entry pf st book hm sel l1 p l2 page start
                Hnd Hsel Hfind) as Hentry.
  cbv zeta in Hentry. unfold bodyOutcomeAfter in Hentry. fold sw1 in Hentry.
  rewrite Hpn, Hbody in Hentry.
  destruct (importPages pf st book hm sel start) as [rs w2] eqn:Hrun.
  simpl in Hfinal, Hentry.
  destruct (epilogue_keeps pf st book sel rs w2 x _ Hg
              (pagePathOf_not_index bf p) (pagePathOf_not_manifest bf p) Hfinal)
    as [Hkeep Hm].
  split; [exact Hkeep|].
  rewrite Hm, (proj1 (addHistoryEntry_frame pf st (rs_manifest rs) ActImport sel
                        (historyMessage (rs_summary rs)))), Hentry.
  eauto.
Qed.

(** X30. Importing again changes nothing to report: after a run without
    Gemini post-processing over a selection without repeated page numbers
    in which every page task ran to its end, the analysis of the same book
    against the manifest and the vault that the run left reports every
    selected page of the book unchanged.  This holds when metadata is
    written, the fingerprints are non-empty runs of hexadecimal digits, the
    book name is free of the key and of a line of dashes, no page document
    is also the image, SVG or audio file of a page, and the page documents
    can be read. *)
Theorem second_analysis_finds_nothing fuel pf st book sel existing w :
  (0 < batchSize st)%N ->
  (length sel <= fuel)%nat ->
  (prologue pf st book w).1 = Returned tt ->
  NoDup sel ->
  NoDup (pageNums book) ->
  processWithGemini st = false ->
  includeMetadata st = true ->
  includes (nl +:+ "---") (book_name book) = false ->
  includes "original_image_hash:" (book_name book) = false ->
  (forall page, page ∈ book_pages book ->
     all_hex (img_hash (image page)) = true
     /\ JS.truthy (img_hash (image page)) = true) ->
  documentsApart pf st book sel ->
  let hm := bool_decide (is_Some existing) in
  let start := (startState pf book sel existing, (prologue pf st book w).2) in
  (forall l1 p l2 page,
     sel = l1 ++ p :: l2 -> findPage book p = Some page ->
     bodyOutcomeAfter pf st book hm start l1 page = Returned tt) ->
  (forall t p,
     rejects pf t (CallRead (pagePathOf (bookFolderOf st (book_name book)) p))
     = None) ->
  exists r,
    importSelectedPagesWithProgress fuel pf st book sel existing w = Some r
    /\ forall p, p ∈ sel -> p ∈ pageNums book ->
         p ∈ unchangedPages
               (summary (analyzeChanges pf st book (Some (run_manifest r))
                           (run_world r)).1).
Proof.
  intros Hb Hf Hpro Hnd Hndb Hg Hmeta Hdash Hkey Hhex Hapart hm start Hbodies
    Hread.
  destruct (run_returns fuel pf st book sel existing w Hb Hf) as [r Hrun].
  exists r. split; [exact Hrun|]. intros p Hp Hpb.
  apply list_elem_of_split in Hp as (l1 & l2 & Hsel).
  destruct (findPage book p) as [page|] eqn:Hfind.
  2:{ apply findPage_None in Hfind. contradiction. }
  pose proof (findPage_pageNum book p page Hfind) as Hpn.
  pose proof (findPage_elem book p page Hfind) as Hin.
  destruct (run_leaves_document fuel pf st book sel existing w l1 p l2 page
              Hb Hf Hpro Hnd Hg Hapart Hsel Hfind
              (Hbodies l1 p l2 page Hsel Hfind))
    as (r' & total & isMod & rest & Hrun' & Hdoc & [info Hinfo]).
  rewrite Hrun in Hrun'. injection Hrun' as <-.
  destruct (Hhex page Hin) as [Hh Ht].
  assert (Hemb :
    embeddedHash (frontmatterOf pf st book total page isMod +:+ rest)
    = Some (img_hash (image page))).
  { apply embedded_hash_round_trip_core; assumption. }
  destruct (existing_from_document pf st book (run_manifest r) (run_world r)
              p info _ _ Hinfo Hdoc (fun t => Hread t p) Hemb)
    as (e & Hlook & _ & He & Hsp).
  rewrite <- Hpn in Hlook.
  destruct (analysis_classifies pf st book (run_manifest r) (run_world r) page e
              Hndb Hin Hlook) as (Hu & _).
  rewrite <- Hpn. apply Hu. rewrite Hsp, He, String.eqb_refl. reflexivity.
Qed.

Lemma second_analysis_finds_nothing_witness :
  exists r,
    importSelectedPagesWithProgress 2 Ex.withDigest Ex.settings Ex.digestBook
      [1%N; 2%N] None Ex.emptyWorld = Some r
    /\ (1%N ∈ unchangedPages
                (summary (analyzeChanges Ex.withDigest Ex.settings Ex.digestBook
                            (Some (run_manifest r)) (run_world r)).1))
    /\ (2%N ∈ unchangedPages
                (summary (analyzeChanges Ex.withDigest Ex.settings Ex.digestBook
                            (Some (run_manifest r)) (run_world r)).1)).
Proof.
  destruct (second_analysis_finds_nothing 2 Ex.withDigest Ex.settings
              Ex.digestBook [1%N; 2%N] None Ex.emptyWorld) as (r & Hrun & Hall).
  - reflexivity.
  - simpl; lia.
  - vm_compute. reflexivity.
  - apply (bool_decide_unpack _). vm_compute. exact I.
  - apply (bool_decide_unpack _). vm_compute. exact I.
  - reflexivity.
  - reflexivity.
  - vm_compute. reflexivity.
  - vm_compute. reflexivity.
  - intros page Hin.
    apply elem_of_cons in Hin as [->|Hin]; [split; vm_compute; reflexivity|].
    apply list_elem_of_singleton in Hin. subst page.
    split; vm_compute; reflexivity.
  - intros p page Hp Hpage.
    apply (bool_decide_unpack _).
    apply elem_of_cons in Hp as [->|Hp];
      [|apply list_elem_of_singleton in Hp; subst p];
      (apply elem_of_cons in Hpage as [->|Hpage];
       [|apply list_elem_of_singleton in Hpage; subst page]);
      vm_compute; reflexivity.
  - intros l1 p l2 page Hsel Hfind.
    destruct l1 as [|a [|b l1]]; simpl in Hsel.
    + injection Hsel as <- <-. vm_compute in Hfind. injection Hfind as <-.
      vm_compute. reflexivity.
    + injection Hsel as <- <- <-.
      vm_compute in Hfind. injection Hfind as <-. vm_compute. reflexivity.
    + injection Hsel as _ _ Hsel.
      destruct l1; discriminate Hsel.
  - intros t p. reflexivity.
  - exists r. split; [exact Hrun|]. split; apply Hall.
    + apply elem_of_cons. left. reflexivity.
    + apply (bool_decide_unpack _). vm_compute. exact I.
    + apply elem_of_cons. right. apply list_elem_of_singleton. reflexivity.
    + apply (bool_decide_unpack _). vm_compute. exact I.
Defined.

(** ** What recovery reads and what it leaves *)

Lemma vault_read_text pf path w content w' :
  vault_read pf path w = (Returned content, w') ->
  exists d,
    vault w !! path = Some (TFile d) /\ content = textOf d
    /\ w' = mkWorld (vault w) (EvCall (CallRead path) None :: calls w).
Proof.
  unfold vault_read, vault_call.
  destruct (rejects pf _ _); [discriminate|].
  destruct (vault w !! path) as [[d|]|]; try discriminate.
  intros [= <- <-]. exists d. repeat split.
Qed.

Lemma recoveredEntry_vault hs st w1 w2 bf name child content n :
  vault w1 = vault w2 ->
  recoveredEntry hs st w1 bf name child content n
  = recoveredEntry hs st w2 bf name child content n.
Proof.
  intros Hv. unfold recoveredEntry, getAbstractFileByPath. rewrite Hv.
  reflexivity.
Qed.

(** The loop of the recovery only reads: one accepted read for every page
    document it meets, and the entry of a page is made from the text read
    and from the vault as it was. *)
Lemma recoverPages_reads hs pf st bf name cs acc w acc' w' :
  recoverPages hs pf st bf name cs acc w = (Returned acc', w') ->
  vault w' = vault w
  /\ (exists reads,
        calls w' = reads ++ calls w
        /\ Forall (fun e => exists k child,
                     child ∈ cs /\ pageChild k child
                     /\ e = EvCall (CallRead (child_path child)) None) reads)
  /\ (forall k info, acc'.1 !! k = Some info ->
        acc.1 !! k = Some info
        \/ exists child d,
             child ∈ cs /\ pageChild k child
             /\ vault w !! child_path child = Some (TFile d)
             /\ info = recoveredEntry hs st w bf name child (textOf d) k).
Proof.
  revert acc w. induction cs as [|child r IH]; intros acc w H.
  { cbn in H. injection H as <- <-. split; [reflexivity|].
    split; [exists []; split; [reflexivity|constructor]|].
    intros k info Hk. left. exact Hk. }
  cbn [recoverPages] in H.
  assert (Hskip :
    recoverPages hs pf st bf name r acc w = (Returned acc', w') ->
    vault w' = vault w
    /\ (exists reads,
          calls w' = reads ++ calls w
          /\ Forall (fun e => exists k child0,
                       child0 ∈ child :: r /\ pageChild k child0
                       /\ e = EvCall (CallRead (child_path child0)) None) reads)
    /\ (forall k info, acc'.1 !! k = Some info ->
          acc.1 !! k = Some info
          \/ exists child0 d,
               child0 ∈ child :: r /\ pageChild k child0
               /\ vault w !! child_path child0 = Some (TFile d)
               /\ info = recoveredEntry hs st w bf name child0 (textOf d) k)).
  { intros H'. apply IH in H' as (Hv & (reads & Hl & Hr) & Ha).
    split; [exact Hv|]. split.
    - exists reads. split; [exact Hl|].
      eapply Forall_impl; [exact Hr|]. cbn beta.
      intros e (k & c & Hin & Hp & He). exists k, c.
      split; [apply elem_of_cons; right; exact Hin|]. split; assumption.
    - intros k info Hk. destruct (Ha k info Hk) as [?|(c & d & Hin & Hp & Hd & Hi)];
        [left; assumption|].
      right. exists c, d. split; [apply elem_of_cons; right; exact Hin|].
      split; [exact Hp|]. split; [exact Hd|exact Hi]. }
  destruct (child_node child) as [d0|] eqn:Hnode; [|exact (Hskip H)].
  destruct (pageNumberOf (child_name child)) as [n|] eqn:Hnum; [|exact (Hskip H)].
  clear Hskip. unfold bind in H.
  destruct (vault_read pf (child_path child) w) as [[content|msg] w1] eqn:Hread;
    [|discriminate].
  apply vault_read_text in Hread as (d & Hd & -> & ->).
  apply IH in H as (Hv & (reads & Hl & Hr) & Ha).
  cbn [vault calls fst snd] in *.
  assert (Hpc : pageChild n child).
  { split; [rewrite Hnode; reflexivity|exact Hnum]. }
  assert (Hhere : child ∈ child :: r) by (apply elem_of_cons; left; reflexivity).
  split; [exact Hv|]. split.
  - exists (reads ++ [EvCall (CallRead (child_path child)) None]).
    rewrite <- app_assoc. split; [exact Hl|].
    apply Forall_app. split.
    + eapply Forall_impl; [exact Hr|]. cbn beta.
      intros e (k & c & Hin & Hp & He). exists k, c.
      split; [apply elem_of_cons; right; exact Hin|]. split; assumption.
    + constructor; [|constructor]. exists n, child.
      split; [exact Hhere|]. split; [exact Hpc|reflexivity].
  - intros k info Hk. destruct (Ha k info Hk) as [Hold|(c & d' & Hin & Hp & Hd' & Hi)].
    + destruct (decide (k = n)) as [->|Hne].
      * rewrite lookup_insert_eq in Hold. injection Hold as <-.
        right. exists child, d. split; [exact Hhere|]. split; [exact Hpc|].
        split; [exact Hd|]. apply recoveredEntry_vault. reflexivity.
      * rewrite lookup_insert_ne in Hold by congruence. left. exact Hold.
    + right. exists c, d'. split; [apply elem_of_cons; right; exact Hin|].
      split; [exact Hp|]. split; [exact Hd'|].
      rewrite Hi. apply recoveredEntry_vault. reflexivity.
Qed.

Lemma pageChild_path w bf k child :
  child ∈ children w bf -> pageChild k child ->
  child_path child = pagePathOf bf k /\ child_name child = pageFileNameOf k.
Proof.
  intros Hin [_ Hnum]. apply elem_of_children in Hin as [_ Hname].
  apply childName_Some in Hname as [Hpath _].
  apply pageNumberOf_Some in Hnum as [Hn _].
  rewrite Hpath, Hn. split; reflexivity.
Qed.

Lemma recovered_manifest_world hs pf st bf name w m w' :
  recoverManifestFromExistingFiles hs pf st bf name w = (Returned (Some m), w') ->
  (forall k info, importedPages m !! k = Some info ->
     exists d,
       vault w !! pagePathOf bf k = Some (TFile d)
       /\ info = recoveredEntry hs st w bf name
                   (mkChild (pageFileNameOf k) (pagePathOf bf k) (TFile d))
                   (textOf d) k)
  /\ (exists w1 reads,
        vault w1 = vault w
        /\ calls w1 = reads ++ calls w
        /\ Forall (fun e => exists k,
                     is_Some (importedPages m !! k)
                     /\ e = EvCall (CallRead (pagePathOf bf k)) None) reads
        /\ w' = saveManifest pf (manifestPathOf bf) m w1)
  /\ (forall x node, x <> manifestPathOf bf ->
        vault w !! x = Some node -> vault w' !! x = Some node).
Proof.
  intros H. apply recover_Some in H as (found & w1 & Hrec & Hne & Hm & ->).
  pose proof (recoverPages_spec _ _ _ _ _ _ _ _ _ _ Hrec)
    as (_ & _ & _ & Hb & _).
  apply recoverPages_reads in Hrec as (Hv & (reads & Hl & Hr) & Ha).
  cbn [fst snd] in *.
  pose proof (addHistoryEntry_frame pf st
                (mkImportManifest name found.2 found.1 (now pf) name "1.1"
                   (Some []))
                ActImport (entries found.1).*1
                "Manifest recovered from existing files") as [Hip _].
  rewrite <- Hm in Hip. cbn in Hip.
  split; [|split].
  - intros k info Hk. rewrite Hip in Hk.
    destruct (Ha k info Hk) as [Hold|(c & d & Hin & Hp & Hd & ->)].
    { rewrite lookup_empty in Hold. discriminate. }
    destruct (pageChild_path w bf k c Hin Hp) as [Hpath Hname].
    exists d. rewrite <- Hpath. split; [exact Hd|].
    apply elem_of_children in Hin as [Hnode _]. rewrite Hd in Hnode.
    injection Hnode as Hnode. rewrite <- Hname, Hnode.
    destruct c; reflexivity.
  - exists w1, reads. split; [exact Hv|]. split; [exact Hl|].
    split; [|reflexivity].
    eapply Forall_impl; [exact Hr|]. cbn beta.
    intros e (k & c & Hin & Hp & ->). exists k.
    destruct (pageChild_path w bf k c Hin Hp) as [-> _].
    split; [|reflexivity]. rewrite Hip. apply Hb. right. eauto.
  - intros x node Hx Hnode. apply saveManifest_keeps; [congruence|].
    rewrite Hv. exact Hnode.
Qed.

(** X21. A manifest recovered from the files of a book folder has an
    entry exactly for the page numbers below 1000 whose page document
    exists in the folder.  The entry of a page holds, in place of a
    fingerprint, a [recovered-] sentinel (made of the size and the
    modification time of the image file when there is one, of the page
    number otherwise), the name of the page document, no background colour,
    and the two flags read off the text of the page document; so the next
    import reclassifies the page and writes its image again.  The page
    count is the largest recovered page number.  The vault is only read,
    with one accepted read for each page document, until the manifest is
    handed to [saveManifest], once; whatever the vault held outside of the
    manifest path it still holds. *)
Theorem recovered_manifest hs pf st bf name w m w' :
  recoverManifestFromExistingFiles hs pf st bf name w = (Returned (Some m), w') ->
  (forall k, is_Some (importedPages m !! k) <->
        (k < 1000)%N /\ isTFile (vault w !! pagePathOf bf k) = true)
  /\ (forall k info, importedPages m !! k = Some info ->
        let imagePath :=
          bf +:+ "/" +:+ imagesFolder st +:+ "/" +:+
          (name +:+ "_page_" +:+ pad3 k +:+ ".png") in
        JS.startsWith "recovered-" (imageHash info) = true
        /\ imageHash info
           = (if isTFile (vault w !! imagePath)
              then "recovered-" +:+ JS.String_ (stat_size (statOf hs imagePath))
                   +:+ "-" +:+ JS.String_ (stat_mtime (statOf hs imagePath))
              else "recovered-unknown-" +:+ JS.String_ k)
        /\ fileName info = pageFileNameOf k
        /\ backgroundColor info = None
        /\ (exists d,
              vault w !! pagePathOf bf k = Some (TFile d)
              /\ geminiProcessed info
                 = includes "### Gemini Transcription" (textOf d)
              /\ hasAudio info
                 = Some (includes "🎙️ Audio Recording" (textOf d)))
        /\ (k <= totalPages m)%N
        /\ forall st', backgroundChangedOf st' (Some info) = true)
  /\ is_Some (importedPages m !! totalPages m)
  /\ bookName m = name
  /\ (exists w1 reads,
        vault w1 = vault w
        /\ calls w1 = reads ++ calls w
        /\ Forall (fun e => exists k,
                     is_Some (importedPages m !! k)
                     /\ e = EvCall (CallRead (pagePathOf bf k)) None) reads
        /\ w' = saveManifest pf (manifestPathOf bf) m w1)
  /\ (forall x node, x <> manifestPathOf bf ->
        vault w !! x = Some node -> vault w' !! x = Some node)
  /\ exists post,
       calls w' = post ++ calls w /\ saveCount post = 1%nat.
Proof.
  intros H.
  destruct (recovered_manifest_facts _ _ _ _ _ _ _ _ H)
    as (_ & Hkeys & Hentry & Htotal & Hname & Hpost).
  destruct (recovered_manifest_world _ _ _ _ _ _ _ _ H)
    as (Hinfo & Hworld & Hframe).
  split; [exact Hkeys|]. split; [|split; [exact Htotal|split; [exact Hname|
    split; [exact Hworld|split; [exact Hframe|exact Hpost]]]]].
  intros k info Hk. cbn zeta.
  destruct (Hentry k info Hk) as (Hfn & Hle & Hbg).
  destruct (Hinfo k info Hk) as (d & Hd & Hi).
  assert (Hhash : imageHash info
    = (if isTFile (vault w !! (bf +:+ "/" +:+ imagesFolder st +:+ "/" +:+
                               (name +:+ "_page_" +:+ pad3 k +:+ ".png")))
       then "recovered-" +:+
            JS.String_ (stat_size (statOf hs
              (bf +:+ "/" +:+ imagesFolder st +:+ "/" +:+
               (name +:+ "_page_" +:+ pad3 k +:+ ".png"))))
            +:+ "-" +:+
            JS.String_ (stat_mtime (statOf hs
              (bf +:+ "/" +:+ imagesFolder st +:+ "/" +:+
               (name +:+ "_page_" +:+ pad3 k +:+ ".png"))))
       else "recovered-unknown-" +:+ JS.String_ k)).
  { rewrite Hi. reflexivity. }
  split.
  { rewrite Hhash. destruct (isTFile _).
    - apply startsWith_app.
    - apply (startsWith_app "recovered-" ("unknown-" +:+ JS.String_ k)). }
  split; [exact Hhash|]. split; [exact Hfn|].
  split; [rewrite Hi; reflexivity|].
  split; [|split; [exact Hle|exact Hbg]].
  exists d. split; [exact Hd|]. rewrite Hi. split; reflexivity.
Qed.

Lemma recovered_manifest_witness :
  exists m w',
    recoverManifestFromExistingFiles Ex.host Ex.noDigest Ex.settings
      "Viwoods Notes/Book" "Book" Ex.bookWorld = (Returned (Some m), w')
    /\ totalPages m = 3%N
    /\ (imageHash <$> importedPages m !! 1%N)
       = Some "recovered-10-1735689600000"
    /\ (imageHash <$> importedPages m !! 3%N) = Some "recovered-unknown-3"
    /\ (is_Some (importedPages m !! 2%N) <->
        (2 < 1000)%N
        /\ isTFile (vault Ex.bookWorld !! pagePathOf "Viwoods Notes/Book" 2)
           = true).
Proof.
  destruct (recoverManifestFromExistingFiles Ex.host Ex.noDigest Ex.settings
              "Viwoods Notes/Book" "Book" Ex.bookWorld) as [[[m|]|msg] w'] eqn:H;
    try (vm_compute in H; discriminate H).
  exists m, w'. split; [reflexivity|].
  destruct (recovered_manifest Ex.host Ex.noDigest Ex.settings
              "Viwoods Notes/Book" "Book" Ex.bookWorld m w' H) as (Hs & _).
  specialize (Hs 2%N).
  vm_compute in H. injection H as <- _.
  split; [reflexivity|]. split; [vm_compute; reflexivity|].
  split; [vm_compute; reflexivity|]. exact Hs.
Defined.

(** ** What a page document holds *)

Lemma importAudio_content pf st bf page isNew isModified w ac w1 :
  importAudio pf st bf page isNew isModified w = (Returned ac, w1) ->
  ac = match audio page with
       | None => EmptyString
       | Some a =>
           "## 🎙️ Audio Recording" +:+ nl +:+ nl +:+
           "![[" +:+ audio_name a +:+ "]]" +:+ nl +:+ nl +:+
           "---" +:+ nl +:+ nl
       end.
Proof.
  unfold importAudio. destruct (audio page) as [a|].
  - intros H. apply bind_Returned in H as (u & w' & _ & H).
    injection H as <- _. reflexivity.
  - intros [= <- _]. reflexivity.
Qed.

Lemma importImage_content pf st bf book page isNew isModified bg w :
  let block := (importImage pf st bf book page isNew isModified bg w).1.1 in
  if isPng (outputFormat st) then
    block = "*[Image failed to import]*" +:+ nl +:+ nl
    \/ block = "![[" +:+ imageNameOf book (pageNum page) +:+ "]]" +:+ nl +:+ nl
               +:+ (if processWithGemini st && (isNew || isModified)
                    then "<!-- GEMINI_PLACEHOLDER_" +:+ JS.String_ (pageNum page)
                         +:+ " -->" +:+ nl +:+ nl
                    else EmptyString)
  else block = EmptyString.
Proof.
  cbn zeta. unfold importImage. destruct (isPng _); [|reflexivity].
  destruct (writeImage _ _ _ _ _ _ _ _ w) as [[r|msg] w'] eqn:E;
    [|left; reflexivity].
  right. unfold writeImage in E.
  apply bind_Returned in E as (u & w2 & _ & E). injection E as <- _.
  destruct (processWithGemini st && (isNew || isModified)); cbn [fst].
  - reflexivity.
  - reflexivity.
Qed.

Lemma importSvg_content pf st bf book page isNew isModified w sc w1 :
  importSvg pf st bf book page isNew isModified w = (Returned sc, w1) ->
  sc = match stroke page, outputFormat st with
       | Some _, FmtSvg =>
           "![Page " +:+ JS.String_ (pageNum page) +:+ "](" +:+
           imagesFolder st +:+ "/" +:+ svgNameOf book (pageNum page) +:+ ")"
           +:+ nl +:+ nl
       | _, _ => EmptyString
       end.
Proof.
  unfold importSvg. destruct (stroke page) as [strokes|].
  - destruct (outputFormat st); cbn [isSvg].
    + intros [= <- _]. reflexivity.
    + intros H. apply bind_Returned in H as (u & w' & _ & H).
      injection H as <- _. reflexivity.
    + intros H. apply bind_Returned in H as (u & w' & _ & H).
      injection H as <- _. reflexivity.
  - intros [= <- _]. destruct (outputFormat st); reflexivity.
Qed.

(** The page document a task leaves, block by block. *)
Lemma pageBody_blocks pf st book total existing page w :
  (pageBody pf st book total existing page w).1.1 = Returned tt ->
  exists audioBlock imageBlock svgBlock,
    vault (pageBody pf st book total existing page w).2
      !! pagePathOf (bookFolderOf st (book_name book)) (pageNum page)
    = Some (TFile (Text (frontmatterOf pf st book total page
                           (isModifiedOf existing page)
                         +:+ audioBlock +:+ imageBlock +:+ svgBlock)))
    /\ audioBlock
       = match audio page with
         | None => EmptyString
         | Some a =>
             "## 🎙️ Audio Recording" +:+ nl +:+ nl +:+
             "![[" +:+ audio_name a +:+ "]]" +:+ nl +:+ nl +:+
             "---" +:+ nl +:+ nl
         end
    /\ (if isPng (outputFormat st) then
          imageBlock = "*[Image failed to import]*" +:+ nl +:+ nl
          \/ imageBlock
             = "![[" +:+ imageNameOf book (pageNum page) +:+ "]]" +:+ nl +:+ nl
               +:+ (if processWithGemini st
                       && (isNewOf existing || isModifiedOf existing page)
                    then "<!-- GEMINI_PLACEHOLDER_"
                         +:+ JS.String_ (pageNum page) +:+ " -->" +:+ nl +:+ nl
                    else EmptyString)
        else imageBlock = EmptyString)
    /\ svgBlock
       = match stroke page, outputFormat st with
         | Some _, FmtSvg =>
             "![Page " +:+ JS.String_ (pageNum page) +:+ "](" +:+
             imagesFolder st +:+ "/" +:+ svgNameOf book (pageNum page) +:+ ")"
             +:+ nl +:+ nl
         | _, _ => EmptyString
         end.
Proof.
  unfold pageBody.
  destruct (frontmatterDates pf st book) as [[]|msgd]; [|discriminate].
  destruct (importAudio _ _ _ _ _ _ w) as [[audioContent|msg] w1] eqn:Ea;
    [|discriminate].
  pose proof (importImage_content pf st (bookFolderOf st (book_name book)) book
                page (isNewOf existing) (isModifiedOf existing page)
                (backgroundChangedOf st existing) w1) as Hi.
  cbn zeta in Hi.
  destruct (importImage _ _ _ _ _ _ _ _ w1) as [[imageContent queued] w2].
  match goal with
  | |- context [bind ?m ?k w2] => destruct (bind m k w2) as [o w3] eqn:Hb
  end.
  cbn [fst snd] in *. intros ->.
  apply bind_Returned in Hb as (svgContent & w' & Hs & Hsave).
  apply savePageFile_Returned in Hsave.
  exists audioContent, imageContent, svgContent.
  split; [exact Hsave|].
  split; [exact (importAudio_content _ _ _ _ _ _ _ _ _ Ea)|].
  split; [exact Hi|].
  exact (importSvg_content _ _ _ _ _ _ _ _ _ _ Hs).
Qed.

(** X14. Write, then read back: when the body of a page task returns, the
    page document of the page is a text made of four blocks: the
    frontmatter of this import; the audio block, when the page has audio;
    the image block, when images are put out, which embeds the image (with
    the Gemini placeholder when the page is queued for Gemini) or says that
    the image failed; and the link to the drawing, when only drawings are
    put out and the page has strokes.  With metadata switched on, a
    fingerprint that is a non-empty run of hexadecimal digits and a book
    name free of the key and of a line of dashes, [embeddedHash] reads the
    fingerprint of the decoded image back from that document. *)
Theorem page_task_embeds_fingerprint pf st book total existing page w :
  (pageBody pf st book total existing page w).1.1 = Returned tt ->
  exists audioBlock imageBlock svgBlock,
    vault (pageBody pf st book total existing page w).2
      !! pagePathOf (bookFolderOf st (book_name book)) (pageNum page)
    = Some (TFile (Text (frontmatterOf pf st book total page
                           (isModifiedOf existing page)
                         +:+ audioBlock +:+ imageBlock +:+ svgBlock)))
    /\ audioBlock
       = match audio page with
         | None => EmptyString
         | Some a =>
             "## 🎙️ Audio Recording" +:+ nl +:+ nl +:+
             "![[" +:+ audio_name a +:+ "]]" +:+ nl +:+ nl +:+
             "---" +:+ nl +:+ nl
         end
    /\ (if isPng (outputFormat st) then
          imageBlock = "*[Image failed to import]*" +:+ nl +:+ nl
          \/ imageBlock
             = "![[" +:+ imageNameOf book (pageNum page) +:+ "]]" +:+ nl +:+ nl
               +:+ (if processWithGemini st
                       && (isNewOf existing || isModifiedOf existing page)
                    then "<!-- GEMINI_PLACEHOLDER_"
                         +:+ JS.String_ (pageNum page) +:+ " -->" +:+ nl +:+ nl
                    else EmptyString)
        else imageBlock = EmptyString)
    /\ svgBlock
       = match stroke page, outputFormat st with
         | Some _, FmtSvg =>
             "![Page " +:+ JS.String_ (pageNum page) +:+ "](" +:+
             imagesFolder st +:+ "/" +:+ svgNameOf book (pageNum page) +:+ ")"
             +:+ nl +:+ nl
         | _, _ => EmptyString
         end
    /\ (includeMetadata st = true ->
        includes (nl +:+ "---") (book_name book) = false ->
        includes "original_image_hash:" (book_name book) = false ->
        all_hex (img_hash (image page)) = true ->
        JS.truthy (img_hash (image page)) = true ->
        embeddedHash (frontmatterOf pf st book total page
                        (isModifiedOf existing page)
                      +:+ audioBlock +:+ imageBlock +:+ svgBlock)
        = Some (img_hash (image page))).
Proof.
  intros Hret.
  destruct (pageBody_blocks pf st book total existing page w Hret)
    as (ab & ib & sb & Hdoc & Ha & Hi & Hs).
  exists ab, ib, sb. split; [exact Hdoc|]. split; [exact Ha|].
  split; [exact Hi|]. split; [exact Hs|].
  intros Hmeta Hdash Hkey Hhex Hne.
  apply embedded_hash_round_trip_core; assumption.
Qed.

Lemma page_task_embeds_fingerprint_witness :
  exists audioBlock imageBlock svgBlock,
    vault (pageBody Ex.withDigest Ex.settings Ex.digestBook 2 None
             (Ex.plainPage Ex.withDigest 2 (mkBlob 1 (Returned [Byte.xff])))
             Ex.emptyWorld).2
      !! "Viwoods Notes/Book/Page 002.md"
    = Some (TFile (Text
        (frontmatterOf Ex.withDigest Ex.settings Ex.digestBook 2
           (Ex.plainPage Ex.withDigest 2 (mkBlob 1 (Returned [Byte.xff])))
           true
         +:+ audioBlock +:+ imageBlock +:+ svgBlock)))
    /\ audioBlock = EmptyString
    /\ svgBlock = EmptyString
    /\ embeddedHash
         (frontmatterOf Ex.withDigest Ex.settings Ex.digestBook 2
            (Ex.plainPage Ex.withDigest 2 (mkBlob 1 (Returned [Byte.xff])))
            true
          +:+ audioBlock +:+ imageBlock +:+ svgBlock)
       = Some "ff000000000000000000000000000000".
Proof.
  destruct (page_task_embeds_fingerprint Ex.withDigest Ex.settings
              Ex.digestBook 2 None
              (Ex.plainPage Ex.withDigest 2 (mkBlob 1 (Returned [Byte.xff])))
              Ex.emptyWorld) as (ab & ib & sb & Hdoc & Ha & _ & Hs & Hemb).
  { vm_compute. reflexivity. }
  exists ab, ib, sb. split; [exact Hdoc|]. split; [exact Ha|].
  split; [exact Hs|].
  apply Hemb; vm_compute; reflexivity.
Defined.

(** ** The baseline of the comparison *)













(** ** What a computation adds to the log *)

Section LogsOnly.
Variable P : Event -> Prop.

Lemma logsOnly_ret {A} (a : A) : logsOnly P (ret a).
Proof. intros w. exists []. split; [reflexivity|constructor]. Qed.

Lemma logsOnly_throw {A} msg : logsOnly P (@throw A msg).
Proof. intros w. exists []. split; [reflexivity|constructor]. Qed.

Lemma logsOnly_lift {A} (o : Outcome A) : logsOnly P (lift o).
Proof. intros w. exists []. split; [reflexivity|constructor]. Qed.

Lemma logsOnly_pure {A} (a : A) : logsOnly P (fun w => (a, w)).
Proof. intros w. exists []. split; [reflexivity|constructor]. Qed.

Lemma logsOnly_bind {A B} (m : IO A) (k : A -> IO B) :
  logsOnly P m -> (forall a, logsOnly P (k a)) -> logsOnly P (bind m k).
Proof.
  intros Hm Hk w. unfold bind. destruct (Hm w) as (p1 & H1 & S1).
  destruct (m w) as [[a|msg] w1]; cbn in H1.
  - destruct (Hk a w1) as (p2 & H2 & S2). exists (p2 ++ p1).
    rewrite H2, H1, <- app_assoc. split; [reflexivity|].
    apply Forall_app. split; assumption.
  - exists p1. split; [exact H1|exact S1].
Qed.

Lemma logsOnly_try_catch {A} (m : IO A) (h : string -> IO A) :
  logsOnly P m -> (forall msg, logsOnly P (h msg)) ->
  logsOnly P (try_catch m h).
Proof.
  intros Hm Hh w. unfold try_catch. destruct (Hm w) as (p1 & H1 & S1).
  destruct (m w) as [[a|msg] w1]; cbn in H1.
  - exists p1. split; [exact H1|exact S1].
  - destruct (Hh msg w1) as (p2 & H2 & S2). exists (p2 ++ p1).
    rewrite H2, H1, <- app_assoc. split; [reflexivity|].
    apply Forall_app. split; assumption.
Qed.

Lemma logsOnly_then {A B} (f : World -> A * World)
    (g : A -> World -> B * World) :
  logsOnly P f -> (forall a, logsOnly P (g a)) ->
  logsOnly P (fun w => g (f w).1 (f w).2).
Proof.
  intros Hf Hg w. destruct (Hf w) as (p1 & H1 & S1).
  destruct (Hg (f w).1 (f w).2) as (p2 & H2 & S2).
  exists (p2 ++ p1). cbn. rewrite H2, H1, <- app_assoc.
  split; [reflexivity|]. apply Forall_app. split; assumption.
Qed.

Lemma logsOnly_if {A} (c : World -> bool) (f g : World -> A * World) :
  logsOnly P f -> logsOnly P g ->
  logsOnly P (fun w => if c w then f w else g w).
Proof. intros Hf Hg w. destruct (c w); [apply Hf|apply Hg]. Qed.

Lemma logsOnly_branch {A} (c : World -> bool) (f g : World -> A * World) :
  logsOnly P f -> logsOnly P g ->
  logsOnly P (fun w => (if c w then f else g) w).
Proof. intros Hf Hg w. destruct (c w); [apply Hf|apply Hg]. Qed.

Lemma logsOnly_vault_call pf c effect :
  (forall r, P (EvCall c r)) -> logsOnly P (vault_call pf c effect).
Proof.
  intros Hc w. unfold vault_call. destruct (rejects pf _ c) as [msg|].
  - exists [EvCall c (Some msg)]. split; [reflexivity|].
    constructor; [apply Hc|constructor].
  - exists [EvCall c None]. split; [reflexivity|].
    constructor; [apply Hc|constructor].
Qed.

Lemma logsOnly_vault_read pf path :
  (forall r, P (EvCall (CallRead path) r)) -> logsOnly P (vault_read pf path).
Proof.
  intros Hc w. unfold vault_read.
  destruct (logsOnly_vault_call pf (CallRead path) id Hc w) as (p & H & S).
  destruct (vault_call pf (CallRead path) id w) as [[[]|msg] w1]; cbn in H.
  - destruct (vault w !! path) as [[d|]|]; exists p; split; assumption.
  - exists p; split; assumption.
Qed.

Lemma logsOnly_vault_readBinary pf path :
  (forall r, P (EvCall (CallReadBinary path) r)) ->
  logsOnly P (vault_readBinary pf path).
Proof.
  intros Hc w. unfold vault_readBinary.
  destruct (logsOnly_vault_call pf (CallReadBinary path) id Hc w)
    as (p & H & S).
  destruct (vault_call pf (CallReadBinary path) id w) as [[[]|msg] w1];
    cbn in H.
  - destruct (vault w !! path) as [[d|]|]; exists p; split; assumption.
  - exists p; split; assumption.
Qed.

Lemma logsOnly_ensureFolders pf folders cur :
  (forall path r, P (EvCall (CallCreateFolder path) r)) ->
  logsOnly P (ensureFolders pf folders cur).
Proof.
  intros Hc. revert cur.
  induction folders as [|f r IH]; intros cur; cbn [ensureFolders].
  - apply logsOnly_ret.
  - intros w. destruct (getAbstractFileByPath w _); [apply IH|].
    apply (logsOnly_bind (try_catch _ _) (fun _ => ensureFolders pf r _)).
    + apply logsOnly_try_catch; [apply logsOnly_vault_call, Hc|].
      intros msg w'.
      destruct (getAbstractFileByPath w' _);
        [apply logsOnly_ret|apply logsOnly_throw].
    + intros _. apply IH.
Qed.
End LogsOnly.

(** ** Who writes the image file of a page *)

Lemma leaves_other x c r :
  match c with
  | CallCreateBinary p _ | CallCreate p _ | CallModify p _ | CallDelete p
  | CallAdapterWrite p _ => p <> x
  | _ => True
  end ->
  leavesFile x (EvCall c r).
Proof.
  unfold leavesFile. destruct r as [msg|]; [destruct c; reflexivity|].
  destruct c; cbn; try reflexivity; intros H; apply String.eqb_neq; exact H.
Qed.

Lemma silent_ensureFolder pf path x :
  logsOnly (leavesFile x) (ensureFolder pf path).
Proof.
  apply logsOnly_ensureFolders. intros p r. apply leaves_other. exact I.
Qed.

Lemma silent_write pf c effect x :
  match c with
  | CallCreateBinary p _ | CallCreate p _ | CallModify p _ | CallDelete p
  | CallAdapterWrite p _ => p <> x
  | _ => True
  end ->
  logsOnly (leavesFile x) (vault_call pf c effect).
Proof. intros H. apply logsOnly_vault_call. intros r. apply leaves_other, H. Qed.

Lemma silent_processImage pf st blob x :
  logsOnly (leavesFile x) (processImageWithBackground pf st blob).
Proof.
  unfold processImageWithBackground, arrayBuffer.
  destruct (_ || _); apply logsOnly_lift.
Qed.

Lemma silent_importAudio pf st bf page isNew isModified x :
  (forall a, audio page = Some a ->
     normalizePath pf
       ((bf +:+ "/" +:+ audioFolder st) +:+ "/" +:+ audio_name a) <> x) ->
  logsOnly (leavesFile x) (importAudio pf st bf page isNew isModified).
Proof.
  intros Hne. unfold importAudio.
  destruct (audio page) as [a|]; [|apply logsOnly_ret].
  specialize (Hne a eq_refl).
  apply logsOnly_bind; [|intros _; apply logsOnly_ret].
  apply logsOnly_bind; [apply silent_ensureFolder|]. intros _.
  apply logsOnly_branch.
  - destruct (_ || _); [|apply logsOnly_ret].
    apply logsOnly_bind; [apply silent_write; exact Hne|]. intros _.
    apply logsOnly_bind; [apply logsOnly_lift|]. intros data.
    apply silent_write. exact Hne.
  - apply logsOnly_bind; [apply logsOnly_lift|]. intros data.
    apply silent_write. exact Hne.
Qed.

Lemma silent_writeImage pf st bf book page isNew isModified bg x :
  imagePathOf pf st bf book (pageNum page) <> x ->
  logsOnly (leavesFile x) (writeImage pf st bf book page isNew isModified bg).
Proof.
  intros Hne. unfold writeImage.
  apply logsOnly_bind; [|intros _; apply logsOnly_ret].
  apply logsOnly_branch.
  - destruct (_ || _); [|apply logsOnly_ret].
    apply logsOnly_bind; [apply silent_processImage|]. intros data.
    apply logsOnly_bind; [apply silent_write; exact Hne|]. intros _.
    apply silent_write. exact Hne.
  - apply logsOnly_bind; [apply silent_processImage|]. intros data.
    apply silent_write. exact Hne.
Qed.

Lemma silent_importImage pf st bf book page isNew isModified bg x :
  imagePathOf pf st bf book (pageNum page) <> x ->
  logsOnly (leavesFile x) (importImage pf st bf book page isNew isModified bg).
Proof.
  intros Hne w. unfold importImage.
  destruct (isPng _); [|exists []; split; [reflexivity|constructor]].
  destruct (silent_writeImage pf st bf book page isNew isModified bg x Hne w)
    as (p & H & S).
  destruct (writeImage _ _ _ _ _ _ _ _ w) as [[r|msg] w1];
    exists p; split; assumption.
Qed.

Lemma silent_importSvg pf st bf book page isNew isModified x :
  normalizePath pf
    (bf +:+ "/" +:+ imagesFolder st +:+ "/" +:+ svgNameOf book (pageNum page))
  <> x ->
  logsOnly (leavesFile x) (importSvg pf st bf book page isNew isModified).
Proof.
  intros Hne. unfold importSvg. destruct (stroke page); [|apply logsOnly_ret].
  destruct (isSvg _); [|apply logsOnly_ret].
  apply logsOnly_bind; [|intros _; apply logsOnly_ret].
  apply logsOnly_branch.
  - destruct (_ || _); [apply silent_write; exact Hne|apply logsOnly_ret].
  - apply silent_write. exact Hne.
Qed.

Lemma silent_savePageFile pf path content x :
  path <> x -> logsOnly (leavesFile x) (savePageFile pf path content).
Proof.
  intros Hne. unfold savePageFile.
  apply logsOnly_if; apply silent_write; exact Hne.
Qed.

Lemma silent_createBookIndex pf bf name x :
  bf +:+ "/Index.md" <> x ->
  logsOnly (leavesFile x) (createBookIndex pf bf name).
Proof.
  intros Hne. unfold createBookIndex.
  apply logsOnly_if; apply silent_write; exact Hne.
Qed.

Lemma silent_saveManifest pf path m x :
  path <> x ->
  logsOnly (leavesFile x) (fun w => (tt, saveManifest pf path m w)).
Proof.
  intros Hne w. cbn [snd]. unfold saveManifest.
  set (w0 := mkWorld (vault w) (EvSaveManifest path :: calls w)).
  set (attempt := if isTFile _ then _ else _).
  assert (Ha : logsOnly (leavesFile x) attempt).
  { subst attempt. destruct (isTFile _); apply silent_write; exact Hne. }
  destruct (Ha w0) as (p1 & H1 & S1).
  destruct (attempt w0) as [[[]|msg] w1]; cbn [snd] in H1.
  - exists (p1 ++ [EvSaveManifest path]). rewrite H1. cbn [calls w0].
    rewrite <- app_assoc. split; [reflexivity|].
    apply Forall_app. split; [exact S1|]. constructor; [reflexivity|constructor].
  - assert (Hq : logsOnly (leavesFile x)
              (bind (ensureFolder pf (folderOfPath path))
                 (fun _ => adapter_write pf path (JSON_stringify pf m)))).
    { apply logsOnly_bind; [apply silent_ensureFolder|]. intros _.
      apply silent_write. exact Hne. }
    destruct (Hq w1) as (p2 & H2 & S2).
    exists (p2 ++ p1 ++ [EvSaveManifest path]). rewrite H2, H1. cbn [calls w0].
    rewrite <- !app_assoc. split; [reflexivity|].
    apply Forall_app. split; [exact S2|]. apply Forall_app. split; [exact S1|].
    constructor; [reflexivity|constructor].
Qed.

Lemma silent_geminiOne pf plugin bf m item x :
  (forall k, pagePathOf bf k <> x) ->
  logsOnly (leavesFile x) (geminiOne pf plugin bf m item).
Proof.
  intros Hne. unfold geminiOne. destruct item as [file n].
  apply logsOnly_bind.
  { apply logsOnly_vault_readBinary. intros r. apply leaves_other. exact I. }
  intros imageData.
  apply logsOnly_bind; [apply logsOnly_lift|].
  intros [text|]; [|apply logsOnly_ret].
  destruct (JS.truthy text); [|apply logsOnly_ret].
  apply logsOnly_bind.
  - destruct (enableTriggerWords plugin); [apply logsOnly_lift|apply logsOnly_ret].
  - intros processedText. apply logsOnly_if; [|apply logsOnly_ret].
    apply logsOnly_bind.
    { apply logsOnly_vault_read. intros r. apply leaves_other. exact I. }
    intros content.
    apply logsOnly_bind; [apply silent_write; apply Hne|]. intros _.
    apply logsOnly_bind; [|intros _; apply logsOnly_ret].
    apply silent_write. exact I.
Qed.

Lemma silent_geminiLoop pf plugin bf items x mw :
  (forall k, pagePathOf bf k <> x) ->
  exists post,
    calls (geminiLoop pf plugin bf items mw).2 = post ++ calls mw.2
    /\ Forall (leavesFile x) post.
Proof.
  intros Hne. revert mw. induction items as [|item items IH]; intros [m w].
  - exists []. split; [reflexivity|constructor].
  - cbn [geminiLoop].
    destruct (silent_geminiOne pf plugin bf m item x Hne w) as (p1 & H1 & S1).
    destruct (geminiOne pf plugin bf m item w) as [[[|]|msg] w1]; cbn [snd] in H1.
    + destruct (IH (setImportedPages m
                      (alter markGemini item.2 (importedPages m)), w1))
        as (p2 & H2 & S2).
      exists (p2 ++ p1). rewrite H2. cbn [snd]. rewrite H1, <- app_assoc.
      split; [reflexivity|]. apply Forall_app. split; assumption.
    + destruct (IH (m, w1)) as (p2 & H2 & S2).
      exists (p2 ++ p1). rewrite H2. cbn [snd]. rewrite H1, <- app_assoc.
      split; [reflexivity|]. apply Forall_app. split; assumption.
    + destruct (IH (m, w1)) as (p2 & H2 & S2).
      exists (p2 ++ p1). rewrite H2. cbn [snd]. rewrite H1, <- app_assoc.
      split; [reflexivity|]. apply Forall_app. split; assumption.
Qed.

Lemma silent_pageBody pf st book total existing page x :
  x ∉ sidePaths pf st book page ->
  pagePathOf (bookFolderOf st (book_name book)) (pageNum page) <> x ->
  logsOnly (leavesFile x) (pageBody pf st book total existing page).
Proof.
  intros Hside Hdoc w. unfold pageBody.
  set (bf := bookFolderOf st (book_name book)) in *.
  destruct (frontmatterDates pf st book) as [[]|msgd];
    [|exists []; split; [reflexivity|constructor]].
  assert (Himg : imagePathOf pf st bf book (pageNum page) <> x).
  { intros E. apply Hside. unfold sidePaths. fold bf. rewrite E.
    apply elem_of_cons. left. reflexivity. }
  assert (Hsvg : normalizePath pf
                   (bf +:+ "/" +:+ imagesFolder st +:+ "/" +:+
                    svgNameOf book (pageNum page)) <> x).
  { intros E. apply Hside. unfold sidePaths. fold bf. rewrite E.
    apply elem_of_cons. right. apply elem_of_cons. left. reflexivity. }
  assert (Haud : forall a, audio page = Some a ->
            normalizePath pf
              ((bf +:+ "/" +:+ audioFolder st) +:+ "/" +:+ audio_name a) <> x).
  { intros a Ha E. apply Hside. unfold sidePaths. fold bf. rewrite Ha, E.
    apply elem_of_cons. right. apply elem_of_cons. right.
    apply list_elem_of_singleton. reflexivity. }
  destruct (silent_importAudio pf st bf page (isNewOf existing)
              (isModifiedOf existing page) x Haud w) as (p1 & H1 & S1).
  destruct (importAudio _ _ _ _ _ _ w) as [[ac|msg] w1]; cbn [snd] in H1;
    [|exists p1; split; assumption].
  destruct (silent_importImage pf st bf book page (isNewOf existing)
              (isModifiedOf existing page) (backgroundChangedOf st existing)
              x Himg w1) as (p2 & H2 & S2).
  destruct (importImage _ _ _ _ _ _ _ _ w1) as [[ic q] w2]; cbn [snd] in H2.
  match goal with |- context [bind ?m ?k w2] =>
    assert (Hq : logsOnly (leavesFile x) (bind m k));
      [apply logsOnly_bind;
        [apply silent_importSvg; exact Hsvg
        |intros ?; apply silent_savePageFile; exact Hdoc]|];
    destruct (Hq w2) as (p3 & H3 & S3);
    destruct (bind m k w2) as [o w3] end.
  cbn [snd] in *. exists (p3 ++ p2 ++ p1).
  rewrite H3, H2, H1, <- !app_assoc. split; [reflexivity|].
  apply Forall_app. split; [exact S3|]. apply Forall_app. split; assumption.
Qed.

Lemma keptSince_step {A} x (f : World -> A * World) node w0 w :
  preserves x f -> logsOnly (leavesFile x) f ->
  keptSince x node w0 w -> keptSince x node w0 (f w).2.
Proof.
  intros Hp Hl [Hv (post & Hc & Hf)]. split; [apply Hp; exact Hv|].
  destruct (Hl w) as (p & Hp' & Hs). exists (p ++ post).
  rewrite Hp', Hc, <- app_assoc. split; [reflexivity|].
  apply Forall_app. split; assumption.
Qed.

Lemma keptSince_refl x node w :
  vault w !! x = Some node -> keptSince x node w w.
Proof. intros H. split; [exact H|]. exists []. split; [reflexivity|constructor]. Qed.

(** The task of a page whose entry holds its fingerprint and the current
    background colour, and whose image file exists, leaves that file
    alone. *)
Lemma pageBody_own_kept pf st book total info page node w0 w :
  let bf := bookFolderOf st (book_name book) in
  let x := imagePathOf pf st bf book (pageNum page) in
  imageHash info = img_hash (image page) ->
  backgroundColor info = Some (set_backgroundColor st) ->
  isTFile (Some node) = true ->
  (forall a, audio page = Some a ->
     normalizePath pf
       ((bf +:+ "/" +:+ audioFolder st) +:+ "/" +:+ audio_name a) <> x) ->
  normalizePath pf
    (bf +:+ "/" +:+ imagesFolder st +:+ "/" +:+ svgNameOf book (pageNum page))
  <> x ->
  pagePathOf bf (pageNum page) <> x ->
  keptSince x node w0 w ->
  keptSince x node w0 (pageBody pf st book total (Some info) page w).2.
Proof.
  intros bf x Hh Hb Hfile Haud Hsvg Hdoc Hk. unfold pageBody. fold bf.
  assert (Hnew : isNewOf (Some info) = false) by reflexivity.
  assert (Hmod : isModifiedOf (Some info) page = false).
  { unfold isModifiedOf. cbn. rewrite Hh, String.eqb_refl. reflexivity. }
  assert (Hbg : backgroundChangedOf st (Some info) = false).
  { unfold backgroundChangedOf. cbn [mbind option_bind]. rewrite Hb. cbn.
    rewrite String.eqb_refl. reflexivity. }
  rewrite Hnew, Hmod, Hbg.
  destruct (frontmatterDates pf st book) as [[]|msgd]; [|exact Hk].
  pose proof (keptSince_step x (importAudio pf st bf page false false) node w0 w
                (preserves_importAudio pf st bf page false false x Haud)
                (silent_importAudio pf st bf page false false x Haud) Hk) as H1.
  destruct (importAudio _ _ _ _ _ _ w) as [[ac|msg] w1]; cbn [snd] in H1;
    [|exact H1].
  rewrite importImage_reuse
    by (fold x; rewrite (proj1 H1); exact Hfile).
  match goal with |- context [bind ?m ?k w1] =>
    pose proof (keptSince_step x (bind m k) node w0 w1
                  (preserves_bind x m k
                     (preserves_importSvg pf st bf book page _ _ x Hsvg)
                     (fun svg => preserves_savePageFile pf _ _ x Hdoc))
                  (logsOnly_bind _ m k
                     (silent_importSvg pf st bf book page _ _ x Hsvg)
                     (fun svg => silent_savePageFile pf _ _ x Hdoc))
                  H1) as H3;
    destruct (bind m k w1) as [o w3]
  end.
  exact H3.
Qed.

Lemma imageApart_other pf st book n q pageq :
  imageApart pf st book n -> findPage book q = Some pageq -> q <> n ->
  let x := imagePathOf pf st (bookFolderOf st (book_name book)) book n in
  (x ∉ sidePaths pf st book pageq)
  /\ pagePathOf (bookFolderOf st (book_name book)) (pageNum pageq) <> x.
Proof.
  intros (Hdoc & _ & _ & Hpages) Hf Hne. cbn zeta.
  pose proof (findPage_pageNum _ _ _ Hf) as Hpn.
  destruct (Hpages pageq (findPage_elem _ _ _ Hf)) as (Himg & Hsvg & Haud).
  split; [|apply Hdoc].
  unfold sidePaths. intros Hin.
  apply elem_of_cons in Hin as [E|Hin].
  { apply Himg; [congruence|]. symmetry. exact E. }
  apply elem_of_cons in Hin as [E|Hin].
  { apply Hsvg. symmetry. exact E. }
  destruct (audio pageq) as [a|] eqn:Ha.
  - apply list_elem_of_singleton in Hin. apply (Haud a eq_refl).
    symmetry. exact Hin.
  - apply elem_of_nil in Hin. destruct Hin.
Qed.

(** The task of another page leaves the image file of page [n] alone,
    whatever the state of the run. *)
Lemma importPage_silent pf st book hm n q sw :
  imageApart pf st book n -> q <> n ->
  let x := imagePathOf pf st (bookFolderOf st (book_name book)) book n in
  exists post,
    calls (importPage pf st book hm q sw).2 = post ++ calls sw.2
    /\ Forall (leavesFile x) post.
Proof.
  intros Hap Hne x. destruct sw as [rs w].
  destruct (findPage book q) as [pageq|] eqn:Hf.
  - rewrite (importPage_found pf st book hm q rs w pageq Hf). cbn [snd].
    destruct (imageApart_other pf st book n q pageq Hap Hf Hne) as [Hs Hd].
    apply silent_pageBody; assumption.
  - rewrite (importPage_absent pf st book hm q (rs, w) Hf).
    exists []. split; [reflexivity|constructor].
Qed.

Lemma importPages_silent pf st book hm n l sw :
  imageApart pf st book n -> n ∉ l ->
  let x := imagePathOf pf st (bookFolderOf st (book_name book)) book n in
  exists post,
    calls (importPages pf st book hm l sw).2 = post ++ calls sw.2
    /\ Forall (leavesFile x) post.
Proof.
  intros Hap. cbn zeta. revert sw. induction l as [|q l IH]; intros sw Hn.
  - exists []. split; [reflexivity|constructor].
  - rewrite importPages_cons. apply not_elem_of_cons in Hn as [Hq Hl].
    destruct (importPage_silent pf st book hm n q sw Hap) as (p1 & H1 & S1);
      [congruence|].
    destruct (IH (importPage pf st book hm q sw) Hl) as (p2 & H2 & S2).
    exists (p2 ++ p1). rewrite H2, H1, <- app_assoc. split; [reflexivity|].
    apply Forall_app. split; assumption.
Qed.

(** While the entry of page [n] holds the fingerprint of the page and the
    current background colour, and the image file of the page exists, no
    task writes or deletes that file; and the tasks keep the entry so. *)
Lemma importPage_kept pf st book n page q node w0 rs w :
  findPage book n = Some page ->
  imageApart pf st book n ->
  isTFile (Some node) = true ->
  let x := imagePathOf pf st (bookFolderOf st (book_name book)) book n in
  (exists info,
     importedPages (rs_manifest rs) !! n = Some info
     /\ imageHash info = img_hash (image page)
     /\ backgroundColor info = Some (set_backgroundColor st)) ->
  keptSince x node w0 w ->
  let sw' := importPage pf st book true q (rs, w) in
  (exists info,
     importedPages (rs_manifest sw'.1) !! n = Some info
     /\ imageHash info = img_hash (image page)
     /\ backgroundColor info = Some (set_backgroundColor st))
  /\ keptSince x node w0 sw'.2.
Proof.
  intros Hf Hap Hfile x (info & Hinfo & Hh & Hb) Hk. cbn zeta.
  pose proof (findPage_pageNum _ _ _ Hf) as Hpn.
  destruct (decide (q = n)) as [->|Hne].
  - rewrite (importPage_found pf st book true n rs w page Hf). cbn zeta.
    unfold existingEntry. rewrite Hinfo.
    destruct Hap as (Hdoc & _ & _ & Hpages).
    destruct (Hpages page (findPage_elem _ _ _ Hf)) as (_ & Hsvg & Haud).
    rewrite Hpn in Hsvg.
    pose proof (pageBody_own_kept pf st book (totalPages (rs_manifest rs)) info
                  page node w0 w Hh Hb Hfile) as Hown.
    cbn zeta in Hown. rewrite Hpn in Hown. fold x in Hown.
    specialize (Hown Haud Hsvg (Hdoc n) Hk).
    destruct (pageBody pf st book (totalPages (rs_manifest rs)) (Some info)
                page w) as [[[[]|msg] queued] w'] eqn:Hbody; cbn [fst snd] in *.
    + split; [|exact Hown].
      exists (importedEntry pf st (rs_manifest rs) page).
      cbn [rs_manifest importedPages setImportedPages].
      rewrite lookup_insert_eq. split; [reflexivity|]. split; reflexivity.
    + split; [|exact Hown]. exists info. cbn [rs_manifest]. auto.
  - pose proof (importPage_frame pf st book true q (rs, w)) as (_ & Hother & _).
    cbn zeta in Hother. cbn [fst] in Hother.
    split.
    + exists info. rewrite (Hother n) by congruence. auto.
    + destruct (findPage book q) as [pageq|] eqn:Hfq.
      * rewrite (importPage_found pf st book true q rs w pageq Hfq). cbn [snd].
        destruct (imageApart_other pf st book n q pageq Hap Hfq Hne) as [Hs Hd].
        apply keptSince_step; [apply preserves_pageBody|apply silent_pageBody|];
          assumption.
      * rewrite (importPage_absent pf st book true q (rs, w) Hfq). exact Hk.
Qed.

Lemma importPages_kept pf st book n page l node w0 sw :
  findPage book n = Some page ->
  imageApart pf st book n ->
  isTFile (Some node) = true ->
  let x := imagePathOf pf st (bookFolderOf st (book_name book)) book n in
  (exists info,
     importedPages (rs_manifest sw.1) !! n = Some info
     /\ imageHash info = img_hash (image page)
     /\ backgroundColor info = Some (set_backgroundColor st)) ->
  keptSince x node w0 sw.2 ->
  keptSince x node w0 (importPages pf st book true l sw).2.
Proof.
  intros Hf Hap Hfile x. revert sw.
  induction l as [|q l IH]; intros [rs w] Hinfo Hk; [exact Hk|].
  rewrite importPages_cons. cbn [fst snd] in *.
  destruct (importPage_kept pf st book n page q node w0 rs w Hf Hap Hfile
              Hinfo Hk) as [Hinfo' Hk'].
  apply IH; assumption.
Qed.

Lemma preserves_vault_read pf path x : preserves x (vault_read pf path).
Proof.
  intros w node H. unfold vault_read.
  pose proof (preserves_vault_call pf (CallRead path) id x
                (fun v nd Hv => Hv) w node H) as H1.
  destruct (vault_call pf (CallRead path) id w) as [[[]|msg] w1];
    cbn [snd] in H1; [|exact H1].
  destruct (vault w !! path) as [[d|]|]; exact H1.
Qed.

Lemma preserves_vault_readBinary pf path x :
  preserves x (vault_readBinary pf path).
Proof.
  intros w node H. unfold vault_readBinary.
  pose proof (preserves_vault_call pf (CallReadBinary path) id x
                (fun v nd Hv => Hv) w node H) as H1.
  destruct (vault_call pf (CallReadBinary path) id w) as [[[]|msg] w1];
    cbn [snd] in H1; [|exact H1].
  destruct (vault w !! path) as [[d|]|]; exact H1.
Qed.

Lemma preserves_processFrontMatter pf m n path x :
  path <> x -> preserves x (processFrontMatter pf m n path).
Proof.
  intros Hne. apply preserves_vault_call. intros v node H.
  destruct (v !! path) as [[d|]|]; [|exact H..].
  rewrite lookup_insert_ne by exact Hne. exact H.
Qed.

Lemma preserves_geminiOne pf plugin bf m item x :
  (forall k, pagePathOf bf k <> x) ->
  preserves x (geminiOne pf plugin bf m item).
Proof.
  intros Hne. unfold geminiOne. destruct item as [file n].
  apply preserves_bind; [apply preserves_vault_readBinary|]. intros imageData.
  apply preserves_bind; [apply preserves_lift|].
  intros [text|]; [|apply preserves_ret].
  destruct (JS.truthy text); [|apply preserves_ret].
  apply preserves_bind.
  - destruct (enableTriggerWords plugin);
      [apply preserves_lift|apply preserves_ret].
  - intros processedText. apply preserves_if_applied; [|apply preserves_ret].
    apply preserves_bind; [apply preserves_vault_read|]. intros content.
    apply preserves_bind; [apply preserves_insert, Hne|]. intros _.
    apply preserves_bind; [|intros _; apply preserves_ret].
    apply preserves_processFrontMatter, Hne.
Qed.

Lemma geminiLoop_kept pf plugin bf items x node w0 mw :
  (forall k, pagePathOf bf k <> x) ->
  keptSince x node w0 mw.2 ->
  keptSince x node w0 (geminiLoop pf plugin bf items mw).2.
Proof.
  intros Hne. revert mw. induction items as [|item items IH]; intros [m w] Hk.
  - exact Hk.
  - cbn [geminiLoop]. cbn [snd] in Hk.
    pose proof (keptSince_step x (geminiOne pf plugin bf m item) node w0 w
                  (preserves_geminiOne pf plugin bf m item x Hne)
                  (silent_geminiOne pf plugin bf m item x Hne) Hk) as H1.
    destruct (geminiOne pf plugin bf m item w) as [[[|]|msg] w1];
      cbn [snd] in H1; apply IH; exact H1.
Qed.

Lemma saveManifest_kept pf path m x node w0 w :
  path <> x -> keptSince x node w0 w ->
  keptSince x node w0 (saveManifest pf path m w).
Proof.
  intros Hne Hk.
  apply (keptSince_step x (fun w => (tt, saveManifest pf path m w)) node w0 w);
    [|apply silent_saveManifest; exact Hne|exact Hk].
  intros w1 nd H. cbn [snd]. apply saveManifest_keeps; assumption.
Qed.

Lemma processWithGeminiPages_kept pf st bf items m x node w0 w :
  (forall k, pagePathOf bf k <> x) ->
  bf +:+ "/Index.md" <> x ->
  manifestPathOf bf <> x ->
  keptSince x node w0 w ->
  keptSince x node w0 (processWithGeminiPages pf st bf items m w).2.
Proof.
  intros Hdoc Hidx Hman Hk. unfold processWithGeminiPages.
  destruct (negb (geminiEnabled pf)); [exact Hk|].
  destruct (geminiPlugin pf) as [plugin|]; [|exact Hk].
  pose proof (geminiLoop_kept pf plugin bf items x node w0 (m, w) Hdoc Hk) as H1.
  destruct (geminiLoop pf plugin bf items (m, w)) as [m' w1]. cbn [snd] in H1.
  pose proof (saveManifest_kept pf (manifestPathOf bf) m' x node w0 w1 Hman H1)
    as H2.
  destruct (createIndex st); [|exact H2].
  pose proof (keptSince_step x (createBookIndex pf bf (bookName m')) node w0 _
                (createBookIndex_keeps pf bf (bookName m') x Hidx)
                (silent_createBookIndex pf bf (bookName m') x Hidx) H2) as H3.
  destruct (createBookIndex pf bf (bookName m') _) as [o w3]. exact H3.
Qed.

Lemma epilogue_kept pf st book sel rs w x node w0 :
  let bf := bookFolderOf st (book_name book) in
  (forall k, pagePathOf bf k <> x) ->
  bf +:+ "/Index.md" <> x ->
  manifestPathOf bf <> x ->
  keptSince x node w0 w ->
  keptSince x node w0 (run_world (epilogue pf st book sel (rs, w))).
Proof.
  intros bf Hdoc Hidx Hman Hk. unfold epilogue. fold bf.
  assert (H1 : keptSince x node w0
                 (if createIndex st
                  then createBookIndex pf bf (book_name book) w
                  else ret tt w).2).
  { destruct (createIndex st); [|exact Hk].
    apply keptSince_step;
      [apply createBookIndex_keeps|apply silent_createBookIndex|]; assumption. }
  destruct (if createIndex st then _ else _) as [[[]|msg] w1];
    cbn [snd] in H1; [|exact H1].
  pose proof (saveManifest_kept pf (manifestPathOf bf)
                (addHistoryEntry pf st (rs_manifest rs) ActImport sel
                   (historyMessage (rs_summary rs))) x node w0 w1 Hman H1) as H2.
  destruct (_ && _); [|exact H2].
  pose proof (processWithGeminiPages_kept pf st bf (rs_queue rs)
                (addHistoryEntry pf st (rs_manifest rs) ActImport sel
                   (historyMessage (rs_summary rs)))
                x node w0 _ Hdoc Hidx Hman H2) as H3.
  destruct (processWithGeminiPages _ _ _ _ _ _) as [[[[]|msg] m2] w3];
    exact H3.
Qed.

Lemma prologue_kept pf st book x node w0 w :
  keptSince x node w0 w -> keptSince x node w0 (prologue pf st book w).2.
Proof.
  intros Hk. apply keptSince_step; [| |exact Hk]; unfold prologue.
  - apply preserves_bind; [apply preserves_ensureFolder|].
    intros _. apply preserves_ensureFolder.
  - apply logsOnly_bind; [apply silent_ensureFolder|].
    intros _. apply silent_ensureFolder.
Qed.

Lemma silent_ext {A} x (f : World -> A * World) w post0 w0 :
  logsOnly (leavesFile x) f ->
  calls w = post0 ++ calls w0 -> Forall (leavesFile x) post0 ->
  exists post, calls (f w).2 = post ++ calls w0 /\ Forall (leavesFile x) post.
Proof.
  intros Hl Hc Hf. destruct (Hl w) as (p & Hp & Hs). exists (p ++ post0).
  rewrite Hp, Hc, <- app_assoc. split; [reflexivity|].
  apply Forall_app. split; assumption.
Qed.

Lemma processWithGeminiPages_silent pf st bf items m x w :
  (forall k, pagePathOf bf k <> x) ->
  bf +:+ "/Index.md" <> x ->
  manifestPathOf bf <> x ->
  exists post,
    calls (processWithGeminiPages pf st bf items m w).2 = post ++ calls w
    /\ Forall (leavesFile x) post.
Proof.
  intros Hdoc Hidx Hman. unfold processWithGeminiPages.
  destruct (negb (geminiEnabled pf));
    [exists []; split; [reflexivity|constructor]|].
  destruct (geminiPlugin pf) as [plugin|];
    [|exists []; split; [reflexivity|constructor]].
  destruct (silent_geminiLoop pf plugin bf items x (m, w) Hdoc) as (p1 & H1 & S1).
  destruct (geminiLoop pf plugin bf items (m, w)) as [m' w1]. cbn [snd] in H1.
  destruct (silent_ext x (fun w => (tt, saveManifest pf (manifestPathOf bf) m' w))
              w1 p1 w (silent_saveManifest pf _ m' x Hman) H1 S1)
    as (p2 & H2 & S2).
  cbn [snd] in H2.
  destruct (createIndex st); [|exists p2; split; assumption].
  destruct (silent_ext x (createBookIndex pf bf (bookName m')) _ p2 w
              (silent_createBookIndex pf bf (bookName m') x Hidx) H2 S2)
    as (p3 & H3 & S3).
  destruct (createBookIndex pf bf (bookName m') _) as [o w3].
  exists p3. split; assumption.
Qed.

Lemma epilogue_silent pf st book sel rs w x :
  let bf := bookFolderOf st (book_name book) in
  (forall k, pagePathOf bf k <> x) ->
  bf +:+ "/Index.md" <> x ->
  manifestPathOf bf <> x ->
  exists post,
    calls (run_world (epilogue pf st book sel (rs, w))) = post ++ calls w
    /\ Forall (leavesFile x) post.
Proof.
  intros bf Hdoc Hidx Hman. unfold epilogue. fold bf.
  assert (H1 : exists post,
             calls (if createIndex st
                    then createBookIndex pf bf (book_name book) w
                    else ret tt w).2 = post ++ calls w
             /\ Forall (leavesFile x) post).
  { destruct (createIndex st).
    - apply silent_createBookIndex. exact Hidx.
    - exists []. split; [reflexivity|constructor]. }
  destruct H1 as (p1 & H1 & S1).
  destruct (if createIndex st then _ else _) as [[[]|msg] w1];
    cbn [snd] in H1; [|exists p1; split; assumption].
  destruct (silent_ext x
              (fun w => (tt, saveManifest pf (manifestPathOf bf)
                               (addHistoryEntry pf st (rs_manifest rs) ActImport
                                  sel (historyMessage (rs_summary rs))) w))
              w1 p1 w (silent_saveManifest pf _ _ x Hman) H1 S1)
    as (p2 & H2 & S2).
  cbn [snd] in H2.
  destruct (_ && _); [|exists p2; split; assumption].
  destruct (processWithGeminiPages_silent pf st bf (rs_queue rs)
              (addHistoryEntry pf st (rs_manifest rs) ActImport sel
                 (historyMessage (rs_summary rs))) x
              (saveManifest pf (manifestPathOf bf)
                 (addHistoryEntry pf st (rs_manifest rs) ActImport sel
                    (historyMessage (rs_summary rs))) w1) Hdoc Hidx Hman)
    as (p3 & H3 & S3).
  destruct (processWithGeminiPages _ _ _ _ _ _) as [[[[]|msg] m2] w3];
    cbn [snd run_world] in *; exists (p3 ++ p2);
    rewrite H3, H2, <- app_assoc; (split; [reflexivity|]);
    apply Forall_app; split; assumption.
Qed.

Lemma prologue_silent pf st book x :
  logsOnly (leavesFile x) (prologue pf st book).
Proof.
  unfold prologue. apply logsOnly_bind; [apply silent_ensureFolder|].
  intros _. apply silent_ensureFolder.
Qed.

(** A run in which page [n] is not selected never writes or deletes the
    image file of page [n]. *)
Lemma run_silent fuel pf st book sel existing w n r :
  imageApart pf st book n -> n ∉ sel ->
  importSelectedPagesWithProgress fuel pf st book sel existing w = Some r ->
  let x := imagePathOf pf st (bookFolderOf st (book_name book)) book n in
  exists post,
    calls (run_world r) = post ++ calls w /\ Forall (leavesFile x) post.
Proof.
  intros Hap Hn Hrun x.
  destruct (prologue_silent pf st book x w) as (p0 & H0 & S0).
  destruct (run_shape _ _ _ _ _ _ _ _ Hrun) as [(msg & Hp & ->)|(Hp & ->)].
  - cbn [run_world]. exists p0. split; assumption.
  - destruct (importPages_silent pf st book (bool_decide (is_Some existing)) n
                sel (startState pf book sel existing, (prologue pf st book w).2)
                Hap Hn) as (p1 & H1 & S1).
    cbn [snd] in H1. fold x in S1.
    destruct (importPages _ _ _ _ _ _) as [rs wb]. cbn [snd] in H1.
    destruct Hap as (Hdoc & Hidx & Hman & _).
    destruct (epilogue_silent pf st book sel rs wb x Hdoc Hidx Hman)
      as (p2 & H2 & S2).
    exists (p2 ++ p1 ++ p0). rewrite H2, H1, H0, <- !app_assoc.
    split; [reflexivity|].
    apply Forall_app. split; [exact S2|]. apply Forall_app. split; assumption.
Qed.

(** A run that finds page [n] with an entry that holds its fingerprint and
    the current background colour, and with its image file in the vault,
    keeps that file. *)
Lemma run_kept fuel pf st book sel m w n page info d r :
  findPage book n = Some page ->
  imageApart pf st book n ->
  importedPages m !! n = Some info ->
  imageHash info = img_hash (image page) ->
  backgroundColor info = Some (set_backgroundColor st) ->
  let x := imagePathOf pf st (bookFolderOf st (book_name book)) book n in
  vault w !! x = Some (TFile d) ->
  importSelectedPagesWithProgress fuel pf st book sel (Some m) w = Some r ->
  keptSince x (TFile d) w (run_world r).
Proof.
  intros Hf Hap Hinfo Hh Hb x Hv Hrun.
  pose proof (prologue_kept pf st book x (TFile d) w w (keptSince_refl _ _ _ Hv))
    as H0.
  destruct (run_shape _ _ _ _ _ _ _ _ Hrun) as [(msg & Hp & ->)|(Hp & ->)].
  - exact H0.
  - assert (Hhm : bool_decide (is_Some (Some m)) = true)
      by (apply bool_decide_eq_true; eauto).
    rewrite Hhm.
    pose proof (importPages_kept pf st book n page sel (TFile d) w
                  (startState pf book sel (Some m), (prologue pf st book w).2)
                  Hf Hap eq_refl) as H1.
    cbn zeta in H1. fold x in H1.
    assert (H1' : keptSince x (TFile d) w
                    (importPages pf st book true sel
                       (startState pf book sel (Some m),
                        (prologue pf st book w).2)).2).
    { apply H1; [|exact H0]. exists info. cbn. auto. }
    destruct (importPages _ _ _ _ _ _) as [rs wb]. cbn [snd] in H1'.
    destruct Hap as (Hdoc & Hidx & Hman & _).
    apply epilogue_kept; assumption.
Qed.

(** C6, as the code has it. Take a run with a positive batch size and a
    page [n] of the book whose image file has a path of its own.  If the
    manifest the run is given holds, for page [n], the fingerprint of the
    decoded page and the current background colour, and the image file of
    the page exists, then the run leaves that file as it is: the vault
    holds the same file afterwards and no call the run makes writes or
    deletes it.  Conversely, the run writes or deletes the image file of
    page [n] only if the page is selected and is new (no manifest, or no
    entry for it), or modified (the entry holds another fingerprint), or
    its stored background colour is not the current one, or no image file
    existed when the run started. *)
Theorem image_untouched_unless_needed fuel pf st book sel existing w n page :
  (0 < batchSize st)%N ->
  (length sel <= fuel)%nat ->
  findPage book n = Some page ->
  imageApart pf st book n ->
  let x := imagePathOf pf st (bookFolderOf st (book_name book)) book n in
  let entry := existing ≫= (fun m : ImportManifest => importedPages m !! n) in
  exists r post,
    importSelectedPagesWithProgress fuel pf st book sel existing w = Some r
    /\ calls (run_world r) = post ++ calls w
    /\ (forall info d,
          entry = Some info ->
          imageHash info = img_hash (image page) ->
          backgroundColor info = Some (set_backgroundColor st) ->
          vault w !! x = Some (TFile d) ->
          vault (run_world r) !! x = Some (TFile d)
          /\ Forall (fun e => writesAt x e = false) post)
    /\ (Exists (fun e => writesAt x e = true) post ->
          n ∈ sel
          /\ (entry = None
              \/ (exists info,
                    entry = Some info
                    /\ imageHash info <> img_hash (image page))
              \/ (exists info,
                    entry = Some info
                    /\ backgroundColor info <> Some (set_backgroundColor st))
              \/ isTFile (vault w !! x) = false)).
Proof.
  intros Hb Hfuel Hf Hap x entry.
  destruct (run_returns fuel pf st book sel existing w Hb Hfuel) as [r Hrun].
  destruct (saves_of_run _ _ _ _ _ _ _ _ Hrun) as (pre & post & Hlog & _).
  exists r, (post ++ pre). split; [exact Hrun|].
  split; [rewrite Hlog, app_assoc; reflexivity|].
  assert (Hkept : forall info d,
            entry = Some info ->
            imageHash info = img_hash (image page) ->
            backgroundColor info = Some (set_backgroundColor st) ->
            vault w !! x = Some (TFile d) ->
            vault (run_world r) !! x = Some (TFile d)
            /\ Forall (fun e => writesAt x e = false) (post ++ pre)).
  { intros info d Hentry Hh Hbg Hv. subst entry.
    destruct existing as [m|]; [|discriminate]. cbn in Hentry.
    destruct (run_kept fuel pf st book sel m w n page info d r Hf Hap Hentry
                Hh Hbg Hv Hrun) as [Hv' (p & Hp & Hs)].
    split; [exact Hv'|].
    rewrite Hlog, app_assoc in Hp. apply app_inv_tail in Hp. rewrite Hp.
    exact Hs. }
  split; [exact Hkept|].
  intros Hex.
  assert (Hclash : Forall (fun e => writesAt x e = false) (post ++ pre) -> False).
  { intros Hall. apply Exists_exists in Hex as (e & Hin & He).
    rewrite Forall_forall in Hall. rewrite (Hall e Hin) in He. discriminate. }
  split.
  - destruct (decide (n ∈ sel)) as [Hin|Hnot]; [exact Hin|]. exfalso.
    destruct (run_silent fuel pf st book sel existing w n r Hap Hnot Hrun)
      as (p & Hp & Hs).
    rewrite Hlog, app_assoc in Hp. apply app_inv_tail in Hp.
    apply Hclash. rewrite Hp. exact Hs.
  - destruct entry as [info|] eqn:Hentry; [|left; reflexivity].
    right.
    destruct (decide (imageHash info = img_hash (image page))) as [Hh|Hh];
      [|left; eauto].
    right.
    destruct (decide (backgroundColor info = Some (set_backgroundColor st)))
      as [Hbg|Hbg]; [|left; eauto].
    right.
    destruct (vault w !! x) as [[d|]|] eqn:Hv; [|reflexivity..].
    exfalso. apply Hclash.
    exact (proj2 (Hkept info d eq_refl Hh Hbg eq_refl)).
Qed.

(** In the book of the examples the image file of page 1 has a path of its
    own. *)
Lemma twoPageBook_imageApart :
  imageApart Ex.noDigest Ex.settings Ex.twoPageBook 1.
Proof.
  unfold imageApart. cbn zeta.
  split; [|split; [|split]].
  - intros k H. unfold pagePathOf, imagePathOf in H. cbn [normalizePath] in H.
    unfold Ex.noDigest, id in H. cbn [normalizePath] in H.
    apply String.app_inj in H. apply String.app_inj in H.
    unfold pageFileNameOf in H. discriminate H.
  - vm_compute. discriminate.
  - vm_compute. discriminate.
  - intros page Hin.
    apply elem_of_cons in Hin as [->|Hin];
      [|apply list_elem_of_singleton in Hin; subst page].
    + split; [intros H; exfalso; apply H; reflexivity|].
      split; [vm_compute; discriminate|]. intros a Ha. discriminate Ha.
    + split; [intros _; vm_compute; discriminate|].
      split; [vm_compute; discriminate|]. intros a Ha. discriminate Ha.
Qed.

Lemma image_untouched_unless_needed_witness :
  let x := "Viwoods Notes/Book/Images/Book_page_001.png" in
  exists r post,
    importSelectedPagesWithProgress 2 Ex.noDigest Ex.settings Ex.twoPageBook
      [1%N; 2%N] (Some Ex.threePageManifest) Ex.imageWorld = Some r
    /\ calls (run_world r) = post ++ calls Ex.imageWorld
    /\ vault (run_world r) !! x = Some (TFile (Binary []))
    /\ Forall (fun e => writesAt x e = false) post.
Proof.
  cbn zeta.
  assert (Hb : (0 < batchSize Ex.settings)%N) by reflexivity.
  assert (Hfuel : (length [1%N; 2%N] <= 2)%nat) by (cbn; lia).
  assert (Hf : findPage Ex.twoPageBook 1
               = Some (Ex.plainPage Ex.noDigest 1 (Ex.blobOf 10)))
    by reflexivity.
  destruct (image_untouched_unless_needed 2 Ex.noDigest Ex.settings
              Ex.twoPageBook [1%N; 2%N] (Some Ex.threePageManifest)
              Ex.imageWorld 1 _ Hb Hfuel Hf twoPageBook_imageApart)
    as (r & post & Hrun & Hlog & Hkept & _).
  exists r, post. split; [exact Hrun|]. split; [exact Hlog|].
  apply (Hkept (Ex.entryOf Ex.noDigest Ex.settings 1 (Ex.blobOf 10)) (Binary []));
    vm_compute; reflexivity.
Defined.

(** ** One page fails *)

(** C2, as the code has it. Take a run with a positive batch size, over a
    selection without repetition, that gets past its two opening
    [ensureFolder] calls, and let the body of the task of one selected page
    throw.  The run ends, and it returns its summary when no write of the
    index document is rejected (those writes are outside the [try] of the
    page tasks).  The errors of a summary it returns hold the page number
    with the message of the exception.  The entry of the page is as it was
    in the manifest the run saves after the batches; in the manifest the
    run leaves it is as it was too, unless the image of the page had been
    queued for Gemini before the exception: then Gemini post-processing may
    have set its [geminiProcessed] flag, and nothing else.  Every other
    selected page of the book whose own task does not throw, in the same
    batch or in a later one, has the entry of this import in both
    manifests: the name of its page document, the time of the import, the
    fingerprint and the size of the decoded image, whether it has audio,
    and the current background colour; [geminiProcessed] is what it was
    (false for a new page) and may be set by Gemini post-processing. *)
Theorem partial_failure_isolated fuel pf st book sel existing w l1 p l2 page msg :
  (0 < batchSize st)%N ->
  (length sel <= fuel)%nat ->
  (prologue pf st book w).1 = Returned tt ->
  NoDup sel ->
  sel = l1 ++ p :: l2 ->
  findPage book p = Some page ->
  let hm := bool_decide (is_Some existing) in
  let m0 := initialManifest pf book existing in
  let start := (startState pf book sel existing, (prologue pf st book w).2) in
  let queue := rs_queue (importPages pf st book hm sel start).1 in
  bodyOutcomeAfter pf st book hm start l1 page = Threw msg ->
  exists r,
    importSelectedPagesWithProgress fuel pf st book sel existing w = Some r
    /\ (indexWritable pf st book -> exists s, run_outcome r = Returned s)
    /\ (forall s, run_outcome r = Returned s ->
          (p, msg) ∈ errors s /\ is_Some (run_saved r))
    /\ (forall ms, run_saved r = Some ms ->
          importedPages ms !! p = importedPages m0 !! p)
    /\ (importedPages (run_manifest r) !! p = importedPages m0 !! p
        \/ (processWithGemini st = true /\ p ∈ queue.*2
            /\ importedPages (run_manifest r) !! p
               = markGemini <$> importedPages m0 !! p))
    /\ (forall k1 q k2 pageq,
          sel = k1 ++ q :: k2 -> q <> p -> findPage book q = Some pageq ->
          bodyOutcomeAfter pf st book hm start k1 pageq = Returned tt ->
          let was :=
            default false (geminiProcessed <$> importedPages m0 !! q) in
          (forall ms, run_saved r = Some ms ->
             exists e,
               importedPages ms !! q = Some e
               /\ fileName e = pageFileNameOf q
               /\ importDate e = now pf
               /\ imageHash e = img_hash (image pageq)
               /\ hasAudio e = Some (bool_decide (is_Some (audio pageq)))
               /\ lastModified e = Some (now pf)
               /\ size e = Some (blob_size (img_blob (image pageq)))
               /\ backgroundColor e = Some (set_backgroundColor st)
               /\ geminiProcessed e = was)
          /\ exists e,
               importedPages (run_manifest r) !! q = Some e
               /\ fileName e = pageFileNameOf q
               /\ importDate e = now pf
               /\ imageHash e = img_hash (image pageq)
               /\ hasAudio e = Some (bool_decide (is_Some (audio pageq)))
               /\ lastModified e = Some (now pf)
               /\ size e = Some (blob_size (img_blob (image pageq)))
               /\ backgroundColor e = Some (set_backgroundColor st)
               /\ (geminiProcessed e = was \/ geminiProcessed e = true)).
Proof.
  intros Hb Hfuel Hpro Hnd Hsel Hf hm m0 start queue Hthrow.
  rewrite (run_total fuel pf st book sel existing w Hb Hfuel Hpro).
  fold hm. fold start.
  pose proof (importPages_entry pf st book hm sel l1 p l2 page start Hnd Hsel Hf)
    as Hp.
  cbn zeta in Hp. rewrite Hthrow in Hp. destruct Hp as [Hpm Hpe].
  assert (Hothers : forall k1 q k2 pageq,
    sel = k1 ++ q :: k2 -> findPage book q = Some pageq ->
    bodyOutcomeAfter pf st book hm start k1 pageq = Returned tt ->
    importedPages (rs_manifest (importPages pf st book hm sel start).1) !! q
    = Some (importedEntry pf st m0 pageq)).
  { intros k1 q k2 pageq Hs Hfq Hok.
    pose proof (importPages_entry pf st book hm sel k1 q k2 pageq start Hnd Hs Hfq)
      as Hq.
    cbn zeta in Hq. rewrite Hok in Hq. rewrite Hq. reflexivity. }
  subst queue.
  destruct (importPages pf st book hm sel start) as [rs wb] eqn:Efinal.
  cbn [fst snd] in *.
  destruct (epilogue_spec pf st book sel rs wb) as ([G0 G] & Hnog & Hret & Hms & _).
  cbn zeta in *.
  destruct (addHistoryEntry_frame pf st (rs_manifest rs) ActImport sel
              (historyMessage (rs_summary rs))) as [Hip _].
  set (m1 := addHistoryEntry pf st (rs_manifest rs) ActImport sel
               (historyMessage (rs_summary rs))) in *.
  exists (epilogue pf st book sel (rs, wb)). split; [reflexivity|].
  split; [|split; [|split; [|split]]].
  - intros Hidx. exists (rs_summary rs). apply epilogue_ok. exact Hidx.
  - intros s Hs. destruct (Hret s Hs) as [-> Hsaved].
    split; [exact Hpe|]. rewrite Hsaved. eauto.
  - intros ms Hsaved. rewrite (Hms ms Hsaved), Hip. exact Hpm.
  - destruct (processWithGemini st) eqn:Hg.
    + destruct (G p) as [Hsame|[Hin Hmark]].
      * left. rewrite Hsame, Hip. exact Hpm.
      * right. split; [reflexivity|]. split; [exact Hin|].
        rewrite Hmark, Hip, Hpm. reflexivity.
    + left. rewrite Hnog by (unfold geminiCalled; rewrite Hg; reflexivity).
      rewrite Hip. exact Hpm.
  - intros k1 q k2 pageq Hs Hqp Hfq Hok.
    pose proof (Hothers k1 q k2 pageq Hs Hfq Hok) as Hentry.
    pose proof (findPage_pageNum _ _ _ Hfq) as Hpn.
    assert (Hflag : geminiProcessed (importedEntry pf st m0 pageq)
                    = default false (geminiProcessed <$> importedPages m0 !! q)).
    { unfold importedEntry. cbn [geminiProcessed]. rewrite Hpn. reflexivity. }
    assert (Hname : fileName (importedEntry pf st m0 pageq) = pageFileNameOf q).
    { unfold importedEntry. cbn [fileName]. rewrite Hpn. reflexivity. }
    split.
    + intros ms Hsaved. exists (importedEntry pf st m0 pageq).
      rewrite (Hms ms Hsaved), Hip.
      split; [exact Hentry|]. split; [exact Hname|].
      repeat (split; [reflexivity|]). exact Hflag.
    + destruct (G q) as [Hsame|[_ Hmark]].
      * exists (importedEntry pf st m0 pageq). rewrite Hsame, Hip.
        split; [exact Hentry|]. split; [exact Hname|].
        repeat (split; [reflexivity|]). left. exact Hflag.
      * exists (markGemini (importedEntry pf st m0 pageq)).
        rewrite Hmark, Hip, Hentry.
        split; [reflexivity|]. split; [exact Hname|].
        repeat (split; [reflexivity|]). right. reflexivity.
Qed.

Lemma partial_failure_isolated_witness :
  exists r,
    importSelectedPagesWithProgress 3 Ex.page2Fails Ex.batchSettings
      Ex.threePageBook [1%N; 2%N; 3%N] None Ex.emptyWorld = Some r
    /\ (exists s, run_outcome r = Returned s /\ (2%N, "disk full") ∈ errors s)
    /\ importedPages (run_manifest r) !! 2%N = None
    /\ exists e,
         importedPages (run_manifest r) !! 3%N = Some e
         /\ imageHash e = "fallback-30000000000000000000000"
         /\ backgroundColor e = Some "#FFFFFF".
Proof.
  assert (Hb : (0 < batchSize Ex.batchSettings)%N) by reflexivity.
  assert (Hfuel : (length [1%N; 2%N; 3%N] <= 3)%nat) by (cbn; lia).
  assert (Hpro : (prologue Ex.page2Fails Ex.batchSettings Ex.threePageBook
                    Ex.emptyWorld).1 = Returned tt) by (vm_compute; reflexivity).
  assert (Hidx : indexWritable Ex.page2Fails Ex.batchSettings Ex.threePageBook).
  { intros t content. split; reflexivity. }
  assert (Hnd : NoDup [1%N; 2%N; 3%N]).
  { apply (bool_decide_unpack _). vm_compute. exact I. }
  assert (Hf : findPage Ex.threePageBook 2
               = Some (Ex.plainPage Ex.noDigest 2 (Ex.blobOf 20)))
    by reflexivity.
  assert (Hthrow :
    bodyOutcomeAfter Ex.page2Fails Ex.batchSettings Ex.threePageBook
      (bool_decide (is_Some (@None ImportManifest)))
      (startState Ex.page2Fails Ex.threePageBook [1%N; 2%N; 3%N] None,
       (prologue Ex.page2Fails Ex.batchSettings Ex.threePageBook Ex.emptyWorld).2)
      [1%N] (Ex.plainPage Ex.noDigest 2 (Ex.blobOf 20)) = Threw "disk full")
    by (vm_compute; reflexivity).
  destruct (partial_failure_isolated 3 Ex.page2Fails Ex.batchSettings
              Ex.threePageBook [1%N; 2%N; 3%N] None Ex.emptyWorld
              [1%N] 2%N [3%N] _ "disk full"
              Hb Hfuel Hpro Hnd eq_refl Hf Hthrow)
    as (r & Hrun & Hout & Herr & _ & Hentry & Hothers).
  exists r. split; [exact Hrun|].
  destruct (Hout Hidx) as [s Hs].
  split; [exists s; split; [exact Hs|exact (proj1 (Herr s Hs))]|].
  split.
  { destruct Hentry as [He|(Hg & _)]; [exact He|discriminate Hg]. }
  destruct (Hothers [1%N; 2%N] 3%N [] (Ex.plainPage Ex.noDigest 3 (Ex.blobOf 30)))
    as [_ (e & He & _ & _ & Hh & _ & _ & _ & Hbg & _)].
  - reflexivity.
  - discriminate.
  - reflexivity.
  - vm_compute. reflexivity.
  - exists e. split; [exact He|]. split; [exact Hh|exact Hbg].
Defined.

(** C2, as stated, fails: the task of page 1 throws after its image was
    queued for Gemini (the SVG cannot be created).  The run returns its
    summary with the error, and the manifest it saves after the batches
    holds the entry of page 1 as it was; but Gemini post-processing then
    sets the [geminiProcessed] flag of that entry and saves the manifest a
    second time: the entry of the failed page has not been left
    unchanged. *)
Lemma failed_page_flagged_by_gemini :
  geminiProcessed Ex.staleEntry = false
  /\ (fun r =>
        (run_outcome r,
         (fun ms => importedPages ms !! 1%N) <$> run_saved r,
         geminiProcessed <$> importedPages (run_manifest r) !! 1%N,
         imageHash <$> importedPages (run_manifest r) !! 1%N,
         saveCount (calls (run_world r))))
       <$> importSelectedPagesWithProgress 1 Ex.svgFails Ex.bothSettings
             Ex.strokeBook [1%N] (Some Ex.staleManifest) Ex.pageWorld
     = Some (Returned (mkImportSummary 1 [] [1%N] [] [] [(1%N, "disk full")]),
             Some (Some Ex.staleEntry), Some true,
             Some "00000000000000000000000000000000", 2%nat).
Proof. split; [reflexivity|]. vm_compute. reflexivity. Qed.
